(** * Structural extractors of the PDF content extractor

    A shallow embedding of [toc_extractor.py] and [component_extractor.py]:
    the table-of-contents / index extractor and the component / category
    extractor, with the line patterns they are built on, and of the two
    places of [pdf_interaction.py] that build on them: the detection of the
    kind of document and the names of the component folders.  Two helpers
    stand beside them: the test of [app.py] on the name of an uploaded file,
    and the keyword extraction of [pdf_analyzer.py], in which the calls into
    [nltk] are parameters.

    Conventions of the embedding.
    - Text is a [string] whose characters are the code points 0..255.
      The character tests below ([isspace], [isdigit], [lower]) are the ones
      Python applies to those code points.
    - A compiled pattern is a value of [regex]; [re_match], [re_search] and
      [re_sub] follow the backtracking order of Python's [re] module
      (leftmost alternative first, greedy or lazy repetition as written).
    - A call that can raise returns an [outcome]; instance attributes are an
      explicit record threaded through the calls.
    - An object that is shared and mutated (a TOC entry, a component) lives
      in a store and is referred to by its position in that store.
    - [int] is modelled without the interpreter's configurable cap on the
      number of digits of a literal ([sys.int_max_str_digits], 4300 by
      default): it reads a run of digits of any length.  A statement that
      depends on a number being read is restricted to numbers within the
      default cap, or says in its text that it is not.
    - Memory is a parameter where the text of the input decides how much
      of it a call asks for: [room] is the number of items by which a list
      can still grow.  [list.extend] on a range fails when the range is
      longer than [room] or longer than [PY_SSIZE_T_MAX] (a 64-bit build),
      and leaves the list as it was; [room] is the same at every call of
      one extraction.  Every other call is taken to find the memory it
      needs. *)

From Stdlib Require Import String Ascii List Bool Arith ZArith Lia.
From Stdlib Require Import DecimalString FunctionalExtensionality Sorted.
From Stdlib Require Import Permutation.
Import ListNotations.
Open Scope string_scope.
Open Scope nat_scope.

(* ================================================================== *)
(** ** Outcomes of calls that may raise *)

Inductive exn : Type := ValueError | AttributeError | KeyError.

Inductive outcome (A : Type) : Type :=
| Ok (a : A)
| Raise (e : exn).
Arguments Ok {A} a.
Arguments Raise {A} e.

Definition bind {A B} (m : outcome A) (f : A -> outcome B) : outcome B :=
  match m with
  | Ok a => f a
  | Raise e => Raise e
  end.

Notation "x <- m ;; k" := (bind m (fun x => k))
  (at level 61, m at next level, right associativity).

Definition returns {A} (m : outcome A) : Prop := exists a, m = Ok a.

(* ================================================================== *)
(** ** Python string primitives *)

Module Py.

Definition code (c : ascii) : nat := nat_of_ascii c.

(** [str.isspace] on one character, which is also the class [\s] of [re]. *)
Definition isspace (c : ascii) : bool :=
  let n := code c in
  ((9 <=? n) && (n <=? 13)) || ((28 <=? n) && (n <=? 32))
  || (n =? 133) || (n =? 160).

(** The class [\d]. *)
Definition isdigit (c : ascii) : bool :=
  let n := code c in (48 <=? n) && (n <=? 57).

Definition isupper_az (c : ascii) : bool :=
  let n := code c in (65 <=? n) && (n <=? 90).

Definition islower_az (c : ascii) : bool :=
  let n := code c in (97 <=? n) && (n <=? 122).

Fixpoint lstrip (s : string) : string :=
  match s with
  | String c s' => if isspace c then lstrip s' else s
  | EmptyString => EmptyString
  end.

Fixpoint rstrip (s : string) : string :=
  match s with
  | EmptyString => EmptyString
  | String c s' =>
      match rstrip s' with
      | EmptyString => if isspace c then EmptyString else String c EmptyString
      | r => String c r
      end
  end.

Definition strip (s : string) : string := rstrip (lstrip s).

(** [s.split(sep)] for a one-character separator. *)
Fixpoint split_on (sep : ascii) (s : string) : list string :=
  match s with
  | EmptyString => [EmptyString]
  | String c s' =>
      let r := split_on sep s' in
      if Ascii.eqb c sep then EmptyString :: r
      else match r with
           | h :: t => String c h :: t
           | [] => [String c EmptyString]
           end
  end.

(** [s.split()]: split on runs of whitespace, no empty pieces. *)
Fixpoint split_ws (s : string) : list string :=
  match s with
  | EmptyString => []
  | String c s' =>
      if isspace c then split_ws s'
      else match s' with
           | EmptyString => [String c EmptyString]
           | String c' _ =>
               if isspace c' then String c EmptyString :: split_ws s'
               else match split_ws s' with
                    | h :: t => String c h :: t
                    | [] => [String c EmptyString]
                    end
           end
  end.

Definition startswith (s p : string) : bool := String.prefix p s.

(** [sub in s]. *)
Fixpoint contains (sub s : string) : bool :=
  match s with
  | EmptyString => String.prefix sub EmptyString
  | String _ s' => String.prefix sub s || contains sub s'
  end.

Definition lower_char (c : ascii) : ascii :=
  let n := code c in
  if isupper_az c then ascii_of_nat (n + 32)
  else if (192 <=? n) && (n <=? 222) && negb (n =? 215)
       then ascii_of_nat (n + 32)
       else c.

Fixpoint lower (s : string) : string :=
  match s with
  | EmptyString => EmptyString
  | String c s' => String (lower_char c) (lower s')
  end.

Fixpoint count_char (x : ascii) (s : string) : nat :=
  match s with
  | EmptyString => 0
  | String c s' => (if Ascii.eqb c x then 1 else 0) + count_char x s'
  end.

Fixpoint join (sep : string) (l : list string) : string :=
  match l with
  | [] => EmptyString
  | [x] => x
  | x :: t => x ++ sep ++ join sep t
  end.

(** Truth value of a string: non-empty. *)
Definition truthy (s : string) : bool :=
  match s with EmptyString => false | _ => true end.

Definition str_of_Z (z : Z) : string := NilZero.string_of_int (Z.to_int z).

(** *** [int(s)]

    Surrounding whitespace is dropped (the set [int] drops differs from
    [isspace]: 28..31 are not dropped), then an optional sign, then decimal
    digits in which single underscores may separate digits.  The digits are
    not counted: the [ValueError] that the interpreter raises, with its
    default settings, on a literal of more than 4300 digits is not
    modelled. *)

Definition int_space (c : ascii) : bool :=
  let n := code c in
  ((9 <=? n) && (n <=? 13)) || (n =? 32) || (n =? 133) || (n =? 160).

Fixpoint int_lstrip (s : string) : string :=
  match s with
  | String c s' => if int_space c then int_lstrip s' else s
  | EmptyString => EmptyString
  end.

Fixpoint int_rstrip (s : string) : string :=
  match s with
  | EmptyString => EmptyString
  | String c s' =>
      match int_rstrip s' with
      | EmptyString => if int_space c then EmptyString else String c EmptyString
      | r => String c r
      end
  end.

Definition digit_val (c : ascii) : Z := Z.of_nat (code c - 48).

(** [sep] records that the previous character may not be followed by an
    underscore or by the end of the literal. *)
Fixpoint digits_val (acc : Z) (sep : bool) (s : string) : option Z :=
  match s with
  | EmptyString => if sep then None else Some acc
  | String c s' =>
      if isdigit c then digits_val (10 * acc + digit_val c)%Z false s'
      else if Ascii.eqb c "_"
           then (if sep then None else digits_val acc true s')
           else None
  end.

Definition int (s : string) : option Z :=
  match int_rstrip (int_lstrip s) with
  | String "+" d => digits_val 0 true d
  | String "-" d => option_map Z.opp (digits_val 0 true d)
  | d => digits_val 0 true d
  end.

End Py.

(* ================================================================== *)
(** ** Patterns and the backtracking matcher *)

Module Re.

(** Character classes. *)
Inductive cset : Type :=
| Digit                        (* \d *)
| Space                        (* \s *)
| NonSpace                     (* \S *)
| AnyChar                      (* .  : anything but a newline *)
| OneOf (s : string)           (* [abc] *)
| NoneOf (s : string)          (* [^abc] *)
| Range (lo hi : ascii)        (* [a-z] *)
| CaseOf (c : ascii)           (* a literal letter under IGNORECASE *)
| Union (a b : cset).

Fixpoint mem (c : ascii) (s : string) : bool :=
  match s with
  | EmptyString => false
  | String x s' => Ascii.eqb c x || mem c s'
  end.

Fixpoint in_cset (cl : cset) (c : ascii) : bool :=
  match cl with
  | Digit => Py.isdigit c
  | Space => Py.isspace c
  | NonSpace => negb (Py.isspace c)
  | AnyChar => negb (Ascii.eqb c "010")
  | OneOf s => mem c s
  | NoneOf s => negb (mem c s)
  | Range lo hi => (Py.code lo <=? Py.code c) && (Py.code c <=? Py.code hi)
  | CaseOf x => Ascii.eqb (Py.lower_char c) (Py.lower_char x)
  | Union a b => in_cset a c || in_cset b c
  end.

Inductive regex : Type :=
| Eps
| Chr (cl : cset)
| Seq (a b : regex)
| Alt (a b : regex)                      (* a|b *)
| Opt (a : regex)                        (* a?  (greedy) *)
| Rep (greedy : bool) (min : nat) (a : regex)   (* a{min,}, a{min,}? *)
| Grp (name : string) (a : regex)        (* (?P<name>a); (a) is named by its number *)
| Bol                                    (* ^ *)
| Eol.                                   (* $ *)

Definition caps : Type := list (string * string).

Fixpoint get_cap (n : string) (cs : caps) : option string :=
  match cs with
  | [] => None
  | (k, v) :: t => if String.eqb k n then Some v else get_cap n t
  end.

Fixpoint set_cap (n v : string) (cs : caps) : caps :=
  match cs with
  | [] => [(n, v)]
  | (k, w) :: t => if String.eqb k n then (k, v) :: t else (k, w) :: set_cap n v t
  end.

Section Loop.
Context {A : Type}.
(** One iteration of the repeated pattern, in continuation style. *)
Variable body : nat -> string -> caps ->
                (nat -> string -> caps -> option A) -> option A.
Variable greedy : bool.
Variable min : nat.
Variable k : nat -> string -> caps -> option A.

(** An iteration that consumes nothing is not repeated, so [fuel] above the
    length of the remaining text is never exhausted ([rep_loop_fuel]). *)
Fixpoint rep_loop (fuel cnt pos : nat) (s : string) (cs : caps) : option A :=
  match fuel with
  | O => None
  | S f =>
      if greedy then
        match body pos s cs
                (fun p' s' cs' =>
                   if String.length s' <? String.length s
                   then rep_loop f (S cnt) p' s' cs' else None) with
        | Some x => Some x
        | None => if min <=? cnt then k pos s cs else None
        end
      else
        match (if min <=? cnt then k pos s cs else None) with
        | Some x => Some x
        | None =>
            body pos s cs
              (fun p' s' cs' =>
                 if String.length s' <? String.length s
                 then rep_loop f (S cnt) p' s' cs' else None)
        end
  end.
End Loop.

(** [rmatch r pos s cs k]: match [r] at offset [pos], where [s] is the text
    from [pos] on, then continue with [k]; alternatives are tried in the
    order a backtracking matcher tries them. *)
Fixpoint rmatch {A : Type} (r : regex) (pos : nat) (s : string) (cs : caps)
         (k : nat -> string -> caps -> option A) {struct r} : option A :=
  match r with
  | Eps => k pos s cs
  | Chr cl =>
      match s with
      | String c s' => if in_cset cl c then k (S pos) s' cs else None
      | EmptyString => None
      end
  | Seq a b => rmatch a pos s cs (fun p' s' cs' => rmatch b p' s' cs' k)
  | Alt a b =>
      match rmatch a pos s cs k with
      | Some x => Some x
      | None => rmatch b pos s cs k
      end
  | Opt a =>
      match rmatch a pos s cs k with
      | Some x => Some x
      | None => k pos s cs
      end
  | Rep g mn a =>
      rep_loop (rmatch a) g mn k (S (String.length s)) 0 pos s cs
  | Grp n a =>
      rmatch a pos s cs
        (fun p' s' cs' => k p' s' (set_cap n (String.substring 0 (p' - pos) s) cs'))
  | Bol => if pos =? 0 then k pos s cs else None
  | Eol =>
      match s with
      | EmptyString => k pos s cs
      | String "010" EmptyString => k pos s cs
      | _ => None
      end
  end.

(** A match object: its span and the groups that took part. *)
Record rmatch_obj : Type := MatchObj {
  m_start : nat;
  m_end : nat;
  m_caps : caps
}.

Definition match_at (r : regex) (pos : nat) (s : string) : option rmatch_obj :=
  rmatch r pos s [] (fun p' _ cs => Some (MatchObj pos p' cs)).

(** [re.match(r, s)] / [pattern.match(s)]: a match starting at offset 0. *)
Definition re_match (r : regex) (s : string) : option rmatch_obj :=
  match_at r 0 s.

Fixpoint search_from (r : regex) (pos : nat) (s : string) : option rmatch_obj :=
  match match_at r pos s with
  | Some m => Some m
  | None =>
      match s with
      | EmptyString => None
      | String _ s' => search_from r (S pos) s'
      end
  end.

(** [re.search(r, s)]: the leftmost match. *)
Definition re_search (r : regex) (s : string) : option rmatch_obj :=
  search_from r 0 s.

(** [re.sub(r, repl, s)] for a pattern that matches no empty string (every
    pattern substituted in the source is such): replace the non-overlapping
    matches from left to right. [fuel] counts the characters left. *)
Fixpoint sub_from (r : regex) (repl : string) (fuel pos : nat) (s : string)
  : string :=
  match fuel with
  | O => s
  | S f =>
      match s with
      | EmptyString => EmptyString
      | String c s' =>
          match match_at r pos s with
          | Some m =>
              let n := m_end m - pos in
              if n =? 0 then String c (sub_from r repl f (S pos) s')
              else repl ++ sub_from r repl (f - (n - 1)) (pos + n)
                                    (String.substring n (String.length s - n) s)
          | None => String c (sub_from r repl f (S pos) s')
          end
      end
  end.

Definition re_sub (r : regex) (repl s : string) : string :=
  sub_from r repl (String.length s) 0 s.

(** [match.groupdict()[n]], with [None] for a group that took no part. *)
Definition group (m : rmatch_obj) (n : string) : option string :=
  get_cap n (m_caps m).

(** Pattern building blocks. *)
Fixpoint lit (s : string) : regex :=
  match s with
  | EmptyString => Eps
  | String c EmptyString => Chr (OneOf (String c EmptyString))
  | String c s' => Seq (Chr (OneOf (String c EmptyString))) (lit s')
  end.

Fixpoint lit_i (s : string) : regex :=
  match s with
  | EmptyString => Eps
  | String c EmptyString => Chr (CaseOf c)
  | String c s' => Seq (Chr (CaseOf c)) (lit_i s')
  end.

Fixpoint seqs (l : list regex) : regex :=
  match l with
  | [] => Eps
  | [r] => r
  | r :: t => Seq r (seqs t)
  end.

Definition star (a : regex) : regex := Rep true 0 a.        (* a*  *)
Definition plus (a : regex) : regex := Rep true 1 a.        (* a+  *)
Definition lazy_star (a : regex) : regex := Rep false 0 a.  (* a*? *)
Definition at_least (n : nat) (a : regex) : regex := Rep true n a.  (* a{n,} *)

(** The names of the groups of a pattern: the keys of [groupdict()]. *)
Fixpoint group_names (r : regex) : list string :=
  match r with
  | Seq a b | Alt a b => group_names a ++ group_names b
  | Opt a | Rep _ _ a => group_names a
  | Grp n a => n :: group_names a
  | _ => []
  end.

Definition has_group (r : regex) (n : string) : bool :=
  existsb (String.eqb n) (group_names r).

End Re.

(* ================================================================== *)
(** ** Insertion-ordered dictionaries *)

Module Dict.
Section WithKey.
Context {K V : Type}.
Variable eqb : K -> K -> bool.

Definition t : Type := list (K * V).

Fixpoint get (k : K) (d : t) : option V :=
  match d with
  | [] => None
  | (k', v) :: rest => if eqb k' k then Some v else get k rest
  end.

(** [d[k] = v]: a key already present keeps its place. *)
Fixpoint set (k : K) (v : V) (d : t) : t :=
  match d with
  | [] => [(k, v)]
  | (k', v') :: rest =>
      if eqb k' k then (k', v) :: rest else (k', v') :: set k v rest
  end.

Definition values (d : t) : list V := map snd d.
End WithKey.
End Dict.

(** [l[i] = f(l[i])] on a store; an index out of range leaves it as it is
    (the extractors only update positions they have just read). *)
Fixpoint update_nth {A} (i : nat) (f : A -> A) (l : list A) : list A :=
  match l, i with
  | [], _ => []
  | x :: t, O => f x :: t
  | x :: t, S i' => x :: update_nth i' f t
  end.

(** [groups.get(name, '')] followed by [.strip()]: a group of the pattern
    that took no part is [None], on which [.strip()] raises. *)
Definition get_strip (r : Re.regex) (m : Re.rmatch_obj) (name : string)
  : outcome string :=
  if Re.has_group r name then
    match Re.group m name with
    | Some v => Ok (Py.strip v)
    | None => Raise AttributeError
    end
  else Ok (Py.strip EmptyString).

(** ['name' in groups and groups['name']]: the group's text when it took
    part and is not empty. *)
Definition group_if_set (r : Re.regex) (m : Re.rmatch_obj) (name : string)
  : option string :=
  if Re.has_group r name then
    match Re.group m name with
    | Some v => if Py.truthy v then Some v else None
    | None => None
    end
  else None.

(* ================================================================== *)
(** ** toc_extractor.py *)

Module Toc.
Import Re.

(** [TOCEntry]; [children] holds references into the store of entries. *)
Record TOCEntry : Type := mkEntry {
  level : nat;
  title : string;
  page_num : option Z;
  raw_text : string;
  children : list nat
}.

(** [TOCEntry.__init__] *)
Definition new_TOCEntry (lv : nat) (t : string) (p : option Z) (raw : string)
  : TOCEntry :=
  mkEntry lv (Py.strip t) p raw [].

Inductive page_ref : Type :=
| PInt (n : Z)
| PStr (s : string).

Record IndexEntry : Type := mkIndexEntry {
  term : string;
  page_refs : list page_ref;
  subentries : list (string * list page_ref)
}.

(** [IndexEntry.__init__] with [subentries] left to its default. *)
Definition new_IndexEntry (t : string) (refs : list page_ref) : IndexEntry :=
  mkIndexEntry (Py.strip t) refs [].

(** The attributes of a [TOCExtractor]; [store] holds the entry objects that
    [toc_entries] and the [children] lists refer to. *)
Record TOCExtractor : Type := mkExtractor {
  store : list TOCEntry;
  toc_entries : list nat;
  index_entries : list (string * IndexEntry)
}.

Definition digits : regex := plus (Chr Digit).
Definition spaces : regex := plus (Chr Space).
Definition dot : regex := lit ".".
Definition title_group : regex := Grp "title" (lazy_star (Chr AnyChar)).
Definition page_group : regex := Grp "page" digits.

(** [_compile_toc_patterns] *)
Definition toc_pattern_1 : regex :=
  seqs [ Opt (Grp "prefix" (Seq (plus (Seq digits dot)) (star (Chr Space))));
         title_group; at_least 2 dot; page_group; Eol ].

Definition toc_pattern_2 : regex :=
  seqs [ Opt (Grp "prefix"
           (seqs [ Opt (Seq (Alt (lit "Chapter") (Alt (lit "Section") (lit "Part")))
                            spaces);
                   digits; Opt dot; spaces ]));
         title_group; spaces; page_group; Eol ].

Definition toc_pattern_3 : regex :=
  seqs [ Opt (Grp "prefix" (seqs [ plus (Chr (OneOf "IVXivx")); Opt dot; spaces ]));
         title_group; spaces; page_group; Eol ].

Definition toc_pattern_4 : regex :=
  seqs [ Opt (Grp "prefix"
           (seqs [ Chr (Range "A" "Z"); plus (Seq dot digits); spaces ]));
         title_group; spaces; page_group; Eol ].

Definition toc_pattern_5 : regex :=
  seqs [ Bol; Grp "indent" (at_least 2 (Chr Space));
         title_group; at_least 2 dot; page_group; Eol ].

Definition toc_pattern_6 : regex :=
  seqs [ Bol; Grp "indent" (at_least 2 (Chr Space));
         title_group; spaces; page_group; Eol ].

Definition toc_patterns : list regex :=
  [ toc_pattern_1; toc_pattern_2; toc_pattern_3;
    toc_pattern_4; toc_pattern_5; toc_pattern_6 ].

Definition page_list : regex :=
  let item := Seq digits (Opt (Seq (lit "-") digits)) in
  Seq item (star (seqs [ lit ","; star (Chr Space); item ])).

(** [_compile_index_patterns]; the last two are compiled with IGNORECASE. *)
Definition index_pattern_1 : regex :=
  seqs [ Grp "term" (lazy_star (Chr AnyChar)); lit ","; star (Chr Space);
         Grp "pages" page_list; Eol ].

Definition index_pattern_2 : regex :=
  seqs [ Bol; at_least 2 (Chr Space);
         Grp "subterm" (lazy_star (Chr AnyChar)); lit ","; star (Chr Space);
         Grp "pages" page_list; Eol ].

Definition index_pattern_3 : regex :=
  seqs [ Grp "term" (lazy_star (Chr AnyChar)); lit ","; star (Chr Space);
         lit_i "see"; spaces; Grp "reference" (lazy_star (Chr AnyChar)); Eol ].

Definition index_pattern_4 : regex :=
  seqs [ Grp "term" (lazy_star (Chr AnyChar)); lit "."; star (Chr Space);
         lit_i "See"; spaces; lit_i "also"; spaces;
         Grp "reference" (lazy_star (Chr AnyChar)); Eol ].

Definition index_patterns : list regex :=
  [ index_pattern_1; index_pattern_2; index_pattern_3; index_pattern_4 ].

(** The level of a matched line, from the groups of the match. *)
Definition level_of_match (r : regex) (m : rmatch_obj) : nat :=
  match group_if_set r m "prefix" with
  | Some p =>
      let prefix := Py.strip p in
      let lv := Py.count_char "." prefix in
      if (lv =? 0) && Py.truthy prefix then 1 else lv
  | None =>
      match group_if_set r m "indent" with
      | Some i => String.length i / 2
      | None => 0
      end
  end.

Definition page_of_match (r : regex) (m : rmatch_obj) : option Z :=
  match group_if_set r m "page" with
  | Some p => Py.int p
  | None => None
  end.

(** The last resort of [_parse_toc_line]: [re.search(r'(\S+)\s+(\d+)$', line)]. *)
Definition last_resort_pattern : regex :=
  seqs [ Grp "1" (plus (Chr NonSpace)); spaces; Grp "2" digits; Eol ].

Definition last_resort (line : string) : option TOCEntry :=
  match re_search last_resort_pattern line with
  | Some m =>
      let t := Py.strip (String.substring 0 (m_start m) line) in
      match option_map Py.int (group m "2") with
      | Some (Some p) =>
          let leading_spaces :=
            String.length line - String.length (Py.lstrip line) in
          Some (new_TOCEntry (leading_spaces / 2) t (Some p) line)
      | _ => None
      end
  | None => None
  end.

(** The loop of [_parse_toc_line] over the patterns still to try. *)
Fixpoint try_patterns (ps : list regex) (line : string)
  : outcome (option TOCEntry) :=
  match ps with
  | [] => Ok (last_resort line)
  | r :: rest =>
      match re_match r line with
      | Some m =>
          t <- get_strip r m "title" ;;
          if Py.truthy t
          then Ok (Some (new_TOCEntry (level_of_match r m) t
                                      (page_of_match r m) line))
          else try_patterns rest line
      | None => try_patterns rest line
      end
  end.

Definition _parse_toc_line (line : string) : outcome (option TOCEntry) :=
  try_patterns toc_patterns line.

(** *** The first pass of [_extract_toc] *)

Definition append_entry (e : TOCEntry) (self : TOCExtractor) : TOCExtractor :=
  mkExtractor (store self ++ [e])%list
              (toc_entries self ++ [List.length (store self)])%list
              (index_entries self).

Fixpoint collect (lines : list string) (self : TOCExtractor)
  : outcome unit * TOCExtractor :=
  match lines with
  | [] => (Ok tt, self)
  | l :: rest =>
      let line := Py.rstrip l in
      if negb (Py.truthy (Py.strip line)) then collect rest self
      else if String.length (Py.strip line) <? 5 then collect rest self
      else match _parse_toc_line line with
           | Raise e => (Raise e, self)
           | Ok None => collect rest self
           | Ok (Some e) => collect rest (append_entry e self)
           end
  end.

(** *** [_determine_hierarchy] *)

(** [l.index(x)] *)
Fixpoint list_index (x : nat) (l : list nat) : outcome nat :=
  match l with
  | [] => Raise ValueError
  | y :: t => if y =? x then Ok 0 else (i <- list_index x t ;; Ok (S i))
  end.

Fixpoint map_outcome {A B} (f : A -> outcome B) (l : list A)
  : outcome (list B) :=
  match l with
  | [] => Ok []
  | x :: t => y <- f x ;; ys <- map_outcome f t ;; Ok (y :: ys)
  end.

Definition key_leb (a b : nat * nat) : bool :=
  (fst a <? fst b) || ((fst a =? fst b) && (snd a <=? snd b)).

Fixpoint insert_by_key (x : (nat * nat) * nat) (l : list ((nat * nat) * nat))
  : list ((nat * nat) * nat) :=
  match l with
  | [] => [x]
  | y :: t => if key_leb (fst y) (fst x) then y :: insert_by_key x t
              else x :: y :: t
  end.

(** A stable sort of the references by their keys. *)
Definition sort_by_key (l : list ((nat * nat) * nat)) : list nat :=
  map snd (fold_left (fun acc x => insert_by_key x acc) l []).

Definition level_at (st : list TOCEntry) (x : nat) : nat :=
  match nth_error st x with
  | Some e => level e
  | None => 0
  end.

Definition last_by_level_t : Type := list (nat * option nat).

(** The [while parent_level >= 0] search, from [pl] down to 0. *)
Fixpoint find_parent (lbl : last_by_level_t) (pl : nat) : option nat :=
  match Dict.get Nat.eqb pl lbl with
  | Some (Some p) => Some p
  | _ => match pl with
         | O => None
         | S pl' => find_parent lbl pl'
         end
  end.

Definition add_child (c : nat) (e : TOCEntry) : TOCEntry :=
  mkEntry (level e) (title e) (page_num e) (raw_text e) (children e ++ [c])%list.

(** The state of the [for entry in self.toc_entries] loop. *)
Record build_state : Type := mkBuild {
  b_store : list TOCEntry;
  hierarchy : list nat;
  last_by_level : last_by_level_t
}.

Definition build_step (b : build_state) (entry : nat) : build_state :=
  let lv := level_at (b_store b) entry in
  if lv =? 0 then
    mkBuild (b_store b) (hierarchy b ++ [entry])%list
            (Dict.set Nat.eqb 0 (Some entry) (last_by_level b))
  else
    match find_parent (last_by_level b) (lv - 1) with
    | Some p =>
        mkBuild (update_nth p (add_child entry) (b_store b)) (hierarchy b)
                (Dict.set Nat.eqb lv (Some entry) (last_by_level b))
    | None =>
        mkBuild (b_store b) (hierarchy b ++ [entry])%list
                (Dict.set Nat.eqb lv (Some entry) (last_by_level b))
    end.

Definition build (st : list TOCEntry) (order : list nat) : build_state :=
  fold_left build_step order (mkBuild st [] [(0, None)]).

Section Sorting.
(** What [self.toc_entries] looks like to the key function while
    [list.sort] runs on that same list. *)
Variable seen_while_sorting : list nat -> list nat.

(** [lambda x: (x.level, self.toc_entries.index(x))] *)
Definition sort_key (self : TOCExtractor) (x : nat) : outcome (nat * nat) :=
  i <- list_index x (seen_while_sorting (toc_entries self)) ;;
  Ok (level_at (store self) x, i).

(** [list.sort(key=...)] computes every key first; a key that raises
    leaves the list as it was. *)
Definition sorted_entries (self : TOCExtractor) : outcome (list nat) :=
  keys <- map_outcome (sort_key self) (toc_entries self) ;;
  Ok (sort_by_key (combine keys (toc_entries self))).

Definition determine_hierarchy_with (self : TOCExtractor)
  : outcome (list nat) * TOCExtractor :=
  match sorted_entries self with
  | Raise e => (Raise e, self)
  | Ok order =>
      let b := build (store self) order in
      (Ok (hierarchy b),
       mkExtractor (b_store b) (hierarchy b) (index_entries self))
  end.
End Sorting.

(** CPython empties a list for the duration of [list.sort] ("the C
    implementation of Python makes the list appear empty for the duration"),
    so the key function sees [[]]. *)
Definition sorting_view (l : list nat) : list nat := [].

Definition _determine_hierarchy (self : TOCExtractor)
  : outcome (list nat) * TOCExtractor :=
  determine_hierarchy_with sorting_view self.

(** *** [_extract_toc] *)

Definition lines_of (text : string) : list string := Py.split_on "010" text.

Definition _extract_toc_lines (self : TOCExtractor) (lines : list string)
  : outcome (list nat) * TOCExtractor :=
  let self0 := mkExtractor [] [] (index_entries self) in
  match collect lines self0 with
  | (Raise e, self1) => (Raise e, self1)
  | (Ok _, self1) =>
      match toc_entries self1 with
      | [] => (Ok [], self1)
      | _ :: _ =>
          match _determine_hierarchy self1 with
          | (Raise e, self2) => (Raise e, self2)
          | (Ok _, self2) => (Ok (toc_entries self2), self2)
          end
      end
  end.

Definition _extract_toc (self : TOCExtractor) (text : string)
  : outcome (list nat) * TOCExtractor :=
  _extract_toc_lines self (lines_of text).

(** *** [_parse_page_refs] *)

(** The items of [range(a, b)], in order. *)
Definition py_range (a b : Z) : list Z :=
  map (fun i => (a + Z.of_nat i)%Z) (seq 0 (Z.to_nat (b - a))).

(** [len(range(a, b))] *)
Definition range_len (a b : Z) : Z := Z.max 0 (b - a).

(** The largest size of a container, on a 64-bit build. *)
Definition PY_SSIZE_T_MAX : Z := 9223372036854775807.

(** [page_refs.extend(range(a, b))]: the items the call appends, or [None]
    when it raises.  The list asks the range for its length and makes room
    for that many items before it takes the first one: the call raises
    [OverflowError] when the length is above [PY_SSIZE_T_MAX] and
    [MemoryError] when it is above [room], the number of items for which
    the machine has memory left, and in both cases the list is as it was.
    An empty range is always taken. *)
Definition extend_range (room a b : Z) : option (list Z) :=
  let n := range_len a b in
  if (n =? 0)%Z || ((n <=? PY_SSIZE_T_MAX)%Z && (n <=? room)%Z)
  then Some (py_range a b)
  else None.

(** One iteration of [for chunk in chunks]: what the chunk adds to
    [page_refs].  The bare [except] of the range branch catches the failed
    unpacking, the [ValueError] of [int] and the failure of [extend]
    alike. *)
Definition parse_chunk (room : Z) (chunk : string) : list page_ref :=
  if Py.contains "-" chunk then
    match Py.split_on "-" chunk with
    | [a; b] =>
        match Py.int a, Py.int b with
        | Some x, Some y =>
            match extend_range room x (y + 1) with
            | Some items => map PInt items
            | None => [PStr chunk]
            end
        | _, _ => [PStr chunk]
        end
    | _ => [PStr chunk]
    end
  else
    match Py.int chunk with
    | Some x => [PInt x]
    | None => if Py.truthy chunk then [PStr chunk] else []
    end.

Definition _parse_page_refs (room : Z) (pages_str : option string)
  : list page_ref :=
  match pages_str with
  | None => []
  | Some p =>
      if negb (Py.truthy p) then []
      else flat_map (parse_chunk room) (map Py.strip (Py.split_on "," p))
  end.

(** *** [_extract_index] *)

(** [for pattern in ps: match = pattern.match(line); if match: ...; break] *)
Fixpoint first_match (ps : list regex) (line : string)
  : option (regex * rmatch_obj) :=
  match ps with
  | [] => None
  | r :: rest =>
      match re_match r line with
      | Some m => Some (r, m)
      | None => first_match rest line
      end
  end.

(** [groups.get(name, '')] *)
Definition groups_get (r : regex) (m : rmatch_obj) (name : string)
  : option string :=
  if has_group r name then group m name else Some EmptyString.

Record index_loop : Type := mkIndexLoop {
  i_entries : list (string * IndexEntry);
  current_main_term : option string
}.

Definition set_subentry (subterm : string) (refs : list page_ref)
           (e : IndexEntry) : IndexEntry :=
  mkIndexEntry (term e) (page_refs e)
               (Dict.set String.eqb subterm refs (subentries e)).

Definition index_step (room : Z) (st : index_loop) (l : string)
  : outcome index_loop :=
  let line := Py.rstrip l in
  if negb (Py.truthy (Py.strip line)) then Ok st
  else
    match first_match (firstn 1 index_patterns) line with
    | Some (r, m) =>
        t <- get_strip r m "term" ;;
        if Py.truthy t then
          let refs := _parse_page_refs room (groups_get r m "pages") in
          Ok (mkIndexLoop
                (Dict.set String.eqb t (new_IndexEntry t refs) (i_entries st))
                (Some t))
        else Ok st
    | None =>
        match current_main_term st with
        | Some cur =>
            if Py.truthy cur && Py.startswith line " " then
              match first_match (firstn 1 (skipn 1 index_patterns)) line with
              | Some (r, m) =>
                  subterm <- get_strip r m "subterm" ;;
                  if Py.truthy subterm then
                    let refs := _parse_page_refs room (groups_get r m "pages") in
                    match Dict.get String.eqb cur (i_entries st) with
                    | Some e =>
                        Ok (mkIndexLoop
                              (Dict.set String.eqb cur
                                 (set_subentry subterm refs e) (i_entries st))
                              (Some cur))
                    | None => Raise KeyError
                    end
                  else Ok st
              | None => Ok st
              end
            else Ok st
        | None => Ok st
        end
    end.

(** The [for] loop of [_extract_index]; when a step raises, the entries
    stored so far stay in [self.index_entries]. *)
Fixpoint index_loop_run (room : Z) (lines : list string) (st : index_loop)
  : outcome unit * index_loop :=
  match lines with
  | [] => (Ok tt, st)
  | l :: rest =>
      match index_step room st l with
      | Ok st' => index_loop_run room rest st'
      | Raise e => (Raise e, st)
      end
  end.

Definition _extract_index (room : Z) (self : TOCExtractor) (text : string)
  : outcome (list IndexEntry) * TOCExtractor :=
  match index_loop_run room (lines_of text) (mkIndexLoop [] None) with
  | (r, st) =>
      let self' := mkExtractor (store self) (toc_entries self) (i_entries st) in
      match r with
      | Ok _ => (Ok (Dict.values (i_entries st)), self')
      | Raise e => (Raise e, self')
      end
  end.

(** What [extract_toc_from_text] returns: the list of root entries (as
    references into [store]) or the list of index entries. *)
Inductive extracted : Type :=
| TocEntries (roots : list nat)
| IndexEntries (entries : list IndexEntry).

Definition extract_toc_from_text (room : Z) (self : TOCExtractor)
           (text : string) (is_index : bool)
  : outcome extracted * TOCExtractor :=
  if is_index then
    match _extract_index room self text with
    | (Ok l, self') => (Ok (IndexEntries l), self')
    | (Raise e, self') => (Raise e, self')
    end
  else
    match _extract_toc self text with
    | (Ok l, self') => (Ok (TocEntries l), self')
    | (Raise e, self') => (Raise e, self')
    end.

(** [TOCExtractor.__init__] *)
Definition new_TOCExtractor : TOCExtractor := mkExtractor [] [] [].

End Toc.

(* ================================================================== *)
(** ** component_extractor.py *)

Module Comp.
Import Re.

Record Component : Type := mkComponent {
  number : string;
  title : string;
  description : option string;
  category : option string;
  raw_text : string;
  children : list nat
}.

(** [Component.__init__] with [category] left to its default. *)
Definition new_Component (num t : string) (descr : option string)
           (raw : string) : Component :=
  mkComponent num (Py.strip t)
    (match descr with
     | Some d => if Py.truthy d then Some (Py.strip d) else None
     | None => None
     end)
    None raw [].

(** [ComponentCategory]; [components] holds references: positions in the
    extractor's flat list [self.components], which holds the same objects. *)
Record ComponentCategory : Type := mkCategory {
  name : string;
  cat_components : list nat
}.

Definition new_ComponentCategory (n : string) (cs : list nat)
  : ComponentCategory :=
  mkCategory (Py.strip n) cs.

Record ComponentExtractor : Type := mkExtractor {
  components : list Component;
  categories : list ComponentCategory
}.

Definition new_ComponentExtractor : ComponentExtractor := mkExtractor [] [].

Definition digits : regex := plus (Chr Digit).
Definition spaces : regex := plus (Chr Space).
Definition delim : regex := Chr (OneOf ".)").            (* [.\)] *)
Definition rest_title : regex := Grp "title" (plus (Chr AnyChar)).

(** [_compile_component_patterns] *)
Definition component_pattern_1 : regex :=
  seqs [ Bol; Grp "number" digits; delim; spaces; rest_title; Eol ].

Definition component_pattern_2 : regex :=
  seqs [ Bol; Grp "letter" (Chr (Union (Range "a" "z") (Range "A" "Z")));
         delim; spaces; rest_title; Eol ].

Definition component_pattern_3 : regex :=
  seqs [ Bol; Grp "roman" (plus (Chr (OneOf "ivxIVX")));
         delim; spaces; rest_title; Eol ].

Definition component_pattern_4 : regex :=
  seqs [ Bol; spaces; Grp "number" digits; delim; spaces; rest_title; Eol ].

Definition component_pattern_5 : regex :=
  seqs [ Bol; Grp "number" digits; delim; spaces;
         Grp "title" (plus (Chr (NoneOf "(")));
         Opt (seqs [ lit "("; Grp "description" (plus (Chr (NoneOf ")")));
                     lit ")" ]) ].

Definition component_pattern_6 : regex :=
  seqs [ Bol; Grp "number" digits; lit ":"; spaces; rest_title; Eol ].

Definition component_pattern_7 : regex :=
  seqs [ Bol; Grp "number" digits; star (Chr Space); lit "-"; spaces;
         rest_title; Eol ].

Definition component_pattern_8 : regex :=
  seqs [ Bol; Grp "number" digits; Chr (OneOf ".):"); rest_title; Eol ].

Definition component_patterns : list regex :=
  [ component_pattern_1; component_pattern_2; component_pattern_3;
    component_pattern_4; component_pattern_5; component_pattern_6;
    component_pattern_7; component_pattern_8 ].

Definition upper_phrase : regex :=          (* [A-Z][A-Z\s]+ *)
  Seq (Chr (Range "A" "Z")) (plus (Chr (Union (Range "A" "Z") Space))).

(** [_compile_category_patterns] *)
Definition category_pattern_1 : regex :=
  seqs [ Bol; Grp "category" upper_phrase; lit ":" ].

Definition category_pattern_2 : regex :=
  seqs [ Bol; Grp "category" upper_phrase; Eol ].

Definition category_pattern_3 : regex :=
  seqs [ Bol; Grp "prefix" (Seq (plus (Chr (OneOf "IVX"))) (lit "."));
         star (Chr Space); Grp "category" upper_phrase ].

Definition category_patterns : list regex :=
  [ category_pattern_1; category_pattern_2; category_pattern_3 ].

(** The loop of [_match_category] over the patterns still to try. *)
Fixpoint match_category_in (ps : list regex) (line : string)
  : outcome (option string) :=
  match ps with
  | [] => Ok None
  | r :: rest =>
      match re_match r line with
      | Some m =>
          if has_group r "category" then
            match group m "category" with
            | Some c => Ok (Some (Py.strip c))
            | None => Raise AttributeError
            end
          else match_category_in rest line
      | None => match_category_in rest line
      end
  end.

Definition _match_category (line : string) : outcome (option string) :=
  match_category_in category_patterns line.

(** Truth value of what [_match_category] returned. *)
Definition is_category (c : option string) : bool :=
  match c with
  | Some n => Py.truthy n
  | None => false
  end.

(** [number] as [_parse_component_line] picks it from the groups. *)
Definition number_of_match (r : regex) (m : rmatch_obj) : option string :=
  match group_if_set r m "number" with
  | Some n => Some n
  | None =>
      match group_if_set r m "letter" with
      | Some n => Some n
      | None => group_if_set r m "roman"
      end
  end.

Definition description_of_match (r : regex) (m : rmatch_obj)
  : outcome (option string) :=
  if has_group r "description" then
    d <- get_strip r m "description" ;; Ok (Some d)
  else Ok None.

(** The two fallback patterns: digits, then a run of [. ) : -] or whitespace
    (one or more in the first pattern, any number in the second), optional
    whitespace, and the rest of the line (non-empty in the first pattern). *)
Definition punct_or_space : cset := Union (OneOf ".):-") Space.

Definition more_flexible_pattern : regex :=
  seqs [ Bol; Grp "1" digits; plus (Chr punct_or_space); star (Chr Space);
         Grp "2" (plus (Chr AnyChar)); Eol ].

Definition numbered_pattern : regex :=
  seqs [ Bol; Grp "1" digits; star (Chr punct_or_space); star (Chr Space);
         Grp "2" (star (Chr AnyChar)); Eol ].

(** The fallbacks of [_parse_component_line]; both groups of either pattern
    take part in every match. *)
Definition fallback (line : string) : option Component :=
  match re_match more_flexible_pattern (Py.strip line) with
  | Some m =>
      match group m "1", group m "2" with
      | Some num, Some content =>
          Some (new_Component num (Py.strip content) None line)
      | _, _ => None
      end
  | None =>
      match re_match numbered_pattern (Py.strip line) with
      | Some m =>
          match group m "1", group m "2" with
          | Some num, Some content =>
              if Py.truthy (Py.strip content)
              then Some (new_Component num (Py.strip content) None line)
              else None
          | _, _ => None
          end
      | None => None
      end
  end.

Fixpoint try_patterns (ps : list regex) (line : string)
  : outcome (option Component) :=
  match ps with
  | [] => Ok (fallback line)
  | r :: rest =>
      match re_match r line with
      | Some m =>
          t <- get_strip r m "title" ;;
          d <- description_of_match r m ;;
          match number_of_match r m with
          | Some num =>
              if Py.truthy t then Ok (Some (new_Component num t d line))
              else try_patterns rest line
          | None => try_patterns rest line
          end
      | None => try_patterns rest line
      end
  end.

Definition _parse_component_line (line : string) : outcome (option Component) :=
  try_patterns component_patterns line.

(** *** The main loop of [extract_components_from_text] *)

(** The attributes and the local variables of the loop. *)
Record loop_state : Type := mkLoop {
  self : ComponentExtractor;
  current_category : option string;
  category_components : list nat;
  pending_number : option string
}.

(** [self.components.append(component)], and
    [category_components.append(component)] when a category is open. *)
Definition add_component (c : Component) (st : loop_state) : loop_state :=
  let ref := List.length (components (self st)) in
  mkLoop (mkExtractor (components (self st) ++ [c])%list (categories (self st)))
         (current_category st)
         (match current_category st with
          | Some cat => if Py.truthy cat
                        then (category_components st ++ [ref])%list
                        else category_components st
          | None => category_components st
          end)
         None.

(** [if current_category and category_components:
       self.categories.append(ComponentCategory(...))] *)
Definition close_category (st : loop_state) : ComponentExtractor :=
  match current_category st, category_components st with
  | Some cat, _ :: _ =>
      if Py.truthy cat
      then mkExtractor (components (self st))
             (categories (self st)
              ++ [new_ComponentCategory cat (category_components st)])%list
      else self st
  | _, _ => self st
  end.

Definition new_component_start : regex :=      (* ^\d+[.\)]\s+ *)
  seqs [ Bol; digits; delim; spaces ].

Definition standalone_number : regex :=        (* ^(\d+)[.\)]\s*$ *)
  seqs [ Bol; Grp "1" digits; delim; star (Chr Space); Eol ].

Definition is_some {A} (o : option A) : bool :=
  match o with Some _ => true | None => false end.

(** The body of the loop once the pending number has been dealt with. *)
Definition classify (line : string) (st : loop_state) : outcome loop_state :=
  category_match <- _match_category line ;;
  if is_category category_match then
    Ok (mkLoop (close_category st) category_match [] (pending_number st))
  else
    match re_match standalone_number (Py.strip line) with
    | Some m =>
        Ok (mkLoop (self st) (current_category st) (category_components st)
                   (group m "1"))
    | None =>
        component <- _parse_component_line line ;;
        match component with
        | Some c =>
            let st' := add_component c st in
            Ok (mkLoop (self st') (current_category st')
                       (category_components st') (pending_number st))
        | None => Ok st
        end
    end.

Definition drop_pending (st : loop_state) : loop_state :=
  mkLoop (self st) (current_category st) (category_components st) None.

(** One iteration of [while i < len(lines)] on [lines[i]]. *)
Definition step (st : loop_state) (l : string) : outcome loop_state :=
  let line := Py.rstrip l in
  if negb (Py.truthy (Py.strip line)) then Ok st
  else
    match pending_number st with
    | Some pending =>
        if Py.truthy pending then
          cat <- _match_category line ;;
          if negb (is_category cat)
             && negb (is_some (re_match new_component_start line))
          then
            Ok (add_component
                  (new_Component pending (Py.strip line) None
                                 (pending ++ ". " ++ Py.strip line))
                  st)
          else classify line (drop_pending st)
        else classify line st
    | None => classify line st
    end.

(** The loop; a step that raises leaves the attributes as they were before
    that step. *)
Fixpoint run (lines : list string) (st : loop_state)
  : outcome unit * loop_state :=
  match lines with
  | [] => (Ok tt, st)
  | l :: rest =>
      match step st l with
      | Ok st' => run rest st'
      | Raise e => (Raise e, st)
      end
  end.

Definition initial (s : ComponentExtractor) : loop_state :=
  mkLoop (mkExtractor [] []) None [] None.

(** *** [_post_process_components] *)

Definition known_titles : list (string * string) :=
  [ ("1", "Vision and Mission of the University and Department");
    ("2", "Faculty profiles and individual timetables");
    ("3", "Course handout and closure report");
    ("4", "Name list of students (section wise)");
    ("5", "Mid Term Exam question papers") ].

Definition set_title (t : string) (c : Component) : Component :=
  mkComponent (number c) t (description c) (category c) (raw_text c)
              (children c).

(** First pass: known components with an incomplete title. *)
Definition fix_known (c : Component) : Component :=
  match Dict.get String.eqb (number c) known_titles with
  | Some known =>
      if Py.startswith (title c) "("
         || Py.contains "teaching" (Py.lower (title c))
         || (String.length (Py.strip (title c)) <? 15)
      then set_title known c
      else c
  | None => c
  end.

Definition bare_number : regex :=              (* ^\d+\.?\s*$ *)
  seqs [ Bol; digits; Opt (lit "."); star (Chr Space); Eol ].

Definition parenthetical : regex :=            (* \([^)]*\) *)
  seqs [ lit "("; star (Chr (NoneOf ")")); lit ")" ].

Definition verbs : list string := [ "is "; "are "; "was "; "were "; "teaching " ].

(** [' '.join(t.split()[:3])] *)
Definition first_three_words (t : string) : string :=
  Py.join " " (firstn 3 (Py.split_ws t)).

(** [for j in range(max(0, i-3), i)]: the first earlier title of at least
    three words, if any. *)
Fixpoint scan_topic (comps : list Component) (js : list nat) : option string :=
  match js with
  | [] => None
  | j :: rest =>
      match nth_error comps j with
      | Some c =>
          if 3 <=? List.length (Py.split_ws (title c))
          then Some (first_three_words (title c))
          else scan_topic comps rest
      | None => scan_topic comps rest
      end
  end.

Record repair_state : Type := mkRepair {
  r_components : list Component;
  previous_title : string;
  main_topic : string
}.

Definition retitle (i : nat) (t : string) (st : repair_state) : repair_state :=
  mkRepair (update_nth i (set_title t) (r_components st))
           (previous_title st) (main_topic st).

(** The body of the second pass at index [i]. *)
Definition repair_step (st : repair_state) (i : nat) : repair_state :=
  match nth_error (r_components st) i with
  | None => st
  | Some component =>
      let t := title component in
      if (i =? 0) && (Py.contains "contents" (Py.lower t)
                      || Py.contains "no" (Py.lower t))
      then st
      else if is_some (re_match bare_number t) then
        if (0 <? i) && Py.truthy (previous_title st)
        then retitle i (previous_title st ++ " (continued)") st
        else st
      else
        let st1 :=
          if Py.startswith t "(" then
            if (0 <? i) && Py.truthy (previous_title st) then
              let main_subject :=
                Py.strip (re_sub parenthetical "" (previous_title st)) in
              retitle i (main_subject ++ " " ++ t) st
            else st
          else if existsb (Py.startswith (Py.lower t)) verbs then
            if 0 <? i then
              let topic :=
                if negb (Py.truthy (main_topic st)) && (1 <? i) then
                  match scan_topic (r_components st) (seq (i - 3) (i - (i - 3))) with
                  | Some found => found
                  | None => main_topic st
                  end
                else main_topic st in
              let st' := mkRepair (r_components st) (previous_title st) topic in
              if Py.truthy topic
              then retitle i (topic ++ " - " ++ t) st'
              else retitle i (previous_title st ++ " - " ++ t) st'
            else st
          else st in
        if (3 <=? List.length (Py.split_ws t)) && negb (Py.startswith t "(")
        then mkRepair (r_components st1) t
               (if Py.truthy (main_topic st1) then main_topic st1
                else first_three_words t)
        else st1
  end.

(** The character class of the final cleanup; the source also lists the
    en dash, a character outside the code points of this model. *)
Definition punct : regex := plus (Chr (OneOf "-.,;:")).

Definition duplicate_punct : regex :=
  Seq punct (plus (Grp "1" (Seq (plus (Chr Space)) punct))).

Definition cleanup (c : Component) : Component :=
  set_title (re_sub duplicate_punct ". " (re_sub (plus (Chr Space)) " " (title c))) c.

Definition _post_process_components (s : ComponentExtractor)
  : ComponentExtractor :=
  let first := map fix_known (components s) in
  let second :=
    fold_left repair_step (seq 0 (List.length first)) (mkRepair first "" "") in
  mkExtractor (map cleanup (r_components second)) (categories s).

(** *** [extract_components_from_text] *)

Definition lines_of (text : string) : list string := Py.split_on "010" text.

(** The body of [extract_components_from_text] after [text.split]. *)
Definition extract_components_from_lines (s : ComponentExtractor)
           (lines : list string)
  : outcome (list Component) * ComponentExtractor :=
  match run lines (initial s) with
  | (Raise e, st) => (Raise e, self st)
  | (Ok _, st) =>
      let s' := _post_process_components (close_category st) in
      (Ok (components s'), s')
  end.

Definition extract_components_from_text (s : ComponentExtractor)
           (text : string) : outcome (list Component) * ComponentExtractor :=
  extract_components_from_lines s (lines_of text).

(** *** [organize_by_categories] *)

Definition numeric_categories_t : Type := list (Z * ComponentCategory).

Definition add_member (ref : nat) (c : ComponentCategory) : ComponentCategory :=
  mkCategory (name c) (cat_components c ++ [ref])%list.

(** One iteration of [for component in self.components]; [total] is
    [len(self.components)] and [ref] the position of [component]. *)
Definition bucket_step (total : nat) (d : numeric_categories_t)
           (rc : nat * Component) : numeric_categories_t :=
  match Py.int (number (snd rc)) with
  | Some num =>
      let category_id := ((num - 1) / 10)%Z in
      let category_name :=
        "Components " ++ Py.str_of_Z (category_id * 10 + 1) ++ "-"
        ++ Py.str_of_Z (Z.min ((category_id + 1) * 10) (Z.of_nat total)) in
      let d' :=
        match Dict.get Z.eqb category_id d with
        | Some _ => d
        | None => Dict.set Z.eqb category_id
                           (new_ComponentCategory category_name []) d
        end in
      match Dict.get Z.eqb category_id d' with
      | Some c => Dict.set Z.eqb category_id (add_member (fst rc) c) d'
      | None => d'
      end
  | None => d
  end.

Definition enumerate {A} (l : list A) : list (nat * A) :=
  combine (seq 0 (List.length l)) l.

Definition organize_by_categories (s : ComponentExtractor)
  : list ComponentCategory * ComponentExtractor :=
  match categories s with
  | [] =>
      let d := fold_left (bucket_step (List.length (components s)))
                         (enumerate (components s)) [] in
      (Dict.values d, mkExtractor (components s) (Dict.values d))
  | _ :: _ => (categories s, s)
  end.

End Comp.

(* ================================================================== *)
(** ** pdf_interaction.py *)

Module Interaction.

(** The attributes of a [PDFInteraction] that [detect_pdf_type] reads or
    writes; the history, whose entries carry the time of the call, is left
    out. *)
Record PDFInteraction : Type := mkInteraction {
  toc_extractor : Toc.TOCExtractor;
  component_extractor : Comp.ComponentExtractor;
  processed : bool;
  toc_extracted : bool;
  toc_detected : bool;
  index_detected : bool;
  components_detected : bool
}.

Definition toc_markers : list string :=
  [ "table of contents"; "contents"; "toc"; "chapter"; "section" ].

Definition index_markers : list string :=
  [ "index"; "subject index"; "keyword index"; "alphabetical index" ].

Definition component_markers : list string :=
  [ "course file"; "checklist"; "components"; "inventory"; "file index" ].

(** [any(marker in text for marker in markers)] *)
Definition any_marker (markers : list string) (text : string) : bool :=
  existsb (fun marker => Py.contains marker text) markers.

(** What [detect_pdf_type] returns: the error for a document not yet
    processed, the error built from a caught exception, or the three
    flags. *)
Inductive detection : Type :=
| NotProcessed
| DetectionError (e : exn)
| Detected (is_toc is_index is_component_list : bool).

Definition extracted_len (x : Toc.extracted) : nat :=
  match x with
  | Toc.TocEntries roots => List.length roots
  | Toc.IndexEntries entries => List.length entries
  end.

(** The detection by content, tried when no marker is found; the flags and
    the two extractors as the calls leave them. *)
Definition detect_by_content (room : Z) (toc : Toc.TOCExtractor)
           (comp : Comp.ComponentExtractor) (all_text : string)
  : outcome (bool * bool * bool) * (Toc.TOCExtractor * Comp.ComponentExtractor) :=
  match Toc.extract_toc_from_text room toc all_text false with
  | (Raise e, toc1) => (Raise e, (toc1, comp))
  | (Ok toc_entries, toc1) =>
      let is_toc := 5 <? extracted_len toc_entries in
      match (if negb is_toc
             then match Toc.extract_toc_from_text room toc1 all_text true with
                  | (Raise e, toc2) => (Raise e, toc2)
                  | (Ok index_entries, toc2) =>
                      (Ok (5 <? extracted_len index_entries), toc2)
                  end
             else (Ok false, toc1)) with
      | (Raise e, toc2) => (Raise e, (toc2, comp))
      | (Ok is_index, toc2) =>
          if negb is_toc && negb is_index then
            match Comp.extract_components_from_text comp all_text with
            | (Raise e, comp1) => (Raise e, (toc2, comp1))
            | (Ok components, comp1) =>
                (Ok (is_toc, is_index, 5 <? List.length components),
                 (toc2, comp1))
            end
          else (Ok (is_toc, is_index, false), (toc2, comp))
      end
  end.

(** [detect_pdf_type], given the text [self.processor.get_all_text()]
    returns. *)
Definition detect_pdf_type (room : Z) (self : PDFInteraction)
           (all_text : string) : detection * PDFInteraction :=
  if negb (processed self) then (NotProcessed, self)
  else
    let first_500_chars := Py.lower (String.substring 0 500 all_text) in
    let is_toc := any_marker toc_markers first_500_chars in
    let is_index := any_marker index_markers first_500_chars in
    let is_component_list := any_marker component_markers first_500_chars in
    let finish flags toc comp :=
      match flags with
      | (t, i, c) =>
          (Detected t i c,
           mkInteraction toc comp (processed self) true t i c)
      end in
    if negb is_toc && negb is_index && negb is_component_list then
      match detect_by_content room (toc_extractor self)
                              (component_extractor self) all_text with
      | (Raise e, (toc, comp)) =>
          (DetectionError e,
           mkInteraction toc comp (processed self) (toc_extracted self)
                         (toc_detected self) (index_detected self)
                         (components_detected self))
      | (Ok flags, (toc, comp)) => finish flags toc comp
      end
    else finish (is_toc, is_index, is_component_list)
                (toc_extractor self) (component_extractor self).

End Interaction.

Module Folders.

(** The class of [create_component_folders]: the double quote (code 34),
    the angle brackets, the colon, the slash, the backslash, the bar, the
    question mark and the star. *)
Definition forbidden : Re.cset := Re.OneOf (String "034" "<>:/\|?*").

(** [folder_name] as [create_component_folders] computes it from the title
    of a component. *)
Definition folder_name (title : string) : string :=
  Re.re_sub (Re.plus (Re.Chr Re.Space)) "_"
            (Re.re_sub (Re.Chr forbidden) "_" title).

(** The last component of [folder_path]: the f-string
    [{component.number}_{folder_name}] joined to the base directory. *)
Definition component_folder (c : Comp.Component) : string :=
  Comp.number c ++ "_" ++ folder_name (Comp.title c).

End Folders.

(* ================================================================== *)
(** ** app.py *)

Module App.

(** [s.rsplit(sep, 1)] for a one-character separator: the text is cut once,
    at its last separator. *)
Fixpoint rsplit1 (sep : ascii) (s : string) : list string :=
  match s with
  | EmptyString => [EmptyString]
  | String c s' =>
      match rsplit1 sep s' with
      | [t] => if Ascii.eqb c sep then [EmptyString; t] else [String c t]
      | h :: rest => String c h :: rest
      | [] => [String c EmptyString]
      end
  end.

Definition ALLOWED_EXTENSIONS : list string := [ "pdf" ].

(** [allowed_file]; [None] stands for the [IndexError] of the subscript
    [[1]]. *)
Definition allowed_file (filename : string) : option bool :=
  if Py.contains "." filename then
    match nth_error (rsplit1 "." filename) 1 with
    | Some ext =>
        Some (existsb (String.eqb (Py.lower ext)) ALLOWED_EXTENSIONS)
    | None => None
    end
  else Some false.

End App.

(* ================================================================== *)
(** ** pdf_analyzer.py *)

Module Analyzer.

(** The attributes of a [PDFAnalyzer]. *)
Record PDFAnalyzer : Type := mkAnalyzer {
  text_content : option string;
  sentences : list string;
  keywords : list string;
  summary : string;
  topics : list (string * list string);
  entities : list string;
  use_openai : bool;
  nltk_available : bool
}.

Definition set_keywords (self : PDFAnalyzer) (k : list string) : PDFAnalyzer :=
  mkAnalyzer (text_content self) (sentences self) k (summary self)
             (topics self) (entities self) (use_openai self)
             (nltk_available self).

(** [str.isalnum] on the code points 0..255: the letters and the numeric
    characters of that range. *)
Definition isalnum_char (c : ascii) : bool :=
  let n := Py.code c in
  Py.isdigit c || Py.isupper_az c || Py.islower_az c
  || (n =? 170) || (n =? 178) || (n =? 179) || (n =? 181) || (n =? 185)
  || (n =? 186) || ((188 <=? n) && (n <=? 190))
  || ((192 <=? n) && negb (n =? 215) && negb (n =? 247)).

Fixpoint all_alnum (s : string) : bool :=
  match s with
  | EmptyString => true
  | String c s' => isalnum_char c && all_alnum s'
  end.

Definition isalnum (s : string) : bool := Py.truthy s && all_alnum s.

(** [Counter(words)]: a dictionary in the order of first occurrence, every
    element counted by [mapping[elem] = mapping.get(elem, 0) + 1]. *)
Definition count_element (mapping : list (string * nat)) (elem : string)
  : list (string * nat) :=
  Dict.set String.eqb elem
           (match Dict.get String.eqb elem mapping with
            | Some n => n
            | None => 0
            end + 1)
           mapping.

Definition Counter (words : list string) : list (string * nat) :=
  fold_left count_element words [].

(** [sorted(items, key=itemgetter(1), reverse=True)]: the sort is stable, so
    an item stands behind the items before it that count as much. *)
Fixpoint insert_by_count (x : string * nat) (l : list (string * nat))
  : list (string * nat) :=
  match l with
  | [] => [x]
  | y :: l' => if snd x <? snd y then y :: insert_by_count x l' else x :: l
  end.

Fixpoint sorted_by_count (items : list (string * nat)) : list (string * nat) :=
  match items with
  | [] => []
  | x :: items' => insert_by_count x (sorted_by_count items')
  end.

(** [word_freq.most_common(n)] for a number [n] that is not negative:
    [heapq.nlargest] gives the first [n] items of the sorted list. *)
Definition most_common (n : nat) (word_freq : list (string * nat))
  : list (string * nat) :=
  firstn n (sorted_by_count word_freq).

Section Nltk.

(** The two calls into [nltk]: [stopwords.words('english')] and
    [word_tokenize], each of which returns a list of words or raises. *)
Variable stopwords_words : outcome (list string).
Variable word_tokenize : string -> outcome (list string).

(** The statements of the simple method, which [extract_keywords] holds
    twice: without [nltk], and in its exception handler. *)
Definition basic_keywords (self : PDFAnalyzer) (text : string) (top_n : nat)
  : list string * PDFAnalyzer :=
  let words := Py.split_ws (Py.lower text) in
  let words := filter (fun w => 3 <? String.length w) words in
  let word_freq := Counter words in
  let self := set_keywords self (map fst (most_common top_n word_freq)) in
  (keywords self, self).

(** [extract_keywords]: the returned list and the analyzer afterwards. *)
Definition extract_keywords (self : PDFAnalyzer) (top_n : nat)
  : list string * PDFAnalyzer :=
  match text_content self with
  | None => ([], self)
  | Some text =>
      if negb (Py.truthy text) then ([], self)
      else if negb (nltk_available self) then basic_keywords self text top_n
      else
        match stopwords_words with
        | Raise _ => basic_keywords self text top_n
        | Ok stop_words =>
            match word_tokenize (Py.lower text) with
            | Raise _ => basic_keywords self text top_n
            | Ok words =>
                let filtered_words :=
                  filter (fun word =>
                            isalnum word
                            && negb (existsb (String.eqb word) stop_words))
                         words in
                let word_freq := Counter filtered_words in
                let self :=
                  set_keywords self (map fst (most_common top_n word_freq)) in
                (keywords self, self)
            end
        end
  end.

End Nltk.

End Analyzer.

(* ================================================================== *)
(** * Vocabulary of the properties *)

Definition nl : string := String "010" EmptyString.

(** ** Matches of a pattern *)

(** [iter R n]: [n] rounds of [R], each consuming at least one character. *)
Fixpoint iter (R : nat -> string -> Re.caps -> nat -> string -> Re.caps -> Prop)
         (n : nat) (pos : nat) (s : string) (cs : Re.caps)
         (p' : nat) (s' : string) (cs' : Re.caps) : Prop :=
  match n with
  | O => p' = pos /\ s' = s /\ cs' = cs
  | S n' =>
      exists p1 s1 cs1,
        R pos s cs p1 s1 cs1
        /\ String.length s1 < String.length s
        /\ iter R n' p1 s1 cs1 p' s' cs'
  end.

(** [matches r pos s cs p' s' cs']: [r] can match at offset [pos], where
    the text from there on is [s], leaving the text [s'] at offset [p'] and
    turning the captures [cs] into [cs']; the order in which a
    backtracking matcher looks for such a match plays no part. *)
Fixpoint matches (r : Re.regex) (pos : nat) (s : string) (cs : Re.caps)
         (p' : nat) (s' : string) (cs' : Re.caps) : Prop :=
  match r with
  | Re.Eps => p' = pos /\ s' = s /\ cs' = cs
  | Re.Chr cl =>
      exists c, s = String c s' /\ Re.in_cset cl c = true
                /\ p' = S pos /\ cs' = cs
  | Re.Seq a b =>
      exists p1 s1 cs1,
        matches a pos s cs p1 s1 cs1 /\ matches b p1 s1 cs1 p' s' cs'
  | Re.Alt a b => matches a pos s cs p' s' cs' \/ matches b pos s cs p' s' cs'
  | Re.Opt a => matches a pos s cs p' s' cs' \/ (p' = pos /\ s' = s /\ cs' = cs)
  | Re.Rep _ mn a => exists n, mn <= n /\ iter (matches a) n pos s cs p' s' cs'
  | Re.Grp n a =>
      exists cs1,
        matches a pos s cs p' s' cs1
        /\ cs' = Re.set_cap n (String.substring 0 (p' - pos) s) cs1
  | Re.Bol => pos = 0 /\ p' = pos /\ s' = s /\ cs' = cs
  | Re.Eol =>
      (s = EmptyString \/ s = String "010" EmptyString)
      /\ p' = pos /\ s' = s /\ cs' = cs
  end.

(** [r] cannot match without setting the group [n]. *)
Fixpoint sets (n : string) (r : Re.regex) : bool :=
  match r with
  | Re.Grp n' a => String.eqb n' n || sets n a
  | Re.Seq a b => sets n a || sets n b
  | Re.Alt a b => sets n a && sets n b
  | Re.Rep _ mn a => (1 <=? mn) && sets n a
  | _ => false
  end.

(** ** Strings and numbers *)

Fixpoint all_chars (p : ascii -> bool) (s : string) : bool :=
  match s with
  | EmptyString => true
  | String c s' => p c && all_chars p s'
  end.

(** A non-empty run of decimal digits, and the number it writes. *)
Definition all_digits (s : string) : bool :=
  Py.truthy s && all_chars Py.isdigit s.

Fixpoint decimal_value (acc : Z) (s : string) : Z :=
  match s with
  | EmptyString => acc
  | String c s' => decimal_value (10 * acc + Py.digit_val c) s'
  end.

Definition not_comma (c : ascii) : bool := negb (Ascii.eqb c ",").
Definition not_dash (c : ascii) : bool := negb (Ascii.eqb c "-").
Definition not_space (c : ascii) : bool := negb (Py.isspace c).
Definition not_int_space (c : ascii) : bool := negb (Py.int_space c).


(** The token [a-b]. *)
Definition range_token (a b : string) : string := a ++ "-" ++ b.

(** ** Tables of contents and indexes *)

Definition c1_input : string :=
  "1. A" ++ nl ++ "  1.1 B" ++ nl ++ "  1.2 C" ++ nl ++ "2. D".

Definition title_at (self : Toc.TOCExtractor) (r : nat) : option string :=
  option_map Toc.title (nth_error (Toc.store self) r).

Definition children_at (self : Toc.TOCExtractor) (r : nat) : list nat :=
  match nth_error (Toc.store self) r with
  | Some e => Toc.children e
  | None => []
  end.

(** C1 as stated: the call returns roots among which "A", with children
    "B" and "C" in that order, and "D", on some machine. *)
Definition c1_claim : Prop :=
  exists room roots self',
    Toc.extract_toc_from_text room Toc.new_TOCExtractor c1_input false
    = (Ok (Toc.TocEntries roots), self')
    /\ exists a d,
        In a roots /\ In d roots
        /\ title_at self' a = Some "A"
        /\ map (title_at self') (children_at self' a) = [Some "B"; Some "C"]
        /\ title_at self' d = Some "D".

(** The entries of the two-line text "1. Deep 5" / "Top 1", and the
    outcome of the pass if the sort could see the list it sorts. *)
Definition two_entries : Toc.TOCExtractor :=
  snd (Toc.collect ["1. Deep 5"; "Top 1"] Toc.new_TOCExtractor).

Definition c9_line : string := "    Introduction..............10".

Definition indented_dotted (indent : string) (t0 : ascii) (rest dots page : string) : string :=
  indent ++ String t0 rest ++ dots ++ page.

Definition long_enough (l : string) : bool :=
  5 <=? String.length (Py.strip (Py.rstrip l)).

Definition c5_line : string := "Algorithms, 10, 15-17, 23".

(** The default of [sys.int_max_str_digits]: with it the interpreter's [int]
    raises [ValueError] on a literal of more digits.  The model of [int]
    reads a literal of any length; where a statement below depends on that,
    it is restricted to numbers within this bound. *)
Definition int_max_str_digits : nat := 4300.




(** An extractor that has read the index line "Algorithms, 10". *)
Definition after_an_index (room : Z) : Toc.TOCExtractor :=
  snd (Toc.extract_toc_from_text room Toc.new_TOCExtractor "Algorithms, 10"
                                 true).

(** C4 as stated, on some machine: a second call gives what the first gave,
    and every call first resets the attributes of the instance, so that
    they hold afterwards what the same call leaves in a new instance. *)
Definition c4_claim : Prop :=
  exists room, forall text,
    (forall self is_index,
        let r := Toc.extract_toc_from_text room self text is_index in
        let r0 :=
          Toc.extract_toc_from_text room Toc.new_TOCExtractor text is_index in
        fst (Toc.extract_toc_from_text room (snd r) text is_index) = fst r
        /\ Toc.toc_entries (snd r) = Toc.toc_entries (snd r0)
        /\ Toc.index_entries (snd r) = Toc.index_entries (snd r0))
    /\ (forall self,
           let r := Comp.extract_components_from_text self text in
           let r0 :=
             Comp.extract_components_from_text Comp.new_ComponentExtractor
                                               text in
           fst (Comp.extract_components_from_text (snd r) text) = fst r
           /\ Comp.components (snd r) = Comp.components (snd r0)
           /\ Comp.categories (snd r) = Comp.categories (snd r0)).

(** The current main term is a key of the entries. *)
Definition main_term_known (st : Toc.index_loop) : Prop :=
  match Toc.current_main_term st with
  | Some cur => Dict.get String.eqb cur (Toc.i_entries st) <> None
  | None => True
  end.

(** ** Components and categories *)

Definition is_blank (l : string) : bool :=
  negb (Py.truthy (Py.strip (Py.rstrip l))).

(** How the loop classifies a line: as a category header named [n], or as
    a component [c]. *)
Definition header_line (l n : string) : Prop :=
  Comp._match_category (Py.rstrip l) = Ok (Some n).

Definition component_line (l : string) (c : Comp.Component) : Prop :=
  is_blank l = false
  /\ Comp._match_category (Py.rstrip l) = Ok None
  /\ Re.re_match Comp.standalone_number (Py.strip (Py.rstrip l)) = None
  /\ Comp._parse_component_line (Py.rstrip l) = Ok (Some c).

Definition is_header (l : string) : bool :=
  match Comp._match_category (Py.rstrip l) with
  | Ok (Some _) => true
  | _ => false
  end.

(** No identifier is pending: the variable is [None] (or empty). *)
Definition inactive (p : option string) : Prop :=
  match p with
  | Some n => Py.truthy n = false
  | None => True
  end.

(** The state after a component line. *)
Definition push (c : Comp.Component) (st : Comp.loop_state) : Comp.loop_state :=
  Comp.mkLoop (Comp.self (Comp.add_component c st))
              (Comp.current_category st)
              (Comp.category_components (Comp.add_component c st))
              (Comp.pending_number st).

(** [st'] differs from [st] at most in the pending number. *)
Definition same_but_pending (st st' : Comp.loop_state) : Prop :=
  Comp.self st' = Comp.self st
  /\ Comp.current_category st' = Comp.current_category st
  /\ Comp.category_components st' = Comp.category_components st.

Inductive step_shape (l : string) (st st' : Comp.loop_state) : Prop :=
| shape_skip : same_but_pending st st' -> step_shape l st st'
| shape_component (c : Comp.Component) :
    same_but_pending (Comp.add_component c st) st' -> step_shape l st st'
| shape_header (n : string) :
    is_header l = true ->
    Comp.self st' = Comp.close_category st ->
    Comp.current_category st' = Some n ->
    Comp.category_components st' = [] ->
    step_shape l st st'.

Definition grows (s s' : Comp.ComponentExtractor) : Prop :=
  (exists cs, Comp.components s' = (Comp.components s ++ cs)%list)
  /\ (exists ks, Comp.categories s' = (Comp.categories s ++ ks)%list).

(** Every reference held by a category, closed or open, is at least [k]. *)
Definition refs_from (k : nat) (st : Comp.loop_state) : Prop :=
  k <= List.length (Comp.components (Comp.self st))
  /\ Forall (le k) (Comp.category_components st)
  /\ Forall (fun cat => Forall (le k) (Comp.cat_components cat))
            (Comp.categories (Comp.self st)).

(** No category has been opened yet. *)
Definition no_category_yet (st : Comp.loop_state) : Prop :=
  Comp.current_category st = None
  /\ Comp.category_components st = []
  /\ Comp.categories (Comp.self st) = [].

(** What identifies a component apart from its title. *)
Definition ident (c : Comp.Component) : string * string :=
  (Comp.number c, Comp.raw_text c).

Definition c6_input : string := "4." ++ nl ++ "Student name lists".

(** Two bare numbers in a row, then a title. *)
Definition c6_two_numbers : string :=
  "3." ++ nl ++ "4." ++ nl ++ "Student name lists".

(** C6 as stated, at a bare-number line of [text]: the number [num] is
    merged with the text [t] of the next line into a component. *)
Definition c6_merged (text num t : string) : Prop :=
  exists comps self',
    Comp.extract_components_from_text Comp.new_ComponentExtractor text
    = (Ok comps, self')
    /\ exists c, In c comps /\ Comp.number c = num /\ Comp.title c = t.

Definition c7_lines : list string :=
  [ "0. Pre item one";
    "COURSE INFORMATION:";
    "1. Vision and Mission";
    "2. Faculty profiles and timetables";
    "3. Course handout (draft)";
    "ASSESSMENT DETAILS";
    "6. Assignment questions with solution" ].

(** [bucket_step] reads nothing of a component but its number. *)
Definition bucket_by_number (total : nat) (d : Comp.numeric_categories_t)
           (rn : nat * string) : Comp.numeric_categories_t :=
  Comp.bucket_step total d
    (fst rn, Comp.mkComponent (snd rn) "" None None "" []).

(** The categories inferred for components numbered [numbers]. *)
Definition buckets_of (numbers : list string) : list Comp.ComponentCategory :=
  Dict.values
    (fold_left (bucket_by_number (List.length numbers))
               (Comp.enumerate numbers) []).

(** Every member of a category is a reference that satisfies [P]. *)
Definition members_satisfy (P : nat -> Prop) (d : Comp.numeric_categories_t)
  : Prop :=
  forall cat, In cat (Dict.values d) -> Forall P (Comp.cat_components cat).

Definition numbers_1_to_23 : list string :=
  map (fun n => Py.str_of_Z (Z.of_nat n)) (seq 1 23).

Definition three_buckets : list Comp.ComponentCategory :=
  [ Comp.mkCategory "Components 1-10" (seq 0 10);
    Comp.mkCategory "Components 11-20" (seq 10 10);
    Comp.mkCategory "Components 21-23" (seq 20 3) ].

(** Components numbered 1 to 23, titled alike. *)
Definition c8_components : list Comp.Component :=
  map (fun n => Comp.new_Component n ("Item " ++ n) None (n ++ ". Item " ++ n))
      numbers_1_to_23.

(** ** Invariants of component_extractor.py *)

Definition not_blank (l : string) : bool := negb (is_blank l).

(** Everything of a component but its title. *)
Definition untitled (c : Comp.Component)
  : string * option string * option string * string * list nat :=
  (Comp.number c, Comp.description c, Comp.category c, Comp.raw_text c,
   Comp.children c).

(** The references held by the categories, in the order of the categories. *)
Definition member_refs (cats : list Comp.ComponentCategory) : list nat :=
  flat_map Comp.cat_components cats.

Definition well_formed_category (cat : Comp.ComponentCategory) : Prop :=
  Py.truthy (Comp.name cat) = true /\ Comp.cat_components cat <> [].

(** The loop's categories, the open one included, refer to components read
    so far, in the order they were read. *)
Definition category_invariant (st : Comp.loop_state) : Prop :=
  StronglySorted lt (member_refs (Comp.categories (Comp.self st))
                     ++ Comp.category_components st)
  /\ Forall (fun r => r < List.length (Comp.components (Comp.self st)))
            (member_refs (Comp.categories (Comp.self st))
             ++ Comp.category_components st)
  /\ Forall well_formed_category (Comp.categories (Comp.self st))
  /\ match Comp.current_category st with
     | Some n => Py.truthy n = true
     | None => Comp.category_components st = []
     end.

(** The open category, if any, has a name; without one no component is
    collected. *)
Definition named_category (st : Comp.loop_state) : Prop :=
  match Comp.current_category st with
  | Some n => Py.truthy (Py.strip n) = true
  | None => Comp.category_components st = []
  end.

(** The component at [ref] carries a number that [int] reads. *)
Definition numbered (comps : list Comp.Component) (ref : nat) : bool :=
  match nth_error comps ref with
  | Some c => Comp.is_some (Py.int (Comp.number c))
  | None => false
  end.

(** The name of the bucket of the numbers [10k+1 .. 10k+10] among [total]
    components. *)
Definition bucket_name (total : nat) (k : Z) : string :=
  Py.strip ("Components " ++ Py.str_of_Z (k * 10 + 1) ++ "-"
            ++ Py.str_of_Z (Z.min ((k + 1) * 10) (Z.of_nat total))).

(** The bucket [k] holds references to components numbered within its ten. *)
Definition bucket_of_ten (comps : list Comp.Component)
           (kc : Z * Comp.ComponentCategory) : Prop :=
  Comp.name (snd kc) = bucket_name (List.length comps) (fst kc)
  /\ Forall (fun ref =>
               exists c num,
                 nth_error comps ref = Some c
                 /\ Py.int (Comp.number c) = Some num
                 /\ (fst kc * 10 + 1 <= num <= fst kc * 10 + 10)%Z)
            (Comp.cat_components (snd kc)).

(** A component with a number and a title. *)
Definition named (c : Comp.Component) : Prop :=
  Py.truthy (Comp.number c) = true /\ Py.truthy (Comp.title c) = true.

(** ** Invariants of toc_extractor.py *)

Definition no_newline (s : string) : bool := all_chars (Re.in_cset Re.AnyChar) s.

(** The entries of the loop have no subentry. *)
Definition flat_entries (d : list (string * Toc.IndexEntry)) : Prop :=
  Forall (fun kv => Toc.subentries (snd kv) = []) d.

(** Every entry is stored under its own term, a stripped non-empty string,
    and no two entries share a key. *)
Definition keyed_by_term (d : list (string * Toc.IndexEntry)) : Prop :=
  NoDup (map fst d)
  /\ Forall (fun kv => Toc.term (snd kv) = fst kv
                       /\ Py.truthy (fst kv) = true
                       /\ Py.strip (fst kv) = fst kv) d.


(** One item of a page list: a number or a range of two numbers. *)
Definition page_item (w : string) : Prop :=
  all_digits w = true
  \/ exists a b, w = range_token a b /\ all_digits a = true /\ all_digits b = true.

(** An item after the white space that may follow a comma. *)
Definition padded_item (c : string) : Prop :=
  exists pad it, c = pad ++ it /\ all_chars Py.isspace pad = true /\ page_item it.




(** The text of the chunks, each after its comma. *)
Fixpoint comma_chunks (chunks : list string) : string :=
  match chunks with
  | [] => EmptyString
  | c :: rest => "," ++ c ++ comma_chunks rest
  end.

Fixpoint last_char (s : string) : option ascii :=
  match s with
  | EmptyString => None
  | String c EmptyString => Some c
  | String _ s' => last_char s'
  end.

(** The last character of the line, trailing white space apart, is a
    digit. *)
Definition ends_in_digit (l : string) : bool :=
  match last_char (Py.rstrip l) with
  | Some c => Py.isdigit c
  | None => false
  end.

(** A pattern that ends with digits captured in the group [n], then the end
    of the line. *)
Inductive digits_tail (n : string) : Re.regex -> Prop :=
| tail_here : digits_tail n (Re.Seq (Re.Grp n Toc.digits) Re.Eol)
| tail_later (a r : Re.regex) : digits_tail n r -> digits_tail n (Re.Seq a r).

(** What the TOC patterns share: the title, a separator, the page number
    and the end of the line. *)
Definition toc_body (sep : Re.regex) : Re.regex :=
  Re.Seq Toc.title_group (Re.Seq sep (Re.Seq Toc.page_group Re.Eol)).

(** The pattern [r] yields an entry for [line]. *)
Definition returns_at (r : Re.regex) (line : string) : Prop :=
  exists m t, Re.re_match r line = Some m
              /\ get_strip r m "title" = Ok t /\ Py.truthy t = true.

Definition digit_or_newline (c : ascii) : bool :=
  Py.isdigit c || Ascii.eqb c "010".

(** The 256 characters. *)
Definition all_ascii : list ascii := map ascii_of_nat (seq 0 256).

(** Every character of the class [cl] satisfies [p]. *)
Definition class_within (p : ascii -> bool) (cl : Re.cset) : bool :=
  forallb (fun c => implb (Re.in_cset cl c) (p c)) all_ascii.

(** [leads p r]: whatever [r] matches starts with a character that
    satisfies [p]; [may_lead p r]: whatever [r] matches is empty or starts
    with such a character. *)
Fixpoint leads (p : ascii -> bool) (r : Re.regex) : bool :=
  match r with
  | Re.Chr cl => class_within p cl
  | Re.Seq a b => leads p a || (may_lead p a && leads p b)
  | Re.Alt a b => leads p a && leads p b
  | Re.Rep _ mn a => (1 <=? mn) && leads p a
  | Re.Grp _ a => leads p a
  | _ => false
  end
with may_lead (p : ascii -> bool) (r : Re.regex) : bool :=
  match r with
  | Re.Chr cl => class_within p cl
  | Re.Seq a b => leads p a || (may_lead p a && may_lead p b)
  | Re.Alt a b => may_lead p a && may_lead p b
  | Re.Opt a => may_lead p a
  | Re.Rep _ _ a => may_lead p a
  | Re.Grp _ a => may_lead p a
  | _ => true
  end.

(** The first characters of the prefixes of the second and of the third
    TOC pattern. *)
Definition chapter_or_digit (c : ascii) : bool := Py.isdigit c || Re.mem c "CSP".
Definition roman_digit (c : ascii) : bool := Re.mem c "IVXivx".

Definition is_upper (c : ascii) : bool := Re.in_cset (Re.Range "A" "Z") c.

(** A line from which the first pass of [_extract_toc] takes an entry. *)
Definition toc_line (l : string) : bool :=
  long_enough l
  && match Toc._parse_toc_line (Py.rstrip l) with
     | Ok (Some _) => true
     | _ => false
     end.

(** ** The fields of a component *)

(** A component that is a number and a title and nothing more. *)
Definition bare (c : Comp.Component) : Prop :=
  Comp.description c = None /\ Comp.category c = None /\ Comp.children c = [].

Definition is_letter (c : ascii) : bool := Py.isupper_az c || Py.islower_az c.

(** A run of digits, or a run of ASCII letters. *)
Definition digits_or_letters (s : string) : bool :=
  all_chars Py.isdigit s || all_chars is_letter s.

(** [group_within n p r]: the group [n] of [r], where it occurs, is a
    character class within [p], repeated or not. *)
Fixpoint group_within (n : string) (p : ascii -> bool) (r : Re.regex) : bool :=
  match r with
  | Re.Grp n' a =>
      if String.eqb n' n then
        match a with
        | Re.Chr cl | Re.Rep _ _ (Re.Chr cl) => class_within p cl
        | _ => false
        end
      else group_within n p a
  | Re.Seq a b | Re.Alt a b => group_within n p a && group_within n p b
  | Re.Opt a | Re.Rep _ _ a => group_within n p a
  | _ => true
  end.

(** The text of the group [n], if set, is made of characters within [p]. *)
Definition cap_within (n : string) (p : ascii -> bool) (cs : Re.caps) : Prop :=
  forall v, Re.get_cap n cs = Some v -> all_chars p v = true.

(** The pending number, if any, is a run of digits. *)
Definition pending_digits (st : Comp.loop_state) : Prop :=
  forall n, Comp.pending_number st = Some n -> all_chars Py.isdigit n = true.

Definition number_formed (c : Comp.Component) : Prop :=
  digits_or_letters (Comp.number c) = true.

(** The raw text of [c] is a line of [lines], trailing white space apart,
    or its number, a dot, a space and a stripped line of [lines]. *)
Definition sourced (lines : list string) (c : Comp.Component) : Prop :=
  In (Comp.raw_text c) (map Py.rstrip lines)
  \/ exists l, In l lines
               /\ Comp.raw_text c
                  = Comp.number c ++ ". " ++ Py.strip (Py.rstrip l).

(** The test of the first pass: a title taken for incomplete. *)
Definition incomplete_title (t : string) : bool :=
  Py.startswith t "("
  || Py.contains "teaching" (Py.lower t)
  || (String.length (Py.strip t) <? 15).

(** One of the five predefined titles. *)
Definition predefined (t : string) : Prop :=
  In t (map snd Comp.known_titles).

(** ** Invariants of pdf_interaction.py *)

(** No marker of any kind in the first 500 characters. *)
Definition unmarked (all_text : string) : bool :=
  let first := Py.lower (String.substring 0 500 all_text) in
  negb (Interaction.any_marker Interaction.toc_markers first)
  && negb (Interaction.any_marker Interaction.index_markers first)
  && negb (Interaction.any_marker Interaction.component_markers first).

(** A character that is neither white space nor one of the characters the
    folder names must not hold. *)
Definition safe_char (c : ascii) : bool :=
  negb (Re.in_cset Folders.forbidden c) && negb (Py.isspace c).

(** [r] matches runs of characters of [cl], none of them empty, and accepts
    any text that starts with such a character. *)
Definition matches_runs_of (cl : Re.cset) (r : Re.regex) : Prop :=
  (forall pos s cs p' s' cs',
      matches r pos s cs p' s' cs' ->
      exists w, s = w ++ s' /\ Py.truthy w = true
                /\ all_chars (Re.in_cset cl) w = true)
  /\ (forall pos c t,
         Re.in_cset cl c = true ->
         exists p' s' cs', matches r pos (String c t) [] p' s' cs').

(** ** The most frequent words *)

(** How often [w] stands in [words]. *)
Definition occurrences (words : list string) (w : string) : nat :=
  count_occ string_dec words w.

(** [a] stands in [l] with [b] somewhere behind it. *)
Definition stands_before {A} (l : list A) (a b : A) : Prop :=
  exists l1 l2, l = (l1 ++ a :: l2)%list /\ In b l2.

(** The first [a] of [words] comes before every [b]. *)
Definition first_before (words : list string) (a b : string) : Prop :=
  exists pre post, words = (pre ++ a :: post)%list /\ ~ In a pre /\ ~ In b pre.

(** [kws] are the [n] most frequent of the words that satisfy [P]: distinct
    words of the list, at most [n], such that a word left out is no more
    frequent than any word taken and is left out only because [n] are
    taken; the more frequent word stands first, and of two words as frequent
    as each other the one that occurs first. *)
Definition most_frequent (P : string -> Prop) (words : list string) (n : nat)
           (kws : list string) : Prop :=
  NoDup kws /\ length kws <= n
  /\ (forall k, In k kws -> In k words /\ P k)
  /\ (forall w, In w words -> P w -> ~ In w kws ->
        length kws = n
        /\ forall k, In k kws -> occurrences words w <= occurrences words k)
  /\ (forall a b, stands_before kws a b ->
        occurrences words b <= occurrences words a
        /\ (occurrences words a = occurrences words b ->
            first_before words a b)).

(** The simple method is the one that runs: [nltk] is not available, or one
    of its two calls raises. *)
Definition falls_back (stopwords_words : outcome (list string))
           (word_tokenize : string -> outcome (list string))
           (self : Analyzer.PDFAnalyzer) (text : string) : Prop :=
  Analyzer.nltk_available self = false
  \/ (exists e, stopwords_words = Raise e)
  \/ (exists w e, stopwords_words = Ok w
                  /\ word_tokenize (Py.lower text) = Raise e).

(** ** Tactics *)

Ltac by_evaluation := vm_compute; reflexivity.

Ltac classify_line :=
  lazymatch goal with
  | |- header_line _ _ => by_evaluation
  | |- component_line _ _ => repeat split; by_evaluation
  end.

(* ================================================================== *)
(** * Properties *)

(** ** The matcher *)

(** *** Fuel *)

Lemma rep_loop_fuel {A : Type}
      (body : nat -> string -> Re.caps ->
              (nat -> string -> Re.caps -> option A) -> option A)
      (g : bool) (mn : nat) (k : nat -> string -> Re.caps -> option A) :
  forall f1 f2 cnt pos s cs,
    String.length s < f1 -> String.length s < f2 ->
    Re.rep_loop body g mn k f1 cnt pos s cs
    = Re.rep_loop body g mn k f2 cnt pos s cs.
Proof.
  induction f1 as [|f1 IH]; intros f2 cnt pos s cs H1 H2; [lia|].
  destruct f2 as [|f2]; [lia|]. simpl.
  assert (E : (fun (p' : nat) (s' : string) (cs' : Re.caps) =>
                 if String.length s' <? String.length s
                 then Re.rep_loop body g mn k f1 (S cnt) p' s' cs' else None)
              = (fun (p' : nat) (s' : string) (cs' : Re.caps) =>
                 if String.length s' <? String.length s
                 then Re.rep_loop body g mn k f2 (S cnt) p' s' cs' else None)).
  { extensionality p'. extensionality s'. extensionality cs'.
    destruct (String.length s' <? String.length s) eqn:L; [|reflexivity].
    apply Nat.ltb_lt in L. apply IH; lia. }
  rewrite E. reflexivity.
Qed.

Lemma substring_length_le (s : string) :
  forall n m, String.length (String.substring n m s) <= m.
Proof.
  induction s as [|c s IH]; intros [|n] [|m]; cbn; try lia.
  - specialize (IH 0 m). lia.
  - apply (IH n 0).
  - apply (IH n (S m)).
Qed.

Lemma sub_from_fuel (r : Re.regex) (repl : string) :
  forall bound s f1 f2 pos,
    String.length s <= bound ->
    String.length s <= f1 -> String.length s <= f2 ->
    Re.sub_from r repl f1 pos s = Re.sub_from r repl f2 pos s.
Proof.
  induction bound as [|bound IH]; intros s f1 f2 pos Hb H1 H2.
  - destruct s; [|cbn in Hb; lia]. destruct f1, f2; reflexivity.
  - destruct s as [|c s]; [destruct f1, f2; reflexivity|].
    cbn [String.length] in *.
    destruct f1 as [|f1]; [lia|]. destruct f2 as [|f2]; [lia|].
    cbn [Re.sub_from].
    destruct (Re.match_at r pos (String c s)) as [m|].
    + destruct (Re.m_end m - pos =? 0) eqn:E.
      * f_equal. apply IH; lia.
      * apply Nat.eqb_neq in E. f_equal.
        pose proof (substring_length_le (String c s) (Re.m_end m - pos)
                      (String.length (String c s) - (Re.m_end m - pos))) as L.
        cbn [String.length] in L |- *. apply IH; cbn [String.length]; lia.
    + f_equal. apply IH; lia.
Qed.

(** *** What a match tells about the text *)

Lemma rep_loop_sound {A : Type}
      (body : nat -> string -> Re.caps ->
              (nat -> string -> Re.caps -> option A) -> option A)
      (R : nat -> string -> Re.caps -> nat -> string -> Re.caps -> Prop)
      (g : bool) (mn : nat) (k : nat -> string -> Re.caps -> option A) :
  (forall pos s cs k' x,
      body pos s cs k' = Some x ->
      exists p' s' cs', R pos s cs p' s' cs' /\ k' p' s' cs' = Some x) ->
  forall fuel cnt pos s cs x,
    Re.rep_loop body g mn k fuel cnt pos s cs = Some x ->
    exists n p' s' cs',
      iter R n pos s cs p' s' cs' /\ mn <= cnt + n /\ k p' s' cs' = Some x.
Proof.
  intros Hbody. induction fuel as [|f IH]; intros cnt pos s cs x H;
    [discriminate H|].
  assert (More : forall y,
             body pos s cs
               (fun p' s' cs' =>
                  if String.length s' <? String.length s
                  then Re.rep_loop body g mn k f (S cnt) p' s' cs' else None)
             = Some y ->
             exists n p' s' cs',
               iter R n pos s cs p' s' cs' /\ mn <= cnt + n
               /\ k p' s' cs' = Some y).
  { intros y B. apply Hbody in B as (p1 & s1 & cs1 & HR & K).
    destruct (String.length s1 <? String.length s) eqn:L; [|discriminate K].
    apply Nat.ltb_lt in L.
    apply IH in K as (n & p' & s' & cs' & It & Hn & K).
    exists (S n), p', s', cs'. split; [|split; [lia | exact K]].
    exists p1, s1, cs1. auto. }
  assert (Stop : forall y,
             (if mn <=? cnt then k pos s cs else None) = Some y ->
             exists n p' s' cs',
               iter R n pos s cs p' s' cs' /\ mn <= cnt + n
               /\ k p' s' cs' = Some y).
  { intros y B. destruct (mn <=? cnt) eqn:L; [|discriminate B].
    apply Nat.leb_le in L. exists 0, pos, s, cs.
    split; [repeat split|]. split; [lia | exact B]. }
  simpl in H. destruct g.
  - destruct (body pos s cs _) as [y|].
    + inversion H; subst. apply More. reflexivity.
    + apply Stop, H.
  - destruct (if mn <=? cnt then k pos s cs else None) as [y|].
    + inversion H; subst. apply Stop. reflexivity.
    + apply More, H.
Qed.

(** Whatever the matcher returns, it returns through its continuation, at
    the end of a match of the pattern. *)
Lemma rmatch_sound (r : Re.regex) :
  forall (A : Type) pos s cs (k : nat -> string -> Re.caps -> option A) x,
    Re.rmatch r pos s cs k = Some x ->
    exists p' s' cs', matches r pos s cs p' s' cs' /\ k p' s' cs' = Some x.
Proof.
  induction r as [|cl|a IHa b IHb|a IHa b IHb|a IHa|g mn a IHa|n a IHa| |];
    intros A pos s cs k x H; cbn [Re.rmatch] in H.
  - exists pos, s, cs. repeat split; assumption.
  - destruct s as [|c s]; [discriminate H|].
    destruct (Re.in_cset cl c) eqn:E; [|discriminate H].
    exists (S pos), s, cs. split; [|exact H]. exists c. auto.
  - apply IHa in H as (p1 & s1 & cs1 & Ma & H).
    apply IHb in H as (p2 & s2 & cs2 & Mb & H).
    exists p2, s2, cs2. split; [|exact H]. exists p1, s1, cs1. auto.
  - destruct (Re.rmatch a pos s cs k) as [y|] eqn:E.
    + inversion H; subst. apply IHa in E as (p' & s' & cs' & M & K).
      exists p', s', cs'. split; [left; exact M | exact K].
    + apply IHb in H as (p' & s' & cs' & M & K).
      exists p', s', cs'. split; [right; exact M | exact K].
  - destruct (Re.rmatch a pos s cs k) as [y|] eqn:E.
    + inversion H; subst. apply IHa in E as (p' & s' & cs' & M & K).
      exists p', s', cs'. split; [left; exact M | exact K].
    + exists pos, s, cs. split; [right; repeat split | exact H].
  - apply (rep_loop_sound (Re.rmatch a) (matches a) g mn k (IHa A)) in H
      as (n & p' & s' & cs' & It & Hn & K).
    exists p', s', cs'. split; [|exact K]. exists n. split; [lia | exact It].
  - apply IHa in H as (p' & s' & cs' & M & K).
    eexists p', s', _. split; [|exact K]. exists cs'. split; [exact M|reflexivity].
  - destruct (pos =? 0) eqn:E; [|discriminate H]. apply Nat.eqb_eq in E.
    exists pos, s, cs. repeat split; assumption.
  - exists pos, s, cs.
    destruct s as [|c t]; [split; [repeat split; left; reflexivity | exact H]|].
    destruct c as [[] [] [] [] [] [] [] []]; try discriminate H.
    destruct t; [|discriminate H].
    split; [repeat split; right; reflexivity | exact H].
Qed.

Lemma re_match_sound (r : Re.regex) (s : string) (m : Re.rmatch_obj) :
  Re.re_match r s = Some m ->
  exists s', matches r 0 s [] (Re.m_end m) s' (Re.m_caps m).
Proof.
  unfold Re.re_match, Re.match_at. intros H.
  apply rmatch_sound in H as (p' & s' & cs' & M & K).
  inversion K; subst. exists s'. exact M.
Qed.

Lemma length_append (a b : string) :
  String.length (a ++ b) = String.length a + String.length b.
Proof. induction a as [|c a IH]; cbn; [reflexivity | rewrite IH; reflexivity]. Qed.

Lemma append_assoc (a b c : string) : (a ++ b) ++ c = a ++ b ++ c.
Proof. induction a as [|x a IH]; cbn; [reflexivity | rewrite IH; reflexivity]. Qed.

Lemma append_nil_r (s : string) : s ++ "" = s.
Proof. induction s as [|c s IH]; cbn; [reflexivity | rewrite IH; reflexivity]. Qed.

(** A match consumes a prefix of the text. *)
Lemma iter_consumes
      (R : nat -> string -> Re.caps -> nat -> string -> Re.caps -> Prop) :
  (forall pos s cs p' s' cs',
      R pos s cs p' s' cs' ->
      exists w, s = w ++ s' /\ p' = pos + String.length w) ->
  forall n pos s cs p' s' cs',
    iter R n pos s cs p' s' cs' ->
    exists w, s = w ++ s' /\ p' = pos + String.length w.
Proof.
  intros HR. induction n as [|n IH]; intros pos s cs p' s' cs' H; cbn in H.
  - destruct H as (-> & -> & _). exists EmptyString. split; [reflexivity|].
    cbn. lia.
  - destruct H as (p1 & s1 & cs1 & H1 & _ & H2).
    apply HR in H1 as (w1 & -> & ->). apply IH in H2 as (w2 & -> & ->).
    exists (w1 ++ w2). rewrite length_append, append_assoc.
    split; [reflexivity | lia].
Qed.

Lemma matches_consumes (r : Re.regex) :
  forall pos s cs p' s' cs',
    matches r pos s cs p' s' cs' ->
    exists w, s = w ++ s' /\ p' = pos + String.length w.
Proof.
  assert (Same : forall (pos : nat) (s : string),
             exists w, s = w ++ s /\ pos = pos + String.length w).
  { intros. exists EmptyString. split; [reflexivity | cbn; lia]. }
  induction r as [|cl|a IHa b IHb|a IHa b IHb|a IHa|g mn a IHa|n a IHa| |];
    intros pos s cs p' s' cs' H; cbn [matches] in H.
  - destruct H as (-> & -> & _). apply Same.
  - destruct H as (c & -> & _ & -> & _).
    exists (String c EmptyString). split; [reflexivity | cbn; lia].
  - destruct H as (p1 & s1 & cs1 & H1 & H2).
    apply IHa in H1 as (w1 & -> & ->). apply IHb in H2 as (w2 & -> & ->).
    exists (w1 ++ w2). rewrite length_append, append_assoc.
    split; [reflexivity | lia].
  - destruct H as [H|H]; [apply IHa in H | apply IHb in H]; exact H.
  - destruct H as [H|(-> & -> & _)]; [apply IHa in H; exact H | apply Same].
  - destruct H as (n & _ & H). eapply iter_consumes; [exact IHa | exact H].
  - destruct H as (cs1 & H & _). apply IHa in H. exact H.
  - destruct H as (_ & -> & -> & _). apply Same.
  - destruct H as (_ & -> & -> & _). apply Same.
Qed.

(** A match of a repetition that runs at least once starts on a character. *)
Lemma plus_truthy (g : bool) (mn : nat) (cl : Re.cset)
      (pos : nat) (s : string) (cs : Re.caps)
      (p' : nat) (s' : string) (cs' : Re.caps) :
  1 <= mn -> matches (Re.Rep g mn (Re.Chr cl)) pos s cs p' s' cs' ->
  Py.truthy s = true.
Proof.
  cbn [matches]. intros L (n & Hn & It). destruct n as [|n]; [lia|].
  cbn [iter matches] in It. destruct It as (p1 & s1 & cs1 & (c & -> & _) & _).
  reflexivity.
Qed.

(** *** Every possible match is found *)

Lemma rep_loop_complete {A : Type}
      (body : nat -> string -> Re.caps ->
              (nat -> string -> Re.caps -> option A) -> option A)
      (R : nat -> string -> Re.caps -> nat -> string -> Re.caps -> Prop)
      (g : bool) (mn : nat) (k : nat -> string -> Re.caps -> option A) :
  (forall pos s cs p' s' cs' k' x,
      R pos s cs p' s' cs' -> k' p' s' cs' = Some x ->
      exists y, body pos s cs k' = Some y) ->
  forall n fuel cnt pos s cs p' s' cs' x,
    iter R n pos s cs p' s' cs' -> mn <= cnt + n ->
    String.length s < fuel -> k p' s' cs' = Some x ->
    exists y, Re.rep_loop body g mn k fuel cnt pos s cs = Some y.
Proof.
  intros Hbody. induction n as [|n IH];
    intros fuel cnt pos s cs p' s' cs' x It Hn Hf K;
    (destruct fuel as [|f]; [lia|]); cbn [Re.rep_loop]; cbn [iter] in It.
  - destruct It as (-> & -> & ->).
    assert (L : (mn <=? cnt) = true) by (apply Nat.leb_le; lia).
    rewrite L, K. destruct g.
    + destruct (body pos s cs _) as [y|]; eauto.
    + eauto.
  - destruct It as (p1 & s1 & cs1 & HR & Hlen & It).
    assert (More : exists y,
               body pos s cs
                 (fun p' s' cs' =>
                    if String.length s' <? String.length s
                    then Re.rep_loop body g mn k f (S cnt) p' s' cs' else None)
               = Some y).
    { destruct (IH f (S cnt) p1 s1 cs1 p' s' cs' x It) as (y & Hy);
        [lia | lia | exact K |].
      eapply Hbody; [exact HR|].
      apply Nat.ltb_lt in Hlen. rewrite Hlen. exact Hy. }
    destruct More as (y & ->). destruct g; [eauto|].
    destruct (if mn <=? cnt then k pos s cs else None); eauto.
Qed.

(** The matcher fails only when the pattern has no match whose
    continuation succeeds. *)
Lemma rmatch_complete (r : Re.regex) :
  forall (A : Type) pos s cs p' s' cs'
         (k : nat -> string -> Re.caps -> option A) x,
    matches r pos s cs p' s' cs' -> k p' s' cs' = Some x ->
    exists y, Re.rmatch r pos s cs k = Some y.
Proof.
  induction r as [|cl|a IHa b IHb|a IHa b IHb|a IHa|g mn a IHa|n a IHa| |];
    intros A pos s cs p' s' cs' k x M K; cbn [matches] in M; cbn [Re.rmatch].
  - destruct M as (-> & -> & ->). eauto.
  - destruct M as (c & -> & Hc & -> & ->). rewrite Hc. eauto.
  - destruct M as (p1 & s1 & cs1 & Ma & Mb).
    destruct (IHb A _ _ _ _ _ _ k x Mb K) as (y & Hy).
    eapply IHa; [exact Ma | exact Hy].
  - destruct M as [M|M].
    + destruct (IHa A _ _ _ _ _ _ k x M K) as (y & ->). eauto.
    + destruct (Re.rmatch a pos s cs k); [eauto|]. eapply IHb; eassumption.
  - destruct M as [M|(-> & -> & ->)].
    + destruct (IHa A _ _ _ _ _ _ k x M K) as (y & ->). eauto.
    + destruct (Re.rmatch a pos s cs k); eauto.
  - destruct M as (n & Hn & It).
    eapply (rep_loop_complete (Re.rmatch a) (matches a) g mn k);
      [ intros; eapply IHa; eassumption | exact It | lia | lia | exact K ].
  - destruct M as (cs1 & M & ->). eapply IHa; [exact M|]. exact K.
  - destruct M as (-> & -> & -> & ->). eauto.
  - destruct M as ([-> | ->] & -> & -> & ->); eauto.
Qed.

Lemma re_match_complete (r : Re.regex) (s : string)
      (p' : nat) (s' : string) (cs' : Re.caps) :
  matches r 0 s [] p' s' cs' -> exists m, Re.re_match r s = Some m.
Proof.
  intros M. unfold Re.re_match, Re.match_at.
  eapply rmatch_complete; [exact M | reflexivity].
Qed.

(** *** Groups *)

Lemma get_set_cap (n : string) (v : string) (cs : Re.caps) :
  Re.get_cap n (Re.set_cap n v cs) = Some v.
Proof.
  induction cs as [|[k w] cs IH]; cbn.
  - rewrite String.eqb_refl. reflexivity.
  - destruct (String.eqb k n) eqn:E; cbn; rewrite E; auto.
Qed.

Lemma get_set_cap_other (n n' : string) (v : string) (cs : Re.caps) :
  String.eqb n' n = false ->
  Re.get_cap n (Re.set_cap n' v cs) = Re.get_cap n cs.
Proof.
  intros Hne. induction cs as [|[k w] cs IH]; cbn.
  - rewrite Hne. reflexivity.
  - destruct (String.eqb k n') eqn:E; cbn.
    + apply String.eqb_eq in E. subst k. rewrite Hne. reflexivity.
    + destruct (String.eqb k n); auto.
Qed.

Lemma matches_sets (n : string) (r : Re.regex) :
  forall pos s cs p' s' cs',
    matches r pos s cs p' s' cs' ->
    Re.get_cap n cs <> None \/ sets n r = true ->
    Re.get_cap n cs' <> None.
Proof.
  induction r as [|cl|a IHa b IHb|a IHa b IHb|a IHa|g mn a IHa|n' a IHa| |];
    intros pos s cs p' s' cs' H Hs; cbn [matches] in H; cbn [sets] in Hs.
  - destruct H as (_ & _ & ->). destruct Hs; [assumption | discriminate].
  - destruct H as (c & _ & _ & _ & ->). destruct Hs; [assumption | discriminate].
  - destruct H as (p1 & s1 & cs1 & H1 & H2).
    destruct Hs as [Hs|Hs].
    + eapply IHb; [exact H2|]. left. eapply IHa; [exact H1 | left; exact Hs].
    + apply orb_true_iff in Hs as [Hs|Hs].
      * eapply IHb; [exact H2|]. left. eapply IHa; [exact H1 | right; exact Hs].
      * eapply IHb; [exact H2 | right; exact Hs].
  - destruct H as [H|H]; [eapply IHa | eapply IHb]; try exact H;
      (destruct Hs as [Hs|Hs]; [left; exact Hs|]);
      apply andb_true_iff in Hs as [Ha Hb]; right; assumption.
  - destruct Hs as [Hs|Hs]; [|discriminate].
    destruct H as [H|(_ & _ & ->)]; [|exact Hs].
    eapply IHa; [exact H | left; exact Hs].
  - destruct H as (k & Hk & H).
    assert (Keep : forall j pos s cs p' s' cs',
               iter (matches a) j pos s cs p' s' cs' ->
               Re.get_cap n cs <> None -> Re.get_cap n cs' <> None).
    { induction j as [|j IHj]; intros q t ds q' t' ds' It Hd; cbn in It.
      - destruct It as (_ & _ & ->). exact Hd.
      - destruct It as (p1 & s1 & cs1 & H1 & _ & H2).
        eapply IHj; [exact H2|]. eapply IHa; [exact H1 | left; exact Hd]. }
    destruct Hs as [Hs|Hs]; [eapply Keep; eassumption|].
    apply andb_true_iff in Hs as [Hm Ha]. apply Nat.leb_le in Hm.
    destruct k as [|k]; [lia|]. cbn in H.
    destruct H as (p1 & s1 & cs1 & H1 & _ & H2).
    eapply Keep; [exact H2|]. eapply IHa; [exact H1 | right; exact Ha].
  - destruct H as (cs1 & H & ->).
    destruct (String.eqb n' n) eqn:E.
    + apply String.eqb_eq in E. subst. rewrite get_set_cap. discriminate.
    + rewrite get_set_cap_other by exact E.
      eapply IHa; [exact H|]. destruct Hs as [Hs|Hs]; [left; exact Hs|].
      right. exact Hs.
  - destruct H as (_ & _ & _ & ->). destruct Hs; [assumption | discriminate].
  - destruct H as (_ & _ & _ & ->). destruct Hs; [assumption | discriminate].
Qed.

(** A group that every match of [r] sets is present in the match object. *)
Lemma group_of_match (r : Re.regex) (n : string) (line : string)
      (m : Re.rmatch_obj) :
  sets n r = true -> Re.re_match r line = Some m ->
  exists v, Re.group m n = Some v.
Proof.
  intros Hs H. apply re_match_sound in H as (s' & M).
  pose proof (matches_sets n r _ _ _ _ _ _ M (or_intror Hs)) as G.
  unfold Re.group. destruct (Re.get_cap n (Re.m_caps m)) as [v|];
    [exists v; reflexivity | contradiction].
Qed.

Lemma get_strip_ok (r : Re.regex) (n line : string) (m : Re.rmatch_obj) :
  sets n r = true -> Re.re_match r line = Some m ->
  exists t, get_strip r m n = Ok t.
Proof.
  intros Hs H. unfold get_strip.
  destruct (Re.has_group r n); [|eexists; reflexivity].
  destruct (group_of_match r n line m Hs H) as (v & ->). eexists; reflexivity.
Qed.

(** Patterns that set no group leave the captures alone. *)
Lemma matches_no_group (r : Re.regex) :
  Re.group_names r = [] ->
  forall pos s cs p' s' cs', matches r pos s cs p' s' cs' -> cs' = cs.
Proof.
  induction r as [|cl|a IHa b IHb|a IHa b IHb|a IHa|g mn a IHa|n a IHa| |];
    cbn [Re.group_names]; intros G pos s cs p' s' cs' H; cbn [matches] in H.
  - tauto.
  - destruct H as (c & _ & _ & _ & ->). reflexivity.
  - apply app_eq_nil in G as (Ga & Gb).
    destruct H as (p1 & s1 & cs1 & H1 & H2).
    apply (IHa Ga) in H1. apply (IHb Gb) in H2. congruence.
  - apply app_eq_nil in G as (Ga & Gb).
    destruct H as [H|H]; [apply (IHa Ga) in H | apply (IHb Gb) in H]; exact H.
  - destruct H as [H|(_ & _ & ->)]; [apply (IHa G) in H; exact H | reflexivity].
  - destruct H as (k & _ & H). revert pos s cs H.
    induction k as [|k IHk]; intros pos s cs H; cbn in H.
    + tauto.
    + destruct H as (p1 & s1 & cs1 & H1 & _ & H2).
      apply (IHa G) in H1. apply IHk in H2. congruence.
  - discriminate G.
  - tauto.
  - tauto.
Qed.

Lemma substring_head (c : ascii) (t : string) (k : nat) :
  String.substring 0 (S k) (String c t) = String c (String.substring 0 k t).
Proof. reflexivity. Qed.

Lemma substring_prefix (w s : string) :
  String.substring 0 (String.length w) (w ++ s) = w.
Proof.
  induction w as [|c w IH]; cbn.
  - destruct s; reflexivity.
  - rewrite IH. reflexivity.
Qed.

(** A group around a pattern that consumes a first character [c] accepted
    by [cl] captures a text that starts with [c]. *)
Lemma group_head (n : string) (cl : Re.cset) (rest : Re.regex)
      (pos : nat) (s : string) (cs : Re.caps)
      (p' : nat) (s' : string) (cs' : Re.caps) :
  matches (Re.Grp n (Re.Seq (Re.Chr cl) rest)) pos s cs p' s' cs' ->
  exists c t, Re.in_cset cl c = true /\ Re.get_cap n cs' = Some (String c t).
Proof.
  cbn [matches]. intros (cs1 & (p1 & s1 & cs0 & (c & -> & Hc & -> & ->) & M) & ->).
  apply matches_consumes in M as (w & -> & ->).
  replace (S pos + String.length w - pos) with (S (String.length w)) by lia.
  rewrite substring_head, get_set_cap. eauto.
Qed.

Lemma group_head_plus (n : string) (cl : Re.cset)
      (pos : nat) (s : string) (cs : Re.caps)
      (p' : nat) (s' : string) (cs' : Re.caps) :
  matches (Re.Grp n (Re.plus (Re.Chr cl))) pos s cs p' s' cs' ->
  exists c t, Re.in_cset cl c = true /\ Re.get_cap n cs' = Some (String c t).
Proof.
  cbn [matches Re.plus]. intros (cs1 & (k & Hk & It) & ->).
  destruct k as [|k]; [lia|]. cbn [iter matches] in It.
  destruct It as (p1 & s1 & cs0 & (c & -> & Hc & -> & ->) & _ & It).
  apply (iter_consumes (matches (Re.Chr cl)) (matches_consumes (Re.Chr cl)))
    in It as (w & -> & ->).
  replace (S pos + String.length w - pos) with (S (String.length w)) by lia.
  rewrite substring_head, get_set_cap. eauto.
Qed.

(** ** Characters, strings, lists and dictionaries *)

Lemma all_chars_app (p : ascii -> bool) (a b : string) :
  all_chars p (a ++ b) = all_chars p a && all_chars p b.
Proof.
  induction a as [|c a IH]; simpl; [reflexivity|].
  rewrite IH, andb_assoc. reflexivity.
Qed.

Lemma all_chars_imp (p q : ascii -> bool) (s : string) :
  (forall c, p c = true -> q c = true) ->
  all_chars p s = true -> all_chars q s = true.
Proof.
  intros Hpq. induction s as [|c s IH]; simpl; [reflexivity|].
  intros H. apply andb_true_iff in H as [Hc Hs].
  rewrite (Hpq c Hc), (IH Hs). reflexivity.
Qed.

Lemma all_digits_inv (s : string) :
  all_digits s = true -> Py.truthy s = true /\ all_chars Py.isdigit s = true.
Proof. unfold all_digits. intros H. apply andb_true_iff in H. exact H. Qed.

Lemma digit_code (c : ascii) :
  Py.isdigit c = true -> 48 <= Py.code c <= 57.
Proof.
  unfold Py.isdigit. intros H. apply andb_true_iff in H as [H1 H2].
  apply Nat.leb_le in H1, H2. lia.
Qed.

Lemma code_neq_eqb (c x : ascii) :
  Py.code c <> Py.code x -> Ascii.eqb c x = false.
Proof. intros H. apply Ascii.eqb_neq. intros ->. apply H. reflexivity. Qed.

Lemma digit_not_space (c : ascii) : Py.isdigit c = true -> not_space c = true.
Proof.
  intros H. apply digit_code in H. unfold not_space, Py.isspace.
  destruct (Nat.leb_spec 9 (Py.code c)), (Nat.leb_spec (Py.code c) 13),
    (Nat.leb_spec 28 (Py.code c)), (Nat.leb_spec (Py.code c) 32),
    (Nat.eqb_spec (Py.code c) 133), (Nat.eqb_spec (Py.code c) 160);
    simpl; try reflexivity; lia.
Qed.

Lemma digit_not_int_space (c : ascii) :
  Py.isdigit c = true -> not_int_space c = true.
Proof.
  intros H. apply digit_code in H. unfold not_int_space, Py.int_space.
  destruct (Nat.leb_spec 9 (Py.code c)), (Nat.leb_spec (Py.code c) 13),
    (Nat.eqb_spec (Py.code c) 32),
    (Nat.eqb_spec (Py.code c) 133), (Nat.eqb_spec (Py.code c) 160);
    simpl; try reflexivity; lia.
Qed.

Lemma digit_not_comma (c : ascii) : Py.isdigit c = true -> not_comma c = true.
Proof.
  intros H. apply digit_code in H. unfold not_comma.
  rewrite code_neq_eqb; [reflexivity|]. vm_compute (Py.code ","). lia.
Qed.

Lemma digit_not_dash (c : ascii) : Py.isdigit c = true -> not_dash c = true.
Proof.
  intros H. apply digit_code in H. unfold not_dash.
  rewrite code_neq_eqb; [reflexivity|]. vm_compute (Py.code "-"). lia.
Qed.

Lemma space_not_comma (c : ascii) : Py.isspace c = true -> not_comma c = true.
Proof.
  intros H. unfold not_comma.
  destruct (Ascii.eqb_spec c ","); [subst; discriminate H | reflexivity].
Qed.

Lemma digit_not_upper (c : ascii) :
  Py.isdigit c = true -> Py.isupper_az c = false.
Proof.
  intros H. apply digit_code in H. unfold Py.isupper_az.
  destruct (Nat.leb_spec 65 (Py.code c)); [lia | reflexivity].
Qed.

Lemma space_not_upper (c : ascii) :
  Py.isspace c = true -> Py.isupper_az c = false.
Proof.
  unfold Py.isspace, Py.isupper_az. intros H.
  destruct (Nat.leb_spec 65 (Py.code c)) as [L|]; [|reflexivity].
  destruct (Nat.leb_spec (Py.code c) 90) as [U|]; [|reflexivity].
  destruct (Nat.leb_spec 9 (Py.code c)), (Nat.leb_spec (Py.code c) 13),
    (Nat.leb_spec 28 (Py.code c)), (Nat.leb_spec (Py.code c) 32),
    (Nat.eqb_spec (Py.code c) 133), (Nat.eqb_spec (Py.code c) 160);
    simpl in H; try discriminate H; lia.
Qed.

Lemma upper_not_space (c : ascii) :
  Re.in_cset (Re.Range "A" "Z") c = true -> Py.isspace c = false.
Proof.
  intros H. destruct (Py.isspace c) eqn:E; [|reflexivity].
  apply space_not_upper in E. change (Py.isupper_az c = true) in H. congruence.
Qed.

Lemma not_upper_not_roman (c : ascii) :
  Py.isupper_az c = false -> Re.mem c "IVX" = false.
Proof.
  intros H. simpl.
  destruct (Ascii.eqb_spec c "I"); [subst; discriminate H|].
  destruct (Ascii.eqb_spec c "V"); [subst; discriminate H|].
  destruct (Ascii.eqb_spec c "X"); [subst; discriminate H|].
  reflexivity.
Qed.

(** *** Runs of characters *)

(** A run of characters of a class is a match of its repetition. *)
Lemma iter_run (cl : Re.cset) (w : string) :
  forall pos s' cs,
    all_chars (Re.in_cset cl) w = true ->
    iter (matches (Re.Chr cl)) (String.length w) pos (w ++ s') cs
         (pos + String.length w) s' cs.
Proof.
  induction w as [|c w IH]; intros pos s' cs H; cbn.
  - repeat split. lia.
  - cbn in H. apply andb_true_iff in H as (Hc & Hw).
    exists (S pos), (w ++ s'), cs. split; [exists c; auto|]. split; [lia|].
    replace (pos + S (String.length w)) with (S pos + String.length w) by lia.
    apply IH, Hw.
Qed.

Lemma matches_run (g : bool) (mn : nat) (cl : Re.cset) (w : string)
      (pos : nat) (s' : string) (cs : Re.caps) :
  all_chars (Re.in_cset cl) w = true -> mn <= String.length w ->
  matches (Re.Rep g mn (Re.Chr cl)) pos (w ++ s') cs
          (pos + String.length w) s' cs.
Proof.
  intros H L. cbn [matches]. exists (String.length w).
  split; [exact L | apply iter_run, H].
Qed.

Lemma matches_run_all (g : bool) (mn : nat) (cl : Re.cset) (w : string)
      (pos : nat) (cs : Re.caps) :
  all_chars (Re.in_cset cl) w = true -> mn <= String.length w ->
  matches (Re.Rep g mn (Re.Chr cl)) pos w cs (pos + String.length w) "" cs.
Proof.
  intros H L. pose proof (matches_run g mn cl w pos "" cs H L) as M.
  rewrite append_nil_r in M. exact M.
Qed.

(** *** [int] on a run of digits *)

Lemma digits_val_run (s : string) :
  forall acc, all_chars Py.isdigit s = true ->
              Py.digits_val acc false s = Some (decimal_value acc s).
Proof.
  induction s as [|c s IH]; intros acc H; simpl in *; [reflexivity|].
  apply andb_true_iff in H as [Hc Hs]. rewrite Hc. apply IH, Hs.
Qed.

Lemma digits_val_start (s : string) :
  all_digits s = true -> Py.digits_val 0 true s = Some (decimal_value 0 s).
Proof.
  unfold all_digits. destruct s as [|c s]; simpl; [discriminate|].
  intros H. apply andb_true_iff in H as [Hc Hs]. rewrite Hc.
  apply digits_val_run, Hs.
Qed.

Lemma int_lstrip_id (s : string) :
  all_chars not_int_space s = true -> Py.int_lstrip s = s.
Proof.
  destruct s as [|c s]; simpl; [reflexivity|]. intros H.
  apply andb_true_iff in H as [Hc _]. unfold not_int_space in Hc.
  apply negb_true_iff in Hc. rewrite Hc. reflexivity.
Qed.

Lemma int_rstrip_id (s : string) :
  all_chars not_int_space s = true -> Py.int_rstrip s = s.
Proof.
  induction s as [|c s IH]; simpl; [reflexivity|]. intros H.
  apply andb_true_iff in H as [Hc Hs]. rewrite (IH Hs).
  unfold not_int_space in Hc. apply negb_true_iff in Hc. rewrite Hc.
  destruct s; reflexivity.
Qed.

(** A literal that starts with a digit carries no sign. *)
Lemma int_of_digits (s : string) :
  all_digits s = true -> Py.int s = Some (decimal_value 0 s).
Proof.
  intros H. unfold Py.int.
  assert (Hd : all_chars Py.isdigit s = true).
  { unfold all_digits in H. apply andb_true_iff in H. tauto. }
  assert (Hn : all_chars not_int_space s = true).
  { eapply all_chars_imp; [|exact Hd]. apply digit_not_int_space. }
  rewrite (int_lstrip_id s Hn), (int_rstrip_id s Hn).
  rewrite <- (digits_val_start s H).
  destruct s as [|c s]; [reflexivity|].
  simpl in Hd. apply andb_true_iff in Hd as [Hc _].
  destruct c as [[] [] [] [] [] [] [] []];
    first [ discriminate Hc | reflexivity ].
Qed.

(** *** [strip], [split] and [join] *)

Lemma lstrip_spaces (pad s : string) :
  all_chars Py.isspace pad = true -> Py.lstrip (pad ++ s) = Py.lstrip s.
Proof.
  induction pad as [|c pad IH]; simpl; [reflexivity|]. intros H.
  apply andb_true_iff in H as [Hc Hp]. rewrite Hc. apply IH, Hp.
Qed.

Lemma rstrip_spaces_only (pad : string) :
  all_chars Py.isspace pad = true -> Py.rstrip pad = EmptyString.
Proof.
  induction pad as [|c pad IH]; simpl; [reflexivity|]. intros H.
  apply andb_true_iff in H as [Hc Hp]. rewrite (IH Hp), Hc. reflexivity.
Qed.

Lemma rstrip_spaces (s pad : string) :
  all_chars Py.isspace pad = true -> Py.rstrip (s ++ pad) = Py.rstrip s.
Proof.
  intros H. induction s as [|c s IH]; simpl.
  - apply rstrip_spaces_only, H.
  - rewrite IH. reflexivity.
Qed.

Lemma lstrip_id (s : string) :
  all_chars not_space s = true -> Py.lstrip s = s.
Proof.
  destruct s as [|c s]; simpl; [reflexivity|]. intros H.
  apply andb_true_iff in H as [Hc _]. unfold not_space in Hc.
  apply negb_true_iff in Hc. rewrite Hc. reflexivity.
Qed.

Lemma rstrip_id (s : string) :
  all_chars not_space s = true -> Py.rstrip s = s.
Proof.
  induction s as [|c s IH]; simpl; [reflexivity|]. intros H.
  apply andb_true_iff in H as [Hc Hs]. rewrite (IH Hs).
  unfold not_space in Hc. apply negb_true_iff in Hc. rewrite Hc.
  destruct s; reflexivity.
Qed.

Lemma strip_padded (pad1 core pad2 : string) :
  all_chars Py.isspace pad1 = true ->
  all_chars Py.isspace pad2 = true ->
  all_chars not_space core = true ->
  Py.strip (pad1 ++ core ++ pad2) = core.
Proof.
  intros H1 H2 Hc. unfold Py.strip.
  rewrite lstrip_spaces by exact H1.
  destruct core as [|c core].
  - simpl. assert (E : Py.lstrip pad2 = EmptyString); [|rewrite E; reflexivity].
    clear H1. induction pad2 as [|x pad2 IH]; simpl in *; [reflexivity|].
    apply andb_true_iff in H2 as [Hx Hp]. rewrite Hx. apply IH, Hp.
  - assert (E : Py.lstrip (String c core ++ pad2) = String c core ++ pad2).
    { simpl in Hc |- *. apply andb_true_iff in Hc as [Hx _].
      unfold not_space in Hx. apply negb_true_iff in Hx. rewrite Hx.
      reflexivity. }
    rewrite E, rstrip_spaces by exact H2. apply rstrip_id, Hc.
Qed.

Lemma rstrip_head (s : string) (d : ascii) (r : string) :
  Py.rstrip s = String d r -> exists s', s = String d s'.
Proof.
  destruct s as [|c s]; simpl; [discriminate|].
  destruct (Py.rstrip s); [destruct (Py.isspace c)|];
    intros H; inversion H; subst; eauto.
Qed.

Lemma lstrip_head (s : string) (d : ascii) (r : string) :
  Py.lstrip s = String d r ->
  exists c s', s = String c s' /\ (c = d \/ Py.isspace c = true).
Proof.
  destruct s as [|c s]; simpl; [discriminate|].
  destruct (Py.isspace c) eqn:E; intros H.
  - exists c, s. auto.
  - inversion H; subst. exists d, r. auto.
Qed.

Lemma strip_truthy_head (c : ascii) (t : string) :
  Py.isspace c = false -> Py.truthy (Py.strip (String c t)) = true.
Proof.
  intros H. unfold Py.strip. cbn [Py.lstrip]. rewrite H. cbn [Py.rstrip].
  destruct (Py.rstrip t); [rewrite H|]; reflexivity.
Qed.

Lemma strip_truthy_indented (indent : string) (t0 : ascii) (w : string) :
  all_chars Py.isspace indent = true -> Py.isspace t0 = false ->
  Py.truthy (Py.strip (indent ++ String t0 w)) = true.
Proof.
  intros Hi Ht. unfold Py.strip. rewrite lstrip_spaces by exact Hi.
  apply (strip_truthy_head t0 w Ht).
Qed.

Lemma strip_truthy (s : string) :
  all_chars Py.isspace s = false -> Py.truthy (Py.strip s) = true.
Proof.
  induction s as [|c s IH]; cbn [all_chars]; [discriminate|].
  destruct (Py.isspace c) eqn:Hc; cbn [andb]; intros H.
  - unfold Py.strip. cbn [Py.lstrip]. rewrite Hc. apply IH, H.
  - apply strip_truthy_head, Hc.
Qed.

Lemma rstrip_idempotent (s : string) : Py.rstrip (Py.rstrip s) = Py.rstrip s.
Proof.
  induction s as [|c s IH]; cbn [Py.rstrip]; [reflexivity|].
  destruct (Py.rstrip s) as [|d r] eqn:E.
  - destruct (Py.isspace c) eqn:Hc; cbn [Py.rstrip]; [reflexivity|].
    rewrite Hc. reflexivity.
  - cbn [Py.rstrip] in IH |- *. rewrite IH. destruct (Py.rstrip r); reflexivity.
Qed.

Lemma rstrip_all_chars (p : ascii -> bool) (s : string) :
  all_chars p s = true -> all_chars p (Py.rstrip s) = true.
Proof.
  induction s as [|c s IH]; cbn; [reflexivity|]. intros H.
  apply andb_true_iff in H as (Hc & Hs). specialize (IH Hs).
  destruct (Py.rstrip s); [destruct (Py.isspace c)|]; cbn in *;
    rewrite ?Hc, ?IH; reflexivity.
Qed.

Lemma rstrip_suffix (a b : string) :
  Py.rstrip (a ++ b) = a ++ b -> Py.truthy b = true -> Py.rstrip b = b.
Proof.
  induction a as [|c a IH]; cbn [append]; [auto|]. cbn [Py.rstrip].
  intros H Tb. destruct (Py.rstrip (a ++ b)) as [|d r] eqn:E.
  - assert (a ++ b = "") as Z
        by (destruct (Py.isspace c); inversion H; reflexivity).
    destruct a; cbn in Z; [subst; discriminate Tb | discriminate Z].
  - inversion H as [H']. apply IH; [congruence | exact Tb].
Qed.

Lemma rstrip_fixed_truthy (s : string) :
  Py.rstrip s = s -> Py.truthy s = true -> Py.truthy (Py.strip s) = true.
Proof.
  intros H T. apply strip_truthy.
  destruct (all_chars Py.isspace s) eqn:E; [|reflexivity].
  rewrite (rstrip_spaces_only s E) in H. subst. discriminate T.
Qed.

(** Where a text that continues with a dot can end inside an indented
    line whose title starts with neither whitespace nor a dot. *)
Lemma before_the_dots (indent : string) :
  forall w r t0 rest,
    w ++ String "." r = indent ++ String t0 rest ->
    all_chars Py.isspace indent = true ->
    Ascii.eqb t0 "." = false ->
    exists w', w = indent ++ String t0 w'.
Proof.
  induction indent as [|i indent IH]; intros w r t0 rest E Hi Ht; cbn in E.
  - destruct w as [|c w]; cbn in E; inversion E; subst.
    + rewrite Ascii.eqb_refl in Ht. discriminate Ht.
    + exists w. reflexivity.
  - cbn in Hi. apply andb_true_iff in Hi as (Hc & Hi).
    destruct w as [|c w]; cbn in E; inversion E; subst.
    + discriminate Hc.
    + destruct (IH w r t0 rest H1 Hi Ht) as (w' & ->). exists w'. reflexivity.
Qed.

Lemma contains_app_sep (sep : ascii) (a b : string) :
  Py.contains (String sep EmptyString) (a ++ String sep b) = true.
Proof.
  induction a as [|c a IH]; simpl.
  - destruct (ascii_dec sep sep) as [_|N]; [|contradiction].
    destruct b; reflexivity.
  - rewrite IH. apply orb_true_r.
Qed.

Lemma split_on_none (sep : ascii) (s : string) :
  all_chars (fun c => negb (Ascii.eqb c sep)) s = true ->
  Py.split_on sep s = [s].
Proof.
  induction s as [|c s IH]; simpl; [reflexivity|]. intros H.
  apply andb_true_iff in H as [Hc Hs]. apply negb_true_iff in Hc.
  rewrite Hc, (IH Hs). reflexivity.
Qed.

Lemma split_on_app (sep : ascii) (a b : string) :
  all_chars (fun c => negb (Ascii.eqb c sep)) a = true ->
  Py.split_on sep (a ++ String sep b) = a :: Py.split_on sep b.
Proof.
  induction a as [|c a IH]; simpl.
  - intros _. rewrite Ascii.eqb_refl. reflexivity.
  - intros H. apply andb_true_iff in H as [Hc Ha]. apply negb_true_iff in Hc.
    rewrite Hc, (IH Ha). reflexivity.
Qed.

Lemma split_on_join (sep : ascii) (chunks : list string) :
  chunks <> [] ->
  Forall (fun s => all_chars (fun c => negb (Ascii.eqb c sep)) s = true) chunks ->
  Py.split_on sep (Py.join (String sep EmptyString) chunks) = chunks.
Proof.
  induction chunks as [|x t IH]; intros Hne H; [contradiction|].
  inversion H as [|? ? Hx Ht]; subst.
  destruct t as [|y t].
  - simpl. apply split_on_none, Hx.
  - change (Py.join (String sep EmptyString) (x :: y :: t))
      with (x ++ String sep (Py.join (String sep EmptyString) (y :: t))).
    rewrite split_on_app by exact Hx. f_equal. apply IH; [discriminate|exact Ht].
Qed.

Lemma split_on_no_sep (sep : ascii) (s : string) :
  Forall (fun l => all_chars (fun c => negb (Ascii.eqb c sep)) l = true)
         (Py.split_on sep s).
Proof.
  induction s as [|c s IH]; cbn [Py.split_on]; [repeat constructor|].
  destruct (Ascii.eqb c sep) eqn:E; [constructor; [reflexivity | exact IH]|].
  destruct (Py.split_on sep s) as [|h t]; [repeat constructor; cbn; rewrite E; reflexivity|].
  inversion IH; subst. constructor; [|assumption]. cbn. rewrite E. assumption.
Qed.

Lemma truthy_app_l (a b : string) :
  Py.truthy a = true -> Py.truthy (a ++ b) = true.
Proof. destruct a; [discriminate | reflexivity]. Qed.

Lemma truthy_app_r (a b : string) :
  Py.truthy b = true -> Py.truthy (a ++ b) = true.
Proof. destruct a; [auto | reflexivity]. Qed.

Lemma truthy_join (sep : string) (before after : list string) (x : string) :
  Py.truthy x = true ->
  Py.truthy (Py.join sep (before ++ x :: after)) = true.
Proof.
  intros Hx. induction before as [|y t IH].
  - simpl. destruct after; [exact Hx | apply truthy_app_l, Hx].
  - simpl. destruct (t ++ x :: after)%list eqn:E.
    + destruct t; discriminate E.
    + destruct y; simpl; [|reflexivity].
      destruct sep; simpl; [exact IH | reflexivity].
Qed.

(** *** Lists and dictionaries *)

Lemma skipn_exact {A} (l1 l2 : list A) : skipn (List.length l1) (l1 ++ l2) = l2.
Proof. induction l1; simpl; auto. Qed.

Lemma combine_map_r {A B C} (f : B -> C) (l : list A) (l' : list B) :
  map (fun p => (fst p, f (snd p))) (combine l l') = combine l (map f l').
Proof.
  revert l'. induction l as [|x l IH]; intros [|y l']; simpl; try reflexivity.
  rewrite IH. reflexivity.
Qed.

Lemma in_combine_seq {A} (l : list A) :
  forall s i x, In (i, x) (combine (seq s (List.length l)) l) ->
                s <= i /\ nth_error l (i - s) = Some x.
Proof.
  induction l as [|y l IH]; intros s i x H; simpl in H; [destruct H|].
  destruct H as [H|H].
  - inversion H; subst. rewrite Nat.sub_diag. auto.
  - apply IH in H as (L & N). split; [lia|].
    replace (i - s) with (S (i - S s)) by lia. exact N.
Qed.

Lemma in_enumerate {A} (l : list A) (i : nat) (x : A) :
  In (i, x) (Comp.enumerate l) -> nth_error l i = Some x.
Proof.
  intros H. apply in_combine_seq in H as (_ & N).
  rewrite Nat.sub_0_r in N. exact N.
Qed.

Lemma dict_get_in {K V} (eqb : K -> K -> bool) (k : K) (v : V)
      (d : list (K * V)) :
  Dict.get eqb k d = Some v -> In v (Dict.values d).
Proof.
  induction d as [|[k' v'] d IH]; simpl; [discriminate|].
  destruct (eqb k' k); intros H; [inversion H; auto | auto].
Qed.

Lemma dict_set_in {K V} (eqb : K -> K -> bool) (k : K) (v x : V)
      (d : list (K * V)) :
  In x (Dict.values (Dict.set eqb k v d)) -> x = v \/ In x (Dict.values d).
Proof.
  induction d as [|[k' v'] d IH]; simpl.
  - intros [H|[]]; auto.
  - destruct (eqb k' k); simpl; intros [H|H]; auto.
    destruct (IH H); auto.
Qed.

Lemma dict_get_set {V} (k : string) (v : V) (d : list (string * V)) :
  Dict.get String.eqb k (Dict.set String.eqb k v d) = Some v.
Proof.
  induction d as [|[k' v'] d IH]; cbn.
  - rewrite String.eqb_refl. reflexivity.
  - destruct (String.eqb k' k) eqn:E; cbn; rewrite E; auto.
Qed.

(* ================================================================== *)
(** * toc_extractor.py *)

(** ** The classifier and the index loop raise on no text *)

(** [_parse_toc_line] raises on no line: the title group takes part in
    every match of every TOC pattern. *)
Lemma toc_try_patterns_total (ps : list Re.regex) (line : string) :
  Forall (fun r => sets "title" r = true) ps ->
  exists e, Toc.try_patterns ps line = Ok e.
Proof.
  induction ps as [|r ps IH]; intros F; cbn [Toc.try_patterns].
  - eexists; reflexivity.
  - inversion F as [|? ? Hr Hps]; subst.
    destruct (Re.re_match r line) as [m|] eqn:E; [|apply IH, Hps].
    destruct (get_strip_ok r "title" line m Hr E) as (t & ->). cbn [bind].
    destruct (Py.truthy t); [eexists; reflexivity | apply IH, Hps].
Qed.

Lemma parse_toc_line_total (line : string) :
  exists e, Toc._parse_toc_line line = Ok e.
Proof.
  apply toc_try_patterns_total. repeat constructor.
Qed.

Lemma collect_total (lines : list string) :
  forall self, fst (Toc.collect lines self) = Ok tt.
Proof.
  induction lines as [|l rest IH]; intros self; cbn [Toc.collect];
    [reflexivity|].
  destruct (negb _); [apply IH|]. destruct (_ <? 5); [apply IH|].
  destruct (parse_toc_line_total (Py.rstrip l)) as ([e|] & ->); apply IH.
Qed.

(** A TOC call returns the empty list or raises [ValueError]. *)
Lemma extract_toc_outcomes (room : Z) (self : Toc.TOCExtractor) (text : string) :
  fst (Toc.extract_toc_from_text room self text false) = Ok (Toc.TocEntries [])
  \/ fst (Toc.extract_toc_from_text room self text false) = Raise ValueError.
Proof.
  unfold Toc.extract_toc_from_text, Toc._extract_toc, Toc._extract_toc_lines.
  pose proof (collect_total (Toc.lines_of text)
                (Toc.mkExtractor [] [] (Toc.index_entries self))) as T.
  destruct (Toc.collect _ _) as [[u|e] self1]; [|discriminate T].
  destruct self1 as [st [|x t] idx]; [left | right]; reflexivity.
Qed.

Lemma first_match_single (r : Re.regex) (line : string) :
  Toc.first_match [r] line
  = option_map (fun m => (r, m)) (Re.re_match r line).
Proof. cbn. destruct (Re.re_match r line); reflexivity. Qed.

Lemma index_step_total (room : Z) (st : Toc.index_loop) (l : string) :
  main_term_known st ->
  exists st', Toc.index_step room st l = Ok st' /\ main_term_known st'.
Proof.
  intros Inv. unfold Toc.index_step.
  destruct (negb _); [eauto|].
  change (firstn 1 Toc.index_patterns) with [Toc.index_pattern_1].
  change (firstn 1 (skipn 1 Toc.index_patterns)) with [Toc.index_pattern_2].
  rewrite !first_match_single.
  destruct (Re.re_match Toc.index_pattern_1 (Py.rstrip l)) as [m|] eqn:E1;
    cbn [option_map].
  - destruct (get_strip_ok Toc.index_pattern_1 "term" _ m eq_refl E1)
      as (t & ->). cbn [bind].
    destruct (Py.truthy t); [|eauto].
    eexists. split; [reflexivity|]. unfold main_term_known. cbn.
    rewrite dict_get_set. discriminate.
  - destruct (Toc.current_main_term st) as [cur|] eqn:C; [|eauto].
    destruct (Py.truthy cur && _); [|eauto].
    destruct (Re.re_match Toc.index_pattern_2 (Py.rstrip l)) as [m|] eqn:E2;
      cbn [option_map]; [|eauto].
    destruct (get_strip_ok Toc.index_pattern_2 "subterm" _ m eq_refl E2)
      as (t & ->). cbn [bind].
    destruct (Py.truthy t); [|eauto].
    unfold main_term_known in Inv. rewrite C in Inv.
    destruct (Dict.get String.eqb cur (Toc.i_entries st)) as [e|];
      [|contradiction].
    eexists. split; [reflexivity|]. unfold main_term_known. cbn.
    rewrite dict_get_set. discriminate.
Qed.

Lemma index_loop_total (room : Z) (lines : list string) :
  forall st, main_term_known st ->
             fst (Toc.index_loop_run room lines st) = Ok tt.
Proof.
  induction lines as [|l rest IH]; intros st Inv; cbn [Toc.index_loop_run];
    [reflexivity|].
  destruct (index_step_total room st l Inv) as (st' & -> & Inv'). apply IH, Inv'.
Qed.

Lemma extract_index_total (room : Z) (self : Toc.TOCExtractor) (text : string) :
  exists entries,
    fst (Toc.extract_toc_from_text room self text true) = Ok (Toc.IndexEntries entries).
Proof.
  unfold Toc.extract_toc_from_text, Toc._extract_index.
  pose proof (index_loop_total room (Toc.lines_of text) (Toc.mkIndexLoop [] None) I)
    as T.
  destruct (Toc.index_loop_run room _ _) as [[u|e] st]; [|discriminate T].
  eexists. reflexivity.
Qed.

(** ** C1: the four-line example *)

(** C1 fails on the code: the call returns no root at all. *)
Lemma C1_counterexample : ~ c1_claim.
Proof.
  intros (room & roots & self' & H & a & d & Ha & _).
  vm_compute in H. inversion H; subst. destruct Ha.
Qed.

(** C1, amended. For the text "1. A" / "  1.1 B" / "  1.2 C" / "2. D" the
    call returns the empty list: "1. A" and "2. D" are four characters long
    and fall under the length guard, and the two indented lines end in no
    page number, so that no pattern matches them. *)
Theorem C1_example_yields_no_entry (room : Z) :
  Toc.extract_toc_from_text room Toc.new_TOCExtractor c1_input false
  = (Ok (Toc.TocEntries []), Toc.new_TOCExtractor)
  /\ Toc.lines_of c1_input = ["1. A"; "  1.1 B"; "  1.2 C"; "2. D"]
  /\ String.length (Py.strip "1. A") = 4
  /\ String.length (Py.strip "2. D") = 4
  /\ Toc._parse_toc_line "  1.1 B" = Ok None
  /\ Toc._parse_toc_line "  1.2 C" = Ok None.
Proof. repeat split; vm_compute; reflexivity. Qed.

(** ** C2: the hierarchy pass *)

(** Whatever the entries are, the sort that opens [_determine_hierarchy]
    raises as soon as there is one entry: its key function looks the entry
    up in the list being sorted, which is empty for the duration. *)
Lemma determine_hierarchy_raises (st : list Toc.TOCEntry) (x : nat)
      (t : list nat) (idx : list (string * Toc.IndexEntry)) :
  Toc._determine_hierarchy (Toc.mkExtractor st (x :: t) idx)
  = (Raise ValueError, Toc.mkExtractor st (x :: t) idx).
Proof. reflexivity. Qed.

(** C2. [_determine_hierarchy] does not perform the walk the claim
    describes: on any list of at least one entry, the one-entry list of
    "Introduction 10" included, it raises [ValueError] and attaches
    nothing; and with a sort that could see the list, the entries are
    walked in level order, so that the entry of the first line ("Deep",
    reference 0, level 1) ends up as a child of the entry of the second
    line ("Top", reference 1, level 0). *)
Theorem C2_hierarchy_pass_raises :
  (forall st x t idx,
      fst (Toc._determine_hierarchy (Toc.mkExtractor st (x :: t) idx))
      = Raise ValueError)
  /\ fst (Toc._determine_hierarchy
            (snd (Toc.collect ["Introduction 10"] Toc.new_TOCExtractor)))
     = Raise ValueError
  /\ map Toc.level (Toc.store two_entries) = [1; 0]
  /\ Toc.toc_entries two_entries = [0; 1]
  /\ (let r := Toc.determine_hierarchy_with (fun l => l) two_entries in
      fst r = Ok [1]
      /\ map Toc.children (Toc.store (snd r)) = [[]; [0]]).
Proof.
  split; [intros; rewrite determine_hierarchy_raises; reflexivity|].
  repeat split; by_evaluation.
Qed.

(** ** C9: the level of an indented, dotted line *)

Lemma indented_dotted_match (indent : string) (t0 : ascii) (rest dots page : string) :
  all_chars (Re.in_cset Re.AnyChar) (indent ++ String t0 rest) = true ->
  all_chars (Re.in_cset (Re.OneOf ".")) dots = true -> 2 <= String.length dots ->
  all_digits page = true ->
  exists m, Re.re_match Toc.toc_pattern_1 (indented_dotted indent t0 rest dots page) = Some m.
Proof.
  intros Ht Hd Ld Hp. apply all_digits_inv in Hp as (Tp & Hp).
  unfold indented_dotted.
  replace (indent ++ String t0 rest ++ dots ++ page)
    with ((indent ++ String t0 rest) ++ dots ++ page ++ "").
  2:{ rewrite append_nil_r, append_assoc. reflexivity. }
  eapply re_match_complete.
  unfold Toc.toc_pattern_1, Toc.title_group, Toc.page_group, Toc.digits,
    Re.at_least, Re.lazy_star, Re.plus, Toc.dot.
  cbn [Re.seqs Re.lit].
  cbn [matches].
  eexists _, _, _. split; [right; repeat split|].
  eexists _, _, _. split.
  { eexists. split; [|reflexivity].
    apply (matches_run false 0 Re.AnyChar _ 0 _ [] Ht). lia. }
  eexists _, _, _. split.
  { apply (matches_run true 2 (Re.OneOf ".") dots _ _ _ Hd Ld). }
  eexists _, _, _. split.
  { eexists. split; [|reflexivity].
    apply (matches_run true 1 Re.Digit page _ _ _ Hp).
    destruct page; [discriminate Tp | cbn; lia]. }
  repeat split. left. reflexivity.
Qed.

Lemma prefix_needs_digit (c : ascii) (s : string) (pos : nat) (cs : Re.caps)
      (p' : nat) (s' : string) (cs' : Re.caps) :
  matches (Re.Grp "prefix"
             (Re.Seq (Re.plus (Re.Seq Toc.digits Toc.dot)) (Re.star (Re.Chr Re.Space))))
          pos (String c s) cs p' s' cs' ->
  Py.isdigit c = true.
Proof.
  unfold Re.plus, Toc.digits, Re.plus. cbn [matches].
  intros (cs1 & (p1 & s1 & cs2 & (n & Hn & It) & _) & _).
  destruct n as [|n]; [lia|]. cbn [iter matches] in It.
  destruct It as (p2 & s2 & cs3 & (p3 & s3 & cs4 & (k & Hk & It) & _) & _).
  destruct k as [|k]; [lia|]. cbn [iter matches] in It.
  destruct It as (p4 & s4 & cs5 & (c' & E & Hc & _) & _).
  inversion E; subst. exact Hc.
Qed.

Lemma indented_dotted_groups (indent : string) (t0 : ascii) (rest dots page : string)
      (m : Re.rmatch_obj) :
  Py.truthy indent = true -> all_chars Py.isspace indent = true ->
  Py.isspace t0 = false -> Ascii.eqb t0 "." = false ->
  Re.re_match Toc.toc_pattern_1 (indented_dotted indent t0 rest dots page) = Some m ->
  Re.group m "prefix" = None
  /\ exists w, Re.group m "title" = Some w /\ Py.truthy (Py.strip w) = true.
Proof.
  intros Ti Hi Ht Hdot Hm. apply re_match_sound in Hm as (s' & M).
  unfold Toc.toc_pattern_1, Toc.title_group, Toc.page_group,
    Re.at_least, Re.lazy_star, Toc.dot in M.
  cbn [Re.seqs Re.lit] in M.
  set (P := Re.Grp "prefix" _) in M.
  set (T := Re.Rep false 0 _) in M.
  set (D := Re.Rep true 2 _) in M.
  set (G := Toc.digits) in M.
  cbn [matches] in M.
  destruct M as (p0 & s0 & cs0 & Mopt & p1 & s1 & cs1 & (ct & Mt & ->)
                 & p2 & s2 & cs2 & Md
                 & p3 & s3 & cs3 & (cp & Mp & ->) & (_ & _ & _ & Ec)).
  destruct Mopt as [Mopt | (-> & -> & ->)].
  { exfalso. unfold indented_dotted in Mopt.
    destruct indent as [|i indent]; [discriminate Ti|].
    cbn in Hi. apply andb_true_iff in Hi as (Hsp & _).
    cbn [append] in Mopt. apply prefix_needs_digit in Mopt.
    apply digit_not_space in Mopt. unfold not_space in Mopt.
    rewrite Hsp in Mopt. discriminate Mopt. }
  pose proof (matches_consumes _ _ _ _ _ _ _ Mt) as (w & E & ->).
  apply (matches_no_group T eq_refl) in Mt. subst ct.
  pose proof (matches_no_group D eq_refl _ _ _ _ _ _ Md) as Ed.
  apply (matches_no_group G eq_refl) in Mp. subst cp cs2.
  subst D. cbn [matches] in Md. destruct Md as (n & Hn & Md).
  destruct n as [|n]; [lia|]. cbn [iter matches] in Md.
  destruct Md as (q & t & cq & (c & -> & Hc & _) & _).
  assert (c = "."%char) as ->.
  { cbn in Hc. rewrite orb_false_r in Hc. apply Ascii.eqb_eq in Hc. exact Hc. }
  unfold indented_dotted in E. cbn [append] in E.
  destruct (before_the_dots indent w t t0 _ (eq_sym E) Hi Hdot) as (w' & ->).
  replace (0 + String.length (indent ++ String t0 w') - 0)
    with (String.length (indent ++ String t0 w')) in Ec by lia.
  unfold indented_dotted in Ec. cbn [append] in Ec. rewrite E in Ec.
  rewrite substring_prefix in Ec.
  unfold Re.group. rewrite Ec. cbn.
  split; [reflexivity|]. eexists. split; [reflexivity|].
  apply strip_truthy_indented; assumption.
Qed.

(** Such a line is classified by the first pattern, at level 0. *)
Lemma parse_indented_dotted (indent : string) (t0 : ascii)
      (rest dots page : string) :
  Py.truthy indent = true -> all_chars Py.isspace indent = true ->
  Py.isspace t0 = false -> Ascii.eqb t0 "." = false ->
  all_chars (Re.in_cset Re.AnyChar) (indent ++ String t0 rest) = true ->
  all_chars (Re.in_cset (Re.OneOf ".")) dots = true ->
  2 <= String.length dots ->
  all_digits page = true ->
  exists e,
    Toc._parse_toc_line (indented_dotted indent t0 rest dots page) = Ok (Some e)
    /\ Toc.level e = 0.
Proof.
  intros Ti Hi Ht Hdot Hany Hd Ld Hp.
  destruct (indented_dotted_match indent t0 rest dots page Hany Hd Ld Hp)
    as (m & Hm).
  destruct (indented_dotted_groups indent t0 rest dots page m Ti Hi Ht Hdot Hm)
    as (Gp & w & Gt & Tw).
  unfold Toc._parse_toc_line, Toc.toc_patterns. cbn [Toc.try_patterns].
  rewrite Hm.
  assert (S : get_strip Toc.toc_pattern_1 m "title" = Ok (Py.strip w)).
  { unfold get_strip. rewrite Gt. reflexivity. }
  rewrite S. cbn [bind]. rewrite Tw. eexists. split; [reflexivity|].
  cbn [Toc.new_TOCEntry Toc.level]. unfold Toc.level_of_match, group_if_set.
  rewrite Gp. reflexivity.
Qed.

(** C9. A line made of leading whitespace, a title that starts with neither
    whitespace nor a dot, two or more dots and a page number is not given
    level floor(leading whitespace / 2): the first pattern, whose prefix is
    optional, accepts it with the leading whitespace inside the title, and the
    entry gets level 0. So it is for the line of the source's own example of
    the indented pattern (four spaces, "Introduction", dots, 10), which that
    pattern alone would put at level 2. *)
Theorem C9_indented_dotted_line_level :
  Toc._parse_toc_line c9_line
  = Ok (Some (Toc.mkEntry 0 "Introduction" (Some 10%Z) c9_line []))
  /\ option_map (fun m => (Re.group m "prefix", Re.group m "title"))
                (Re.re_match Toc.toc_pattern_1 c9_line)
     = Some (None, Some "    Introduction")
  /\ option_map (Toc.level_of_match Toc.toc_pattern_5)
                (Re.re_match Toc.toc_pattern_5 c9_line) = Some 2
  /\ (forall indent t0 rest dots page,
         2 <= String.length indent ->
         all_chars Py.isspace indent = true ->
         Py.isspace t0 = false -> Ascii.eqb t0 "." = false ->
         all_chars (Re.in_cset Re.AnyChar) (indent ++ String t0 rest) = true ->
         all_chars (Re.in_cset (Re.OneOf ".")) dots = true ->
         2 <= String.length dots ->
         all_digits page = true ->
         exists e,
           Toc._parse_toc_line (indented_dotted indent t0 rest dots page)
           = Ok (Some e)
           /\ Toc.level e = 0
           /\ Toc.level e <> String.length indent / 2).
Proof.
  split; [by_evaluation|]. split; [by_evaluation|]. split; [by_evaluation|].
  intros indent t0 rest dots page Li Hi Ht Hdot Hany Hd Ld Hp.
  destruct (parse_indented_dotted indent t0 rest dots page) as (e & He & L0);
    try assumption.
  { destruct indent; [cbn in Li; lia | reflexivity]. }
  exists e. split; [exact He|]. split; [exact L0|]. rewrite L0.
  intros Z. symmetry in Z. apply Nat.div_small_iff in Z; lia.
Qed.

Lemma C9_indented_dotted_line_level_witness :
  exists e,
    Toc._parse_toc_line c9_line = Ok (Some e)
    /\ Toc.level e = 0 /\ Toc.level e <> 4 / 2.
Proof.
  apply (proj2 (proj2 (proj2 C9_indented_dotted_line_level))
           "    " "I"%char "ntroduction" ".............." "10").
  - cbn. lia.
  - reflexivity.
  - reflexivity.
  - reflexivity.
  - reflexivity.
  - reflexivity.
  - cbn. lia.
  - reflexivity.
Defined.

(** ** C10: the length guard of the first pass *)

Lemma collect_skips_short (l : string) (rest : list string)
      (self : Toc.TOCExtractor) :
  long_enough l = false -> Toc.collect (l :: rest) self = Toc.collect rest self.
Proof.
  unfold long_enough. intros H. apply Nat.leb_gt in H. simpl.
  destruct (negb (Py.truthy (Py.strip (Py.rstrip l)))); [reflexivity|].
  apply Nat.ltb_lt in H. rewrite H. reflexivity.
Qed.

Lemma collect_filter (lines : list string) :
  forall self, Toc.collect lines self = Toc.collect (filter long_enough lines) self.
Proof.
  induction lines as [|l rest IH]; intros self; [reflexivity|].
  cbn [filter]. destruct (long_enough l) eqn:E.
  - cbn [Toc.collect].
    destruct (negb _); [apply IH|]. destruct (_ <? 5); [apply IH|].
    destruct (Toc._parse_toc_line _) as [[e|]|e]; auto.
  - rewrite collect_skips_short by exact E. apply IH.
Qed.

(** C10. A line whose trimmed length is below 5 is skipped by the first
    pass before [_parse_toc_line] is called: dropping such lines from the
    text changes neither the result nor the state; "2. D" is such a line,
    and so is "A 1", although the classifier alone would accept it. *)
Theorem C10_short_lines_discarded :
  (forall l rest self,
      String.length (Py.strip (Py.rstrip l)) < 5 ->
      Toc.collect (l :: rest) self = Toc.collect rest self)
  /\ (forall self text,
         Toc._extract_toc self text
         = Toc._extract_toc_lines self (filter long_enough (Toc.lines_of text)))
  /\ Toc.collect ["2. D"] Toc.new_TOCExtractor = (Ok tt, Toc.new_TOCExtractor)
  /\ Toc._parse_toc_line "A 1"
     = Ok (Some (Toc.mkEntry 0 "A" (Some 1%Z) "A 1" []))
  /\ Toc._extract_toc Toc.new_TOCExtractor "A 1" = (Ok [], Toc.new_TOCExtractor).
Proof.
  split.
  { intros l rest self H. apply collect_skips_short.
    unfold long_enough. apply Nat.leb_gt. exact H. }
  split.
  { intros self text. unfold Toc._extract_toc, Toc._extract_toc_lines.
    rewrite <- collect_filter. reflexivity. }
  repeat split; vm_compute; reflexivity.
Qed.

Lemma C10_short_lines_discarded_witness :
  String.length (Py.strip (Py.rstrip "2. D")) < 5
  /\ Toc.collect ["2. D"; "Introduction 10"] Toc.new_TOCExtractor
     = Toc.collect ["Introduction 10"] Toc.new_TOCExtractor.
Proof.
  split; [vm_compute; lia|].
  apply (proj1 C10_short_lines_discarded). vm_compute; lia.
Defined.

(** ** C4: every call starts from a reset state *)

Lemma collect_index_entries (lines : list string) :
  forall self,
    Toc.index_entries (snd (Toc.collect lines self)) = Toc.index_entries self.
Proof.
  induction lines as [|l rest IH]; intros self; [reflexivity|].
  cbn [Toc.collect].
  destruct (negb _); [apply IH|]. destruct (_ <? 5); [apply IH|].
  destruct (Toc._parse_toc_line _) as [[e|]|e]; [|apply IH|reflexivity].
  rewrite IH. reflexivity.
Qed.

Lemma determine_hierarchy_index_entries
      (view : list nat -> list nat) (self : Toc.TOCExtractor) :
  Toc.index_entries (snd (Toc.determine_hierarchy_with view self))
  = Toc.index_entries self.
Proof.
  unfold Toc.determine_hierarchy_with.
  destruct (Toc.sorted_entries view self); reflexivity.
Qed.

(** A TOC call reads nothing of the instance but [index_entries], which it
    hands back unchanged. *)
Lemma extract_toc_lines_reset (self self' : Toc.TOCExtractor)
      (lines : list string) :
  Toc.index_entries self = Toc.index_entries self' ->
  Toc._extract_toc_lines self lines = Toc._extract_toc_lines self' lines.
Proof. intros H. unfold Toc._extract_toc_lines. rewrite H. reflexivity. Qed.

Lemma extract_toc_lines_index_entries (self : Toc.TOCExtractor)
      (lines : list string) :
  Toc.index_entries (snd (Toc._extract_toc_lines self lines))
  = Toc.index_entries self.
Proof.
  unfold Toc._extract_toc_lines.
  pose proof (collect_index_entries lines
                (Toc.mkExtractor [] [] (Toc.index_entries self))) as H.
  destruct (Toc.collect _ _) as [[u|e] self1]; simpl in *; [|exact H].
  destruct (Toc.toc_entries self1) eqn:E; [exact H|].
  pose proof (determine_hierarchy_index_entries Toc.sorting_view self1) as H'.
  unfold Toc._determine_hierarchy.
  destruct (Toc.determine_hierarchy_with _ _) as [[r|e] self2]; simpl in *;
    congruence.
Qed.

Lemma extract_toc_twice (room : Z) (self : Toc.TOCExtractor) (text : string)
      (is_index : bool) :
  Toc.extract_toc_from_text room
    (snd (Toc.extract_toc_from_text room self text is_index)) text is_index
  = Toc.extract_toc_from_text room self text is_index.
Proof.
  unfold Toc.extract_toc_from_text. destruct is_index.
  - unfold Toc._extract_index.
    destruct (Toc.index_loop_run room _ _) as [[u|e] st]; reflexivity.
  - unfold Toc._extract_toc.
    rewrite (extract_toc_lines_reset
               (snd (let (o, self') := Toc._extract_toc_lines self
                                         (Toc.lines_of text) in
                     match o with
                     | Ok l => (Ok (Toc.TocEntries l), self')
                     | Raise e => (Raise e, self')
                     end))
               self); [reflexivity|].
    pose proof (extract_toc_lines_index_entries self (Toc.lines_of text)) as H.
    destruct (Toc._extract_toc_lines _ _) as [[l|e] self']; exact H.
Qed.

(** What the first pass returns and stores does not depend on
    [index_entries]. *)
Lemma collect_reset (lines : list string) :
  forall a b,
    Toc.store a = Toc.store b ->
    Toc.toc_entries a = Toc.toc_entries b ->
    fst (Toc.collect lines a) = fst (Toc.collect lines b)
    /\ Toc.store (snd (Toc.collect lines a))
       = Toc.store (snd (Toc.collect lines b))
    /\ Toc.toc_entries (snd (Toc.collect lines a))
       = Toc.toc_entries (snd (Toc.collect lines b)).
Proof.
  induction lines as [|l rest IH]; intros a b Hs Ht; [auto|].
  cbn [Toc.collect].
  destruct (negb _); [auto|]. destruct (_ <? 5); [auto|].
  destruct (Toc._parse_toc_line _) as [[e|]|e]; [|auto|auto].
  apply IH; unfold Toc.append_entry; simpl; congruence.
Qed.

Lemma extract_toc_lines_independent (self self' : Toc.TOCExtractor)
      (lines : list string) :
  let r := Toc._extract_toc_lines self lines in
  let r' := Toc._extract_toc_lines self' lines in
  fst r = fst r'
  /\ Toc.store (snd r) = Toc.store (snd r')
  /\ Toc.toc_entries (snd r) = Toc.toc_entries (snd r').
Proof.
  cbn zeta. unfold Toc._extract_toc_lines.
  destruct (collect_reset lines
              (Toc.mkExtractor [] [] (Toc.index_entries self))
              (Toc.mkExtractor [] [] (Toc.index_entries self'))
              eq_refl eq_refl) as (G1 & G2 & G3).
  destruct (Toc.collect lines (Toc.mkExtractor [] [] (Toc.index_entries self)))
    as [o1 [st1 te1 ie1]].
  destruct (Toc.collect lines (Toc.mkExtractor [] [] (Toc.index_entries self')))
    as [o2 [st2 te2 ie2]].
  simpl in G1, G2, G3. subst o2 st2 te2.
  destruct o1 as [u|e]; [|auto].
  destruct te1 as [|x t]; simpl; auto.
Qed.

(** C4 fails on the code: a call resets the attribute it rebuilds and no
    other.  An extractor that has read the index line "Algorithms, 10" still
    holds that entry after a TOC call, which leaves none in a new
    instance. *)
Lemma C4_counterexample : ~ c4_claim.
Proof.
  intros (room & C).
  destruct (C "") as (T & _).
  destruct (T (after_an_index room) false) as (_ & _ & E).
  vm_compute in E. discriminate E.
Qed.

(** C4, amended. Calling the same extraction twice in a row on one instance
    gives the same outcome and leaves the same attributes both times, and
    what a call returns does not depend on what the instance held before.
    A call resets what it rebuilds and nothing else: a TOC call rebuilds
    [toc_entries] (and the entries they refer to) from nothing and leaves
    [index_entries] as they were; an index call rebuilds [index_entries]
    and leaves [toc_entries] and their entries as they were; a component
    call rebuilds [components] and [categories].  The outcome of a TOC
    call, the same both times, is the empty list or [ValueError]. *)
Theorem C4_extraction_idempotent (room : Z) (text : string) :
  (forall self is_index,
      Toc.extract_toc_from_text room
        (snd (Toc.extract_toc_from_text room self text is_index)) text is_index
      = Toc.extract_toc_from_text room self text is_index)
  /\ (forall self,
         Comp.extract_components_from_text
           (snd (Comp.extract_components_from_text self text)) text
         = Comp.extract_components_from_text self text)
  /\ (forall self self',
         let r := Toc.extract_toc_from_text room self text false in
         let r' := Toc.extract_toc_from_text room self' text false in
         fst r = fst r'
         /\ Toc.store (snd r) = Toc.store (snd r')
         /\ Toc.toc_entries (snd r) = Toc.toc_entries (snd r'))
  /\ (forall self,
         let r := Toc.extract_toc_from_text room self text false in
         Toc.index_entries (snd r) = Toc.index_entries self
         /\ (fst r = Ok (Toc.TocEntries []) \/ fst r = Raise ValueError))
  /\ (forall self self',
         let r := Toc.extract_toc_from_text room self text true in
         let r' := Toc.extract_toc_from_text room self' text true in
         fst r = fst r'
         /\ Toc.index_entries (snd r) = Toc.index_entries (snd r'))
  /\ (forall self,
         let r := Toc.extract_toc_from_text room self text true in
         Toc.toc_entries (snd r) = Toc.toc_entries self
         /\ Toc.store (snd r) = Toc.store self)
  /\ (forall self self',
         Comp.extract_components_from_text self text
         = Comp.extract_components_from_text self' text).
Proof.
  split; [intros; apply extract_toc_twice|].
  split; [intros; reflexivity|].
  split.
  { intros self self'. cbn zeta.
    unfold Toc.extract_toc_from_text, Toc._extract_toc.
    destruct (extract_toc_lines_independent self self' (Toc.lines_of text))
      as (G1 & G2 & G3).
    destruct (Toc._extract_toc_lines self _) as [[l|e] s1];
      destruct (Toc._extract_toc_lines self' _) as [[l'|e'] s2];
      simpl in *; try discriminate; repeat split; congruence. }
  split.
  { intros self. cbn zeta. split; [|apply extract_toc_outcomes].
    unfold Toc.extract_toc_from_text, Toc._extract_toc.
    pose proof (extract_toc_lines_index_entries self (Toc.lines_of text)) as H.
    destruct (Toc._extract_toc_lines _ _) as [[l|e] self1]; exact H. }
  split.
  { intros self self'. cbn zeta.
    unfold Toc.extract_toc_from_text, Toc._extract_index.
    destruct (Toc.index_loop_run room _ _) as [[u|e] st]; split; reflexivity. }
  split; [|intros; reflexivity].
  intros self. cbn zeta.
  unfold Toc.extract_toc_from_text, Toc._extract_index.
  destruct (Toc.index_loop_run room _ _) as [[u|e] st]; split; reflexivity.
Qed.

(** ** C5: page lists *)




Lemma range_token_chars (p : ascii -> bool) (a b : string) :
  (forall c, Py.isdigit c = true -> p c = true) -> p "-"%char = true ->
  all_digits a = true -> all_digits b = true ->
  all_chars p (range_token a b) = true.
Proof.
  intros Hp Hd Ha Hb. apply all_digits_inv in Ha as [_ Ha], Hb as [_ Hb].
  unfold range_token. rewrite all_chars_app. simpl. rewrite Hd.
  rewrite (all_chars_imp _ _ a Hp Ha), (all_chars_imp _ _ b Hp Hb). reflexivity.
Qed.

(** *** What a list takes in *)


(** An empty range is taken on every machine. *)
Lemma extend_range_empty (room x y : Z) :
  (y <= x)%Z -> Toc.extend_range room x y = Some [].
Proof.
  intros L. unfold Toc.extend_range, Toc.range_len, Toc.py_range.
  replace (Z.max 0 (y - x)) with 0%Z by lia. cbn [Z.eqb orb].
  replace (Z.to_nat (y - x)) with 0 by lia. reflexivity.
Qed.



(** *** Range tokens *)

(** The chunk [a-b] of two runs of digits: the range from [a] to [b] goes
    through [extend], and the text of the chunk is kept when that fails. *)
Lemma parse_chunk_range (room : Z) (a b : string) :
  all_digits a = true -> all_digits b = true ->
  Toc.parse_chunk room (range_token a b)
  = match Toc.extend_range room (decimal_value 0 a) (decimal_value 0 b + 1) with
    | Some items => map Toc.PInt items
    | None => [Toc.PStr (range_token a b)]
    end.
Proof.
  intros Ha Hb. unfold Toc.parse_chunk, range_token. cbn [append].
  rewrite (contains_app_sep "-" a b).
  rewrite split_on_app.
  2:{ apply all_digits_inv in Ha as [_ Ha].
      eapply all_chars_imp; [|exact Ha]. apply digit_not_dash. }
  rewrite split_on_none.
  2:{ apply all_digits_inv in Hb as [_ Hb].
      eapply all_chars_imp; [|exact Hb]. apply digit_not_dash. }
  rewrite (int_of_digits a Ha), (int_of_digits b Hb). reflexivity.
Qed.

(** A range token in a page list is parsed at its place, whatever stands
    around it. *)
Lemma parse_page_refs_range (room : Z) (before after : list string)
      (pad1 pad2 a b : string) :
  all_digits a = true -> all_digits b = true ->
  all_chars Py.isspace pad1 = true -> all_chars Py.isspace pad2 = true ->
  Forall (fun s => all_chars not_comma s = true) before ->
  Forall (fun s => all_chars not_comma s = true) after ->
  Toc._parse_page_refs room
    (Some (Py.join "," (before ++ (pad1 ++ range_token a b ++ pad2) :: after)))
  = (flat_map (Toc.parse_chunk room) (map Py.strip before)
     ++ Toc.parse_chunk room (range_token a b)
     ++ flat_map (Toc.parse_chunk room) (map Py.strip after))%list.
Proof.
  intros Ha Hb H1 H2 Hbefore Hafter. unfold Toc._parse_page_refs.
  rewrite truthy_join.
  2:{ apply truthy_app_r, truthy_app_l. unfold range_token.
      apply truthy_app_l. apply all_digits_inv in Ha. tauto. }
  cbn [negb]. rewrite (split_on_join ",").
  2:{ destruct before; discriminate. }
  2:{ apply Forall_app. split; [exact Hbefore|]. constructor; [|exact Hafter].
      change (all_chars not_comma (pad1 ++ range_token a b ++ pad2) = true).
      rewrite !all_chars_app.
      rewrite (all_chars_imp _ _ pad1 space_not_comma H1).
      rewrite (all_chars_imp _ _ pad2 space_not_comma H2).
      rewrite (range_token_chars not_comma a b digit_not_comma eq_refl Ha Hb).
      reflexivity. }
  rewrite map_app, flat_map_app. cbn [map flat_map].
  rewrite strip_padded; [| exact H1 | exact H2
                         | apply range_token_chars;
                           [apply digit_not_space | reflexivity | exact Ha | exact Hb] ].
  reflexivity.
Qed.





(* ================================================================== *)
(** * component_extractor.py *)

(** ** Category headers and bare numbers *)

(** No category pattern accepts a line whose first character is not an
    upper-case letter. *)
Lemma match_category_non_upper (c : ascii) (s : string) :
  Py.isupper_az c = false -> Comp._match_category (String c s) = Ok None.
Proof.
  intros H. pose proof (not_upper_not_roman c H) as R.
  assert (U : Re.in_cset (Re.Range "A" "Z") c = false) by exact H.
  unfold Comp._match_category, Comp.category_patterns, Comp.match_category_in,
    Re.re_match, Re.match_at,
    Comp.category_pattern_1, Comp.category_pattern_2, Comp.category_pattern_3,
    Comp.upper_phrase, Re.plus.
  cbn [Re.rmatch Re.seqs Re.lit Re.rep_loop Nat.eqb Nat.leb].
  rewrite U.
  change (Re.in_cset (Re.OneOf "IVX") c) with (Re.mem c "IVX"). rewrite R.
  reflexivity.
Qed.

Lemma category_name_truthy (line n : string) :
  Comp._match_category line = Ok (Some n) -> Py.truthy n = true.
Proof.
  unfold Comp._match_category, Comp.category_patterns.
  cbn [Comp.match_category_in].
  assert (Head : forall r m,
             Re.re_match r line = Some m ->
             (exists pos s cs p' s',
                 matches (Re.Grp "category" Comp.upper_phrase)
                         pos s cs p' s' (Re.m_caps m)) ->
             forall v, Re.group m "category" = Some v ->
                       Py.truthy (Py.strip v) = true).
  { intros r m _ (pos & s & cs & p' & s' & M) v Hv.
    apply group_head in M as (c & t & Hc & G).
    unfold Re.group in Hv. rewrite G in Hv. inversion Hv; subst.
    apply strip_truthy_head, upper_not_space, Hc. }
  destruct (Re.re_match Comp.category_pattern_1 line) as [m|] eqn:E1.
  { cbn [Re.has_group Re.group_names Comp.category_pattern_1 Re.seqs existsb
         String.eqb Ascii.eqb Bool.eqb orb app Re.lit Comp.upper_phrase Re.plus].
    destruct (Re.group m "category") as [v|] eqn:G; [|discriminate].
    intros H. inversion H; subst. apply (Head _ m E1); [|exact G].
    apply re_match_sound in E1 as (s' & M).
    unfold Comp.category_pattern_1 in M. cbn [Re.seqs matches Re.lit] in M.
    destruct M as (p1 & s1 & cs1 & (_ & -> & -> & ->) & p2 & s2 & cs2 & M
                   & (c & _ & _ & _ & ->)).
    exists 0, line, [], p2, s2. exact M. }
  destruct (Re.re_match Comp.category_pattern_2 line) as [m|] eqn:E2.
  { cbn [Re.has_group Re.group_names Comp.category_pattern_2 Re.seqs existsb
         String.eqb Ascii.eqb Bool.eqb orb app Re.lit Comp.upper_phrase Re.plus].
    destruct (Re.group m "category") as [v|] eqn:G; [|discriminate].
    intros H. inversion H; subst. apply (Head _ m E2); [|exact G].
    apply re_match_sound in E2 as (s' & M).
    unfold Comp.category_pattern_2 in M. cbn [Re.seqs matches] in M.
    destruct M as (p1 & s1 & cs1 & (_ & -> & -> & ->) & p2 & s2 & cs2 & M
                   & (_ & _ & _ & ->)).
    exists 0, line, [], p2, s2. exact M. }
  destruct (Re.re_match Comp.category_pattern_3 line) as [m|] eqn:E3;
    [|discriminate].
  cbn [Re.has_group Re.group_names Comp.category_pattern_3 Re.seqs existsb
       String.eqb Ascii.eqb Bool.eqb orb app Re.lit Comp.upper_phrase Re.plus
       Re.star].
  destruct (Re.group m "category") as [v|] eqn:G; [|discriminate].
  intros H. inversion H; subst. apply (Head _ m E3); [|exact G].
  apply re_match_sound in E3 as (s' & M).
  unfold Comp.category_pattern_3 in M. cbn [Re.seqs] in M.
  destruct M as (p1 & s1 & cs1 & _ & p2 & s2 & cs2 & _ & p3 & s3 & cs3 & _ & M).
  exists p3, s3, cs3, (Re.m_end m), s'. exact M.
Qed.

Lemma match_category_in_total (ps : list Re.regex) (line : string) :
  Forall (fun r => sets "category" r = true) ps ->
  exists c, Comp.match_category_in ps line = Ok c.
Proof.
  induction ps as [|r ps IH]; intros F; cbn [Comp.match_category_in].
  - eexists; reflexivity.
  - inversion F as [|? ? Hr Hps]; subst.
    destruct (Re.re_match r line) as [m|] eqn:E; [|apply IH, Hps].
    destruct (Re.has_group r "category"); [|apply IH, Hps].
    destruct (group_of_match r "category" line m Hr E) as (v & ->).
    eexists; reflexivity.
Qed.

(** [_match_category] raises on no line, and a name it returns is not
    empty. *)
Lemma match_category_total (line : string) :
  Comp._match_category line = Ok None
  \/ exists n, Comp._match_category line = Ok (Some n) /\ Py.truthy n = true.
Proof.
  destruct (match_category_in_total Comp.category_patterns line) as (c & H);
    [repeat constructor|].
  fold (Comp._match_category line) in H. destruct c as [n|]; [right | left; exact H].
  exists n. split; [exact H | eapply category_name_truthy, H].
Qed.

Lemma header_not_blank (l n : string) : header_line l n -> is_blank l = false.
Proof.
  unfold header_line, is_blank. destruct (Py.rstrip l) as [|c t].
  - intros H. vm_compute in H. discriminate H.
  - intros H. destruct (Py.isupper_az c) eqn:U.
    + rewrite strip_truthy_head; [reflexivity|]. apply upper_not_space. exact U.
    + rewrite (match_category_non_upper c t U) in H. discriminate H.
Qed.

(** A line that the bare-number pattern accepts starts with a digit. *)
Lemma standalone_head (x : string) (m : Re.rmatch_obj) :
  Re.re_match Comp.standalone_number x = Some m ->
  exists d rest, x = String d rest /\ Py.isdigit d = true.
Proof.
  destruct x as [|d rest]; [vm_compute; discriminate|].
  intros H. exists d, rest. split; [reflexivity|].
  destruct (Py.isdigit d) eqn:E; [reflexivity|].
  unfold Re.re_match, Re.match_at, Comp.standalone_number in H.
  cbn in H. rewrite E in H. cbn in H. discriminate H.
Qed.

(** A line made of a number and a delimiter is no category header. *)
Lemma standalone_not_category (l : string) (m : Re.rmatch_obj) :
  Re.re_match Comp.standalone_number (Py.strip (Py.rstrip l)) = Some m ->
  Comp._match_category (Py.rstrip l) = Ok None.
Proof.
  intros H. apply standalone_head in H as (d & rest & E & Hd).
  unfold Py.strip in E. apply rstrip_head in E as (s' & E).
  apply lstrip_head in E as (c & x' & E & Hc). rewrite E.
  apply match_category_non_upper.
  destruct Hc as [-> | Hc]; [apply digit_not_upper, Hd | apply space_not_upper, Hc].
Qed.

Lemma standalone_not_blank (l : string) (m : Re.rmatch_obj) :
  Re.re_match Comp.standalone_number (Py.strip (Py.rstrip l)) = Some m ->
  is_blank l = false.
Proof.
  intros H. apply standalone_head in H as (d & rest & E & _).
  unfold is_blank. rewrite E. reflexivity.
Qed.

(** The number captured on a bare-number line is not empty. *)
Lemma standalone_number_captured (x : string) (m : Re.rmatch_obj) :
  Re.re_match Comp.standalone_number x = Some m ->
  exists n, Re.group m "1" = Some n /\ Py.truthy n = true.
Proof.
  intros H. apply re_match_sound in H as (s' & M).
  unfold Comp.standalone_number in M. cbn [Re.seqs] in M.
  destruct M as (p1 & s1 & cs1 & _ & p2 & s2 & cs2 & G & p3 & s3 & cs3 & D
                 & p4 & s4 & cs4 & S & E).
  apply group_head_plus in G as (c & t & _ & G).
  apply (matches_no_group Comp.delim eq_refl) in D.
  apply (matches_no_group (Re.star (Re.Chr Re.Space)) eq_refl) in S.
  apply (matches_no_group Re.Eol eq_refl) in E.
  exists (String c t). split; [|reflexivity].
  unfold Re.group. congruence.
Qed.

(** ** Component extraction raises on no text *)

(** Whatever the fifth component pattern accepts, the first accepts. *)
Lemma pattern_1_of_5 (line : string) (m5 : Re.rmatch_obj) :
  all_chars (Re.in_cset Re.AnyChar) line = true ->
  Re.re_match Comp.component_pattern_5 line = Some m5 ->
  exists m1, Re.re_match Comp.component_pattern_1 line = Some m1.
Proof.
  intros Hany H5. apply re_match_sound in H5 as (s' & M).
  unfold Comp.component_pattern_5 in M. cbn [Re.seqs] in M.
  set (N := Re.Grp "number" _) in M. set (D := Comp.delim) in M.
  set (S := Comp.spaces) in M. set (O := Re.Opt _) in M.
  cbn [matches] in M.
  destruct M as (p0 & s0 & cs0 & (_ & -> & -> & ->) & p1 & s1 & cs1 & Mn
                 & p2 & s2 & cs2 & Md & p3 & s3 & cs3 & Ms
                 & p4 & s4 & cs4 & (ct & Mt & _) & _).
  pose proof (plus_truthy _ _ _ _ _ _ _ _ _ (le_n 1) Mt) as T3.
  pose proof (matches_consumes _ _ _ _ _ _ _ Mn) as (w1 & E1 & _).
  pose proof (matches_consumes _ _ _ _ _ _ _ Md) as (w2 & E2 & _).
  pose proof (matches_consumes _ _ _ _ _ _ _ Ms) as (w3 & E3 & _).
  assert (A3 : all_chars (Re.in_cset Re.AnyChar) s3 = true).
  { rewrite E1, E2, E3, !all_chars_app in Hany.
    do 3 (apply andb_true_iff in Hany as (_ & Hany)). exact Hany. }
  eapply re_match_complete.
  unfold Comp.component_pattern_1, Comp.rest_title. cbn [Re.seqs].
  fold N D S. cbn [matches].
  eexists 0, line, []. split; [repeat split|].
  eexists p1, s1, cs1. split; [exact Mn|].
  eexists p2, s2, cs2. split; [exact Md|].
  eexists p3, s3, cs3. split; [exact Ms|].
  eexists _, _, _. split.
  { eexists. split; [|reflexivity].
    apply (matches_run_all true 1 Re.AnyChar s3 p3 cs3 A3).
    destruct s3; [discriminate T3 | cbn; lia]. }
  repeat split. left. reflexivity.
Qed.

(** On a line without newline and without trailing whitespace, a match of
    the first component pattern gives a number and a title. *)
Lemma pattern_1_returns (line : string) (m : Re.rmatch_obj) :
  all_chars (Re.in_cset Re.AnyChar) line = true ->
  Py.rstrip line = line ->
  Re.re_match Comp.component_pattern_1 line = Some m ->
  exists num t,
    Comp.number_of_match Comp.component_pattern_1 m = Some num
    /\ get_strip Comp.component_pattern_1 m "title" = Ok t
    /\ Py.truthy t = true.
Proof.
  intros Hany Hr H1. apply re_match_sound in H1 as (s' & M).
  unfold Comp.component_pattern_1, Comp.rest_title in M. cbn [Re.seqs] in M.
  set (N := Re.Grp "number" _) in M. set (D := Comp.delim) in M.
  set (S := Comp.spaces) in M. set (T := Re.plus _) in M.
  cbn [matches] in M.
  destruct M as (p0 & s0 & cs0 & (_ & -> & -> & ->) & p1 & s1 & cs1 & Mn
                 & p2 & s2 & cs2 & Md & p3 & s3 & cs3 & Ms
                 & p4 & s4 & cs4 & (ct & Mt & ->) & (Hend & _ & -> & Ec)).
  pose proof (plus_truthy _ _ _ _ _ _ _ _ _ (le_n 1) Mt) as T3.
  pose proof (matches_consumes _ _ _ _ _ _ _ Mn) as (w1 & E1 & _).
  pose proof (matches_consumes _ _ _ _ _ _ _ Md) as (w2 & E2 & _).
  pose proof (matches_consumes _ _ _ _ _ _ _ Ms) as (w3 & E3 & _).
  pose proof (matches_consumes _ _ _ _ _ _ _ Mt) as (wt & Et & Ep).
  apply group_head_plus in Mn as (c & t & _ & Gn).
  apply (matches_no_group D eq_refl) in Md.
  apply (matches_no_group S eq_refl) in Ms.
  apply (matches_no_group T eq_refl) in Mt. subst cs2 cs3 ct.
  assert (s4 = "") as ->.
  { destruct Hend as [-> | ->]; [reflexivity|].
    rewrite E1, E2, E3, Et, !all_chars_app in Hany.
    do 4 (apply andb_true_iff in Hany as (_ & Hany)). discriminate Hany. }
  rewrite append_nil_r in Et. subst wt.
  replace (p4 - p3) with (String.length s3) in Ec by lia.
  rewrite <- (append_nil_r s3) in Ec at 2. rewrite substring_prefix in Ec.
  exists (String c t), (Py.strip s3). split; [|split].
  - unfold Comp.number_of_match, group_if_set, Re.group. rewrite Ec.
    rewrite get_set_cap_other by reflexivity. rewrite Gn. reflexivity.
  - unfold get_strip, Re.group. rewrite Ec, get_set_cap. reflexivity.
  - apply rstrip_fixed_truthy; [|exact T3].
    apply (rstrip_suffix (w1 ++ w2 ++ w3) s3); [|exact T3].
    rewrite !append_assoc, <- E3, <- E2, <- E1. exact Hr.
Qed.

Lemma comp_try_patterns_safe (ps : list Re.regex) (line : string) :
  Forall (fun r => sets "title" r = true
                   /\ (Re.has_group r "description" = false
                       \/ Re.re_match r line = None)) ps ->
  exists c, Comp.try_patterns ps line = Ok c.
Proof.
  induction ps as [|r ps IH]; intros F; cbn [Comp.try_patterns].
  - eexists; reflexivity.
  - inversion F as [|? ? (Ht & Hd) Hps]; subst.
    destruct (Re.re_match r line) as [m|] eqn:E; [|apply IH, Hps].
    destruct Hd as [Hd | Hd]; [|discriminate Hd].
    destruct (get_strip_ok r "title" line m Ht E) as (t & ->). cbn [bind].
    unfold Comp.description_of_match. rewrite Hd. cbn [bind].
    destruct (Comp.number_of_match r m); [|apply IH, Hps].
    destruct (Py.truthy t); [eexists; reflexivity | apply IH, Hps].
Qed.

(** [_parse_component_line] raises on no line as the loop passes it: the
    fifth pattern, the only one with an optional group, is reached only by
    lines it does not accept. *)
Lemma parse_component_line_total (line : string) :
  all_chars (Re.in_cset Re.AnyChar) line = true ->
  Py.rstrip line = line ->
  exists c, Comp._parse_component_line line = Ok c.
Proof.
  intros Hany Hr. unfold Comp._parse_component_line, Comp.component_patterns.
  destruct (Re.re_match Comp.component_pattern_1 line) as [m1|] eqn:E1.
  - cbn [Comp.try_patterns]. rewrite E1.
    destruct (pattern_1_returns line m1 Hany Hr E1) as (num & t & Hn & Ht & T).
    rewrite Ht. cbn [bind]. unfold Comp.description_of_match.
    change (Re.has_group Comp.component_pattern_1 "description") with false.
    cbn [bind]. rewrite Hn, T. eexists; reflexivity.
  - assert (E5 : Re.re_match Comp.component_pattern_5 line = None).
    { destruct (Re.re_match Comp.component_pattern_5 line) as [m5|] eqn:E5;
        [|reflexivity].
      destruct (pattern_1_of_5 line m5 Hany E5) as (m1 & H1). congruence. }
    apply comp_try_patterns_safe.
    repeat (apply Forall_cons;
            [split; [reflexivity | first [left; reflexivity | right; exact E5]]|]).
    apply Forall_nil.
Qed.

Lemma step_total (st : Comp.loop_state) (l : string) :
  all_chars (Re.in_cset Re.AnyChar) l = true ->
  exists st', Comp.step st l = Ok st'.
Proof.
  intros Hany.
  assert (C : forall s, exists s', Comp.classify (Py.rstrip l) s = Ok s').
  { intros s. unfold Comp.classify.
    destruct (match_category_total (Py.rstrip l)) as [-> | (n & -> & _)];
      cbn [bind].
    - cbn [Comp.is_category].
      destruct (Re.re_match Comp.standalone_number _); [eauto|].
      destruct (parse_component_line_total (Py.rstrip l)
                  (rstrip_all_chars _ l Hany) (rstrip_idempotent l))
        as ([c|] & ->); cbn [bind]; eauto.
    - destruct (Comp.is_category (Some n)); [eauto|].
      destruct (Re.re_match Comp.standalone_number _); [eauto|].
      destruct (parse_component_line_total (Py.rstrip l)
                  (rstrip_all_chars _ l Hany) (rstrip_idempotent l))
        as ([c|] & ->); cbn [bind]; eauto. }
  unfold Comp.step. destruct (negb _); [eauto|].
  destruct (Comp.pending_number st) as [pn|]; [|apply C].
  destruct (Py.truthy pn); [|apply C].
  destruct (match_category_total (Py.rstrip l)) as [-> | (n & -> & _)];
    cbn [bind]; (destruct (_ && _); [eauto | apply C]).
Qed.

Lemma run_total (lines : list string) :
  Forall (fun l => all_chars (Re.in_cset Re.AnyChar) l = true) lines ->
  forall st, fst (Comp.run lines st) = Ok tt.
Proof.
  induction lines as [|l rest IH]; intros F st; cbn [Comp.run]; [reflexivity|].
  inversion F as [|? ? Hl Hrest]; subst.
  destruct (step_total st l Hl) as (st' & ->). apply IH, Hrest.
Qed.

(** Component extraction raises on no text. *)
Lemma extract_components_total (s : Comp.ComponentExtractor) (text : string) :
  exists comps, fst (Comp.extract_components_from_text s text) = Ok comps.
Proof.
  unfold Comp.extract_components_from_text, Comp.extract_components_from_lines.
  pose proof (run_total (Comp.lines_of text) (split_on_no_sep "010" text)
                (Comp.initial s)) as T.
  destruct (Comp.run _ _) as [[u|e] st]; [|discriminate T].
  eexists; reflexivity.
Qed.

(** ** C3: extraction and exceptions *)

(** C3. TOC extraction raises on well-formed input: for the one-line text
    "Introduction 10" the line is classified as an entry and the call
    propagates [ValueError]; in general a TOC call returns the empty list
    or raises [ValueError], whereas an index call and a component call
    always return. *)
Theorem C3_toc_extraction_raises (room : Z) :
  fst (Toc.extract_toc_from_text room Toc.new_TOCExtractor "Introduction 10" false)
  = Raise ValueError
  /\ Toc._parse_toc_line "Introduction 10"
     = Ok (Some (Toc.mkEntry 0 "Introduction" (Some 10%Z) "Introduction 10" []))
  /\ (forall self text,
         fst (Toc.extract_toc_from_text room self text false) = Ok (Toc.TocEntries [])
         \/ fst (Toc.extract_toc_from_text room self text false) = Raise ValueError)
  /\ (forall self text,
         exists entries,
           fst (Toc.extract_toc_from_text room self text true)
           = Ok (Toc.IndexEntries entries))
  /\ (forall s text,
         exists comps,
           fst (Comp.extract_components_from_text s text) = Ok comps).
Proof.
  split; [by_evaluation|]. split; [by_evaluation|].
  split; [exact (extract_toc_outcomes room)|].
  split; [exact (extract_index_total room) | exact extract_components_total].
Qed.

(** ** The steps of the loop *)

Lemma step_blank (st : Comp.loop_state) (l : string) :
  is_blank l = true -> Comp.step st l = Ok st.
Proof. unfold is_blank, Comp.step. intros H. rewrite H. reflexivity. Qed.

(** A bare number read while nothing is pending becomes pending. *)
Lemma step_standalone (st : Comp.loop_state) (l : string) (m : Re.rmatch_obj) :
  Comp.pending_number st = None ->
  Re.re_match Comp.standalone_number (Py.strip (Py.rstrip l)) = Some m ->
  exists n,
    Re.group m "1" = Some n /\ Py.truthy n = true
    /\ Comp.step st l
       = Ok (Comp.mkLoop (Comp.self st) (Comp.current_category st)
                         (Comp.category_components st) (Some n)).
Proof.
  intros Hp Hm. destruct (standalone_number_captured _ m Hm) as (n & G & T).
  exists n. split; [exact G|]. split; [exact T|]. unfold Comp.step.
  pose proof (standalone_not_blank l m Hm) as B. unfold is_blank in B.
  rewrite B, Hp. unfold Comp.classify.
  rewrite (standalone_not_category l m Hm). cbn [bind Comp.is_category].
  rewrite Hm, G. reflexivity.
Qed.

(** The pending number and the next line make one component. *)
Lemma step_merge (st : Comp.loop_state) (l n : string) :
  Comp.pending_number st = Some n -> Py.truthy n = true ->
  is_blank l = false ->
  Comp._match_category (Py.rstrip l) = Ok None ->
  Re.re_match Comp.new_component_start (Py.rstrip l) = None ->
  Comp.step st l
  = Ok (Comp.add_component
          (Comp.new_Component n (Py.strip (Py.rstrip l)) None
                              (n ++ ". " ++ Py.strip (Py.rstrip l)))
          st).
Proof.
  intros Hp Hn Hb Hc Hs. unfold Comp.step. unfold is_blank in Hb.
  rewrite Hb, Hp, Hn, Hc. cbn [bind Comp.is_category negb andb].
  rewrite Hs. reflexivity.
Qed.

(** The pending number is dropped before a header or a numbered line,
    which is then classified as if nothing had been pending. *)
Lemma step_discard (st : Comp.loop_state) (l n : string) :
  Comp.pending_number st = Some n -> Py.truthy n = true ->
  is_blank l = false ->
  is_header l = true
  \/ Comp.is_some (Re.re_match Comp.new_component_start (Py.rstrip l)) = true ->
  Comp.step st l = Comp.classify (Py.rstrip l) (Comp.drop_pending st).
Proof.
  intros Hp Hn Hb Hor. unfold Comp.step. unfold is_blank in Hb.
  rewrite Hb, Hp, Hn. unfold is_header in Hor.
  destruct (match_category_total (Py.rstrip l)) as [E | (x & E & T)];
    rewrite E in *; cbn [bind Comp.is_category].
  - destruct Hor as [H|H]; [discriminate H|]. rewrite H. reflexivity.
  - rewrite T. reflexivity.
Qed.

Lemma run_cons_ok (l : string) (rest : list string)
      (st st' : Comp.loop_state) :
  Comp.step st l = Ok st' -> Comp.run (l :: rest) st = Comp.run rest st'.
Proof. intros H. simpl. rewrite H. reflexivity. Qed.

Lemma run_app (pre rest : list string) :
  forall st st',
    Comp.run pre st = (Ok tt, st') ->
    Comp.run (pre ++ rest) st = Comp.run rest st'.
Proof.
  induction pre as [|l pre IH]; intros st st' H; simpl in *.
  - inversion H; reflexivity.
  - destruct (Comp.step st l) as [st1|e]; [apply IH, H | discriminate H].
Qed.

Lemma run_blanks (blanks rest : list string) (st : Comp.loop_state) :
  Forall (fun b => is_blank b = true) blanks ->
  Comp.run (blanks ++ rest) st = Comp.run rest st.
Proof.
  induction blanks as [|b blanks IH]; intros F; [reflexivity|].
  inversion F as [|? ? Hb Hbs]; subst. cbn [app].
  rewrite (run_cons_ok b _ st st (step_blank st b Hb)). apply IH, Hbs.
Qed.

(** A bare number, blank lines, and a line to merge: one component. *)
Lemma run_pending_merge (st : Comp.loop_state) (l l' : string)
      (blanks : list string) (m : Re.rmatch_obj) :
  Comp.pending_number st = None ->
  Re.re_match Comp.standalone_number (Py.strip (Py.rstrip l)) = Some m ->
  Forall (fun b => is_blank b = true) blanks ->
  is_blank l' = false ->
  Comp._match_category (Py.rstrip l') = Ok None ->
  Re.re_match Comp.new_component_start (Py.rstrip l') = None ->
  exists n,
    Re.group m "1" = Some n /\ Py.truthy n = true
    /\ Comp.run (l :: blanks ++ [l']) st
       = (Ok tt,
          Comp.add_component
            (Comp.new_Component n (Py.strip (Py.rstrip l')) None
                                (n ++ ". " ++ Py.strip (Py.rstrip l')))
            st).
Proof.
  intros Hp Hm Hb Hl Hc Hs.
  destruct (step_standalone st l m Hp Hm) as (n & G & T & S1).
  exists n. split; [exact G|]. split; [exact T|].
  rewrite (run_cons_ok l _ st _ S1). rewrite run_blanks by exact Hb.
  set (st1 := Comp.mkLoop (Comp.self st) (Comp.current_category st)
                          (Comp.category_components st) (Some n)).
  rewrite (run_cons_ok l' [] st1 _ (step_merge st1 l' n eq_refl T Hl Hc Hs)).
  reflexivity.
Qed.

(** ** C6: the pending identifier *)

(** C6 fails on the code when the bare number follows another bare
    number: in "3." / "4." / "Student name lists" the line "4." is followed
    by a line that is neither a header nor numbered, yet no component
    numbered 4 comes out; "4." was taken as the title of 3. *)
Lemma C6_counterexample :
  ~ c6_merged c6_two_numbers "4" "Student name lists"
  /\ fst (Comp.run (Comp.lines_of c6_two_numbers)
                   (Comp.initial Comp.new_ComponentExtractor)) = Ok tt
  /\ map (fun c => (Comp.number c, Comp.title c))
         (Comp.components
            (Comp.self (snd (Comp.run (Comp.lines_of c6_two_numbers)
                               (Comp.initial Comp.new_ComponentExtractor)))))
     = [("3", "4.")]
  /\ option_map (map (fun c => (Comp.number c, Comp.title c)))
        (match fst (Comp.extract_components_from_text
                      Comp.new_ComponentExtractor c6_two_numbers) with
         | Ok comps => Some comps
         | Raise _ => None
         end)
     = Some [("3", "Course handout and closure report")].
Proof.
  split; [|repeat split; vm_compute; reflexivity].
  intros (comps & self' & H & c & Hin & Hn & _).
  vm_compute in H. inversion H; subst; clear H.
  destruct Hin as [<- | []]. discriminate Hn.
Qed.

(** C6, amended. "4." / "Student name lists" gives exactly one component,
    numbered "4" and titled "Student name lists". In the loop: a line made
    of a number and a delimiter, read while no identifier is pending,
    becomes the pending identifier, and after any blank lines the next line,
    when it is no category header and does not begin with a number, a
    delimiter and whitespace, is merged with it into one component. Whenever
    an identifier is pending, such a next line is merged with it (a further
    bare number included), and before a header or a line that begins with a
    number, a delimiter and whitespace the pending identifier is dropped
    and the line is classified as usual. *)
Theorem C6_pending_identifier :
  Comp.extract_components_from_text Comp.new_ComponentExtractor c6_input
  = (Ok [ Comp.mkComponent "4" "Student name lists" None None
                           "4. Student name lists" [] ],
     Comp.mkExtractor
       [ Comp.mkComponent "4" "Student name lists" None None
                          "4. Student name lists" [] ] [])
  /\ (forall st l l' blanks m,
         Comp.pending_number st = None ->
         Re.re_match Comp.standalone_number (Py.strip (Py.rstrip l)) = Some m ->
         Forall (fun b => is_blank b = true) blanks ->
         is_blank l' = false ->
         Comp._match_category (Py.rstrip l') = Ok None ->
         Re.re_match Comp.new_component_start (Py.rstrip l') = None ->
         exists n,
           Re.group m "1" = Some n /\ Py.truthy n = true
           /\ Comp.run (l :: blanks ++ [l']) st
              = (Ok tt,
                 Comp.add_component
                   (Comp.new_Component n (Py.strip (Py.rstrip l')) None
                                       (n ++ ". " ++ Py.strip (Py.rstrip l')))
                   st))
  /\ (forall st l n,
         Comp.pending_number st = Some n -> Py.truthy n = true ->
         is_blank l = false ->
         Comp._match_category (Py.rstrip l) = Ok None ->
         Re.re_match Comp.new_component_start (Py.rstrip l) = None ->
         Comp.step st l
         = Ok (Comp.add_component
                 (Comp.new_Component n (Py.strip (Py.rstrip l)) None
                                     (n ++ ". " ++ Py.strip (Py.rstrip l)))
                 st))
  /\ (forall st l n,
         Comp.pending_number st = Some n -> Py.truthy n = true ->
         is_blank l = false ->
         is_header l = true
         \/ Comp.is_some (Re.re_match Comp.new_component_start (Py.rstrip l))
            = true ->
         Comp.step st l = Comp.classify (Py.rstrip l) (Comp.drop_pending st)).
Proof.
  split; [by_evaluation|].
  split; [exact run_pending_merge|].
  split; [exact step_merge | exact step_discard].
Qed.

Lemma C6_pending_identifier_witness :
  exists n,
    Re.group (Re.MatchObj 0 2 [("1", "4")]) "1" = Some n /\ Py.truthy n = true
    /\ Comp.run ["4."; ""; "Student name lists"]
                (Comp.initial Comp.new_ComponentExtractor)
       = (Ok tt,
          Comp.add_component
            (Comp.new_Component n "Student name lists" None
                                (n ++ ". " ++ "Student name lists"))
            (Comp.initial Comp.new_ComponentExtractor)).
Proof.
  apply (proj1 (proj2 C6_pending_identifier)
           (Comp.initial Comp.new_ComponentExtractor)
           "4." "Student name lists" [""] (Re.MatchObj 0 2 [("1", "4")])).
  - reflexivity.
  - by_evaluation.
  - repeat constructor.
  - by_evaluation.
  - by_evaluation.
  - by_evaluation.
Defined.

(** ** C7: closing a category *)

Lemma classify_header (st : Comp.loop_state) (l n : string) :
  header_line l n ->
  Comp.classify (Py.rstrip l) st
  = Ok (Comp.mkLoop (Comp.close_category st) (Some n) []
                    (Comp.pending_number st)).
Proof.
  intros H. unfold Comp.classify. rewrite H. cbn [bind Comp.is_category].
  rewrite (category_name_truthy _ _ H). reflexivity.
Qed.

Lemma classify_component (st : Comp.loop_state) (l : string)
      (c : Comp.Component) :
  component_line l c -> Comp.classify (Py.rstrip l) st = Ok (push c st).
Proof.
  intros (_ & Hc & Hs & Hp). unfold Comp.classify.
  rewrite Hc. cbn [bind Comp.is_category]. rewrite Hs, Hp. reflexivity.
Qed.

Lemma step_header (st : Comp.loop_state) (l n : string) :
  header_line l n ->
  exists p, inactive p
            /\ Comp.step st l
               = Ok (Comp.mkLoop (Comp.close_category st) (Some n) [] p).
Proof.
  intros H. pose proof (header_not_blank l n H) as Hb.
  pose proof (category_name_truthy _ _ H) as Hn.
  pose proof H as Hc. unfold header_line in Hc.
  unfold Comp.step. unfold is_blank in Hb. rewrite Hb.
  destruct (Comp.pending_number st) as [pn|] eqn:Hp.
  - destruct (Py.truthy pn) eqn:Ht.
    + exists None. split; [exact I|]. rewrite Hc. cbn [bind Comp.is_category].
      rewrite Hn. cbn [negb andb].
      rewrite (classify_header (Comp.drop_pending st) l n H). reflexivity.
    + exists (Some pn). split; [exact Ht|].
      rewrite (classify_header st l n H), Hp. reflexivity.
  - exists None. split; [exact I|].
    rewrite (classify_header st l n H), Hp. reflexivity.
Qed.

Lemma step_component (st : Comp.loop_state) (l : string) (c : Comp.Component) :
  inactive (Comp.pending_number st) -> component_line l c ->
  Comp.step st l = Ok (push c st).
Proof.
  intros Hi H. pose proof H as (Hb & _). unfold Comp.step.
  unfold is_blank in Hb. rewrite Hb. unfold inactive in Hi.
  destruct (Comp.pending_number st) as [pn|].
  - rewrite Hi. apply classify_component, H.
  - apply classify_component, H.
Qed.

(** A header, three components, a header. *)
Lemma run_header_three_header (st : Comp.loop_state)
      (h1 n1 l1 l2 l3 h2 n2 : string) (x1 x2 x3 : Comp.Component) :
  header_line h1 n1 ->
  component_line l1 x1 -> component_line l2 x2 -> component_line l3 x3 ->
  header_line h2 n2 ->
  let k := List.length (Comp.components (Comp.self st)) in
  exists st',
    Comp.run [h1; l1; l2; l3; h2] st = (Ok tt, st')
    /\ Comp.components (Comp.self st')
       = (Comp.components (Comp.self st) ++ [x1; x2; x3])%list
    /\ Comp.categories (Comp.self st')
       = (Comp.categories (Comp.close_category st)
          ++ [Comp.new_ComponentCategory n1 [k; k + 1; k + 2]])%list
    /\ Comp.current_category st' = Some n2
    /\ Comp.category_components st' = [].
Proof.
  intros H1 C1 C2 C3 H2 k.
  destruct (step_header st h1 n1 H1) as (p & Hp & S1).
  pose proof (category_name_truthy _ _ H1) as T1.
  set (s1 := Comp.mkLoop (Comp.close_category st) (Some n1) [] p) in *.
  assert (P1 : inactive (Comp.pending_number s1)) by exact Hp.
  pose proof (step_component s1 l1 x1 P1 C1) as S2.
  pose proof (step_component (push x1 s1) l2 x2 P1 C2) as S3.
  pose proof (step_component (push x2 (push x1 s1)) l3 x3 P1 C3) as S4.
  destruct (step_header (push x3 (push x2 (push x1 s1))) h2 n2 H2)
    as (p' & _ & S5).
  eexists. split.
  { rewrite (run_cons_ok _ _ _ _ S1), (run_cons_ok _ _ _ _ S2),
      (run_cons_ok _ _ _ _ S3), (run_cons_ok _ _ _ _ S4),
      (run_cons_ok _ _ _ _ S5). reflexivity. }
  assert (K : Comp.components (Comp.close_category st)
              = Comp.components (Comp.self st)).
  { unfold Comp.close_category.
    destruct (Comp.current_category st) as [cat|]; [|reflexivity].
    destruct (Comp.category_components st); [reflexivity|].
    destruct (Py.truthy cat); reflexivity. }
  cbn [Comp.self Comp.current_category Comp.category_components
       Comp.components Comp.categories].
  unfold Comp.close_category at 1 2. subst s1.
  cbn [push Comp.add_component Comp.self Comp.current_category
       Comp.category_components Comp.components Comp.categories
       Comp.pending_number app].
  rewrite T1. cbn [app].
  rewrite K, !length_app. cbn [List.length].
  rewrite <- !app_assoc. cbn [app].
  cbn [Comp.components Comp.categories]. subst k.
  replace (List.length (Comp.components (Comp.self st)) + 1 + 1)
    with (List.length (Comp.components (Comp.self st)) + 2) by lia.
  repeat split; reflexivity.
Qed.

(** *** What one iteration can do to the attributes *)

Lemma same_but_pending_refl (st : Comp.loop_state) : same_but_pending st st.
Proof. repeat split. Qed.

Lemma classify_shape (l : string) (st st' : Comp.loop_state) :
  Comp.classify (Py.rstrip l) st = Ok st' -> step_shape l st st'.
Proof.
  unfold Comp.classify.
  destruct (Comp._match_category (Py.rstrip l)) as [cat|e] eqn:Hc;
    cbn [bind]; [|discriminate].
  destruct (Comp.is_category cat) eqn:Hcat.
  - intros H. inversion H; subst; clear H.
    destruct cat as [n|]; [|discriminate Hcat].
    apply (shape_header l st _ n); try reflexivity.
    unfold is_header. rewrite Hc. reflexivity.
  - destruct (Re.re_match Comp.standalone_number _) as [m|].
    + intros H. inversion H; subst. apply shape_skip. repeat split.
    + destruct (Comp._parse_component_line _) as [[c|]|e]; cbn [bind];
        intros H; inversion H; subst.
      * apply (shape_component l st _ c). repeat split.
      * apply shape_skip, same_but_pending_refl.
Qed.

Lemma step_shape_of (l : string) (st st' : Comp.loop_state) :
  Comp.step st l = Ok st' -> step_shape l st st'.
Proof.
  unfold Comp.step. destruct (negb _).
  - intros H. inversion H; subst. apply shape_skip, same_but_pending_refl.
  - destruct (Comp.pending_number st) as [pn|];
      [destruct (Py.truthy pn)|]; try apply classify_shape.
    destruct (Comp._match_category (Py.rstrip l)) as [cat|e]; cbn [bind];
      [|discriminate].
    destruct (negb (Comp.is_category cat) && _).
    + intros H. inversion H; subst.
      eapply shape_component. apply same_but_pending_refl.
    + intros H. apply classify_shape in H.
      destruct H as [(E1 & E2 & E3) | c (E1 & E2 & E3) | n Hh E1 E2 E3].
      * apply shape_skip. repeat split; assumption.
      * apply (shape_component l st st' c). repeat split; assumption.
      * apply (shape_header l st st' n); assumption.
Qed.

(** *** Components and categories only grow *)

Lemma grows_refl (s : Comp.ComponentExtractor) : grows s s.
Proof. split; exists []; rewrite app_nil_r; reflexivity. Qed.

Lemma grows_trans (a b c : Comp.ComponentExtractor) :
  grows a b -> grows b c -> grows a c.
Proof.
  intros ((x & X) & (y & Y)) ((x' & X') & (y' & Y')). split.
  - exists (x ++ x')%list. rewrite X', X, app_assoc. reflexivity.
  - exists (y ++ y')%list. rewrite Y', Y, app_assoc. reflexivity.
Qed.

Lemma close_category_grows (st : Comp.loop_state) :
  grows (Comp.self st) (Comp.close_category st)
  /\ Comp.components (Comp.close_category st) = Comp.components (Comp.self st).
Proof.
  unfold Comp.close_category.
  destruct (Comp.current_category st) as [cat|]; [|split; [apply grows_refl|reflexivity]].
  destruct (Comp.category_components st); [split; [apply grows_refl|reflexivity]|].
  destruct (Py.truthy cat); [|split; [apply grows_refl|reflexivity]].
  split; [|reflexivity]. split; cbn.
  - exists []. rewrite app_nil_r. reflexivity.
  - eexists. reflexivity.
Qed.

Lemma add_component_grows (c : Comp.Component) (st : Comp.loop_state) :
  grows (Comp.self st) (Comp.self (Comp.add_component c st)).
Proof.
  split; cbn.
  - eexists. reflexivity.
  - exists []. rewrite app_nil_r. reflexivity.
Qed.

Lemma step_grows (l : string) (st st' : Comp.loop_state) :
  Comp.step st l = Ok st' -> grows (Comp.self st) (Comp.self st').
Proof.
  intros H. apply step_shape_of in H.
  destruct H as [(E & _) | c (E & _) | n _ E _ _]; rewrite E.
  - apply grows_refl.
  - apply add_component_grows.
  - apply close_category_grows.
Qed.

Lemma run_grows (lines : list string) :
  forall st st', Comp.run lines st = (Ok tt, st') ->
                 grows (Comp.self st) (Comp.self st').
Proof.
  induction lines as [|l rest IH]; intros st st' H; simpl in H.
  - inversion H; subst. apply grows_refl.
  - destruct (Comp.step st l) as [st1|e] eqn:E; [|discriminate H].
    eapply grows_trans; [eapply step_grows, E | apply IH, H].
Qed.

(** *** References held by categories *)

Lemma add_component_refs (k : nat) (c : Comp.Component) (st : Comp.loop_state) :
  refs_from k st -> refs_from k (Comp.add_component c st).
Proof.
  intros (L & F & G). unfold refs_from, Comp.add_component.
  cbn [Comp.self Comp.components Comp.categories Comp.category_components].
  rewrite length_app. cbn [List.length]. split; [lia|]. split; [|exact G].
  destruct (Comp.current_category st) as [cat|]; [|exact F].
  destruct (Py.truthy cat); [|exact F].
  apply Forall_app. split; [exact F|]. constructor; [exact L | constructor].
Qed.

Lemma close_category_refs (k : nat) (st : Comp.loop_state) :
  refs_from k st ->
  Forall (fun cat => Forall (le k) (Comp.cat_components cat))
         (Comp.categories (Comp.close_category st)).
Proof.
  intros (L & F & G). unfold Comp.close_category.
  destruct (Comp.current_category st) as [cat|]; [|exact G].
  destruct (Comp.category_components st) eqn:E; [exact G|].
  destruct (Py.truthy cat); [|exact G].
  cbn. apply Forall_app. split; [exact G|]. constructor; [exact F|constructor].
Qed.

Lemma step_refs (k : nat) (l : string) (st st' : Comp.loop_state) :
  Comp.step st l = Ok st' -> refs_from k st -> refs_from k st'.
Proof.
  intros H Q. apply step_shape_of in H.
  destruct H as [(E1 & E2 & E3) | c (E1 & E2 & E3) | n _ E1 E2 E3];
    unfold refs_from; rewrite E1, ?E3.
  - exact Q.
  - apply (add_component_refs k c st Q).
  - split; [|split; [constructor | apply close_category_refs, Q]].
    destruct (close_category_grows st) as (_ & K). rewrite K. apply Q.
Qed.

Lemma run_refs (k : nat) (lines : list string) :
  forall st st', Comp.run lines st = (Ok tt, st') ->
                 refs_from k st -> refs_from k st'.
Proof.
  induction lines as [|l rest IH]; intros st st' H Q; simpl in H.
  - inversion H; subst. exact Q.
  - destruct (Comp.step st l) as [st1|e] eqn:E; [|discriminate H].
    eapply IH; [exact H | eapply step_refs; eassumption].
Qed.

Lemma step_no_category (l : string) (st st' : Comp.loop_state) :
  is_header l = false ->
  Comp.step st l = Ok st' -> no_category_yet st -> no_category_yet st'.
Proof.
  intros Hh H (N1 & N2 & N3). apply step_shape_of in H.
  destruct H as [(E1 & E2 & E3) | c (E1 & E2 & E3) | n Hh' _ _ _];
    [| |congruence]; unfold no_category_yet; rewrite E1, E2, E3.
  - auto.
  - unfold Comp.add_component. cbn. rewrite N1. auto.
Qed.

Lemma run_no_category (lines : list string) :
  forall st st',
    Forall (fun l => is_header l = false) lines ->
    Comp.run lines st = (Ok tt, st') ->
    no_category_yet st -> no_category_yet st'.
Proof.
  induction lines as [|l rest IH]; intros st st' F H N; simpl in H.
  - inversion H; subst. exact N.
  - inversion F as [|? ? Fl Fr]; subst.
    destruct (Comp.step st l) as [st1|e] eqn:E; [|discriminate H].
    eapply IH; [exact Fr | exact H | eapply step_no_category; eassumption].
Qed.

(** *** The repair pass keeps everything but titles *)

Lemma update_nth_ident (i : nat) (t : string) (l : list Comp.Component) :
  map ident (update_nth i (Comp.set_title t) l) = map ident l.
Proof.
  revert i. induction l as [|x l IH]; intros [|i]; simpl; try reflexivity.
  rewrite IH. reflexivity.
Qed.

Lemma repair_step_ident (st : Comp.repair_state) (i : nat) :
  map ident (Comp.r_components (Comp.repair_step st i))
  = map ident (Comp.r_components st).
Proof.
  unfold Comp.repair_step.
  destruct (nth_error _ i) as [component|]; [|reflexivity].
  repeat match goal with
         | |- context [if ?b then _ else _] => destruct b
         end;
    cbn [Comp.r_components Comp.retitle];
    rewrite ?update_nth_ident; reflexivity.
Qed.

Lemma repair_fold_ident (positions : list nat) :
  forall st,
    map ident (Comp.r_components (fold_left Comp.repair_step positions st))
    = map ident (Comp.r_components st).
Proof.
  induction positions as [|i rest IH]; intros st; simpl; [reflexivity|].
  rewrite IH. apply repair_step_ident.
Qed.

Lemma post_process_ident (s : Comp.ComponentExtractor) :
  map ident (Comp.components (Comp._post_process_components s))
  = map ident (Comp.components s)
  /\ Comp.categories (Comp._post_process_components s) = Comp.categories s.
Proof.
  split; [|reflexivity]. unfold Comp._post_process_components.
  cbn [Comp.components]. rewrite map_map.
  rewrite (map_ext (fun x => ident (Comp.cleanup x)) ident) by reflexivity.
  rewrite repair_fold_ident. cbn [Comp.r_components].
  rewrite map_map. apply map_ext. intros c. unfold Comp.fix_known.
  destruct (Dict.get _ _ _); [|reflexivity].
  destruct (_ || _); reflexivity.
Qed.

Lemma extract_lines_ok (s : Comp.ComponentExtractor) (lines : list string)
      (comps : list Comp.Component) (self' : Comp.ComponentExtractor) :
  Comp.extract_components_from_lines s lines = (Ok comps, self') ->
  exists st_end,
    Comp.run lines (Comp.initial s) = (Ok tt, st_end)
    /\ self' = Comp._post_process_components (Comp.close_category st_end)
    /\ comps = Comp.components self'.
Proof.
  unfold Comp.extract_components_from_lines.
  destruct (Comp.run lines (Comp.initial s)) as [[[]|e] st_end]; intros H;
    inversion H; subst. exists st_end. auto.
Qed.

(** C7. A header, three component lines and a second header: when the
    second header is read, the first category is appended to the list of
    categories with exactly the three components, in source order, and the
    second category starts empty; this category is in the result of the
    extraction whatever precedes and follows the five lines; and no category
    of the result refers to a component read before the first header. *)
Theorem C7_category_closed_with_its_components :
  (forall st h1 n1 l1 l2 l3 h2 n2 x1 x2 x3,
      header_line h1 n1 ->
      component_line l1 x1 -> component_line l2 x2 -> component_line l3 x3 ->
      header_line h2 n2 ->
      let k := List.length (Comp.components (Comp.self st)) in
      exists st',
        Comp.run [h1; l1; l2; l3; h2] st = (Ok tt, st')
        /\ Comp.components (Comp.self st')
           = (Comp.components (Comp.self st) ++ [x1; x2; x3])%list
        /\ Comp.categories (Comp.self st')
           = (Comp.categories (Comp.close_category st)
              ++ [Comp.new_ComponentCategory n1 [k; k + 1; k + 2]])%list
        /\ Comp.current_category st' = Some n2
        /\ Comp.category_components st' = [])
  /\ (forall s pre post st h1 n1 l1 l2 l3 h2 n2 x1 x2 x3 comps self',
         Comp.run pre (Comp.initial s) = (Ok tt, st) ->
         header_line h1 n1 ->
         component_line l1 x1 -> component_line l2 x2 -> component_line l3 x3 ->
         header_line h2 n2 ->
         Comp.extract_components_from_lines s
           (pre ++ [h1; l1; l2; l3; h2] ++ post) = (Ok comps, self') ->
         let k := List.length (Comp.components (Comp.self st)) in
         In (Comp.new_ComponentCategory n1 [k; k + 1; k + 2])
            (Comp.categories self')
         /\ map ident (firstn 3 (skipn k comps)) = map ident [x1; x2; x3])
  /\ (forall s pre rest st comps self',
         Forall (fun l => is_header l = false) pre ->
         Comp.run pre (Comp.initial s) = (Ok tt, st) ->
         Comp.extract_components_from_lines s (pre ++ rest) = (Ok comps, self') ->
         Forall (fun cat =>
                   Forall (le (List.length (Comp.components (Comp.self st))))
                          (Comp.cat_components cat))
                (Comp.categories self')).
Proof.
  split; [intros; apply run_header_three_header; assumption|]. split.
  - intros s pre post st h1 n1 l1 l2 l3 h2 n2 x1 x2 x3 comps self'
           Hpre H1 C1 C2 C3 H2 Hex k.
    apply extract_lines_ok in Hex as (st_end & Hrun & -> & ->).
    destruct (run_header_three_header st h1 n1 l1 l2 l3 h2 n2 x1 x2 x3
                H1 C1 C2 C3 H2) as (st5 & R5 & K5 & G5 & _).
    rewrite (run_app pre _ _ _ Hpre) in Hrun.
    rewrite (run_app _ post _ _ R5) in Hrun.
    apply run_grows in Hrun as ((cs & Cs) & (ks & Ks)).
    destruct (close_category_grows st_end) as ((_ & (ks' & Ks')) & Kc).
    destruct (post_process_ident (Comp.close_category st_end)) as (Pi & Pc).
    split.
    + rewrite Pc, Ks', Ks, G5. fold k.
      apply in_or_app; left. apply in_or_app; left.
      apply in_or_app; right. left. reflexivity.
    + rewrite <- firstn_map, <- skipn_map, Pi, Kc, Cs, K5.
      rewrite <- app_assoc, !map_app. subst k.
      rewrite <- (length_map ident (Comp.components (Comp.self st))).
      rewrite skipn_exact. reflexivity.
  - intros s pre rest st comps self' F Hpre Hex.
    apply extract_lines_ok in Hex as (st_end & Hrun & -> & _).
    rewrite (run_app pre _ _ _ Hpre) in Hrun.
    destruct (post_process_ident (Comp.close_category st_end)) as (_ & Pc).
    rewrite Pc. apply close_category_refs.
    apply (run_refs _ rest st st_end Hrun).
    assert (N : no_category_yet st).
    { apply (run_no_category pre (Comp.initial s) st F Hpre).
      repeat split. }
    destruct N as (_ & N2 & N3). unfold refs_from. rewrite N2, N3.
    repeat split; auto.
Qed.

Lemma C7_category_closed_with_its_components_witness :
  In (Comp.mkCategory "COURSE INFORMATION" [1; 2; 3])
     (Comp.categories
        (snd (Comp.extract_components_from_lines
                Comp.new_ComponentExtractor c7_lines))).
Proof.
  refine (proj1 (proj1 (proj2 C7_category_closed_with_its_components)
                   Comp.new_ComponentExtractor
                   ["0. Pre item one"]
                   ["6. Assignment questions with solution"]
                   (snd (Comp.run ["0. Pre item one"]
                           (Comp.initial Comp.new_ComponentExtractor)))
                   "COURSE INFORMATION:" "COURSE INFORMATION"
                   "1. Vision and Mission"
                   "2. Faculty profiles and timetables"
                   "3. Course handout (draft)"
                   "ASSESSMENT DETAILS" "ASSESSMENT DETAILS"
                   _ _ _ _ _ _ _ _ _ _ _ _)).
  - by_evaluation.
  - classify_line.
  - classify_line.
  - classify_line.
  - classify_line.
  - classify_line.
  - by_evaluation.
Defined.

(** ** C8: categories inferred from the numbering *)

(** The lemmas of the example and of the excluded components; the theorem
    itself stands with the lemmas on the buckets of ten, further down. *)

Lemma fold_bucket_number (total : nat) (items : list (nat * Comp.Component)) :
  forall d,
    fold_left (Comp.bucket_step total) items d
    = fold_left (bucket_by_number total)
                (map (fun rc => (fst rc, Comp.number (snd rc))) items) d.
Proof.
  induction items as [|rc items IH]; intros d; simpl; [reflexivity|].
  rewrite IH. reflexivity.
Qed.

Lemma organize_by_numbers (comps : list Comp.Component) :
  Comp.organize_by_categories (Comp.mkExtractor comps [])
  = (buckets_of (map Comp.number comps),
     Comp.mkExtractor comps (buckets_of (map Comp.number comps))).
Proof.
  unfold Comp.organize_by_categories, buckets_of.
  cbn [Comp.categories Comp.components].
  rewrite fold_bucket_number. unfold Comp.enumerate.
  rewrite combine_map_r, !length_map. reflexivity.
Qed.

Lemma bucket_step_members (P : nat -> Prop) (total : nat)
      (d : Comp.numeric_categories_t) (rc : nat * Comp.Component) :
  (Py.int (Comp.number (snd rc)) <> None -> P (fst rc)) ->
  members_satisfy P d -> members_satisfy P (Comp.bucket_step total d rc).
Proof.
  intros Hp Hd. unfold Comp.bucket_step.
  destruct (Py.int (Comp.number (snd rc))) as [num|]; [|exact Hd].
  assert (Pr : P (fst rc)) by (apply Hp; discriminate).
  cbv zeta.
  set (cid := ((num - 1) / 10)%Z).
  set (fresh := Comp.new_ComponentCategory _ []).
  set (d' := match Dict.get Z.eqb cid d with
             | Some _ => d
             | None => Dict.set Z.eqb cid fresh d
             end).
  assert (Hd' : members_satisfy P d').
  { subst d'. destruct (Dict.get Z.eqb cid d); [exact Hd|].
    intros cat Hin. apply dict_set_in in Hin as [-> | Hin]; [constructor|].
    apply Hd, Hin. }
  destruct (Dict.get Z.eqb cid d') as [c|] eqn:G; [|exact Hd'].
  intros cat Hin. apply dict_set_in in Hin as [-> | Hin]; [|apply Hd', Hin].
  cbn. apply Forall_app. split; [|repeat constructor; exact Pr].
  apply Hd'. eapply dict_get_in, G.
Qed.

Lemma fold_bucket_members (P : nat -> Prop) (total : nat)
      (items : list (nat * Comp.Component)) :
  forall d,
    Forall (fun rc => Py.int (Comp.number (snd rc)) <> None -> P (fst rc)) items ->
    members_satisfy P d ->
    members_satisfy P (fold_left (Comp.bucket_step total) items d).
Proof.
  induction items as [|rc items IH]; intros d F Hd; simpl; [exact Hd|].
  inversion F; subst. apply IH; [assumption|].
  apply bucket_step_members; assumption.
Qed.

(** A component whose number [int] rejects is in no inferred category. *)
Lemma organize_excludes (s : Comp.ComponentExtractor) (ref : nat)
      (c : Comp.Component) (cat : Comp.ComponentCategory) :
  Comp.categories s = [] ->
  nth_error (Comp.components s) ref = Some c ->
  Py.int (Comp.number c) = None ->
  In cat (fst (Comp.organize_by_categories s)) ->
  ~ In ref (Comp.cat_components cat).
Proof.
  intros Hc Hn Hi Hin Hmem. unfold Comp.organize_by_categories in Hin.
  rewrite Hc in Hin. cbn [fst] in Hin.
  pose (P := fun r => exists x, nth_error (Comp.components s) r = Some x
                                /\ Py.int (Comp.number x) <> None).
  assert (M : members_satisfy P
                (fold_left (Comp.bucket_step (List.length (Comp.components s)))
                           (Comp.enumerate (Comp.components s)) [])).
  { apply fold_bucket_members; [|intros ? []].
    apply Forall_forall. intros [i x] Hix Hint. exists x. split; [|exact Hint].
    apply in_enumerate, Hix. }
  specialize (M cat Hin). rewrite Forall_forall in M.
  destruct (M ref Hmem) as (x & Hx & Hne). congruence.
Qed.

(* ================================================================== *)
(** * Further properties of component_extractor.py *)

(** *** Blank lines and trailing white space *)

Lemma step_rstrip (st : Comp.loop_state) (l : string) :
  Comp.step st (Py.rstrip l) = Comp.step st l.
Proof. unfold Comp.step. rewrite rstrip_idempotent. reflexivity. Qed.

Lemma run_rstrip (lines : list string) :
  forall st, Comp.run (map Py.rstrip lines) st = Comp.run lines st.
Proof.
  induction lines as [|l rest IH]; intros st; cbn [map Comp.run]; [reflexivity|].
  rewrite step_rstrip. destruct (Comp.step st l); [apply IH | reflexivity].
Qed.

Lemma run_not_blank (lines : list string) :
  forall st, Comp.run (filter not_blank lines) st = Comp.run lines st.
Proof.
  induction lines as [|l rest IH]; intros st; cbn [filter]; [reflexivity|].
  unfold not_blank at 1. destruct (is_blank l) eqn:B; cbn [negb].
  - cbn [Comp.run]. rewrite (step_blank st l B). apply IH.
  - cbn [Comp.run]. destruct (Comp.step st l); [apply IH | reflexivity].
Qed.

(** X1. Blank lines and trailing white space play no part in component
    extraction: dropping the blank lines of the text, or the white space at
    the end of its lines, changes neither the result nor the attributes. *)
Theorem X1_blank_lines_ignored (s : Comp.ComponentExtractor)
        (lines : list string) :
  Comp.extract_components_from_lines s (filter not_blank lines)
  = Comp.extract_components_from_lines s lines
  /\ Comp.extract_components_from_lines s (map Py.rstrip lines)
     = Comp.extract_components_from_lines s lines.
Proof.
  unfold Comp.extract_components_from_lines.
  rewrite run_not_blank, run_rstrip. split; reflexivity.
Qed.

(** *** At most one component per line *)

Lemma step_count (l : string) (st st' : Comp.loop_state) :
  Comp.step st l = Ok st' ->
  List.length (Comp.components (Comp.self st'))
  <= List.length (Comp.components (Comp.self st))
     + (if not_blank l then 1 else 0).
Proof.
  intros H. unfold not_blank. destruct (is_blank l) eqn:B.
  - rewrite (step_blank st l B) in H. inversion H; subst. cbn. lia.
  - apply step_shape_of in H.
    destruct H as [(E & _) | c (E & _) | n _ E _ _]; rewrite E; cbn [negb].
    + lia.
    + cbn. rewrite length_app. cbn. lia.
    + destruct (close_category_grows st) as (_ & K). rewrite K. lia.
Qed.

Lemma run_count (lines : list string) :
  forall st st',
    Comp.run lines st = (Ok tt, st') ->
    List.length (Comp.components (Comp.self st'))
    <= List.length (Comp.components (Comp.self st))
       + List.length (filter not_blank lines).
Proof.
  induction lines as [|l rest IH]; intros st st' H; cbn [Comp.run] in H.
  - inversion H; subst. cbn. lia.
  - destruct (Comp.step st l) as [st1|e] eqn:E; [|discriminate H].
    apply step_count in E. apply IH in H. cbn [filter].
    destruct (not_blank l); cbn [List.length]; lia.
Qed.

Lemma post_process_length (s : Comp.ComponentExtractor) :
  List.length (Comp.components (Comp._post_process_components s))
  = List.length (Comp.components s).
Proof.
  destruct (post_process_ident s) as (E & _).
  apply (f_equal (@List.length _)) in E. rewrite !length_map in E. exact E.
Qed.

(** X2. Component extraction returns, and with at most one component per
    non-blank line of the text. *)
Theorem X2_at_most_one_component_per_line (s : Comp.ComponentExtractor)
        (text : string) :
  exists comps,
    fst (Comp.extract_components_from_text s text) = Ok comps
    /\ List.length comps
       <= List.length (filter not_blank (Comp.lines_of text)).
Proof.
  destruct (extract_components_total s text) as (comps & H).
  exists comps. split; [exact H|].
  unfold Comp.extract_components_from_text in H.
  destruct (Comp.extract_components_from_lines s (Comp.lines_of text))
    as [r self'] eqn:E. cbn [fst] in H. subst r.
  apply extract_lines_ok in E as (st_end & R & -> & ->).
  rewrite post_process_length.
  destruct (close_category_grows st_end) as (_ & K). rewrite K.
  apply run_count in R. cbn in R. exact R.
Qed.

(** *** [strip] is idempotent *)

Lemma lstrip_not_space (s : string) (d : ascii) (r : string) :
  Py.lstrip s = String d r -> Py.isspace d = false.
Proof.
  induction s as [|c s IH]; cbn [Py.lstrip]; [discriminate|].
  destruct (Py.isspace c) eqn:E; [exact IH|].
  intros H. inversion H; subst. exact E.
Qed.

Lemma strip_idempotent (s : string) : Py.strip (Py.strip s) = Py.strip s.
Proof.
  unfold Py.strip. destruct (Py.rstrip (Py.lstrip s)) as [|d r] eqn:E;
    [reflexivity|].
  pose proof (rstrip_head _ _ _ E) as (s' & E').
  apply lstrip_not_space in E'.
  cbn [Py.lstrip]. rewrite E'. rewrite <- E. apply rstrip_idempotent.
Qed.

Lemma strip_truthy_inv (s : string) :
  Py.truthy (Py.strip s) = true -> Py.truthy s = true.
Proof. destruct s; [discriminate | reflexivity]. Qed.

(** The name [_match_category] returns is stripped. *)
Lemma match_category_in_stripped (ps : list Re.regex) (line n : string) :
  Comp.match_category_in ps line = Ok (Some n) -> Py.strip n = n.
Proof.
  induction ps as [|r ps IH]; cbn [Comp.match_category_in]; [discriminate|].
  destruct (Re.re_match r line) as [m|]; [|exact IH].
  destruct (Re.has_group r "category"); [|exact IH].
  destruct (Re.group m "category") as [c|]; [|discriminate].
  intros H. inversion H; subst. apply strip_idempotent.
Qed.

Lemma category_name_stripped (line n : string) :
  Comp._match_category line = Ok (Some n) ->
  Py.truthy (Py.strip n) = true.
Proof.
  intros H. rewrite (match_category_in_stripped _ _ _ H).
  eapply category_name_truthy, H.
Qed.

(** *** The categories of the loop *)

Lemma sorted_snoc (l : list nat) (k : nat) :
  StronglySorted lt l -> Forall (fun r => r < k) l ->
  StronglySorted lt (l ++ [k]).
Proof.
  induction l as [|x l IH]; intros S F; cbn [app].
  - constructor; constructor.
  - inversion S as [|? ? Sl Fx]; subst. inversion F as [|? ? Hx Fl]; subst.
    constructor; [apply IH; assumption|].
    apply Forall_app. split; [exact Fx | constructor; [exact Hx | constructor]].
Qed.

Lemma member_refs_app (a b : list Comp.ComponentCategory) :
  member_refs (a ++ b) = (member_refs a ++ member_refs b)%list.
Proof. apply flat_map_app. Qed.

Lemma classify_named (line : string) (st st' : Comp.loop_state) :
  Comp.classify line st = Ok st' ->
  (Comp.current_category st' = Comp.current_category st
   /\ (Comp.current_category st = None ->
       Comp.category_components st = [] -> Comp.category_components st' = []))
  \/ exists n, Comp.current_category st' = Some n
               /\ Py.truthy (Py.strip n) = true.
Proof.
  unfold Comp.classify.
  destruct (Comp._match_category line) as [cat|e] eqn:Hc;
    cbn [bind]; [|discriminate].
  destruct (Comp.is_category cat) eqn:Hcat.
  - intros H. inversion H; subst; clear H. right.
    destruct cat as [n|]; [|discriminate Hcat].
    exists n. split; [reflexivity|]. eapply category_name_stripped, Hc.
  - destruct (Re.re_match Comp.standalone_number _) as [m|].
    + intros H. inversion H; subst. left. split; [reflexivity|]. cbn. auto.
    + destruct (Comp._parse_component_line _) as [[c|]|e]; cbn [bind];
        intros H; inversion H; subst; left; (split; [reflexivity|]); cbn; auto.
      intros -> E. exact E.
Qed.

Lemma step_named (l : string) (st st' : Comp.loop_state) :
  Comp.step st l = Ok st' -> named_category st -> named_category st'.
Proof.
  unfold named_category.
  assert (C : forall s, Comp.current_category s = Comp.current_category st ->
                        Comp.category_components s = Comp.category_components st ->
                        Comp.classify (Py.rstrip l) s = Ok st' ->
                        match Comp.current_category st with
                        | Some n => Py.truthy (Py.strip n) = true
                        | None => Comp.category_components st = []
                        end ->
                        match Comp.current_category st' with
                        | Some n => Py.truthy (Py.strip n) = true
                        | None => Comp.category_components st' = []
                        end).
  { intros s E1 E2 H N. apply classify_named in H.
    destruct H as [(E & K) | (n & -> & T)]; [|exact T].
    rewrite E, E1. rewrite E1, E2 in K.
    destruct (Comp.current_category st); [exact N | auto]. }
  unfold Comp.step. destruct (negb _).
  - intros H. inversion H; subst. auto.
  - destruct (Comp.pending_number st) as [pn|];
      [destruct (Py.truthy pn)|]; try (apply C; reflexivity).
    destruct (Comp._match_category (Py.rstrip l)) as [cat|e]; cbn [bind];
      [|discriminate].
    destruct (negb (Comp.is_category cat) && _).
    + intros H. inversion H; subst. cbn.
      destruct (Comp.current_category st); [auto|]. auto.
    + apply C; reflexivity.
Qed.

Lemma add_component_invariant (c : Comp.Component) (st : Comp.loop_state) :
  named_category st -> category_invariant st ->
  category_invariant (Comp.add_component c st).
Proof.
  unfold named_category. intros N (S & F & W & K).
  unfold category_invariant, Comp.add_component.
  cbn [Comp.self Comp.components Comp.categories Comp.category_components
       Comp.current_category].
  assert (F' : Forall (fun r => r < List.length (Comp.components (Comp.self st) ++ [c]))
                      (member_refs (Comp.categories (Comp.self st))
                       ++ Comp.category_components st)).
  { revert F. apply Forall_impl. intros r Hr. rewrite length_app. cbn. lia. }
  destruct (Comp.current_category st) as [cat|].
  - rewrite K. rewrite app_assoc. repeat split; try assumption.
    + apply sorted_snoc; assumption.
    + apply Forall_app. split; [exact F'|].
      constructor; [|constructor]. rewrite length_app. cbn. lia.
  - repeat split; assumption.
Qed.

Lemma close_category_invariant (st : Comp.loop_state) :
  named_category st -> category_invariant st ->
  member_refs (Comp.categories (Comp.close_category st))
  = (member_refs (Comp.categories (Comp.self st))
     ++ Comp.category_components st)%list
  /\ Forall well_formed_category (Comp.categories (Comp.close_category st)).
Proof.
  unfold named_category. intros N (S & F & W & K). unfold Comp.close_category.
  destruct (Comp.current_category st) as [cat|].
  - destruct (Comp.category_components st) as [|r rs] eqn:E.
    + rewrite app_nil_r. auto.
    + rewrite K. cbn [Comp.categories]. rewrite member_refs_app. split.
      * unfold member_refs at 2. cbn. rewrite app_nil_r. reflexivity.
      * apply Forall_app. split; [exact W|]. constructor; [|constructor].
        split; [exact N | discriminate].
  - rewrite K, app_nil_r. auto.
Qed.

Lemma step_invariant (l : string) (st st' : Comp.loop_state) :
  Comp.step st l = Ok st' -> named_category st -> category_invariant st ->
  category_invariant st'.
Proof.
  intros H N Q. pose proof (step_named l st st' H N) as N'.
  apply step_shape_of in H.
  destruct H as [(E1 & E2 & E3) | c (E1 & E2 & E3) | n _ E1 E2 E3].
  - destruct Q as (S & F & W & K).
    unfold category_invariant. rewrite E1, E2, E3. auto.
  - pose proof (add_component_invariant c st N Q) as (S & F & W & K).
    unfold category_invariant. rewrite E1, E2, E3. auto.
  - destruct (close_category_invariant st N Q) as (M & W).
    destruct (close_category_grows st) as (_ & L).
    destruct Q as (S & F & _ & _).
    unfold category_invariant. rewrite E1, E2, E3, M, L, app_nil_r.
    repeat split; try assumption.
    unfold named_category in N'. rewrite E2 in N'.
    apply strip_truthy_inv, N'.
Qed.

Lemma run_invariant (lines : list string) :
  forall st st',
    Comp.run lines st = (Ok tt, st') ->
    named_category st -> category_invariant st ->
    named_category st' /\ category_invariant st'.
Proof.
  induction lines as [|l rest IH]; intros st st' H N Q; cbn [Comp.run] in H.
  - inversion H; subst. auto.
  - destruct (Comp.step st l) as [st1|e] eqn:E; [|discriminate H].
    eapply IH; [exact H | eapply step_named | eapply step_invariant]; eassumption.
Qed.

(** X3. After an extraction the categories refer to components of the
    flat list, in document order and each component at most once (the
    references, read category after category, are strictly increasing and
    below the number of components); every category has a non-empty name
    and at least one component. *)
Theorem X3_categories_refer_to_components (s : Comp.ComponentExtractor)
        (text : string) :
  let self' := snd (Comp.extract_components_from_text s text) in
  StronglySorted lt (member_refs (Comp.categories self'))
  /\ Forall (fun r => r < List.length (Comp.components self'))
            (member_refs (Comp.categories self'))
  /\ Forall well_formed_category (Comp.categories self').
Proof.
  destruct (extract_components_total s text) as (comps & H).
  unfold Comp.extract_components_from_text in *.
  destruct (Comp.extract_components_from_lines s (Comp.lines_of text))
    as [r self'] eqn:E. cbn [fst snd] in *. subst r.
  apply extract_lines_ok in E as (st_end & R & -> & _).
  destruct (post_process_ident (Comp.close_category st_end)) as (_ & C).
  rewrite C, post_process_length.
  apply run_invariant in R as (N & Q).
  - destruct (close_category_invariant st_end N Q) as (M & W).
    destruct (close_category_grows st_end) as (_ & L).
    destruct Q as (S & F & _ & _). rewrite M, L. auto.
  - reflexivity.
  - repeat split; constructor.
Qed.

(** *** Post-processing rewrites titles only *)

Lemma update_nth_untitled (i : nat) (t : string) (l : list Comp.Component) :
  map untitled (update_nth i (Comp.set_title t) l) = map untitled l.
Proof.
  revert i. induction l as [|x l IH]; intros [|i]; simpl; try reflexivity.
  rewrite IH. reflexivity.
Qed.

Lemma repair_step_untitled (st : Comp.repair_state) (i : nat) :
  map untitled (Comp.r_components (Comp.repair_step st i))
  = map untitled (Comp.r_components st).
Proof.
  unfold Comp.repair_step.
  destruct (nth_error _ i) as [component|]; [|reflexivity].
  repeat match goal with
         | |- context [if ?b then _ else _] => destruct b
         end;
    cbn [Comp.r_components Comp.retitle];
    rewrite ?update_nth_untitled; reflexivity.
Qed.

Lemma repair_fold_untitled (positions : list nat) :
  forall st,
    map untitled (Comp.r_components (fold_left Comp.repair_step positions st))
    = map untitled (Comp.r_components st).
Proof.
  induction positions as [|i rest IH]; intros st; simpl; [reflexivity|].
  rewrite IH. apply repair_step_untitled.
Qed.

Lemma post_process_untitled (s : Comp.ComponentExtractor) :
  map untitled (Comp.components (Comp._post_process_components s))
  = map untitled (Comp.components s).
Proof.
  unfold Comp._post_process_components.
  cbn [Comp.components]. rewrite map_map.
  rewrite (map_ext (fun x => untitled (Comp.cleanup x)) untitled) by reflexivity.
  rewrite repair_fold_untitled. cbn [Comp.r_components].
  rewrite map_map. apply map_ext. intros c. unfold Comp.fix_known.
  destruct (Dict.get _ _ _); [|reflexivity].
  destruct (_ || _); reflexivity.
Qed.

(** X4. [_post_process_components] rewrites titles and nothing else: the
    components keep their count, order, number, description, category, raw
    text and children, and the categories are untouched. *)
Theorem X4_post_process_rewrites_titles_only (s : Comp.ComponentExtractor) :
  map untitled (Comp.components (Comp._post_process_components s))
  = map untitled (Comp.components s)
  /\ List.length (Comp.components (Comp._post_process_components s))
     = List.length (Comp.components s)
  /\ Comp.categories (Comp._post_process_components s) = Comp.categories s.
Proof.
  split; [apply post_process_untitled|]. split; [|reflexivity].
  pose proof (post_process_untitled s) as U.
  apply (f_equal (@List.length _)) in U. rewrite !length_map in U. exact U.
Qed.

(** *** [organize_by_categories] *)

(** X6. [organize_by_categories] is idempotent: a second call returns the
    same categories and leaves the same attributes. *)
Theorem X6_organize_idempotent (s : Comp.ComponentExtractor) :
  Comp.organize_by_categories (snd (Comp.organize_by_categories s))
  = Comp.organize_by_categories s.
Proof.
  unfold Comp.organize_by_categories at 2 3.
  destruct (Comp.categories s) as [|k ks] eqn:E; cbn [snd].
  - unfold Comp.organize_by_categories. cbn [Comp.categories Comp.components].
    destruct (Dict.values _) eqn:V; reflexivity.
  - unfold Comp.organize_by_categories. rewrite E. reflexivity.
Qed.

Lemma zdict_get_set {V} (k : Z) (v : V) (d : list (Z * V)) :
  Dict.get Z.eqb k (Dict.set Z.eqb k v d) = Some v.
Proof.
  induction d as [|[k' v'] d IH]; cbn.
  - rewrite Z.eqb_refl. reflexivity.
  - destruct (Z.eqb k' k) eqn:E; cbn; rewrite E; [reflexivity | exact IH].
Qed.

Lemma zdict_set_fresh {V} (k : Z) (v : V) (d : list (Z * V)) :
  Dict.get Z.eqb k d = None -> Dict.set Z.eqb k v d = (d ++ [(k, v)])%list.
Proof.
  induction d as [|[k' v'] d IH]; cbn; [reflexivity|].
  destruct (Z.eqb k' k); [discriminate|]. intros H. rewrite IH by exact H.
  reflexivity.
Qed.

Lemma zdict_set_member (k : Z) (ref : nat) (c : Comp.ComponentCategory)
      (d : Comp.numeric_categories_t) :
  Dict.get Z.eqb k d = Some c ->
  Permutation (member_refs (Dict.values (Dict.set Z.eqb k (Comp.add_member ref c) d)))
              (ref :: member_refs (Dict.values d)).
Proof.
  induction d as [|[k' v'] d IH]; cbn; [discriminate|].
  destruct (Z.eqb k' k).
  - intros H. inversion H; subst. cbn. rewrite <- app_assoc. cbn.
    symmetry. apply Permutation_middle.
  - intros H. cbn. specialize (IH H).
    apply (Permutation_app_head (Comp.cat_components v')) in IH.
    etransitivity; [exact IH|]. symmetry. apply Permutation_middle.
Qed.

Lemma bucket_step_refs (total : nat) (d : Comp.numeric_categories_t)
      (rc : nat * Comp.Component) :
  Permutation (member_refs (Dict.values (Comp.bucket_step total d rc)))
              ((if Comp.is_some (Py.int (Comp.number (snd rc)))
                then [fst rc] else [])
               ++ member_refs (Dict.values d)).
Proof.
  unfold Comp.bucket_step.
  destruct (Py.int (Comp.number (snd rc))) as [num|]; cbn [Comp.is_some app];
    [|reflexivity].
  cbv zeta. set (k := ((num - 1) / 10)%Z). set (fresh := Comp.new_ComponentCategory _ _).
  destruct (Dict.get Z.eqb k d) as [c|] eqn:G.
  - rewrite G. apply zdict_set_member, G.
  - rewrite zdict_get_set.
    etransitivity; [apply zdict_set_member, zdict_get_set|].
    constructor. rewrite (zdict_set_fresh k fresh d G).
    unfold Dict.values, member_refs. rewrite map_app, flat_map_app. cbn.
    rewrite !app_nil_r. reflexivity.
Qed.

Lemma fold_bucket_refs (total : nat) (comps : list Comp.Component)
      (items : list (nat * Comp.Component)) :
  forall d,
    Forall (fun rc => nth_error comps (fst rc) = Some (snd rc)) items ->
    Permutation
      (member_refs (Dict.values (fold_left (Comp.bucket_step total) items d)))
      (member_refs (Dict.values d) ++ filter (numbered comps) (map fst items)).
Proof.
  induction items as [|rc items IH]; intros d F; cbn [fold_left map filter].
  - rewrite app_nil_r. reflexivity.
  - inversion F as [|? ? Hrc Fi]; subst.
    etransitivity; [apply IH, Fi|].
    etransitivity; [apply Permutation_app_tail, bucket_step_refs|].
    unfold numbered at 2. rewrite Hrc.
    destruct (Comp.is_some _); cbn [app].
    + apply Permutation_cons_app. reflexivity.
    + reflexivity.
Qed.

Lemma enumerate_nth {A} (l : list A) :
  Forall (fun rc => nth_error l (fst rc) = Some (snd rc)) (Comp.enumerate l).
Proof.
  apply Forall_forall. intros [i x] H. apply in_enumerate, H.
Qed.

Lemma enumerate_fst {A} (l : list A) :
  map fst (Comp.enumerate l) = seq 0 (List.length l).
Proof.
  unfold Comp.enumerate. generalize 0.
  induction l as [|x l IH]; intros n; cbn; [reflexivity|].
  rewrite IH. reflexivity.
Qed.

(** X7. Without explicit categories, [organize_by_categories] files each
    component whose number [int] reads in exactly one category, and no other
    component in any. *)
Theorem X7_organize_partitions_numbered (comps : list Comp.Component) :
  let cats := fst (Comp.organize_by_categories (Comp.mkExtractor comps [])) in
  NoDup (member_refs cats)
  /\ forall ref, In ref (member_refs cats) <-> numbered comps ref = true.
Proof.
  cbv zeta. unfold Comp.organize_by_categories. cbn [Comp.categories Comp.components fst].
  pose proof (fold_bucket_refs (List.length comps) comps (Comp.enumerate comps) []
                (enumerate_nth comps)) as P.
  cbn [Dict.values map member_refs flat_map app] in P.
  rewrite enumerate_fst in P. split.
  - eapply Permutation_NoDup; [symmetry; exact P|].
    apply NoDup_filter, seq_NoDup.
  - intros ref. split.
    + intros H. eapply Permutation_in in H; [|exact P].
      apply filter_In in H. apply H.
    + intros H. eapply Permutation_in; [symmetry; exact P|].
      apply filter_In. split; [|exact H].
      apply in_seq. unfold numbered in H.
      destruct (nth_error comps ref) eqn:E; [|discriminate H].
      assert (ref < List.length comps) by (apply nth_error_Some; congruence).
      lia.
Qed.

(** *** Buckets of ten *)

Lemma zdict_get_forall {V} (P : Z * V -> Prop) (k : Z) (v : V) (d : list (Z * V)) :
  Dict.get Z.eqb k d = Some v -> Forall P d -> P (k, v).
Proof.
  induction d as [|[k' v'] d IH]; cbn; [discriminate|].
  intros H F. inversion F as [|? ? Hx Fd]; subst.
  destruct (Z.eqb k' k) eqn:E.
  - apply Z.eqb_eq in E. inversion H; subst. exact Hx.
  - apply IH; assumption.
Qed.

Lemma zdict_set_forall {V} (P : Z * V -> Prop) (k : Z) (v : V) (d : list (Z * V)) :
  P (k, v) -> Forall P d -> Forall P (Dict.set Z.eqb k v d).
Proof.
  intros Hv. induction d as [|[k' v'] d IH]; cbn; intros F.
  - constructor; [exact Hv | constructor].
  - inversion F as [|? ? Hx Fd]; subst. destruct (Z.eqb k' k) eqn:E.
    + apply Z.eqb_eq in E. subst k'. constructor; assumption.
    + constructor; [exact Hx | apply IH, Fd].
Qed.

Lemma bucket_step_of_ten (comps : list Comp.Component)
      (d : Comp.numeric_categories_t) (rc : nat * Comp.Component) :
  nth_error comps (fst rc) = Some (snd rc) ->
  Forall (bucket_of_ten comps) d ->
  Forall (bucket_of_ten comps) (Comp.bucket_step (List.length comps) d rc).
Proof.
  intros Hrc F. unfold Comp.bucket_step.
  destruct (Py.int (Comp.number (snd rc))) as [num|] eqn:N; [|exact F].
  cbv zeta. set (k := ((num - 1) / 10)%Z).
  set (fresh := Comp.new_ComponentCategory _ _).
  set (d' := match Dict.get Z.eqb k d with Some _ => d | None => _ end).
  assert (F' : Forall (bucket_of_ten comps) d').
  { subst d'. destruct (Dict.get Z.eqb k d); [exact F|].
    apply zdict_set_forall; [|exact F]. split; [reflexivity | constructor]. }
  destruct (Dict.get Z.eqb k d') as [c|] eqn:G; [|exact F'].
  apply zdict_set_forall; [|exact F'].
  pose proof (zdict_get_forall _ k c d' G F') as (Hn & Hm).
  split; [exact Hn|]. cbn [snd fst Comp.add_member Comp.cat_components].
  apply Forall_app. split; [exact Hm|]. constructor; [|constructor].
  exists (snd rc), num. split; [exact Hrc|]. split; [exact N|].
  subst k. cbn [fst]. Z.to_euclidean_division_equations. lia.
Qed.

Lemma fold_bucket_of_ten (comps : list Comp.Component)
      (items : list (nat * Comp.Component)) :
  forall d,
    Forall (fun rc => nth_error comps (fst rc) = Some (snd rc)) items ->
    Forall (bucket_of_ten comps) d ->
    Forall (bucket_of_ten comps)
           (fold_left (Comp.bucket_step (List.length comps)) items d).
Proof.
  induction items as [|rc items IH]; intros d F G; cbn [fold_left]; [exact G|].
  inversion F as [|? ? Hrc Fi]; subst.
  apply IH; [exact Fi | apply bucket_step_of_ten; assumption].
Qed.

(** X8. Every category inferred from the numbering is a bucket of ten:
    for some [k] it is named after [10k+1] and [min(10k+10, total)], and
    each of its members carries a number between [10k+1] and [10k+10]. *)
Theorem X8_organize_buckets_of_ten (comps : list Comp.Component) :
  Forall (fun cat => exists k, bucket_of_ten comps (k, cat))
         (fst (Comp.organize_by_categories (Comp.mkExtractor comps []))).
Proof.
  unfold Comp.organize_by_categories. cbn [Comp.categories Comp.components fst].
  pose proof (fold_bucket_of_ten comps (Comp.enumerate comps) []
                (enumerate_nth comps) (Forall_nil _)) as F.
  unfold Dict.values. apply Forall_map. revert F. apply Forall_impl.
  intros [k cat] H. exists k. exact H.
Qed.

(** *** C8: the buckets of the fallback *)

Lemma zdict_set_keys {V} (k : Z) (v : V) (d : list (Z * V)) (x : Z) :
  In x (map fst (Dict.set Z.eqb k v d)) -> x = k \/ In x (map fst d).
Proof.
  induction d as [|[k' v'] d IH]; cbn.
  - intros [H | []]. left. congruence.
  - destruct (Z.eqb k' k) eqn:E; cbn.
    + intros [H | H]; auto.
    + intros [H | H]; [auto|]. destruct (IH H); auto.
Qed.

Lemma zdict_set_nodup {V} (k : Z) (v : V) (d : list (Z * V)) :
  NoDup (map fst d) -> NoDup (map fst (Dict.set Z.eqb k v d)).
Proof.
  induction d as [|[k' v'] d IH]; cbn; intros N.
  - constructor; [intros [] | constructor].
  - inversion N as [|? ? Hk Nd]; subst. destruct (Z.eqb k' k) eqn:E; cbn.
    + constructor; assumption.
    + constructor; [|apply IH, Nd]. intros H.
      apply zdict_set_keys in H as [H | H].
      * subst k'. rewrite Z.eqb_refl in E. discriminate E.
      * contradiction.
Qed.

(** The dictionary of the fallback holds one category for each ten. *)
Lemma bucket_step_keys (total : nat) (d : Comp.numeric_categories_t)
      (rc : nat * Comp.Component) :
  NoDup (map fst d) -> NoDup (map fst (Comp.bucket_step total d rc)).
Proof.
  intros N. unfold Comp.bucket_step.
  destruct (Py.int (Comp.number (snd rc))) as [num|]; [|exact N].
  cbv zeta. set (k := ((num - 1) / 10)%Z).
  set (fresh := Comp.new_ComponentCategory _ _).
  set (d' := match Dict.get Z.eqb k d with Some _ => d | None => _ end).
  assert (N' : NoDup (map fst d')).
  { subst d'. destruct (Dict.get Z.eqb k d); [exact N|].
    apply zdict_set_nodup, N. }
  destruct (Dict.get Z.eqb k d'); [|exact N'].
  apply zdict_set_nodup, N'.
Qed.

Lemma fold_bucket_keys (total : nat) (items : list (nat * Comp.Component)) :
  forall d, NoDup (map fst d) ->
            NoDup (map fst (fold_left (Comp.bucket_step total) items d)).
Proof.
  induction items as [|rc items IH]; intros d N; cbn [fold_left]; [exact N|].
  apply IH, bucket_step_keys, N.
Qed.

Lemma forall_keys_values {K V} (P : K * V -> Prop) (d : list (K * V)) :
  Forall P d -> Forall2 (fun k v => P (k, v)) (map fst d) (map snd d).
Proof.
  induction 1 as [|[k v] d H _ IH]; cbn; constructor; assumption.
Qed.

(** C8. With no category recorded, the components whose number [int] reads
    are grouped by tens, and they alone: each of them is a member of
    exactly one inferred category; there is one category for each ten in
    which a number falls, the category of the numbers from [10k+1] to
    [10k+10] being named "Components [10k+1]-[min(10k+10, total)]" and
    holding only components numbered within that ten.  So 23 components
    numbered 1 to 23 are grouped into exactly three categories, "Components
    1-10", "Components 11-20" and "Components 21-23", holding the first ten,
    the next ten and the last three components; a component whose number
    [int] rejects is a member of no inferred category; and recorded
    categories are returned as they are. *)
Theorem C8_fallback_buckets_of_ten :
  (forall comps,
      let cats :=
        fst (Comp.organize_by_categories (Comp.mkExtractor comps [])) in
      NoDup (member_refs cats)
      /\ (forall ref, In ref (member_refs cats) <-> numbered comps ref = true)
      /\ exists tens,
           NoDup tens
           /\ Forall2 (fun k cat => bucket_of_ten comps (k, cat)) tens cats)
  /\ (forall comps,
         map Comp.number comps = numbers_1_to_23 ->
         Comp.organize_by_categories (Comp.mkExtractor comps [])
         = (three_buckets, Comp.mkExtractor comps three_buckets))
  /\ (forall s ref c cat,
         Comp.categories s = [] ->
         nth_error (Comp.components s) ref = Some c ->
         Py.int (Comp.number c) = None ->
         In cat (fst (Comp.organize_by_categories s)) ->
         ~ In ref (Comp.cat_components cat))
  /\ (forall s, Comp.categories s <> [] ->
                Comp.organize_by_categories s = (Comp.categories s, s)).
Proof.
  split.
  { intros comps. cbv zeta. unfold Comp.organize_by_categories.
    cbn [Comp.categories Comp.components fst].
    pose proof (fold_bucket_refs (List.length comps) comps
                  (Comp.enumerate comps) [] (enumerate_nth comps)) as P.
    cbn [Dict.values map member_refs flat_map app] in P.
    rewrite enumerate_fst in P.
    split; [|split].
    - eapply Permutation_NoDup; [symmetry; exact P|].
      apply NoDup_filter, seq_NoDup.
    - intros ref. split.
      + intros H. eapply Permutation_in in H; [|exact P].
        apply filter_In in H. apply H.
      + intros H. eapply Permutation_in; [symmetry; exact P|].
        apply filter_In. split; [|exact H].
        apply in_seq. unfold numbered in H.
        destruct (nth_error comps ref) eqn:E; [|discriminate H].
        assert (ref < List.length comps) by (apply nth_error_Some; congruence).
        lia.
    - eexists. split.
      + apply (fold_bucket_keys (List.length comps) (Comp.enumerate comps) []).
        constructor.
      + unfold Dict.values. apply forall_keys_values.
        apply fold_bucket_of_ten;
          [apply enumerate_nth | apply Forall_nil]. }
  split.
  { intros comps H. rewrite organize_by_numbers, H.
    assert (E : buckets_of numbers_1_to_23 = three_buckets) by by_evaluation.
    rewrite E. reflexivity. }
  split; [exact organize_excludes|].
  intros s H. unfold Comp.organize_by_categories.
  destruct (Comp.categories s) eqn:E; [contradiction | reflexivity].
Qed.

Lemma C8_fallback_buckets_of_ten_witness :
  Comp.organize_by_categories (Comp.mkExtractor c8_components [])
  = (three_buckets, Comp.mkExtractor c8_components three_buckets).
Proof.
  apply (proj1 (proj2 C8_fallback_buckets_of_ten) c8_components).
  by_evaluation.
Defined.

(** *** Components have a number and a title *)

(** A pattern leaves the groups it does not contain as they were. *)
Lemma matches_keeps_cap (n : string) (r : Re.regex) :
  Re.has_group r n = false ->
  forall pos s cs p' s' cs',
    matches r pos s cs p' s' cs' -> Re.get_cap n cs' = Re.get_cap n cs.
Proof.
  unfold Re.has_group.
  induction r as [|cl|a IHa b IHb|a IHa b IHb|a IHa|g mn a IHa|n' a IHa| |];
    cbn [Re.group_names existsb matches]; intros G pos s cs p' s' cs' M.
  - destruct M as (_ & _ & ->). reflexivity.
  - destruct M as (c & _ & _ & _ & ->). reflexivity.
  - rewrite existsb_app in G. apply orb_false_iff in G as (Ga & Gb).
    destruct M as (p1 & s1 & cs1 & Ma & Mb).
    rewrite (IHb Gb _ _ _ _ _ _ Mb). apply (IHa Ga _ _ _ _ _ _ Ma).
  - rewrite existsb_app in G. apply orb_false_iff in G as (Ga & Gb).
    destruct M as [M | M]; [apply (IHa Ga _ _ _ _ _ _ M) | apply (IHb Gb _ _ _ _ _ _ M)].
  - destruct M as [M | (_ & _ & ->)]; [apply (IHa G _ _ _ _ _ _ M) | reflexivity].
  - destruct M as (k & _ & M). revert pos s cs M.
    induction k as [|k IHk]; cbn [iter]; intros pos s cs M.
    + destruct M as (_ & _ & ->). reflexivity.
    + destruct M as (p1 & s1 & cs1 & M1 & _ & M2).
      rewrite (IHk _ _ _ M2). apply (IHa G _ _ _ _ _ _ M1).
  - apply orb_false_iff in G as (Gn & Ga).
    destruct M as (cs1 & M & ->).
    rewrite get_set_cap_other; [apply (IHa Ga _ _ _ _ _ _ M)|].
    rewrite String.eqb_sym. exact Gn.
  - destruct M as (_ & _ & _ & ->). reflexivity.
  - destruct M as (_ & _ & _ & ->). reflexivity.
Qed.

Lemma rstrip_length (s : string) : String.length (Py.rstrip s) <= String.length s.
Proof.
  induction s as [|c s IH]; cbn [Py.rstrip]; [lia|].
  destruct (Py.rstrip s) as [|d r].
  - destruct (Py.isspace c); cbn in *; lia.
  - cbn in *. lia.
Qed.

(** A string without trailing white space does not end in a line break. *)
Lemma rstrip_fixed_no_newline (a : string) :
  Py.rstrip (a ++ nl) <> a ++ nl.
Proof.
  intros H. pose proof (rstrip_spaces a nl eq_refl) as E.
  rewrite E in H. pose proof (rstrip_length a) as L.
  rewrite H, length_append in L. cbn in L. lia.
Qed.

Lemma strip_fixed (s : string) : Py.rstrip (Py.strip s) = Py.strip s.
Proof. unfold Py.strip. apply rstrip_idempotent. Qed.

Lemma get_strip_stripped (r : Re.regex) (m : Re.rmatch_obj) (n t : string) :
  get_strip r m n = Ok t -> Py.strip t = t.
Proof.
  unfold get_strip. destruct (Re.has_group r n).
  - destruct (Re.group m n); [|discriminate].
    intros H. inversion H. apply strip_idempotent.
  - intros H. inversion H. reflexivity.
Qed.

Lemma group_if_set_truthy (r : Re.regex) (m : Re.rmatch_obj) (n v : string) :
  group_if_set r m n = Some v -> Py.truthy v = true.
Proof.
  unfold group_if_set. destruct (Re.has_group r n); [|discriminate].
  destruct (Re.group m n) as [w|]; [|discriminate].
  destruct (Py.truthy w) eqn:T; [|discriminate].
  intros H. inversion H; subst. exact T.
Qed.

Lemma number_of_match_truthy (r : Re.regex) (m : Re.rmatch_obj) (v : string) :
  Comp.number_of_match r m = Some v -> Py.truthy v = true.
Proof.
  unfold Comp.number_of_match.
  destruct (group_if_set r m "number") eqn:A.
  - intros H. inversion H; subst. eapply group_if_set_truthy, A.
  - destruct (group_if_set r m "letter") eqn:B.
    + intros H. inversion H; subst. eapply group_if_set_truthy, B.
    + apply group_if_set_truthy.
Qed.

(** The two groups of a match of the first fallback pattern. *)
Lemma more_flexible_groups (x : string) (m : Re.rmatch_obj) :
  Py.rstrip x = x ->
  Re.re_match Comp.more_flexible_pattern x = Some m ->
  exists num content,
    Re.group m "1" = Some num /\ Re.group m "2" = Some content
    /\ Py.truthy num = true /\ Py.truthy (Py.strip content) = true.
Proof.
  intros Hr H. apply re_match_sound in H as (s' & M).
  unfold Comp.more_flexible_pattern in M. cbn [Re.seqs] in M.
  set (N := Re.Grp "1" _) in M. set (P := Re.plus (Re.Chr Comp.punct_or_space)) in M.
  set (S := Re.star _) in M. set (T := Re.plus (Re.Chr Re.AnyChar)) in M.
  cbn [matches] in M.
  destruct M as (p0 & s0 & cs0 & (_ & -> & -> & ->) & p1 & s1 & cs1 & Mn
                 & p2 & s2 & cs2 & Mp & p3 & s3 & cs3 & Ms
                 & p4 & s4 & cs4 & (ct & Mt & ->) & (Hend & _ & -> & Ec)).
  pose proof (plus_truthy _ _ _ _ _ _ _ _ _ (le_n 1) Mt) as T3.
  pose proof (matches_consumes _ _ _ _ _ _ _ Mn) as (w1 & E1 & _).
  pose proof (matches_consumes _ _ _ _ _ _ _ Mp) as (w2 & E2 & _).
  pose proof (matches_consumes _ _ _ _ _ _ _ Ms) as (w3 & E3 & _).
  pose proof (matches_consumes _ _ _ _ _ _ _ Mt) as (wt & Et & Ep).
  apply group_head_plus in Mn as (c & t & _ & Gn).
  apply (matches_no_group P eq_refl) in Mp.
  apply (matches_no_group S eq_refl) in Ms.
  apply (matches_no_group T eq_refl) in Mt. subst cs2 cs3 ct.
  assert (s4 = "") as ->.
  { destruct Hend as [-> | ->]; [reflexivity|]. exfalso.
    apply (rstrip_fixed_no_newline (w1 ++ w2 ++ w3 ++ wt)).
    fold nl in Et. rewrite !append_assoc, <- Et, <- E3, <- E2, <- E1. exact Hr. }
  rewrite append_nil_r in Et. subst wt.
  replace (p4 - p3) with (String.length s3) in Ec by lia.
  rewrite <- (append_nil_r s3) in Ec at 2. rewrite substring_prefix in Ec.
  exists (String c t), s3. unfold Re.group. rewrite Ec.
  rewrite get_set_cap_other by reflexivity. rewrite get_set_cap.
  repeat split; [exact Gn|].
  apply rstrip_fixed_truthy; [|exact T3].
  apply (rstrip_suffix (w1 ++ w2 ++ w3) s3); [|exact T3].
  rewrite !append_assoc, <- E3, <- E2, <- E1. exact Hr.
Qed.

Lemma numbered_group (x : string) (m : Re.rmatch_obj) :
  Re.re_match Comp.numbered_pattern x = Some m ->
  exists num, Re.group m "1" = Some num /\ Py.truthy num = true.
Proof.
  intros H. apply re_match_sound in H as (s' & M).
  unfold Comp.numbered_pattern in M. cbn [Re.seqs] in M.
  set (N := Re.Grp "1" _) in M.
  set (R := Re.Seq (Re.star (Re.Chr Comp.punct_or_space)) _) in M.
  cbn [matches] in M.
  destruct M as (p0 & s0 & cs0 & (_ & -> & -> & ->) & p1 & s1 & cs1 & Mn & Mr).
  apply group_head_plus in Mn as (c & t & _ & Gn).
  apply (matches_keeps_cap "1" R eq_refl) in Mr.
  exists (String c t). unfold Re.group. rewrite Mr. split; [exact Gn | reflexivity].
Qed.

Lemma new_component_named (num t : string) (d : option string) (raw : string) :
  Py.truthy num = true -> Py.truthy (Py.strip t) = true ->
  named (Comp.new_Component num t d raw).
Proof. intros A B. split; assumption. Qed.

Lemma fallback_named (line : string) (c : Comp.Component) :
  Comp.fallback line = Some c -> named c.
Proof.
  unfold Comp.fallback.
  destruct (Re.re_match Comp.more_flexible_pattern (Py.strip line)) as [m|] eqn:E.
  - destruct (more_flexible_groups _ m (strip_fixed line) E)
      as (num & content & -> & -> & Tn & Tc).
    intros H. inversion H; subst. apply new_component_named; [exact Tn|].
    rewrite strip_idempotent. exact Tc.
  - destruct (Re.re_match Comp.numbered_pattern (Py.strip line)) as [m|] eqn:E2;
      [|discriminate].
    destruct (numbered_group _ m E2) as (num & -> & Tn).
    destruct (Re.group m "2") as [content|]; [|discriminate].
    destruct (Py.truthy (Py.strip content)) eqn:Tc; [|discriminate].
    intros H. inversion H; subst. apply new_component_named; [exact Tn|].
    rewrite strip_idempotent. exact Tc.
Qed.

Lemma try_patterns_named (ps : list Re.regex) (line : string) (c : Comp.Component) :
  Comp.try_patterns ps line = Ok (Some c) -> named c.
Proof.
  induction ps as [|r ps IH]; cbn [Comp.try_patterns].
  - intros H. inversion H as [F]. eapply fallback_named, F.
  - destruct (Re.re_match r line) as [m|]; [|exact IH].
    destruct (get_strip r m "title") as [t|e] eqn:Ht; cbn [bind]; [|discriminate].
    destruct (Comp.description_of_match r m) as [d|e]; cbn [bind]; [|discriminate].
    destruct (Comp.number_of_match r m) as [num|] eqn:Hn; [|exact IH].
    destruct (Py.truthy t) eqn:T; [|exact IH].
    intros H. inversion H; subst. apply new_component_named.
    + eapply number_of_match_truthy, Hn.
    + rewrite (get_strip_stripped _ _ _ _ Ht). exact T.
Qed.

Lemma classify_named_components (line : string) (st st' : Comp.loop_state) :
  Comp.classify line st = Ok st' ->
  Forall named (Comp.components (Comp.self st)) ->
  Forall named (Comp.components (Comp.self st')).
Proof.
  unfold Comp.classify.
  destruct (Comp._match_category line) as [cat|e]; cbn [bind]; [|discriminate].
  destruct (Comp.is_category cat).
  - intros H F. inversion H; subst. cbn [Comp.self].
    destruct (close_category_grows st) as (_ & K). rewrite K. exact F.
  - destruct (Re.re_match Comp.standalone_number _) as [m|].
    + intros H F. inversion H; subst. exact F.
    + destruct (Comp._parse_component_line line) as [[c|]|e] eqn:P; cbn [bind];
        intros H F; inversion H; subst; [|exact F].
      cbn. apply Forall_app. split; [exact F|]. constructor; [|constructor].
      eapply try_patterns_named, P.
Qed.

Lemma step_named_components (l : string) (st st' : Comp.loop_state) :
  Comp.step st l = Ok st' ->
  Forall named (Comp.components (Comp.self st)) ->
  Forall named (Comp.components (Comp.self st')).
Proof.
  unfold Comp.step. destruct (negb (Py.truthy _)) eqn:B.
  - intros H F. inversion H; subst. exact F.
  - destruct (Comp.pending_number st) as [pn|];
      [destruct (Py.truthy pn) eqn:Tp|]; try apply classify_named_components.
    destruct (Comp._match_category (Py.rstrip l)) as [cat|e]; cbn [bind];
      [|discriminate].
    destruct (negb (Comp.is_category cat) && _).
    + intros H F. inversion H; subst. cbn.
      apply Forall_app. split; [exact F|]. constructor; [|constructor].
      apply new_component_named; [exact Tp|].
      rewrite strip_idempotent. apply negb_false_iff, B.
    + apply (classify_named_components _ (Comp.drop_pending st)).
Qed.

Lemma run_named_components (lines : list string) :
  forall st st',
    Comp.run lines st = (Ok tt, st') ->
    Forall named (Comp.components (Comp.self st)) ->
    Forall named (Comp.components (Comp.self st')).
Proof.
  induction lines as [|l rest IH]; intros st st' H F; cbn [Comp.run] in H.
  - inversion H; subst. exact F.
  - destruct (Comp.step st l) as [st1|e] eqn:E; [|discriminate H].
    eapply IH; [exact H | eapply step_named_components; eassumption].
Qed.

(** *** Post-processing keeps components named *)

Lemma re_sub_truthy (r : Re.regex) (repl s : string) :
  Py.truthy repl = true -> Py.truthy s = true ->
  Py.truthy (Re.re_sub r repl s) = true.
Proof.
  intros Hr Hs. unfold Re.re_sub. destruct s as [|c s]; [discriminate Hs|].
  cbn [String.length Re.sub_from].
  destruct (Re.match_at r 0 (String c s)) as [m|]; [|reflexivity].
  cbv zeta. destruct (_ =? 0); [reflexivity|]. apply truthy_app_l, Hr.
Qed.

Lemma update_nth_forall {A} (P : A -> Prop) (f : A -> A) (i : nat) (l : list A) :
  (forall x, P x -> P (f x)) -> Forall P l -> Forall P (update_nth i f l).
Proof.
  intros Hf. revert i. induction l as [|x l IH]; intros i F; [destruct i; exact F|].
  inversion F as [|? ? Hx Fl]; subst. destruct i as [|i]; cbn.
  - constructor; [apply Hf, Hx | exact Fl].
  - constructor; [exact Hx | apply IH, Fl].
Qed.

Lemma set_title_named (t : string) (c : Comp.Component) :
  Py.truthy t = true -> named c -> named (Comp.set_title t c).
Proof. intros T (N & _). split; [exact N | exact T]. Qed.

Lemma retitle_named (i : nat) (t : string) (st : Comp.repair_state) :
  Py.truthy t = true ->
  Forall named (Comp.r_components st) ->
  Forall named (Comp.r_components (Comp.retitle i t st)).
Proof.
  intros T F. cbn. apply update_nth_forall; [|exact F].
  intros x. apply set_title_named, T.
Qed.

Lemma repair_step_named (st : Comp.repair_state) (i : nat) :
  Forall named (Comp.r_components st) ->
  Forall named (Comp.r_components (Comp.repair_step st i)).
Proof.
  intros F. unfold Comp.repair_step.
  destruct (nth_error _ i) as [component|]; [|exact F].
  repeat match goal with
         | |- context [if ?b then _ else _] => destruct b
         | |- context [match ?o with Some _ => _ | None => _ end] => destruct o
         end;
    cbn [Comp.r_components];
    try exact F;
    apply retitle_named; try exact F;
    repeat first [ apply truthy_app_r; reflexivity | apply truthy_app_r ].
Qed.

Lemma repair_fold_named (positions : list nat) :
  forall st,
    Forall named (Comp.r_components st) ->
    Forall named (Comp.r_components (fold_left Comp.repair_step positions st)).
Proof.
  induction positions as [|i rest IH]; intros st F; cbn [fold_left]; [exact F|].
  apply IH, repair_step_named, F.
Qed.

Lemma known_titles_truthy (n t : string) :
  Dict.get String.eqb n Comp.known_titles = Some t -> Py.truthy t = true.
Proof.
  unfold Comp.known_titles. cbn [Dict.get].
  repeat match goal with
         | |- context [if ?b then _ else _] => destruct b
         end;
    intros H; inversion H; reflexivity.
Qed.

Lemma post_process_named (s : Comp.ComponentExtractor) :
  Forall named (Comp.components s) ->
  Forall named (Comp.components (Comp._post_process_components s)).
Proof.
  intros F. unfold Comp._post_process_components. cbn [Comp.components].
  apply Forall_map.
  assert (F1 : Forall named (map Comp.fix_known (Comp.components s))).
  { apply Forall_map. revert F. apply Forall_impl. intros c Hc.
    unfold Comp.fix_known.
    destruct (Dict.get _ _ _) as [known|] eqn:G; [|exact Hc].
    destruct (_ || _); [|exact Hc].
    apply set_title_named; [eapply known_titles_truthy, G | exact Hc]. }
  pose proof (repair_fold_named (seq 0 (List.length (map Comp.fix_known (Comp.components s))))
                (Comp.mkRepair (map Comp.fix_known (Comp.components s)) "" "") F1) as F2.
  revert F2. apply Forall_impl. intros c Hc. unfold Comp.cleanup.
  apply set_title_named; [|exact Hc].
  apply re_sub_truthy; [reflexivity|]. apply re_sub_truthy; [reflexivity|].
  apply Hc.
Qed.

(** X5. Every component an extraction returns has a non-empty number and
    a non-empty title. *)
Theorem X5_components_are_named (s : Comp.ComponentExtractor) (text : string) :
  exists comps,
    fst (Comp.extract_components_from_text s text) = Ok comps
    /\ Forall named comps.
Proof.
  destruct (extract_components_total s text) as (comps & H).
  exists comps. split; [exact H|].
  unfold Comp.extract_components_from_text in H.
  destruct (Comp.extract_components_from_lines s (Comp.lines_of text))
    as [r self'] eqn:E. cbn [fst] in H. subst r.
  apply extract_lines_ok in E as (st_end & R & -> & ->).
  apply post_process_named.
  destruct (close_category_grows st_end) as (_ & K). rewrite K.
  eapply run_named_components; [exact R | constructor].
Qed.

(* ================================================================== *)
(** * Further properties of toc_extractor.py *)

(** *** The subentry pattern is shadowed *)

(** A match does not depend on the groups set before it. *)
Lemma matches_recap (r : Re.regex) :
  forall pos s cs p' s' cs',
    matches r pos s cs p' s' cs' ->
    forall cs0, exists cs0', matches r pos s cs0 p' s' cs0'.
Proof.
  induction r as [|cl|a IHa b IHb|a IHa b IHb|a IHa|g mn a IHa|n' a IHa| |];
    cbn [matches]; intros pos s cs p' s' cs' M cs0.
  - destruct M as (-> & -> & _). exists cs0. auto.
  - destruct M as (c & -> & Hc & -> & _). exists cs0, c. auto.
  - destruct M as (p1 & s1 & cs1 & Ma & Mb).
    destruct (IHa _ _ _ _ _ _ Ma cs0) as (cs1' & Ma').
    destruct (IHb _ _ _ _ _ _ Mb cs1') as (cs2' & Mb').
    exists cs2', p1, s1, cs1'. auto.
  - destruct M as [M | M].
    + destruct (IHa _ _ _ _ _ _ M cs0) as (x & M'). exists x. auto.
    + destruct (IHb _ _ _ _ _ _ M cs0) as (x & M'). exists x. auto.
  - destruct M as [M | (-> & -> & _)].
    + destruct (IHa _ _ _ _ _ _ M cs0) as (x & M'). exists x. auto.
    + exists cs0. auto.
  - destruct M as (k & Hk & M).
    assert (I : exists cs0', iter (matches a) k pos s cs0 p' s' cs0').
    { clear Hk. revert pos s cs cs0 M.
      induction k as [|k IHk]; cbn [iter]; intros pos s cs cs0 M.
      - destruct M as (-> & -> & _). exists cs0. auto.
      - destruct M as (p1 & s1 & cs1 & M1 & L & M2).
        destruct (IHa _ _ _ _ _ _ M1 cs0) as (cs1' & M1').
        destruct (IHk _ _ _ cs1' M2) as (cs2' & M2').
        exists cs2', p1, s1, cs1'. auto. }
    destruct I as (x & I). exists x, k. auto.
  - destruct M as (cs1 & M & _).
    destruct (IHa _ _ _ _ _ _ M cs0) as (x & M').
    eexists. exists x. split; [exact M' | reflexivity].
  - destruct M as (-> & -> & -> & _). exists cs0. auto.
  - destruct M as (H & -> & -> & _). exists cs0. auto.
Qed.

Lemma iter_run_inv (cl : Re.cset) :
  forall n pos s cs p' s' cs',
    iter (matches (Re.Chr cl)) n pos s cs p' s' cs' ->
    exists w, s = w ++ s' /\ all_chars (Re.in_cset cl) w = true
              /\ String.length w = n /\ p' = pos + n /\ cs' = cs.
Proof.
  induction n as [|n IH]; cbn [iter]; intros pos s cs p' s' cs' M.
  - destruct M as (-> & -> & ->). exists "". repeat split. lia.
  - destruct M as (p1 & s1 & cs1 & (c & -> & Hc & -> & ->) & _ & M).
    destruct (IH _ _ _ _ _ _ M) as (w & -> & A & L & -> & ->).
    exists (String c w). cbn. rewrite Hc, A, L. repeat split. lia.
Qed.

(** What a repeated character class consumes. *)
Lemma matches_run_inv (g : bool) (mn : nat) (cl : Re.cset)
      (pos : nat) (s : string) (cs : Re.caps)
      (p' : nat) (s' : string) (cs' : Re.caps) :
  matches (Re.Rep g mn (Re.Chr cl)) pos s cs p' s' cs' ->
  exists w, s = w ++ s' /\ all_chars (Re.in_cset cl) w = true
            /\ mn <= String.length w /\ p' = pos + String.length w /\ cs' = cs.
Proof.
  cbn [matches]. intros (n & Hn & M).
  destruct (iter_run_inv cl _ _ _ _ _ _ _ M) as (w & E & A & L & P & C).
  exists w. rewrite L. auto.
Qed.

Lemma space_is_any (w rest : string) :
  no_newline (w ++ rest) = true -> no_newline w = true.
Proof.
  unfold no_newline. rewrite all_chars_app. intros H.
  apply andb_true_iff in H. apply H.
Qed.

(** On a line without line break, whatever the subentry pattern accepts
    the main-entry pattern accepts. *)
Lemma index_pattern_1_of_2 (line : string) (m2 : Re.rmatch_obj) :
  no_newline line = true ->
  Re.re_match Toc.index_pattern_2 line = Some m2 ->
  exists m1, Re.re_match Toc.index_pattern_1 line = Some m1.
Proof.
  intros Hany H2. apply re_match_sound in H2 as (s' & M).
  unfold Toc.index_pattern_2 in M. cbn [Re.seqs] in M.
  set (I := Re.at_least 2 _) in M. set (L := Re.lazy_star _) in M.
  set (TAIL := Re.Seq (Re.lit ",") _) in M.
  cbn [matches] in M.
  destruct M as (p0 & s0 & cs0 & (_ & -> & -> & ->) & p1 & s1 & cs1 & Mi
                 & p2 & s2 & cs2 & (ct & Mt & ->) & Mtail).
  apply matches_run_inv in Mi as (w1 & E1 & A1 & _ & -> & ->).
  apply matches_run_inv in Mt as (w2 & E2 & A2 & _ & -> & ->).
  eapply matches_recap in Mtail as (cs' & Mtail).
  eapply re_match_complete.
  unfold Toc.index_pattern_1. cbn [Re.seqs]. fold L TAIL. cbn [matches].
  eexists (0 + String.length w1 + String.length w2), s2, _. split.
  - eexists. split; [|reflexivity].
    replace line with ((w1 ++ w2) ++ s2) by (rewrite append_assoc; congruence).
    replace (0 + String.length w1 + String.length w2)
      with (0 + String.length (w1 ++ w2)) by (rewrite length_append; lia).
    apply matches_run; [|lia]. rewrite all_chars_app, A2, andb_true_r.
    rewrite E1 in Hany. apply (space_is_any w1 s1 Hany).
  - exact Mtail.
Qed.

(** *** The loop of [_extract_index] *)

Lemma dict_set_forall {V} (P : string * V -> Prop) (k : string) (v : V)
      (d : list (string * V)) :
  P (k, v) -> Forall P d -> Forall P (Dict.set String.eqb k v d).
Proof.
  intros Hv. induction d as [|[k' v'] d IH]; cbn; intros F.
  - constructor; [exact Hv | constructor].
  - inversion F as [|? ? Hx Fd]; subst. destruct (String.eqb k' k) eqn:E.
    + apply String.eqb_eq in E. subst k'. constructor; assumption.
    + constructor; [exact Hx | apply IH, Fd].
Qed.

Lemma index_step_flat (room : Z) (st st' : Toc.index_loop) (l : string) :
  no_newline l = true ->
  Toc.index_step room st l = Ok st' ->
  flat_entries (Toc.i_entries st) -> flat_entries (Toc.i_entries st').
Proof.
  intros Hany. unfold Toc.index_step.
  destruct (negb _); [intros H; inversion H; subst; auto|].
  cbn [firstn skipn Toc.index_patterns]. rewrite !first_match_single.
  destruct (Re.re_match Toc.index_pattern_1 (Py.rstrip l)) as [m|] eqn:E1;
    cbn [option_map].
  - destruct (get_strip _ m "term") as [t|e]; cbn [bind]; [|discriminate].
    destruct (Py.truthy t); intros H F; inversion H; subst; [|exact F].
    cbn [Toc.i_entries]. apply dict_set_forall; [reflexivity | exact F].
  - destruct (Re.re_match Toc.index_pattern_2 (Py.rstrip l)) as [m2|] eqn:E2.
    + destruct (index_pattern_1_of_2 (Py.rstrip l) m2
                  (rstrip_all_chars _ l Hany) E2) as (m1 & H1). congruence.
    + cbn [option_map].
      destruct (Toc.current_main_term st) as [cur|];
        [destruct (_ && _)|]; intros H F; inversion H; subst; exact F.
Qed.

Lemma index_loop_flat (room : Z) (lines : list string) :
  Forall (fun l => no_newline l = true) lines ->
  forall st, flat_entries (Toc.i_entries st) ->
             flat_entries (Toc.i_entries (snd (Toc.index_loop_run room lines st))).
Proof.
  induction lines as [|l rest IH]; intros F st Q; cbn [Toc.index_loop_run];
    [exact Q|].
  inversion F as [|? ? Hl Hrest]; subst.
  destruct (Toc.index_step room st l) as [st1|e] eqn:E; [|exact Q].
  apply IH; [exact Hrest | eapply index_step_flat; eassumption].
Qed.

(** X9. Index extraction never records a subentry: on a line without
    line break the subentry pattern accepts nothing that the main-entry
    pattern does not accept first, so every entry returned has an empty
    [subentries]. *)
Theorem X9_index_entries_have_no_subentries (room : Z) (self : Toc.TOCExtractor)
        (text : string) :
  exists entries,
    fst (Toc.extract_toc_from_text room self text true) = Ok (Toc.IndexEntries entries)
    /\ Forall (fun e => Toc.subentries e = []) entries.
Proof.
  destruct (extract_index_total room self text) as (entries & H).
  exists entries. split; [exact H|].
  unfold Toc.extract_toc_from_text, Toc._extract_index in H.
  pose proof (index_loop_flat room (Toc.lines_of text) (split_on_no_sep "010" text)
                (Toc.mkIndexLoop [] None) (Forall_nil _)) as F.
  destruct (Toc.index_loop_run room _ _) as [[u|e] st]; cbn [fst snd] in *;
    [|discriminate H].
  inversion H; subst. unfold Dict.values. apply Forall_map. exact F.
Qed.

(** *** Keys of a dictionary *)

Lemma dict_set_keys {V} (k : string) (v : V) (d : list (string * V)) (x : string) :
  In x (map fst (Dict.set String.eqb k v d)) -> x = k \/ In x (map fst d).
Proof.
  induction d as [|[k' v'] d IH]; cbn.
  - intros [H | []]. left. congruence.
  - destruct (String.eqb k' k) eqn:E; cbn.
    + intros [H | H]; auto.
    + intros [H | H]; [auto|]. destruct (IH H); auto.
Qed.

Lemma dict_set_nodup {V} (k : string) (v : V) (d : list (string * V)) :
  NoDup (map fst d) -> NoDup (map fst (Dict.set String.eqb k v d)).
Proof.
  induction d as [|[k' v'] d IH]; cbn; intros N.
  - constructor; [intros [] | constructor].
  - inversion N as [|? ? Hk Nd]; subst. destruct (String.eqb k' k) eqn:E; cbn.
    + constructor; assumption.
    + constructor; [|apply IH, Nd]. intros H. apply dict_set_keys in H as [H | H].
      * subst k'. rewrite String.eqb_refl in E. discriminate E.
      * contradiction.
Qed.

Lemma dict_get_forall {V} (P : string * V -> Prop) (k : string) (v : V)
      (d : list (string * V)) :
  Dict.get String.eqb k d = Some v -> Forall P d -> P (k, v).
Proof.
  induction d as [|[k' v'] d IH]; cbn; [discriminate|].
  intros H F. inversion F as [|? ? Hx Fd]; subst.
  destruct (String.eqb k' k) eqn:E.
  - apply String.eqb_eq in E. inversion H; subst. exact Hx.
  - apply IH; assumption.
Qed.

Lemma dict_get_of_in {V} (k : string) (v : V) (d : list (string * V)) :
  NoDup (map fst d) -> In (k, v) d -> Dict.get String.eqb k d = Some v.
Proof.
  induction d as [|[k' v'] d IH]; cbn; intros N H; [contradiction|].
  inversion N as [|? ? Hk Nd]; subst. destruct H as [H | H].
  - inversion H; subst. rewrite String.eqb_refl. reflexivity.
  - destruct (String.eqb k' k) eqn:E; [|apply IH; assumption].
    apply String.eqb_eq in E. subst k'. exfalso. apply Hk.
    apply (in_map fst) in H. exact H.
Qed.

(** *** Entries are keyed by their terms *)

Lemma index_step_keyed (room : Z) (st st' : Toc.index_loop) (l : string) :
  Toc.index_step room st l = Ok st' ->
  keyed_by_term (Toc.i_entries st) -> keyed_by_term (Toc.i_entries st').
Proof.
  unfold Toc.index_step.
  destruct (negb _); [intros H; inversion H; subst; auto|].
  cbn [firstn skipn Toc.index_patterns]. rewrite !first_match_single.
  destruct (Re.re_match Toc.index_pattern_1 (Py.rstrip l)) as [m|];
    cbn [option_map].
  - destruct (get_strip _ m "term") as [t|e] eqn:G; cbn [bind]; [|discriminate].
    destruct (Py.truthy t) eqn:T; intros H (N & F); inversion H; subst;
      [|split; assumption].
    cbn [Toc.i_entries]. pose proof (get_strip_stripped _ _ _ _ G) as S.
    split; [apply dict_set_nodup, N|].
    apply dict_set_forall; [|exact F]. cbn. auto.
  - destruct (Toc.current_main_term st) as [cur|];
      [destruct (_ && _)|]; try (intros H F; inversion H; subst; exact F).
    destruct (Re.re_match Toc.index_pattern_2 (Py.rstrip l)) as [m2|];
      cbn [option_map]; [|intros H F; inversion H; subst; exact F].
    destruct (get_strip _ m2 "subterm") as [t|e]; cbn [bind]; [|discriminate].
    destruct (Py.truthy t); [|intros H F; inversion H; subst; exact F].
    destruct (Dict.get String.eqb cur (Toc.i_entries st)) as [e|] eqn:G;
      [|discriminate].
    intros H (N & F). inversion H; subst. cbn [Toc.i_entries].
    split; [apply dict_set_nodup, N|].
    apply dict_set_forall; [|exact F].
    apply (dict_get_forall _ cur e _ G F).
Qed.

Lemma index_loop_keyed (room : Z) (lines : list string) :
  forall st, keyed_by_term (Toc.i_entries st) ->
             keyed_by_term (Toc.i_entries (snd (Toc.index_loop_run room lines st))).
Proof.
  induction lines as [|l rest IH]; intros st Q; cbn [Toc.index_loop_run];
    [exact Q|].
  destruct (Toc.index_step room st l) as [st1|e] eqn:E; [|exact Q].
  apply IH. eapply index_step_keyed; eassumption.
Qed.

(** X10. Index extraction returns one entry per term: the terms are
    pairwise distinct, stripped and non-empty, and each entry returned is
    the one [self.index_entries] holds under its term. *)
Theorem X10_index_entries_keyed_by_term (room : Z) (self : Toc.TOCExtractor) (text : string) :
  let r := Toc.extract_toc_from_text room self text true in
  exists entries,
    fst r = Ok (Toc.IndexEntries entries)
    /\ NoDup (map Toc.term entries)
    /\ Forall (fun e => Py.truthy (Toc.term e) = true
                        /\ Py.strip (Toc.term e) = Toc.term e) entries
    /\ forall e, In e entries ->
                 Dict.get String.eqb (Toc.term e) (Toc.index_entries (snd r))
                 = Some e.
Proof.
  cbv zeta. destruct (extract_index_total room self text) as (entries & H).
  exists entries. split; [exact H|].
  unfold Toc.extract_toc_from_text, Toc._extract_index in *.
  pose proof (index_loop_keyed room (Toc.lines_of text) (Toc.mkIndexLoop [] None)
                (conj (NoDup_nil _) (Forall_nil _))) as (N & F).
  destruct (Toc.index_loop_run room _ _) as [[u|e] st]; cbn [fst snd] in *;
    [|discriminate H].
  inversion H; subst. cbn [Toc.index_entries]. unfold Dict.values.
  assert (K : map Toc.term (map snd (Toc.i_entries st)) = map fst (Toc.i_entries st)).
  { rewrite map_map. apply map_ext_in. intros kv Hkv.
    rewrite Forall_forall in F. apply (F kv Hkv). }
  split; [rewrite K; exact N|]. split.
  - apply Forall_map. revert F. apply Forall_impl.
    intros [k e] (A & B & C). cbn in *. rewrite A. auto.
  - intros e He. apply in_map_iff in He as ([k e'] & <- & Hin). cbn [snd].
    rewrite Forall_forall in F. destruct (F _ Hin) as (A & _). cbn in A.
    rewrite A. apply dict_get_of_in; assumption.
Qed.

(** *** Page lists *)

Lemma all_digits_run (w : string) :
  all_chars (Re.in_cset Re.Digit) w = true -> 1 <= String.length w ->
  all_digits w = true.
Proof.
  intros A L. unfold all_digits. destruct w; [cbn in L; lia|]. exact A.
Qed.






Lemma not_space_dash : not_space "-"%char = true.
Proof. reflexivity. Qed.


(** What one item of the page-list pattern consumes. *)
Lemma item_shape (pos : nat) (s : string) (cs : Re.caps)
      (p' : nat) (s' : string) (cs' : Re.caps) :
  matches (Re.Seq Toc.digits (Re.Opt (Re.Seq (Re.lit "-") Toc.digits)))
          pos s cs p' s' cs' ->
  exists w, s = w ++ s' /\ page_item w.
Proof.
  set (D := Toc.digits). cbn [matches Re.lit]. subst D.
  intros (p1 & s1 & cs1 & Ma & Mb).
  apply matches_run_inv in Ma as (a & -> & Aa & La & -> & ->).
  destruct Mb as [(p2 & s2 & cs2 & (c & -> & Hc & -> & ->) & Mb) | (-> & -> & ->)].
  - apply matches_run_inv in Mb as (b & -> & Ab & Lb & -> & ->).
    cbn in Hc. rewrite orb_false_r in Hc. apply Ascii.eqb_eq in Hc. subst c.
    exists (range_token a b). split.
    + unfold range_token. rewrite !append_assoc. reflexivity.
    + right. exists a, b. split; [reflexivity|].
      split; apply all_digits_run; assumption.
  - exists a. split; [reflexivity|]. left. apply all_digits_run; assumption.
Qed.

Lemma more_items_shape (n : nat) :
  forall pos s cs p' s' cs',
    iter (matches (Re.seqs [ Re.lit ","; Re.star (Re.Chr Re.Space);
                             Re.Seq Toc.digits
                                    (Re.Opt (Re.Seq (Re.lit "-") Toc.digits)) ]))
         n pos s cs p' s' cs' ->
    exists chunks, s = comma_chunks chunks ++ s' /\ Forall padded_item chunks.
Proof.
  induction n as [|n IH]; cbn [iter]; intros pos s cs p' s' cs' M.
  - destruct M as (_ & -> & _). exists []. split; [reflexivity | constructor].
  - destruct M as (p1 & s1 & cs1 & M1 & _ & M2).
    destruct (IH _ _ _ _ _ _ M2) as (chunks & -> & F).
    cbn [Re.seqs] in M1. set (I := Re.Seq Toc.digits _) in M1.
    set (S := Re.star _) in M1. cbn [matches Re.lit] in M1.
    destruct M1 as (p2 & s2 & cs2 & (c & -> & Hc & -> & ->)
                    & p3 & s3 & cs3 & Ms & Mi).
    apply matches_run_inv in Ms as (pad & -> & Ap & _ & -> & ->).
    apply item_shape in Mi as (w & -> & Hw).
    cbn in Hc. rewrite orb_false_r in Hc. apply Ascii.eqb_eq in Hc. subst c.
    exists ((pad ++ w) :: chunks). split.
    + cbn [comma_chunks]. rewrite !append_assoc. reflexivity.
    + constructor; [|exact F]. exists pad, w. auto.
Qed.


(** What the page-list pattern consumes: an item, then chunks after
    commas. *)
Lemma page_list_shape (pos : nat) (s : string) (cs : Re.caps)
      (p' : nat) (s' : string) (cs' : Re.caps) :
  matches Toc.page_list pos s cs p' s' cs' ->
  exists w0 chunks,
    s = (w0 ++ comma_chunks chunks) ++ s'
    /\ page_item w0 /\ Forall padded_item chunks.
Proof.
  unfold Toc.page_list. cbv zeta. set (I := Re.Seq Toc.digits _).
  unfold Re.star. intros M. cbn [matches] in M.
  destruct M as (p1 & s1 & cs1 & Mi & n & _ & Mn).
  apply item_shape in Mi as (w0 & -> & H0).
  apply more_items_shape in Mn as (chunks & -> & F).
  exists w0, chunks. split; [rewrite append_assoc; reflexivity | auto].
Qed.


Lemma append_cancel_r (s : string) :
  forall w w', w ++ s = w' ++ s -> w = w'.
Proof.
  induction w as [|c w IH]; intros [|c' w'] E; cbn in E.
  - reflexivity.
  - exfalso. apply (f_equal String.length) in E. cbn in E.
    rewrite length_append in E. lia.
  - exfalso. apply (f_equal String.length) in E. cbn in E.
    rewrite length_append in E. lia.
  - inversion E; subst. f_equal. apply IH. assumption.
Qed.





(** *** Ranges written backwards *)

(** X12. A range written backwards, [a-b] with [a] greater than [b], both
    runs of at most 4300 digits, contributes no page reference on any
    machine: the range is empty and the chunk is dropped without a
    trace. *)
Theorem X12_reversed_range_gives_no_page (room : Z) (before after : list string)
        (pad1 pad2 a b : string) :
  all_digits a = true -> all_digits b = true ->
  String.length a <= int_max_str_digits ->
  String.length b <= int_max_str_digits ->
  (decimal_value 0 b < decimal_value 0 a)%Z ->
  all_chars Py.isspace pad1 = true -> all_chars Py.isspace pad2 = true ->
  Forall (fun s => all_chars not_comma s = true) before ->
  Forall (fun s => all_chars not_comma s = true) after ->
  Toc.parse_chunk room (range_token a b) = []
  /\ Toc._parse_page_refs room
       (Some (Py.join "," (before ++ (pad1 ++ range_token a b ++ pad2) :: after)))
     = (flat_map (Toc.parse_chunk room) (map Py.strip before)
        ++ flat_map (Toc.parse_chunk room) (map Py.strip after))%list.
Proof.
  intros Ha Hb _ _ Lt H1 H2 Fb Fa.
  assert (E : Toc.parse_chunk room (range_token a b) = []).
  { rewrite (parse_chunk_range room a b Ha Hb).
    rewrite extend_range_empty by lia. reflexivity. }
  split; [exact E|].
  rewrite (parse_page_refs_range room before after pad1 pad2 a b Ha Hb H1 H2 Fb Fa).
  rewrite E. reflexivity.
Qed.

Lemma X12_reversed_range_gives_no_page_witness :
  Toc.parse_chunk 1000 (range_token "17" "15") = []
  /\ Toc._parse_page_refs 1000
       (Some (Py.join "," (["10"] ++ (" " ++ range_token "17" "15" ++ "") :: [" 23"])))
     = (flat_map (Toc.parse_chunk 1000) (map Py.strip ["10"])
        ++ flat_map (Toc.parse_chunk 1000) (map Py.strip [" 23"]))%list.
Proof.
  apply (X12_reversed_range_gives_no_page 1000 ["10"] [" 23"] " " "" "17" "15");
    try reflexivity; try (vm_compute; lia).
  - repeat constructor.
  - repeat constructor.
Defined.

(** *** Lines that end in a number *)

Lemma last_char_app (a b : string) :
  Py.truthy b = true -> last_char (a ++ b) = last_char b.
Proof.
  intros T. induction a as [|c a IH]; [reflexivity|].
  cbn [append last_char]. rewrite IH.
  destruct (a ++ b) eqn:E; [|reflexivity].
  destruct a; [|discriminate E]. cbn in E. subst b. discriminate T.
Qed.

Lemma last_char_digits (d : string) :
  all_digits d = true -> exists c, last_char d = Some c /\ Py.isdigit c = true.
Proof.
  intros H. apply all_digits_inv in H as (T & A).
  induction d as [|c d IH]; [discriminate T|].
  cbn [all_chars] in A. apply andb_true_iff in A as (Hc & Hd).
  destruct d as [|c' d']; [exists c; auto|].
  destruct (IH eq_refl Hd) as (x & L & Hx). exists x. auto.
Qed.

Lemma rstrip_app_nonspace (a d : string) :
  all_chars not_space d = true -> Py.truthy d = true ->
  Py.rstrip (a ++ d) = a ++ d.
Proof.
  intros A T. induction a as [|c a IH]; [apply rstrip_id, A|].
  cbn [append Py.rstrip]. rewrite IH.
  destruct (a ++ d) eqn:E; [|reflexivity].
  destruct a; [|discriminate E]. cbn in E. subst d. discriminate T.
Qed.

(** A line that is some text, a run of digits and the end of the line. *)
Lemma digits_at_end (pre d e : string) :
  all_digits d = true -> e = "" \/ e = nl ->
  ends_in_digit (pre ++ d ++ e) = true.
Proof.
  intros H He. unfold ends_in_digit.
  assert (R : Py.rstrip (pre ++ d ++ e) = pre ++ d).
  { pose proof (all_digits_inv d H) as (T & A).
    assert (N : all_chars not_space d = true)
      by (eapply all_chars_imp; [apply digit_not_space | exact A]).
    destruct He as [-> | ->].
    - rewrite append_nil_r. apply rstrip_app_nonspace; assumption.
    - rewrite <- append_assoc. rewrite rstrip_spaces by reflexivity.
      apply rstrip_app_nonspace; assumption. }
  rewrite R. pose proof (all_digits_inv d H) as (T & _).
  rewrite (last_char_app pre d T).
  destruct (last_char_digits d H) as (c & -> & Hc). exact Hc.
Qed.

Lemma digits_tail_sound (n : string) (r : Re.regex) :
  digits_tail n r ->
  forall pos s cs p' s' cs',
    matches r pos s cs p' s' cs' ->
    exists pre d,
      s = pre ++ d ++ s' /\ all_digits d = true /\ (s' = "" \/ s' = nl)
      /\ Re.get_cap n cs' = Some d.
Proof.
  induction 1 as [|a r T IH]; intros pos s cs p' s' cs' M; cbn [matches] in M.
  - destruct M as (p1 & s1 & cs1 & (cs0 & Md & ->) & (He & -> & -> & ->)).
    apply matches_run_inv in Md as (d & -> & A & L & -> & ->).
    exists "", d. split; [reflexivity|]. split; [apply all_digits_run; assumption|].
    split; [exact He|]. rewrite get_set_cap.
    replace (pos + String.length d - pos) with (String.length d) by lia.
    rewrite substring_prefix. reflexivity.
  - destruct M as (p1 & s1 & cs1 & Ma & Mr).
    apply matches_consumes in Ma as (w & -> & _).
    destruct (IH _ _ _ _ _ _ Mr) as (pre & d & -> & Hd & He & G).
    exists (w ++ pre), d. rewrite append_assoc. auto.
Qed.

Lemma re_match_digits_tail (n : string) (r : Re.regex) (line : string)
      (m : Re.rmatch_obj) :
  digits_tail n r -> Re.re_match r line = Some m ->
  ends_in_digit line = true
  /\ exists d, Re.group m n = Some d /\ all_digits d = true.
Proof.
  intros T H. apply re_match_sound in H as (s' & M).
  destruct (digits_tail_sound n r T _ _ _ _ _ _ M) as (pre & d & -> & Hd & He & G).
  split; [apply digits_at_end; assumption|]. exists d. auto.
Qed.

Lemma search_from_sound (r : Re.regex) (s : string) :
  forall pos m,
    Re.search_from r pos s = Some m ->
    exists pre u, s = pre ++ u
                  /\ Re.match_at r (pos + String.length pre) u = Some m.
Proof.
  induction s as [|c s IH]; intros pos m; cbn [Re.search_from].
  - destruct (Re.match_at r pos "") as [x|] eqn:E; [|discriminate].
    intros H. inversion H; subst. exists "", "". rewrite Nat.add_0_r. auto.
  - destruct (Re.match_at r pos (String c s)) as [x|] eqn:E.
    + intros H. inversion H; subst. exists "", (String c s).
      rewrite Nat.add_0_r. auto.
    + intros H. apply IH in H as (pre & u & -> & H).
      exists (String c pre), u. split; [reflexivity|].
      cbn [String.length]. rewrite <- H. f_equal. lia.
Qed.

Lemma re_search_digits_tail (n : string) (r : Re.regex) (line : string)
      (m : Re.rmatch_obj) :
  digits_tail n r -> Re.re_search r line = Some m ->
  ends_in_digit line = true.
Proof.
  intros T H. apply search_from_sound in H as (pre & u & -> & H).
  unfold Re.match_at in H. apply rmatch_sound in H as (p' & s' & cs' & M & _).
  destruct (digits_tail_sound n r T _ _ _ _ _ _ M) as (pre' & d & -> & Hd & He & G).
  rewrite <- append_assoc. apply digits_at_end; assumption.
Qed.

(** *** A TOC entry needs a page number *)

Lemma toc_try_patterns_page (ps : list Re.regex) (line : string)
      (e : Toc.TOCEntry) :
  Forall (fun r => digits_tail "page" r /\ Re.has_group r "page" = true) ps ->
  Toc.try_patterns ps line = Ok (Some e) ->
  ends_in_digit line = true
  /\ Toc.page_num e <> None /\ Toc.raw_text e = line /\ Toc.children e = []
  /\ Py.strip (Toc.title e) = Toc.title e.
Proof.
  induction ps as [|r ps IH]; intros F; cbn [Toc.try_patterns].
  - unfold Toc.last_resort.
    destruct (Re.re_search Toc.last_resort_pattern line) as [m|] eqn:E;
      [|discriminate].
    destruct (option_map Py.int (Re.group m "2")) as [[p|]|]; try discriminate.
    intros H. inversion H; subst. cbn.
    split; [|repeat split; [discriminate | apply strip_idempotent]].
    apply (re_search_digits_tail "2" Toc.last_resort_pattern line m); [|exact E].
    unfold Toc.last_resort_pattern. cbn [Re.seqs]. repeat constructor.
  - inversion F as [|? ? (Tr & Hr) Fps]; subst.
    destruct (Re.re_match r line) as [m|] eqn:E; [|apply IH, Fps].
    destruct (get_strip r m "title") as [t|x]; cbn [bind]; [|discriminate].
    destruct (Py.truthy t); [|apply IH, Fps].
    intros H. inversion H; subst. cbn.
    destruct (re_match_digits_tail "page" r line m Tr E) as (D & d & G & Hd).
    split; [exact D|]. split; [|repeat split; apply strip_idempotent].
    unfold Toc.page_of_match, group_if_set. rewrite Hr, G.
    pose proof (all_digits_inv d Hd) as (T & _). rewrite T.
    rewrite (int_of_digits d Hd). discriminate.
Qed.

(** X13. [_parse_toc_line] returns an entry only for a line that ends in a
    number, and the entry carries that page number, the line as raw text,
    a stripped title and no child. *)
Theorem X13_toc_entry_needs_page_number (line : string) (e : Toc.TOCEntry) :
  Toc._parse_toc_line line = Ok (Some e) ->
  ends_in_digit line = true
  /\ Toc.page_num e <> None /\ Toc.raw_text e = line /\ Toc.children e = []
  /\ Py.strip (Toc.title e) = Toc.title e.
Proof.
  apply toc_try_patterns_page.
  unfold Toc.toc_patterns, Toc.toc_pattern_1, Toc.toc_pattern_2,
    Toc.toc_pattern_3, Toc.toc_pattern_4, Toc.toc_pattern_5, Toc.toc_pattern_6,
    Toc.page_group.
  cbn [Re.seqs].
  repeat (apply Forall_cons; [split; [repeat constructor | reflexivity]|]).
  apply Forall_nil.
Qed.

Lemma X13_toc_entry_needs_page_number_witness :
  ends_in_digit "Introduction 10" = true
  /\ Toc.page_num (Toc.mkEntry 0 "Introduction" (Some 10%Z) "Introduction 10" [])
     <> None
  /\ Toc.raw_text (Toc.mkEntry 0 "Introduction" (Some 10%Z) "Introduction 10" [])
     = "Introduction 10"
  /\ Toc.children (Toc.mkEntry 0 "Introduction" (Some 10%Z) "Introduction 10" [])
     = []
  /\ Py.strip (Toc.title (Toc.mkEntry 0 "Introduction" (Some 10%Z)
                                      "Introduction 10" []))
     = Toc.title (Toc.mkEntry 0 "Introduction" (Some 10%Z) "Introduction 10" []).
Proof.
  apply (X13_toc_entry_needs_page_number "Introduction 10"). vm_compute. reflexivity.
Defined.

(** *** Index lines that end in no number *)

Lemma page_list_ends (chunks : list string) :
  forall w0, page_item w0 -> Forall padded_item chunks ->
             exists a d, w0 ++ comma_chunks chunks = a ++ d /\ all_digits d = true.
Proof.
  induction chunks as [|c rest IH]; intros w0 H0 F; cbn [comma_chunks].
  - rewrite append_nil_r. destruct H0 as [H | (a & b & -> & Ha & Hb)].
    + exists "", w0. auto.
    + exists (a ++ "-"), b. unfold range_token. rewrite append_assoc. auto.
  - inversion F as [|? ? (pad & it & -> & Hp & Hi) Fr]; subst.
    destruct (IH it Hi Fr) as (a & d & E & Hd).
    exists (w0 ++ "," ++ pad ++ a), d. split; [|exact Hd].
    rewrite (append_assoc w0). cbn [append]. do 2 f_equal.
    rewrite !append_assoc. f_equal. exact E.
Qed.

(** Both index patterns end with a page list and the end of the line. *)
Lemma page_list_at_end (pos : nat) (s : string) (cs : Re.caps)
      (p' : nat) (s' : string) (cs' : Re.caps) (pre : string) :
  matches (Re.Seq (Re.Grp "pages" Toc.page_list) Re.Eol) pos s cs p' s' cs' ->
  ends_in_digit (pre ++ s) = true.
Proof.
  set (PL := Toc.page_list). cbn [matches].
  intros (p1 & s1 & cs1 & (cs0 & M & _) & (He & _ & -> & _)).
  subst PL. apply page_list_shape in M as (w0 & chunks & -> & H0 & F).
  destruct (page_list_ends chunks w0 H0 F) as (a & d & -> & Hd).
  rewrite (append_assoc a d). rewrite <- (append_assoc pre a).
  apply digits_at_end; assumption.
Qed.

Lemma index_pattern_1_ends (line : string) (m : Re.rmatch_obj) :
  Re.re_match Toc.index_pattern_1 line = Some m -> ends_in_digit line = true.
Proof.
  intros H. apply re_match_sound in H as (s' & M).
  unfold Toc.index_pattern_1 in M. cbn [Re.seqs] in M.
  set (T := Re.Grp "term" _) in M. set (C := Re.lit ",") in M.
  set (S := Re.star _) in M. set (E := Re.Seq (Re.Grp "pages" _) _) in M.
  cbn [matches] in M.
  destruct M as (p1 & s1 & cs1 & M1 & p2 & s2 & cs2 & M2 & p3 & s3 & cs3 & M3 & M4).
  apply matches_consumes in M1 as (w1 & -> & _).
  apply matches_consumes in M2 as (w2 & -> & _).
  apply matches_consumes in M3 as (w3 & -> & _).
  rewrite <- !append_assoc. eapply page_list_at_end, M4.
Qed.

Lemma index_pattern_2_ends (line : string) (m : Re.rmatch_obj) :
  Re.re_match Toc.index_pattern_2 line = Some m -> ends_in_digit line = true.
Proof.
  intros H. apply re_match_sound in H as (s' & M).
  unfold Toc.index_pattern_2 in M. cbn [Re.seqs] in M.
  set (I := Re.at_least 2 _) in M.
  set (T := Re.Grp "subterm" _) in M. set (C := Re.lit ",") in M.
  set (S := Re.star _) in M. set (E := Re.Seq (Re.Grp "pages" _) _) in M.
  cbn [matches] in M.
  destruct M as (p0 & s0 & cs0 & (_ & -> & -> & ->) & pi & si & csi & Mi
                 & p1 & s1 & cs1 & M1 & p2 & s2 & cs2 & M2
                 & p3 & s3 & cs3 & M3 & M4).
  apply matches_consumes in Mi as (wi & -> & _).
  apply matches_consumes in M1 as (w1 & -> & _).
  apply matches_consumes in M2 as (w2 & -> & _).
  apply matches_consumes in M3 as (w3 & -> & _).
  rewrite <- !append_assoc. eapply page_list_at_end, M4.
Qed.

Lemma ends_in_digit_rstrip (l : string) :
  ends_in_digit (Py.rstrip l) = ends_in_digit l.
Proof. unfold ends_in_digit. rewrite rstrip_idempotent. reflexivity. Qed.

Lemma index_step_no_number (room : Z) (st : Toc.index_loop) (l : string) :
  ends_in_digit l = false -> Toc.index_step room st l = Ok st.
Proof.
  intros H. rewrite <- ends_in_digit_rstrip in H. unfold Toc.index_step.
  destruct (negb _); [reflexivity|].
  cbn [firstn skipn Toc.index_patterns]. rewrite !first_match_single.
  destruct (Re.re_match Toc.index_pattern_1 (Py.rstrip l)) as [m|] eqn:E1.
  { apply index_pattern_1_ends in E1. congruence. }
  destruct (Re.re_match Toc.index_pattern_2 (Py.rstrip l)) as [m|] eqn:E2.
  { apply index_pattern_2_ends in E2. congruence. }
  cbn [option_map]. destruct (Toc.current_main_term st); [|reflexivity].
  destruct (_ && _); reflexivity.
Qed.

(** X14. A line that does not end in a number never changes the index:
    cross-references such as "Sorting, see Algorithms" are dropped (the
    patterns compiled for them are never consulted), and removing all such
    lines from the text leaves the outcome of the loop as it is. *)
Theorem X14_index_ignores_lines_without_number (room : Z) :
  (forall st l, ends_in_digit l = false -> Toc.index_step room st l = Ok st)
  /\ forall lines st, Toc.index_loop_run room (filter ends_in_digit lines) st
                      = Toc.index_loop_run room lines st.
Proof.
  split; [apply index_step_no_number|].
  induction lines as [|l rest IH]; intros st; cbn [filter]; [reflexivity|].
  destruct (ends_in_digit l) eqn:E; cbn [Toc.index_loop_run].
  - destruct (Toc.index_step room st l); [apply IH | reflexivity].
  - rewrite (index_step_no_number room st l E). apply IH.
Qed.

Lemma X14_index_ignores_lines_without_number_witness :
  Toc.index_step 1000%Z (Toc.mkIndexLoop [] None) "Sorting, see Algorithms"
  = Ok (Toc.mkIndexLoop [] None).
Proof.
  apply (proj1 (X14_index_ignores_lines_without_number 1000%Z)). vm_compute. reflexivity.
Defined.

(** *** The shape of a TOC line *)

Lemma toc_body_shape (g : bool) (mn : nat) (cl : Re.cset)
      (pos : nat) (s : string) (cs : Re.caps)
      (p' : nat) (s' : string) (cs' : Re.caps) :
  matches (toc_body (Re.Rep g mn (Re.Chr cl))) pos s cs p' s' cs' ->
  exists w x d,
    s = w ++ x ++ d ++ s'
    /\ no_newline w = true
    /\ all_chars (Re.in_cset cl) x = true /\ mn <= String.length x
    /\ all_digits d = true /\ (s' = "" \/ s' = nl)
    /\ Re.get_cap "title" cs' = Some w.
Proof.
  unfold toc_body, Toc.title_group, Toc.page_group, Re.lazy_star, Toc.digits,
    Re.plus.
  set (SEP := Re.Rep g mn _). set (T := Re.Rep false 0 _). set (D := Re.Rep true 1 _).
  cbn [matches].
  intros (p1 & s1 & cs1 & (ct & Mt & ->) & p2 & s2 & cs2 & Mx
          & p3 & s3 & cs3 & (cd & Md & ->) & (He & -> & -> & ->)).
  apply matches_run_inv in Mt as (w & -> & Aw & _ & -> & ->).
  apply matches_run_inv in Mx as (x & -> & Ax & Lx & -> & ->).
  apply matches_run_inv in Md as (d & -> & Ad & Ld & -> & ->).
  exists w, x, d. split; [reflexivity|]. split; [exact Aw|].
  split; [exact Ax|]. split; [exact Lx|].
  split; [apply all_digits_run; assumption|]. split; [exact He|].
  rewrite get_set_cap_other by reflexivity. rewrite get_set_cap.
  replace (pos + String.length w - pos) with (String.length w) by lia.
  rewrite substring_prefix. reflexivity.
Qed.

Lemma toc_body_complete (g : bool) (mn : nat) (cl : Re.cset)
      (w x d e : string) (pos : nat) (cs : Re.caps) :
  no_newline w = true ->
  all_chars (Re.in_cset cl) x = true -> mn <= String.length x ->
  all_digits d = true -> e = "" \/ e = nl ->
  exists p' cs',
    matches (toc_body (Re.Rep g mn (Re.Chr cl))) pos (w ++ x ++ d ++ e) cs p' e cs'.
Proof.
  intros Aw Ax Lx Hd He. apply all_digits_inv in Hd as (Td & Ad).
  unfold toc_body, Toc.title_group, Toc.page_group, Re.lazy_star, Toc.digits,
    Re.plus.
  set (SEP := Re.Rep g mn _). set (T := Re.Rep false 0 _). set (D := Re.Rep true 1 _).
  cbn [matches]. do 2 eexists.
  eexists _, _, _. split.
  { eexists. split; [|reflexivity]. apply matches_run; [exact Aw | lia]. }
  eexists _, _, _. split.
  { apply matches_run; [exact Ax | exact Lx]. }
  eexists _, _, _. split.
  { eexists. split; [|reflexivity]. apply matches_run; [exact Ad|].
    destruct d; [discriminate Td | cbn; lia]. }
  repeat split. exact He.
Qed.

(** A pattern with an optional prefix accepts the lines its body
    accepts. *)
Lemma toc_pattern_complete (pfx : Re.regex) (g : bool) (mn : nat) (cl : Re.cset)
      (w x d e : string) :
  no_newline w = true ->
  all_chars (Re.in_cset cl) x = true -> mn <= String.length x ->
  all_digits d = true -> e = "" \/ e = nl ->
  exists m,
    Re.re_match (Re.Seq (Re.Opt pfx) (toc_body (Re.Rep g mn (Re.Chr cl))))
                (w ++ x ++ d ++ e) = Some m.
Proof.
  intros Aw Ax Lx Hd He.
  destruct (toc_body_complete g mn cl w x d e 0 [] Aw Ax Lx Hd He) as (p' & cs' & M).
  eapply re_match_complete. cbn [matches].
  eexists 0, _, []. split; [right; repeat split | exact M].
Qed.

(** *** The last resort of [_parse_toc_line] *)

Lemma last_resort_shape (line : string) (e : Toc.TOCEntry) :
  Toc.last_resort line = Some e ->
  exists pre c tok c' ws d e0,
    line = pre ++ String c tok ++ String c' ws ++ d ++ e0
    /\ Py.isspace c = false /\ Py.isspace c' = true
    /\ all_chars Py.isspace ws = true
    /\ all_digits d = true /\ (e0 = "" \/ e0 = nl).
Proof.
  unfold Toc.last_resort.
  destruct (Re.re_search Toc.last_resort_pattern line) as [m|] eqn:E;
    [|discriminate].
  intros _. apply search_from_sound in E as (pre & u & -> & H).
  unfold Re.match_at in H. apply rmatch_sound in H as (p' & s' & cs' & M & _).
  unfold Toc.last_resort_pattern, Toc.spaces, Toc.digits, Re.plus in M.
  cbn [Re.seqs] in M.
  set (T := Re.Rep true 1 (Re.Chr Re.NonSpace)) in M.
  set (S := Re.Rep true 1 (Re.Chr Re.Space)) in M.
  set (D := Re.Rep true 1 (Re.Chr Re.Digit)) in M.
  cbn [matches] in M.
  destruct M as (p1 & s1 & cs1 & (ct & Mt & ->) & p2 & s2 & cs2 & Mx
                 & p3 & s3 & cs3 & (cd & Md & ->) & (He & -> & -> & ->)).
  apply matches_run_inv in Mt as (tok & -> & At & Lt & _ & _).
  apply matches_run_inv in Mx as (ws & -> & Ax & Lx & _ & _).
  apply matches_run_inv in Md as (d & -> & Ad & Ld & _ & _).
  destruct tok as [|c tok]; [cbn in Lt; lia|].
  destruct ws as [|c' ws]; [cbn in Lx; lia|].
  cbn [all_chars Re.in_cset] in At, Ax.
  apply andb_true_iff in At as (Hc & _). apply andb_true_iff in Ax as (Hc' & Aws).
  eexists pre, c, tok, c', ws, d, _. split; [reflexivity|].
  split; [apply negb_true_iff, Hc|]. split; [exact Hc'|]. split; [exact Aws|].
  split; [apply all_digits_run; assumption | exact He].
Qed.

Lemma lstrip_app_nonspace (a : string) (c : ascii) (b : string) :
  Py.isspace c = false ->
  Py.lstrip (a ++ String c b) = Py.lstrip a ++ String c b.
Proof.
  intros Hc. induction a as [|x a IH]; cbn [append Py.lstrip].
  - rewrite Hc. reflexivity.
  - destruct (Py.isspace x); [exact IH | reflexivity].
Qed.

Lemma strip_empty_spaces (w : string) :
  Py.truthy (Py.strip w) = false -> all_chars Py.isspace w = true.
Proof.
  intros H. destruct (all_chars Py.isspace w) eqn:E; [reflexivity|].
  rewrite (strip_truthy w E) in H. discriminate H.
Qed.

Lemma all_chars_has (p : ascii -> bool) (a : string) (c : ascii) (b : string) :
  p c = false -> all_chars p (a ++ String c b) = false.
Proof.
  intros H. rewrite all_chars_app. cbn [all_chars]. rewrite H.
  apply andb_false_r.
Qed.

(** A line of white space and a number holds no word followed by white
    space and a number. *)
Lemma blank_number_no_word (w d e pre tok rest : string) (c c' : ascii) :
  all_chars Py.isspace w = true -> all_digits d = true -> e = "" \/ e = nl ->
  Py.isspace c = false -> Py.isspace c' = true -> Ascii.eqb c' "010" = false ->
  w ++ d ++ e <> pre ++ String c tok ++ String c' rest.
Proof.
  intros Aw Hd He Hc Hc' Hn E.
  apply (f_equal Py.lstrip) in E. cbn [append] in E.
  rewrite lstrip_spaces in E by exact Aw.
  rewrite lstrip_app_nonspace in E by exact Hc.
  apply all_digits_inv in Hd as (Td & Ad).
  destruct d as [|c0 d]; [discriminate Td|].
  cbn [all_chars] in Ad. apply andb_true_iff in Ad as (H0 & Ad).
  pose proof (digit_not_space c0 H0) as N0. unfold not_space in N0.
  apply negb_true_iff in N0.
  cbn [append Py.lstrip] in E. rewrite N0 in E.
  apply (f_equal (all_chars digit_or_newline)) in E.
  change (String c0 (d ++ e)) with (String c0 d ++ e) in E.
  rewrite all_chars_app in E.
  assert (L : all_chars digit_or_newline (String c0 d) = true).
  { apply (all_chars_imp Py.isdigit); [|cbn [all_chars]; rewrite H0; exact Ad].
    intros x Hx. unfold digit_or_newline. rewrite Hx. reflexivity. }
  assert (Le : all_chars digit_or_newline e = true)
    by (destruct He as [-> | ->]; reflexivity).
  rewrite L, Le in E.
  assert (R : all_chars digit_or_newline
                (Py.lstrip pre ++ String c (tok ++ String c' rest)) = false).
  { rewrite all_chars_app. cbn [all_chars].
    rewrite (all_chars_has digit_or_newline tok c' rest).
    - rewrite !andb_false_r. reflexivity.
    - unfold digit_or_newline. rewrite Hn, orb_false_r.
      destruct (Py.isdigit c') eqn:D; [|reflexivity].
      pose proof (digit_not_space c' D) as K. unfold not_space in K.
      rewrite Hc' in K. discriminate K. }
  rewrite R in E. discriminate E.
Qed.

(** *** How a match starts *)

Lemma all_ascii_complete (c : ascii) : In c all_ascii.
Proof.
  unfold all_ascii. rewrite <- (ascii_nat_embedding c).
  apply in_map, in_seq. pose proof (nat_ascii_bounded c). lia.
Qed.

Lemma class_within_spec (p : ascii -> bool) (cl : Re.cset) (c : ascii) :
  class_within p cl = true -> Re.in_cset cl c = true -> p c = true.
Proof.
  unfold class_within. rewrite forallb_forall. intros H Hc.
  specialize (H c (all_ascii_complete c)). rewrite Hc in H. exact H.
Qed.

Lemma leads_sound (p : ascii -> bool) (r : Re.regex) :
  (leads p r = true ->
   forall pos s cs p' s' cs',
     matches r pos s cs p' s' cs' ->
     exists c t, s = String c t /\ p c = true)
  /\ (may_lead p r = true ->
      forall pos s cs p' s' cs',
        matches r pos s cs p' s' cs' ->
        s' = s \/ exists c t, s = String c t /\ p c = true).
Proof.
  induction r as [|cl|a [IHa IHa'] b [IHb IHb']|a [IHa IHa'] b [IHb IHb']
                  |a [IHa IHa']|g mn a [IHa IHa']|n a [IHa IHa']| |];
    cbn [leads may_lead matches]; split; intros H pos s cs p' s' cs' M;
    try discriminate H.
  - destruct M as (_ & -> & _). auto.
  - destruct M as (c & -> & Hc & _). exists c, s'.
    split; [reflexivity | eapply class_within_spec; eassumption].
  - destruct M as (c & -> & Hc & _). right. exists c, s'.
    split; [reflexivity | eapply class_within_spec; eassumption].
  - destruct M as (p1 & s1 & cs1 & Ma & Mb).
    apply orb_true_iff in H as [H | H]; [apply (IHa H _ _ _ _ _ _ Ma)|].
    apply andb_true_iff in H as (Ha & Hb).
    destruct (IHa' Ha _ _ _ _ _ _ Ma) as [-> | K]; [|exact K].
    apply (IHb Hb _ _ _ _ _ _ Mb).
  - destruct M as (p1 & s1 & cs1 & Ma & Mb).
    apply orb_true_iff in H as [H | H]; [right; apply (IHa H _ _ _ _ _ _ Ma)|].
    apply andb_true_iff in H as (Ha & Hb).
    destruct (IHa' Ha _ _ _ _ _ _ Ma) as [-> | K]; [|right; exact K].
    apply (IHb' Hb _ _ _ _ _ _ Mb).
  - apply andb_true_iff in H as (Ha & Hb).
    destruct M as [M | M]; [apply (IHa Ha _ _ _ _ _ _ M) | apply (IHb Hb _ _ _ _ _ _ M)].
  - apply andb_true_iff in H as (Ha & Hb).
    destruct M as [M | M]; [apply (IHa' Ha _ _ _ _ _ _ M) | apply (IHb' Hb _ _ _ _ _ _ M)].
  - destruct M as [M | (_ & -> & _)]; [apply (IHa' H _ _ _ _ _ _ M) | auto].
  - apply andb_true_iff in H as (Hm & Ha). apply Nat.leb_le in Hm.
    destruct M as (k & Hk & M). destruct k as [|k]; [lia|].
    cbn [iter] in M. destruct M as (p1 & s1 & cs1 & M1 & _).
    apply (IHa Ha _ _ _ _ _ _ M1).
  - destruct M as (k & _ & M). destruct k as [|k]; cbn [iter] in M.
    + destruct M as (_ & -> & _). auto.
    + destruct M as (p1 & s1 & cs1 & M1 & L & _).
      destruct (IHa' H _ _ _ _ _ _ M1) as [-> | K]; [lia | right; exact K].
  - destruct M as (cs1 & M & _). apply (IHa H _ _ _ _ _ _ M).
  - destruct M as (cs1 & M & _). apply (IHa' H _ _ _ _ _ _ M).
  - destruct M as (_ & _ & -> & _). auto.
  - destruct M as (_ & _ & -> & _). auto.
Qed.

Lemma leads_first (p : ascii -> bool) (r : Re.regex)
      (pos : nat) (s : string) (cs : Re.caps)
      (p' : nat) (s' : string) (cs' : Re.caps) :
  leads p r = true -> matches r pos s cs p' s' cs' ->
  exists c t, s = String c t /\ p c = true.
Proof. intros H. apply (proj1 (leads_sound p r) H). Qed.

(** *** Entries come from the six patterns *)

Lemma toc_try_patterns_origin (ps : list Re.regex) (line : string)
      (e : Toc.TOCEntry) :
  Toc.try_patterns ps line = Ok (Some e) ->
  (Py.truthy (Toc.title e) = true /\ exists r, In r ps /\ returns_at r line)
  \/ (Toc.last_resort line = Some e /\ Forall (fun r => ~ returns_at r line) ps).
Proof.
  induction ps as [|r ps IH]; cbn [Toc.try_patterns].
  - intros H. inversion H. right. split; [reflexivity | constructor].
  - assert (Next : Toc.try_patterns ps line = Ok (Some e) ->
                   ~ returns_at r line ->
                   (Py.truthy (Toc.title e) = true
                    /\ exists r0, In r0 (r :: ps) /\ returns_at r0 line)
                   \/ (Toc.last_resort line = Some e
                       /\ Forall (fun r0 => ~ returns_at r0 line) (r :: ps))).
    { intros H N. destruct (IH H) as [(T & r0 & I & R) | (L & F)].
      - left. split; [exact T|]. exists r0. split; [right; exact I | exact R].
      - right. split; [exact L|]. constructor; assumption. }
    destruct (Re.re_match r line) as [m|] eqn:E.
    + destruct (get_strip r m "title") as [t|x] eqn:G; cbn [bind]; [|discriminate].
      destruct (Py.truthy t) eqn:T.
      * intros H. inversion H; subst. left. cbn [Toc.title Toc.new_TOCEntry].
        rewrite (get_strip_stripped _ _ _ _ G). split; [exact T|].
        exists r. split; [left; reflexivity|]. exists m, t. auto.
      * intros H. apply Next; [exact H|].
        intros (m' & t' & E' & G' & T'). congruence.
    + intros H. apply Next; [exact H|].
      intros (m' & t' & E' & _). congruence.
Qed.

Lemma no_newline_app (a b : string) :
  no_newline (a ++ b) = true -> no_newline a = true /\ no_newline b = true.
Proof.
  unfold no_newline. rewrite all_chars_app. apply andb_true_iff.
Qed.

Lemma chapter_not_roman (c : ascii) :
  chapter_or_digit c = true -> roman_digit c = false /\ Py.isspace c = false.
Proof.
  destruct c as [[] [] [] [] [] [] [] []]; vm_compute;
    try (intros H; discriminate H); intros _; split; reflexivity.
Qed.

(** The title of a match that did not take the optional prefix. *)
Lemma toc_title_without_prefix (pfx : Re.regex) (g : bool) (mn : nat)
      (cl : Re.cset) (line : string) (m : Re.rmatch_obj) (t : string)
      (p' : nat) (s' : string) :
  let r := Re.Seq (Re.Opt pfx) (toc_body (Re.Rep g mn (Re.Chr cl))) in
  Re.has_group r "title" = true ->
  matches (toc_body (Re.Rep g mn (Re.Chr cl))) 0 line [] p' s' (Re.m_caps m) ->
  get_strip r m "title" = Ok t -> Py.truthy t = false ->
  exists w x d,
    line = w ++ x ++ d ++ s'
    /\ all_chars Py.isspace w = true
    /\ all_chars (Re.in_cset cl) x = true /\ mn <= String.length x
    /\ all_digits d = true /\ (s' = "" \/ s' = nl).
Proof.
  intros r Hg M G T. apply toc_body_shape in M as (w & x & d & E & _ & Ax & Lx & Hd & He & C).
  exists w, x, d. repeat split; try assumption.
  unfold get_strip in G. rewrite Hg in G. unfold Re.group in G. rewrite C in G.
  inversion G; subst t. apply strip_empty_spaces, T.
Qed.

Lemma last_resort_dead (line : string) (e : Toc.TOCEntry) :
  no_newline line = true ->
  Toc.last_resort line = Some e ->
  ~ returns_at Toc.toc_pattern_2 line -> ~ returns_at Toc.toc_pattern_3 line ->
  False.
Proof.
  intros Hany L N2 N3.
  apply last_resort_shape in L
    as (pre & c & tok & c' & ws & d & e0 & E & Hc & Hc' & Aws & Hd & He).
  assert (E' : line = (pre ++ String c tok) ++ String c' ws ++ d ++ e0)
    by (rewrite E, append_assoc; reflexivity).
  pose proof Hany as Hany'. rewrite E' in Hany'.
  apply no_newline_app in Hany' as (Aw & Ar).
  assert (Hn : Ascii.eqb c' "010" = false).
  { cbn in Ar. apply andb_true_iff in Ar as (K & _). apply negb_true_iff, K. }
  assert (Ax : all_chars (Re.in_cset Re.Space) (String c' ws) = true)
    by (cbn [all_chars Re.in_cset]; rewrite Hc'; exact Aws).
  assert (Lx : 1 <= String.length (String c' ws)) by (cbn; lia).
  (* the second pattern *)
  set (pfx2 := Re.Grp "prefix"
                 (Re.seqs [ Re.Opt (Re.Seq (Re.Alt (Re.lit "Chapter")
                                              (Re.Alt (Re.lit "Section")
                                                      (Re.lit "Part")))
                                           Toc.spaces);
                            Toc.digits; Re.Opt Toc.dot; Toc.spaces ])).
  destruct (toc_pattern_complete pfx2 true 1 Re.Space _ _ d e0 Aw Ax Lx Hd He)
    as (m2 & M2).
  rewrite <- E' in M2.
  change (Re.Seq (Re.Opt pfx2) (toc_body (Re.Rep true 1 (Re.Chr Re.Space))))
    with Toc.toc_pattern_2 in M2.
  destruct (get_strip_ok Toc.toc_pattern_2 "title" line m2 eq_refl M2) as (t2 & G2).
  destruct (Py.truthy t2) eqn:T2; [apply N2; exists m2, t2; auto|].
  pose proof (re_match_sound _ _ _ M2) as (s2 & D2).
  change Toc.toc_pattern_2
    with (Re.Seq (Re.Opt pfx2) (toc_body (Re.Rep true 1 (Re.Chr Re.Space)))) in D2, G2.
  set (B := toc_body _) in D2. cbn [matches] in D2.
  destruct D2 as (p1 & s1 & cs1 & [P | (-> & -> & ->)] & D2); subst B.
  2:{ destruct (toc_title_without_prefix pfx2 true 1 Re.Space line m2 t2 _ _
                  eq_refl D2 G2 T2) as (w & x & d2 & Ew & Aw2 & Ax2 & _ & Hd2 & He2).
      apply (blank_number_no_word (w ++ x) d2 s2 pre tok (ws ++ d ++ e0) c c').
      - rewrite all_chars_app, Aw2. exact Ax2.
      - exact Hd2.
      - exact He2.
      - exact Hc.
      - exact Hc'.
      - exact Hn.
      - rewrite append_assoc, <- Ew, E. reflexivity. }
  apply (leads_first chapter_or_digit pfx2) in P as (c0 & t0 & E0 & H0);
    [|vm_compute; reflexivity].
  destruct (chapter_not_roman c0 H0) as (R0 & S0).
  (* the third pattern *)
  set (pfx3 := Re.Grp "prefix"
                 (Re.seqs [ Re.plus (Re.Chr (Re.OneOf "IVXivx"));
                            Re.Opt Toc.dot; Toc.spaces ])).
  destruct (toc_pattern_complete pfx3 true 1 Re.Space _ _ d e0 Aw Ax Lx Hd He)
    as (m3 & M3).
  rewrite <- E' in M3.
  change (Re.Seq (Re.Opt pfx3) (toc_body (Re.Rep true 1 (Re.Chr Re.Space))))
    with Toc.toc_pattern_3 in M3.
  destruct (get_strip_ok Toc.toc_pattern_3 "title" line m3 eq_refl M3) as (t3 & G3).
  destruct (Py.truthy t3) eqn:T3; [apply N3; exists m3, t3; auto|].
  pose proof (re_match_sound _ _ _ M3) as (s3 & D3).
  change Toc.toc_pattern_3
    with (Re.Seq (Re.Opt pfx3) (toc_body (Re.Rep true 1 (Re.Chr Re.Space)))) in D3, G3.
  set (B := toc_body _) in D3. cbn [matches] in D3.
  destruct D3 as (p1' & s1' & cs1' & [P | (-> & -> & ->)] & D3); subst B.
  - apply (leads_first roman_digit pfx3) in P as (c1 & t1 & E1 & H1);
      [|vm_compute; reflexivity].
    rewrite E0 in E1. inversion E1; subst. congruence.
  - destruct (toc_title_without_prefix pfx3 true 1 Re.Space line m3 t3 _ _
                eq_refl D3 G3 T3) as (w & x & d3 & Ew & Aw3 & Ax3 & Lx3 & _).
    rewrite E0 in Ew. destruct w as [|cw w].
    + destruct x as [|cx x]; [cbn in Lx3; lia|].
      cbn in Ew, Ax3. inversion Ew; subst.
      apply andb_true_iff in Ax3 as (K & _). congruence.
    + cbn in Ew, Aw3. inversion Ew; subst.
      apply andb_true_iff in Aw3 as (K & _). congruence.
Qed.

(** X15. On a line without line break [_parse_toc_line] never falls back
    on its last resort: an entry it returns comes from one of the six
    patterns, and its title is not empty. *)
Theorem X15_toc_entry_has_title (line : string) (e : Toc.TOCEntry) :
  no_newline line = true ->
  Toc._parse_toc_line line = Ok (Some e) ->
  Py.truthy (Toc.title e) = true
  /\ exists r, In r Toc.toc_patterns /\ returns_at r line.
Proof.
  intros Hany H. apply toc_try_patterns_origin in H as [H | (L & F)]; [exact H|].
  exfalso. unfold Toc.toc_patterns in F.
  inversion F as [|? ? _ F1]; subst. inversion F1 as [|? ? N2 F2]; subst.
  inversion F2 as [|? ? N3 _]; subst.
  apply (last_resort_dead line e Hany L N2 N3).
Qed.

Lemma X15_toc_entry_has_title_witness :
  Py.truthy (Toc.title (Toc.mkEntry 0 "Introduction" (Some 10%Z)
                                    "Introduction 10" [])) = true
  /\ exists r, In r Toc.toc_patterns /\ returns_at r "Introduction 10".
Proof.
  apply (X15_toc_entry_has_title "Introduction 10"); vm_compute; reflexivity.
Defined.

(** *** Which pattern an entry comes from *)

Lemma toc_try_patterns_first (ps : list Re.regex) (line : string)
      (e : Toc.TOCEntry) :
  Toc.try_patterns ps line = Ok (Some e) ->
  (exists before r after m t,
      ps = (before ++ r :: after)%list
      /\ Forall (fun r0 => ~ returns_at r0 line) before
      /\ Re.re_match r line = Some m
      /\ get_strip r m "title" = Ok t /\ Py.truthy t = true
      /\ e = Toc.new_TOCEntry (Toc.level_of_match r m) t
                              (Toc.page_of_match r m) line)
  \/ (Toc.last_resort line = Some e /\ Forall (fun r => ~ returns_at r line) ps).
Proof.
  induction ps as [|r ps IH]; cbn [Toc.try_patterns].
  - intros H. inversion H. right. split; [reflexivity | constructor].
  - assert (Next : Toc.try_patterns ps line = Ok (Some e) ->
                   ~ returns_at r line ->
                   (exists before r0 after m t,
                       r :: ps = (before ++ r0 :: after)%list
                       /\ Forall (fun r1 => ~ returns_at r1 line) before
                       /\ Re.re_match r0 line = Some m
                       /\ get_strip r0 m "title" = Ok t /\ Py.truthy t = true
                       /\ e = Toc.new_TOCEntry (Toc.level_of_match r0 m) t
                                               (Toc.page_of_match r0 m) line)
                   \/ (Toc.last_resort line = Some e
                       /\ Forall (fun r0 => ~ returns_at r0 line) (r :: ps))).
    { intros H N. destruct (IH H) as [(b & r0 & a & m & t & -> & F & K) | (L & F)].
      - left. exists (r :: b), r0, a, m, t. split; [reflexivity|].
        split; [constructor; assumption | exact K].
      - right. split; [exact L|]. constructor; assumption. }
    destruct (Re.re_match r line) as [m|] eqn:E.
    + destruct (get_strip r m "title") as [t|x] eqn:G; cbn [bind]; [|discriminate].
      destruct (Py.truthy t) eqn:T.
      * intros H. inversion H; subst. left.
        exists [], r, ps, m, t. repeat split; try assumption. constructor.
      * intros H. apply Next; [exact H|].
        intros (m' & t' & E' & G' & T'). congruence.
    + intros H. apply Next; [exact H|].
      intros (m' & t' & E' & _). congruence.
Qed.

(** *** Lines that begin with white space *)

Lemma has_nonspace (w : string) :
  Py.truthy (Py.strip w) = true ->
  exists a c b, w = a ++ String c b /\ Py.isspace c = false.
Proof.
  induction w as [|x w IH]; [discriminate|].
  destruct (Py.isspace x) eqn:E.
  - unfold Py.strip. cbn [Py.lstrip]. rewrite E. intros H.
    destruct (IH H) as (a & c & b & -> & Hc). exists (String x a), c, b. auto.
  - intros _. exists "", x, w. auto.
Qed.

(** A match that did not take the optional prefix gives level 0. *)
Lemma toc_level_without_prefix (pfx : Re.regex) (g : bool) (mn : nat)
      (cl : Re.cset) (line : string) (m : Re.rmatch_obj) (p' : nat) (s' : string) :
  let r := Re.Seq (Re.Opt pfx) (toc_body (Re.Rep g mn (Re.Chr cl))) in
  Re.has_group r "indent" = false ->
  matches (toc_body (Re.Rep g mn (Re.Chr cl))) 0 line [] p' s' (Re.m_caps m) ->
  Toc.level_of_match r m = 0.
Proof.
  intros r Hi M.
  apply (matches_keeps_cap "prefix" (toc_body (Re.Rep g mn (Re.Chr cl))) eq_refl) in M.
  unfold Toc.level_of_match, group_if_set, Re.group. rewrite M, Hi.
  destruct (Re.has_group r "prefix"); reflexivity.
Qed.

Lemma toc_prefixed_level (p : ascii -> bool) (pfx : Re.regex) (g : bool)
      (mn : nat) (cl : Re.cset) (c0 : ascii) (rest : string) (m : Re.rmatch_obj) :
  let r := Re.Seq (Re.Opt pfx) (toc_body (Re.Rep g mn (Re.Chr cl))) in
  leads p pfx = true -> p c0 = false ->
  Re.has_group r "indent" = false ->
  Re.re_match r (String c0 rest) = Some m ->
  Toc.level_of_match r m = 0
  /\ exists p' s', matches (toc_body (Re.Rep g mn (Re.Chr cl))) 0 (String c0 rest) []
                           p' s' (Re.m_caps m).
Proof.
  intros r Hl Hp Hi H. apply re_match_sound in H as (s' & M).
  subst r. set (B := toc_body _) in *. cbn [matches] in M.
  destruct M as (p1 & s1 & cs1 & [P | (-> & -> & ->)] & M).
  - apply (leads_first p pfx) in P as (c & t & E & Hc); [|exact Hl].
    inversion E; subst. congruence.
  - split; [|eauto]. subst B.
    apply (toc_level_without_prefix pfx g mn cl _ m _ _ Hi M).
Qed.

Lemma space_classes (c : ascii) :
  Py.isspace c = true ->
  Py.isdigit c = false /\ chapter_or_digit c = false /\ roman_digit c = false
  /\ is_upper c = false.
Proof.
  destruct c as [[] [] [] [] [] [] [] []]; vm_compute;
    try (intros H; discriminate H); intros _; repeat split; reflexivity.
Qed.

(** The shape of a line that an indentation pattern accepts with a
    title. *)
Lemma indented_shape (g : bool) (mn : nat) (cl : Re.cset) (line : string) :
  let r := Re.Seq Re.Bol
                  (Re.Seq (Re.Grp "indent" (Re.at_least 2 (Re.Chr Re.Space)))
                          (toc_body (Re.Rep g mn (Re.Chr cl)))) in
  returns_at r line ->
  exists ind a c b x d e,
    line = (ind ++ a ++ String c b) ++ x ++ d ++ e
    /\ Py.isspace c = false
    /\ no_newline (a ++ String c b) = true
    /\ all_chars Py.isspace ind = true
    /\ all_chars (Re.in_cset cl) x = true /\ mn <= String.length x
    /\ all_digits d = true /\ (e = "" \/ e = nl).
Proof.
  intros r (m & t & H & G & T). apply re_match_sound in H as (s' & M).
  subst r. set (B := toc_body _) in *. unfold Re.at_least in M.
  set (I := Re.Rep true 2 _) in M. cbn [matches] in M.
  destruct M as (p0 & s0 & cs0 & (_ & -> & -> & ->) & p1 & s1 & cs1
                 & (ci & Mi & ->) & M).
  apply matches_run_inv in Mi as (ind & -> & Ai & _ & -> & ->).
  subst B. apply toc_body_shape in M as (w & x & d & -> & Aw & Ax & Lx & Hd & He & C).
  unfold get_strip in G.
  change (Re.has_group _ "title") with true in G. cbv iota in G.
  unfold Re.group in G. rewrite C in G. inversion G; subst t.
  apply has_nonspace in T as (a & c & b & -> & Hc).
  exists ind, a, c, b, x, d, s'. rewrite !append_assoc.
  split; [reflexivity|]. split; [exact Hc|]. split; [exact Aw|].
  split; [exact Ai|]. split; [exact Ax|]. split; [exact Lx|].
  split; [exact Hd | exact He].
Qed.

(** The optional prefixes of the first four patterns. *)
Lemma toc_patterns_prefixed :
  exists pfx1 pfx2 pfx3 pfx4,
    Toc.toc_pattern_1
    = Re.Seq (Re.Opt pfx1) (toc_body (Re.Rep true 2 (Re.Chr (Re.OneOf "."))))
    /\ Toc.toc_pattern_2
       = Re.Seq (Re.Opt pfx2) (toc_body (Re.Rep true 1 (Re.Chr Re.Space)))
    /\ Toc.toc_pattern_3
       = Re.Seq (Re.Opt pfx3) (toc_body (Re.Rep true 1 (Re.Chr Re.Space)))
    /\ Toc.toc_pattern_4
       = Re.Seq (Re.Opt pfx4) (toc_body (Re.Rep true 1 (Re.Chr Re.Space)))
    /\ leads Py.isdigit pfx1 = true /\ leads chapter_or_digit pfx2 = true
    /\ leads roman_digit pfx3 = true /\ leads is_upper pfx4 = true
    /\ Forall (fun r => Re.has_group r "indent" = false)
              (firstn 4 Toc.toc_patterns).
Proof.
  do 4 eexists. repeat split; try reflexivity; try (vm_compute; reflexivity).
  repeat constructor.
Qed.

Lemma toc_early_level (r : Re.regex) (c0 : ascii) (rest : string)
      (m : Re.rmatch_obj) :
  Py.isspace c0 = true ->
  In r (firstn 4 Toc.toc_patterns) ->
  Re.re_match r (String c0 rest) = Some m ->
  Toc.level_of_match r m = 0
  /\ exists g mn cl pfx p' s',
       r = Re.Seq (Re.Opt pfx) (toc_body (Re.Rep g mn (Re.Chr cl)))
       /\ matches (toc_body (Re.Rep g mn (Re.Chr cl))) 0 (String c0 rest) []
                  p' s' (Re.m_caps m).
Proof.
  intros Hs Hin H.
  destruct (space_classes c0 Hs) as (K1 & K2 & K3 & K4).
  destruct toc_patterns_prefixed
    as (pfx1 & pfx2 & pfx3 & pfx4 & E1 & E2 & E3 & E4 & L1 & L2 & L3 & L4 & F).
  rewrite Forall_forall in F. specialize (F r Hin).
  cbn [firstn Toc.toc_patterns In] in Hin.
  destruct Hin as [<- | [<- | [<- | [<- | []]]]].
  - rewrite E1 in *.
    destruct (toc_prefixed_level _ pfx1 true 2 _ c0 rest m L1 K1 F H)
      as (Lv & p' & s' & M).
    split; [exact Lv|]. eexists _, _, _, _, p', s'. split; [reflexivity | exact M].
  - rewrite E2 in *.
    destruct (toc_prefixed_level _ pfx2 true 1 _ c0 rest m L2 K2 F H)
      as (Lv & p' & s' & M).
    split; [exact Lv|]. eexists _, _, _, _, p', s'. split; [reflexivity | exact M].
  - rewrite E3 in *.
    destruct (toc_prefixed_level _ pfx3 true 1 _ c0 rest m L3 K3 F H)
      as (Lv & p' & s' & M).
    split; [exact Lv|]. eexists _, _, _, _, p', s'. split; [reflexivity | exact M].
  - rewrite E4 in *.
    destruct (toc_prefixed_level _ pfx4 true 1 _ c0 rest m L4 K4 F H)
      as (Lv & p' & s' & M).
    split; [exact Lv|]. eexists _, _, _, _, p', s'. split; [reflexivity | exact M].
Qed.

(** On an indented line whose text does not start with a dot, the first
    pattern yields whatever the fifth would. *)
Lemma toc_pattern_1_of_5 (indent : string) (t0 : ascii) (rest : string) :
  Py.truthy indent = true -> all_chars Py.isspace indent = true ->
  Py.isspace t0 = false -> Ascii.eqb t0 "." = false ->
  no_newline (indent ++ String t0 rest) = true ->
  returns_at Toc.toc_pattern_5 (indent ++ String t0 rest) ->
  returns_at Toc.toc_pattern_1 (indent ++ String t0 rest).
Proof.
  intros Ti Ai Ht Hdot Hany R5. set (line := indent ++ String t0 rest) in *.
  apply (indented_shape true 2 (Re.OneOf ".")) in R5
    as (ind & a & c & b & x & d & e & E & Hc & Aw & Aind & Ax & Lx & Hd & He).
  destruct toc_patterns_prefixed
    as (pfx1 & _ & _ & _ & E1 & _ & _ & _ & L1 & _ & _ & _ & F).
  assert (Aw' : no_newline (ind ++ a ++ String c b) = true).
  { rewrite E in Hany. apply no_newline_app in Hany. apply Hany. }
  destruct (toc_pattern_complete pfx1 true 2 (Re.OneOf ".") _ x d e Aw' Ax Lx Hd He)
    as (m1 & M1).
  rewrite <- E, <- E1 in M1.
  destruct (get_strip_ok Toc.toc_pattern_1 "title" line m1 eq_refl M1) as (t1 & G1).
  exists m1, t1. split; [exact M1|]. split; [exact G1|].
  destruct (Py.truthy t1) eqn:T1; [reflexivity|]. exfalso.
  destruct indent as [|c0 indent']; [discriminate Ti|].
  cbn [all_chars] in Ai. apply andb_true_iff in Ai as (Hs & Ai').
  destruct (space_classes c0 Hs) as (K1 & _).
  rewrite E1 in M1, G1.
  destruct (toc_prefixed_level Py.isdigit pfx1 true 2 (Re.OneOf ".") c0
              (indent' ++ String t0 rest) m1 L1 K1) as (_ & p' & s' & D1).
  { rewrite <- E1. reflexivity. }
  { exact M1. }
  assert (Hg : Re.has_group
                 (Re.Seq (Re.Opt pfx1)
                         (toc_body (Re.Rep true 2 (Re.Chr (Re.OneOf ".")))))
                 "title" = true) by (rewrite <- E1; reflexivity).
  destruct (toc_title_without_prefix pfx1 true 2 (Re.OneOf ".") _ m1 t1 _ _
              Hg D1 G1 T1) as (w1 & x1 & d1 & Ew & Aw1 & Ax1 & Lx1 & _).
  destruct x1 as [|cx x1]; [cbn in Lx1; lia|].
  cbn [all_chars Re.in_cset Re.mem] in Ax1.
  apply andb_true_iff in Ax1 as (Hcx & _). rewrite orb_false_r in Hcx.
  apply Ascii.eqb_eq in Hcx. subst cx.
  change (String c0 indent' ++ String t0 rest)
    with (String c0 indent' ++ String t0 rest) in Ew.
  symmetry in Ew. cbn [append] in Ew.
  assert (Ew' : w1 ++ String "." (x1 ++ d1 ++ s')
                = String c0 indent' ++ String t0 rest) by exact Ew.
  apply before_the_dots in Ew' as (w' & ->).
  - rewrite all_chars_app in Aw1. cbn [all_chars] in Aw1.
    rewrite Ht in Aw1. rewrite andb_false_r in Aw1. discriminate Aw1.
  - cbn [all_chars]. rewrite Hs. exact Ai'.
  - exact Hdot.
Qed.

(** On an indented line, the second pattern yields whatever the sixth
    would. *)
Lemma toc_pattern_2_of_6 (c0 : ascii) (rest : string) :
  Py.isspace c0 = true ->
  no_newline (String c0 rest) = true ->
  returns_at Toc.toc_pattern_6 (String c0 rest) ->
  returns_at Toc.toc_pattern_2 (String c0 rest).
Proof.
  intros Hs Hany R6. set (line := String c0 rest) in *.
  apply (indented_shape true 1 Re.Space) in R6
    as (ind & a & c & b & x & d & e & E & Hc & Aw & Aind & Ax & Lx & Hd & He).
  destruct toc_patterns_prefixed
    as (_ & pfx2 & _ & _ & _ & E2 & _ & _ & _ & L2 & _ & _ & F).
  assert (Aw' : no_newline (ind ++ a ++ String c b) = true).
  { rewrite E in Hany. apply no_newline_app in Hany. apply Hany. }
  destruct (toc_pattern_complete pfx2 true 1 Re.Space _ x d e Aw' Ax Lx Hd He)
    as (m2 & M2).
  rewrite <- E, <- E2 in M2.
  destruct (get_strip_ok Toc.toc_pattern_2 "title" line m2 eq_refl M2) as (t2 & G2).
  exists m2, t2. split; [exact M2|]. split; [exact G2|].
  destruct (Py.truthy t2) eqn:T2; [reflexivity|]. exfalso.
  destruct (space_classes c0 Hs) as (_ & K2 & _).
  rewrite E2 in M2, G2.
  destruct (toc_prefixed_level chapter_or_digit pfx2 true 1 Re.Space c0 rest m2
              L2 K2) as (_ & p' & s' & D2).
  { rewrite <- E2. reflexivity. }
  { exact M2. }
  assert (Hg : Re.has_group
                 (Re.Seq (Re.Opt pfx2) (toc_body (Re.Rep true 1 (Re.Chr Re.Space))))
                 "title" = true) by (rewrite <- E2; reflexivity).
  destruct (toc_title_without_prefix pfx2 true 1 Re.Space _ m2 t2 _ _
              Hg D2 G2 T2) as (w2 & x2 & d2 & Ew & Aw2 & Ax2 & _ & Hd2 & He2).
  destruct x as [|c' x']; [cbn in Lx; lia|].
  cbn [all_chars Re.in_cset] in Ax. apply andb_true_iff in Ax as (Hc' & _).
  assert (Hn : Ascii.eqb c' "010" = false).
  { rewrite E in Hany. apply no_newline_app in Hany as (_ & Hany).
    cbn in Hany. apply andb_true_iff in Hany as (K & _). apply negb_true_iff, K. }
  apply (blank_number_no_word (w2 ++ x2) d2 s' (ind ++ a) b (x' ++ d ++ e) c c').
  - rewrite all_chars_app, Aw2. exact Ax2.
  - exact Hd2.
  - exact He2.
  - exact Hc.
  - exact Hc'.
  - exact Hn.
  - rewrite append_assoc, <- Ew. fold line. rewrite E.
    rewrite !append_assoc. reflexivity.
Qed.

(** X16. Indentation never gives a level: on a line without line break that
    begins with white space, and whose text does not begin with a dot, an
    entry returned by [_parse_toc_line] has level 0; the two indentation
    patterns are reached only by lines they do not accept with a title. *)
Theorem X16_indentation_gives_no_level (indent : string) (t0 : ascii)
        (rest : string) (e : Toc.TOCEntry) :
  Py.truthy indent = true -> all_chars Py.isspace indent = true ->
  Py.isspace t0 = false -> Ascii.eqb t0 "." = false ->
  no_newline (indent ++ String t0 rest) = true ->
  Toc._parse_toc_line (indent ++ String t0 rest) = Ok (Some e) ->
  Toc.level e = 0.
Proof.
  intros Ti Ai Ht Hdot Hany H.
  pose proof (toc_pattern_1_of_5 indent t0 rest Ti Ai Ht Hdot Hany) as P15.
  destruct indent as [|c0 indent']; [discriminate Ti|].
  pose proof Ai as Ai0. cbn [all_chars] in Ai0.
  apply andb_true_iff in Ai0 as (Hs & _).
  cbn [append] in *. set (r0 := indent' ++ String t0 rest) in *.
  pose proof (toc_pattern_2_of_6 c0 r0 Hs Hany) as P26.
  apply toc_try_patterns_first in H
    as [(before & r & after & m & t & Eps & F & M & G & T & ->) | (L & F)].
  - cbn [Toc.level Toc.new_TOCEntry].
    assert (Early : In r (firstn 4 Toc.toc_patterns) ->
                    Toc.level_of_match r m = 0).
    { intros Hin. apply (toc_early_level r c0 r0 m Hs Hin M). }
    unfold Toc.toc_patterns in Eps.
    destruct before as [|b1 before]; cbn [app] in Eps; inversion Eps; subst.
    { apply Early. cbn. auto. }
    destruct before as [|b2 before]; cbn [app] in *; inversion H1; subst.
    { apply Early. cbn. auto. }
    destruct before as [|b3 before]; cbn [app] in *; inversion H2; subst.
    { apply Early. cbn. auto. }
    destruct before as [|b4 before]; cbn [app] in *; inversion H3; subst.
    { apply Early. cbn. auto. }
    destruct before as [|b5 before]; cbn [app] in *; inversion H4; subst.
    { exfalso. inversion F as [|? ? N1 _]; subst. apply N1, P15.
      exists m, t. auto. }
    destruct before as [|b6 before]; cbn [app] in *; inversion H5; subst.
    { exfalso. inversion F as [|? ? _ F1]; subst.
      inversion F1 as [|? ? N2 _]; subst. apply N2, P26. exists m, t. auto. }
    destruct before; discriminate.
  - exfalso. unfold Toc.toc_patterns in F.
    inversion F as [|? ? _ F1]; subst. inversion F1 as [|? ? N2 F2]; subst.
    inversion F2 as [|? ? N3 _]; subst.
    apply (last_resort_dead _ e Hany L N2 N3).
Qed.

Lemma X16_indentation_gives_no_level_witness :
  Toc.level (Toc.mkEntry 0 "Introduction" (Some 10%Z) "    Introduction 10" []) = 0.
Proof.
  apply (X16_indentation_gives_no_level "    " "I" "ntroduction 10");
    vm_compute; reflexivity.
Defined.

(** *** When TOC extraction raises *)

Lemma collect_step (l : string) (rest : list string) (self : Toc.TOCExtractor) :
  Toc.collect (l :: rest) self
  = if toc_line l
    then match Toc._parse_toc_line (Py.rstrip l) with
         | Ok (Some e) => Toc.collect rest (Toc.append_entry e self)
         | _ => Toc.collect rest self
         end
    else Toc.collect rest self.
Proof.
  unfold toc_line. destruct (long_enough l) eqn:L; cbn [andb].
  - cbn [Toc.collect]. unfold long_enough in L. apply Nat.leb_le in L.
    destruct (Py.strip (Py.rstrip l)) eqn:S; [cbn in L; lia|]. cbn [Py.truthy negb].
    destruct (Nat.ltb_spec (String.length (String a s)) 5) as [K|K]; [lia|].
    destruct (parse_toc_line_total (Py.rstrip l)) as ([e|] & ->); reflexivity.
  - apply collect_skips_short, L.
Qed.

Lemma collect_keeps (lines : list string) :
  forall self, Toc.toc_entries self <> [] ->
               Toc.toc_entries (snd (Toc.collect lines self)) <> [].
Proof.
  induction lines as [|l rest IH]; intros self N; [exact N|].
  rewrite collect_step. destruct (toc_line l); [|apply IH, N].
  destruct (Toc._parse_toc_line (Py.rstrip l)) as [[e|]|x]; try apply IH, N.
  apply IH. cbn. intros H. apply app_eq_nil in H as (_ & H). discriminate H.
Qed.

Lemma collect_takes (lines : list string) :
  forall self,
    existsb toc_line lines = true ->
    Toc.toc_entries (snd (Toc.collect lines self)) <> [].
Proof.
  induction lines as [|l rest IH]; intros self H; [discriminate H|].
  rewrite collect_step. cbn [existsb] in H.
  destruct (toc_line l) eqn:T.
  - unfold toc_line in T. apply andb_true_iff in T as (_ & T).
    destruct (Toc._parse_toc_line (Py.rstrip l)) as [[e|]|x]; try discriminate T.
    apply collect_keeps. cbn. intros K. apply app_eq_nil in K as (_ & K).
    discriminate K.
  - apply IH, H.
Qed.

Lemma collect_nothing (lines : list string) :
  forall self,
    existsb toc_line lines = false -> Toc.collect lines self = (Ok tt, self).
Proof.
  induction lines as [|l rest IH]; intros self H; [reflexivity|].
  rewrite collect_step. cbn [existsb] in H. apply orb_false_iff in H as (T & H).
  rewrite T. apply IH, H.
Qed.

Lemma extract_toc_decided (room : Z) (self : Toc.TOCExtractor) (text : string) :
  (existsb toc_line (Toc.lines_of text) = true
   /\ fst (Toc.extract_toc_from_text room self text false) = Raise ValueError)
  \/ (existsb toc_line (Toc.lines_of text) = false
      /\ Toc.extract_toc_from_text room self text false
         = (Ok (Toc.TocEntries []),
            Toc.mkExtractor [] [] (Toc.index_entries self))).
Proof.
  unfold Toc.extract_toc_from_text, Toc._extract_toc, Toc._extract_toc_lines.
  destruct (existsb toc_line (Toc.lines_of text)) eqn:E; [left | right];
    (split; [reflexivity|]).
  - pose proof (collect_takes _ (Toc.mkExtractor [] [] (Toc.index_entries self)) E)
      as N.
    pose proof (collect_total (Toc.lines_of text)
                  (Toc.mkExtractor [] [] (Toc.index_entries self))) as T.
    destruct (Toc.collect _ _) as [[u|x] [st ts ix]]; [|discriminate T].
    cbn [snd Toc.toc_entries] in *.
    destruct ts as [|t ts]; [contradiction|].
    rewrite determine_hierarchy_raises. reflexivity.
  - rewrite (collect_nothing _ _ E). reflexivity.
Qed.

(** X19. TOC extraction raises [ValueError] exactly when some line of the
    text is taken as an entry (a line of five characters or more, trimmed,
    from which [_parse_toc_line] makes an entry); otherwise it returns the
    empty list and leaves the extractor without entries. *)
Theorem X19_toc_extraction_decided (room : Z) (self : Toc.TOCExtractor) (text : string) :
  (existsb toc_line (Toc.lines_of text) = true
   /\ fst (Toc.extract_toc_from_text room self text false) = Raise ValueError)
  \/ (existsb toc_line (Toc.lines_of text) = false
      /\ Toc.extract_toc_from_text room self text false
         = (Ok (Toc.TocEntries []),
            Toc.mkExtractor [] [] (Toc.index_entries self))).
Proof. apply extract_toc_decided. Qed.

(* ================================================================== *)
(** * What the components of component_extractor.py carry *)

(** *** Components carry a number and a title only *)

Lemma untitled_bare (c c' : Comp.Component) :
  untitled c' = untitled c -> bare c -> bare c'.
Proof.
  unfold untitled, bare. intros E (A & B & C). inversion E. repeat split; congruence.
Qed.

Lemma map_untitled_bare (l : list Comp.Component) :
  forall l', map untitled l' = map untitled l -> Forall bare l -> Forall bare l'.
Proof.
  induction l as [|c l IH]; intros l' E F.
  - destruct l'; [constructor | discriminate E].
  - destruct l' as [|c' l']; [constructor|].
    cbn [map] in E. inversion F as [|? ? Hc Fl]; subst.
    pose proof (f_equal (hd (untitled c)) E) as E1.
    pose proof (f_equal (@tl _) E) as E2. cbn [hd tl] in E1, E2.
    constructor; [apply (untitled_bare c c' E1 Hc) | apply IH; assumption].
Qed.

Lemma fallback_bare (line : string) (c : Comp.Component) :
  Comp.fallback line = Some c -> bare c.
Proof.
  unfold Comp.fallback.
  destruct (Re.re_match Comp.more_flexible_pattern _) as [m|].
  - destruct (Re.group m "1"); [|discriminate].
    destruct (Re.group m "2"); [|discriminate].
    intros H. inversion H. repeat split.
  - destruct (Re.re_match Comp.numbered_pattern _) as [m|]; [|discriminate].
    destruct (Re.group m "1"); [|discriminate].
    destruct (Re.group m "2"); [|discriminate].
    destruct (Py.truthy _); [|discriminate].
    intros H. inversion H. repeat split.
Qed.

Lemma comp_try_patterns_bare (ps : list Re.regex) (line : string)
      (c : Comp.Component) :
  Forall (fun r => Re.has_group r "description" = false
                   \/ Re.re_match r line = None) ps ->
  Comp.try_patterns ps line = Ok (Some c) -> bare c.
Proof.
  induction ps as [|r ps IH]; intros F; cbn [Comp.try_patterns].
  - intros H. inversion H as [K]. eapply fallback_bare, K.
  - inversion F as [|? ? Hd Fps]; subst.
    destruct (Re.re_match r line) as [m|] eqn:E; [|apply IH, Fps].
    destruct Hd as [Hd | Hd]; [|discriminate Hd].
    destruct (get_strip r m "title") as [t|x]; cbn [bind]; [|discriminate].
    unfold Comp.description_of_match. rewrite Hd. cbn [bind].
    destruct (Comp.number_of_match r m); [|apply IH, Fps].
    destruct (Py.truthy t); [|apply IH, Fps].
    intros H. inversion H. repeat split.
Qed.

(** The fifth pattern, the only one with a description, is never reached by
    a line it accepts. *)
Lemma parse_component_line_bare (line : string) (c : Comp.Component) :
  no_newline line = true -> Py.rstrip line = line ->
  Comp._parse_component_line line = Ok (Some c) -> bare c.
Proof.
  intros Hany Hr. unfold Comp._parse_component_line, Comp.component_patterns.
  destruct (Re.re_match Comp.component_pattern_1 line) as [m1|] eqn:E1.
  - cbn [Comp.try_patterns]. rewrite E1.
    destruct (pattern_1_returns line m1 Hany Hr E1) as (num & t & Hn & Ht & T).
    rewrite Ht. cbn [bind]. unfold Comp.description_of_match.
    change (Re.has_group Comp.component_pattern_1 "description") with false.
    cbn [bind]. rewrite Hn, T. intros H. inversion H. repeat split.
  - assert (E5 : Re.re_match Comp.component_pattern_5 line = None).
    { destruct (Re.re_match Comp.component_pattern_5 line) as [m5|] eqn:E5;
        [|reflexivity].
      destruct (pattern_1_of_5 line m5 Hany E5) as (m1 & H1). congruence. }
    apply comp_try_patterns_bare.
    repeat (apply Forall_cons;
            [first [left; reflexivity | right; exact E5]|]).
    apply Forall_nil.
Qed.

Lemma classify_bare (l : string) (st st' : Comp.loop_state) :
  no_newline l = true ->
  Comp.classify (Py.rstrip l) st = Ok st' ->
  Forall bare (Comp.components (Comp.self st)) ->
  Forall bare (Comp.components (Comp.self st')).
Proof.
  intros Hany. unfold Comp.classify.
  destruct (Comp._match_category _) as [cat|e]; cbn [bind]; [|discriminate].
  destruct (Comp.is_category cat).
  - intros H F. inversion H; subst. cbn [Comp.self].
    destruct (close_category_grows st) as (_ & K). rewrite K. exact F.
  - destruct (Re.re_match Comp.standalone_number _) as [m|].
    + intros H F. inversion H; subst. exact F.
    + destruct (Comp._parse_component_line _) as [[c|]|e] eqn:P; cbn [bind];
        intros H F; inversion H; subst; [|exact F].
      cbn. apply Forall_app. split; [exact F|]. constructor; [|constructor].
      apply (parse_component_line_bare (Py.rstrip l));
        [apply rstrip_all_chars, Hany | apply rstrip_idempotent | exact P].
Qed.

Lemma step_bare (l : string) (st st' : Comp.loop_state) :
  no_newline l = true ->
  Comp.step st l = Ok st' ->
  Forall bare (Comp.components (Comp.self st)) ->
  Forall bare (Comp.components (Comp.self st')).
Proof.
  intros Hany. unfold Comp.step. destruct (negb (Py.truthy _)).
  - intros H F. inversion H; subst. exact F.
  - destruct (Comp.pending_number st) as [pn|];
      [destruct (Py.truthy pn)|]; try apply (classify_bare l _ _ Hany).
    destruct (Comp._match_category (Py.rstrip l)) as [cat|e]; cbn [bind];
      [|discriminate].
    destruct (negb (Comp.is_category cat) && _).
    + intros H F. inversion H; subst. cbn.
      apply Forall_app. split; [exact F|]. repeat constructor.
    + apply (classify_bare l (Comp.drop_pending st) _ Hany).
Qed.

Lemma run_bare (lines : list string) :
  Forall (fun l => no_newline l = true) lines ->
  forall st st',
    Comp.run lines st = (Ok tt, st') ->
    Forall bare (Comp.components (Comp.self st)) ->
    Forall bare (Comp.components (Comp.self st')).
Proof.
  induction lines as [|l rest IH]; intros Fl st st' H F; cbn [Comp.run] in H.
  - inversion H; subst. exact F.
  - inversion Fl as [|? ? Hl Hrest]; subst.
    destruct (Comp.step st l) as [st1|e] eqn:E; [|discriminate H].
    eapply (IH Hrest); [exact H | eapply step_bare; eassumption].
Qed.

(** X17. A component an extraction returns is a number and a title and
    nothing more: its description, its category and its children are
    empty. The one pattern with a description is shadowed by the first
    pattern, and the category of a component is never filled in, not even
    under a header. *)
Theorem X17_components_are_bare (s : Comp.ComponentExtractor) (text : string) :
  exists comps,
    fst (Comp.extract_components_from_text s text) = Ok comps
    /\ Forall bare comps.
Proof.
  destruct (extract_components_total s text) as (comps & H).
  exists comps. split; [exact H|].
  unfold Comp.extract_components_from_text in H.
  destruct (Comp.extract_components_from_lines s (Comp.lines_of text))
    as [r self'] eqn:E. cbn [fst] in H. subst r.
  apply extract_lines_ok in E as (st_end & R & -> & ->).
  apply (map_untitled_bare _ _ (post_process_untitled (Comp.close_category st_end))).
  destruct (close_category_grows st_end) as (_ & K). rewrite K.
  eapply (run_bare _ (split_on_no_sep "010" text)); [exact R | constructor].
Qed.

(** *** What a group captures *)

Lemma group_within_sound (n : string) (p : ascii -> bool) (r : Re.regex) :
  group_within n p r = true ->
  forall pos s cs p' s' cs',
    matches r pos s cs p' s' cs' -> cap_within n p cs -> cap_within n p cs'.
Proof.
  induction r as [|cl|a IHa b IHb|a IHa b IHb|a IHa|g mn a IHa|n' a IHa| |];
    cbn [group_within matches]; intros G pos s cs p' s' cs' M C.
  - destruct M as (_ & _ & ->). exact C.
  - destruct M as (c & _ & _ & _ & ->). exact C.
  - apply andb_true_iff in G as (Ga & Gb).
    destruct M as (p1 & s1 & cs1 & Ma & Mb).
    apply (IHb Gb _ _ _ _ _ _ Mb). apply (IHa Ga _ _ _ _ _ _ Ma C).
  - apply andb_true_iff in G as (Ga & Gb).
    destruct M as [M | M]; [apply (IHa Ga _ _ _ _ _ _ M C) | apply (IHb Gb _ _ _ _ _ _ M C)].
  - destruct M as [M | (_ & _ & ->)]; [apply (IHa G _ _ _ _ _ _ M C) | exact C].
  - destruct M as (k & _ & M). revert pos s cs C M.
    induction k as [|k IHk]; cbn [iter]; intros pos s cs C M.
    + destruct M as (_ & _ & ->). exact C.
    + destruct M as (p1 & s1 & cs1 & M1 & _ & M2).
      apply (IHk _ _ _ (IHa G _ _ _ _ _ _ M1 C) M2).
  - destruct M as (cs1 & M & ->).
    destruct (String.eqb n' n) eqn:E.
    + apply String.eqb_eq in E. subst n'. intros v Hv.
      rewrite get_set_cap in Hv. inversion Hv; subst v.
      pose proof (matches_consumes _ _ _ _ _ _ _ M) as (w & -> & ->).
      replace (pos + String.length w - pos) with (String.length w) by lia.
      rewrite substring_prefix.
      destruct a as [|cl| | | |g mn [|cl| | | | | | |]| | |]; try discriminate G.
      * cbn [matches] in M. destruct M as (c & E & Hc & _).
        destruct w as [|c0 [|c1 w]]; cbn in E.
        -- exfalso. apply (f_equal String.length) in E. cbn in E. lia.
        -- inversion E; subst. cbn. rewrite andb_true_r.
           eapply class_within_spec; eassumption.
        -- exfalso. inversion E as [[E1 E2]].
           apply (f_equal String.length) in E2. cbn in E2.
           rewrite length_append in E2. lia.
      * apply matches_run_inv in M as (w' & E & A & _).
        apply append_cancel_r in E. subst w'.
        eapply all_chars_imp; [|exact A].
        intros c. apply class_within_spec, G.
    + intros v Hv. rewrite get_set_cap_other in Hv by exact E.
      apply (IHa G _ _ _ _ _ _ M C v Hv).
  - destruct M as (_ & _ & _ & ->). exact C.
  - destruct M as (_ & _ & _ & ->). exact C.
Qed.

Lemma re_match_group_within (n : string) (p : ascii -> bool) (r : Re.regex)
      (line : string) (m : Re.rmatch_obj) (v : string) :
  group_within n p r = true -> Re.re_match r line = Some m ->
  Re.group m n = Some v -> all_chars p v = true.
Proof.
  intros G H Hv. apply re_match_sound in H as (s' & M).
  apply (group_within_sound n p r G _ _ _ _ _ _ M); [|exact Hv].
  intros x Hx. discriminate Hx.
Qed.

(** *** The numbers of the components *)

Lemma digits_formed (v : string) :
  all_chars Py.isdigit v = true -> digits_or_letters v = true.
Proof. intros H. unfold digits_or_letters. rewrite H. reflexivity. Qed.

Lemma letters_formed (v : string) :
  all_chars is_letter v = true -> digits_or_letters v = true.
Proof. intros H. unfold digits_or_letters. rewrite H. apply orb_true_r. Qed.

Lemma group_if_set_group (r : Re.regex) (m : Re.rmatch_obj) (n v : string) :
  group_if_set r m n = Some v -> Re.group m n = Some v.
Proof.
  unfold group_if_set. destruct (Re.has_group r n); [|discriminate].
  destruct (Re.group m n) as [w|]; [|discriminate].
  destruct (Py.truthy w); [|discriminate]. intros H. exact H.
Qed.

Lemma number_of_match_formed (r : Re.regex) (line : string)
      (m : Re.rmatch_obj) (v : string) :
  group_within "number" Py.isdigit r = true ->
  group_within "letter" is_letter r = true ->
  group_within "roman" is_letter r = true ->
  Re.re_match r line = Some m ->
  Comp.number_of_match r m = Some v -> digits_or_letters v = true.
Proof.
  intros G1 G2 G3 H. unfold Comp.number_of_match.
  destruct (group_if_set r m "number") as [a|] eqn:A.
  { intros K. inversion K; subst. apply digits_formed.
    eapply re_match_group_within; [exact G1 | exact H|].
    eapply group_if_set_group, A. }
  destruct (group_if_set r m "letter") as [b|] eqn:B.
  { intros K. inversion K; subst. apply letters_formed.
    eapply re_match_group_within; [exact G2 | exact H|].
    eapply group_if_set_group, B. }
  intros K. apply letters_formed.
  eapply re_match_group_within; [exact G3 | exact H|].
  eapply group_if_set_group, K.
Qed.

Lemma fallback_numbers :
  group_within "1" Py.isdigit Comp.more_flexible_pattern = true
  /\ group_within "1" Py.isdigit Comp.numbered_pattern = true
  /\ group_within "1" Py.isdigit Comp.standalone_number = true.
Proof. repeat split; vm_compute; reflexivity. Qed.

Lemma fallback_formed (line : string) (c : Comp.Component) :
  Comp.fallback line = Some c -> number_formed c.
Proof.
  unfold Comp.fallback, number_formed.
  destruct (Re.re_match Comp.more_flexible_pattern _) as [m|] eqn:E.
  - destruct (Re.group m "1") as [num|] eqn:G1; [|discriminate].
    destruct (Re.group m "2"); [|discriminate].
    intros H. inversion H. cbn [Comp.number Comp.new_Component].
    apply digits_formed.
    apply (re_match_group_within "1" Py.isdigit _ _ m num
             (proj1 fallback_numbers) E G1).
  - destruct (Re.re_match Comp.numbered_pattern _) as [m|] eqn:E2; [|discriminate].
    destruct (Re.group m "1") as [num|] eqn:G1; [|discriminate].
    destruct (Re.group m "2"); [|discriminate].
    destruct (Py.truthy _); [|discriminate].
    intros H. inversion H. cbn [Comp.number Comp.new_Component].
    apply digits_formed.
    apply (re_match_group_within "1" Py.isdigit _ _ m num
             (proj1 (proj2 fallback_numbers)) E2 G1).
Qed.

Lemma comp_try_patterns_formed (ps : list Re.regex) (line : string)
      (c : Comp.Component) :
  Forall (fun r => group_within "number" Py.isdigit r = true
                   /\ group_within "letter" is_letter r = true
                   /\ group_within "roman" is_letter r = true) ps ->
  Comp.try_patterns ps line = Ok (Some c) -> number_formed c.
Proof.
  induction ps as [|r ps IH]; intros F; cbn [Comp.try_patterns].
  - intros H. inversion H as [K]. eapply fallback_formed, K.
  - inversion F as [|? ? (G1 & G2 & G3) Fps]; subst.
    destruct (Re.re_match r line) as [m|] eqn:E; [|apply IH, Fps].
    destruct (get_strip r m "title") as [t|x]; cbn [bind]; [|discriminate].
    destruct (Comp.description_of_match r m) as [d|x]; cbn [bind]; [|discriminate].
    destruct (Comp.number_of_match r m) as [num|] eqn:N; [|apply IH, Fps].
    destruct (Py.truthy t); [|apply IH, Fps].
    intros H. inversion H. unfold number_formed.
    cbn [Comp.number Comp.new_Component].
    apply (number_of_match_formed r line m num G1 G2 G3 E N).
Qed.

Lemma parse_component_line_formed (line : string) (c : Comp.Component) :
  Comp._parse_component_line line = Ok (Some c) -> number_formed c.
Proof.
  apply comp_try_patterns_formed. unfold Comp.component_patterns.
  repeat (apply Forall_cons; [repeat split; vm_compute; reflexivity|]).
  apply Forall_nil.
Qed.

Lemma classify_formed (line : string) (st st' : Comp.loop_state) :
  Comp.classify line st = Ok st' ->
  pending_digits st ->
  Forall number_formed (Comp.components (Comp.self st)) ->
  pending_digits st' /\ Forall number_formed (Comp.components (Comp.self st')).
Proof.
  unfold Comp.classify.
  destruct (Comp._match_category line) as [cat|e]; cbn [bind]; [|discriminate].
  destruct (Comp.is_category cat).
  - intros H P F. inversion H; subst. split; [exact P|]. cbn [Comp.self].
    destruct (close_category_grows st) as (_ & K). rewrite K. exact F.
  - destruct (Re.re_match Comp.standalone_number _) as [m|] eqn:E.
    + intros H P F. inversion H; subst. split; [|exact F].
      intros n Hn. cbn in Hn.
      apply (re_match_group_within "1" Py.isdigit _ _ m n
               (proj2 (proj2 fallback_numbers)) E Hn).
    + destruct (Comp._parse_component_line line) as [[c|]|e] eqn:Pc; cbn [bind];
        intros H P F; inversion H; subst; [|auto].
      split; [exact P|]. cbn. apply Forall_app. split; [exact F|].
      constructor; [|constructor]. eapply parse_component_line_formed, Pc.
Qed.

Lemma step_formed (l : string) (st st' : Comp.loop_state) :
  Comp.step st l = Ok st' ->
  pending_digits st ->
  Forall number_formed (Comp.components (Comp.self st)) ->
  pending_digits st' /\ Forall number_formed (Comp.components (Comp.self st')).
Proof.
  unfold Comp.step. destruct (negb (Py.truthy _)).
  - intros H P F. inversion H; subst. auto.
  - destruct (Comp.pending_number st) as [pn|] eqn:Pn;
      [destruct (Py.truthy pn)|]; try apply classify_formed.
    destruct (Comp._match_category (Py.rstrip l)) as [cat|e]; cbn [bind];
      [|discriminate].
    destruct (negb (Comp.is_category cat) && _).
    + intros H P F. inversion H; subst. split.
      * intros n Hn. discriminate Hn.
      * cbn. apply Forall_app. split; [exact F|]. constructor; [|constructor].
        apply digits_formed, P. exact Pn.
    + intros H P F. apply (classify_formed _ (Comp.drop_pending st) _ H); [|exact F].
      intros n Hn. discriminate Hn.
Qed.

Lemma run_formed (lines : list string) :
  forall st st',
    Comp.run lines st = (Ok tt, st') ->
    pending_digits st ->
    Forall number_formed (Comp.components (Comp.self st)) ->
    Forall number_formed (Comp.components (Comp.self st')).
Proof.
  induction lines as [|l rest IH]; intros st st' H P F; cbn [Comp.run] in H.
  - inversion H; subst. exact F.
  - destruct (Comp.step st l) as [st1|e] eqn:E; [|discriminate H].
    destruct (step_formed l st st1 E P F) as (P1 & F1).
    apply (IH st1 st' H P1 F1).
Qed.

(** *** Which numbers [int] reads *)

Lemma letter_not_int_space (c : ascii) :
  is_letter c = true -> not_int_space c = true.
Proof.
  destruct c as [[] [] [] [] [] [] [] []]; vm_compute;
    try (intros H; discriminate H); reflexivity.
Qed.

Lemma int_of_letters (s : string) :
  Py.truthy s = true -> all_chars is_letter s = true -> Py.int s = None.
Proof.
  intros T A. unfold Py.int.
  assert (N : all_chars not_int_space s = true)
    by (eapply all_chars_imp; [apply letter_not_int_space | exact A]).
  rewrite (int_lstrip_id s N), (int_rstrip_id s N).
  destruct s as [|c s]; [discriminate T|].
  cbn [all_chars] in A. apply andb_true_iff in A as (Hc & _).
  destruct c as [[] [] [] [] [] [] [] []]; vm_compute in Hc;
    try discriminate Hc; reflexivity.
Qed.

Lemma int_reads_digits (s : string) :
  Py.truthy s = true -> digits_or_letters s = true ->
  Comp.is_some (Py.int s) = all_chars Py.isdigit s.
Proof.
  intros T H. destruct (all_chars Py.isdigit s) eqn:D.
  - rewrite int_of_digits; [reflexivity|]. unfold all_digits. rewrite T, D.
    reflexivity.
  - unfold digits_or_letters in H. rewrite D in H. cbn [orb] in H.
    rewrite (int_of_letters s T H). reflexivity.
Qed.

Lemma ident_number (l l' : list Comp.Component) :
  map ident l' = map ident l ->
  map Comp.number l' = map Comp.number l.
Proof.
  intros E. apply (f_equal (map fst)) in E. rewrite !map_map in E. exact E.
Qed.

Lemma extracted_numbers (s : Comp.ComponentExtractor) (text : string) :
  exists comps,
    fst (Comp.extract_components_from_text s text) = Ok comps
    /\ Forall (fun c => Py.truthy (Comp.number c) = true
                        /\ digits_or_letters (Comp.number c) = true) comps.
Proof.
  destruct (extract_components_total s text) as (comps & H).
  exists comps. split; [exact H|].
  unfold Comp.extract_components_from_text in H.
  destruct (Comp.extract_components_from_lines s (Comp.lines_of text))
    as [r self'] eqn:E. cbn [fst] in H. subst r.
  apply extract_lines_ok in E as (st_end & R & -> & ->).
  assert (N : Forall named (Comp.components
                              (Comp._post_process_components
                                 (Comp.close_category st_end)))).
  { apply post_process_named.
    destruct (close_category_grows st_end) as (_ & K). rewrite K.
    eapply run_named_components; [exact R | constructor]. }
  assert (F : Forall (fun n => digits_or_letters n = true)
                     (map Comp.number
                          (Comp.components
                             (Comp._post_process_components
                                (Comp.close_category st_end))))).
  { destruct (post_process_ident (Comp.close_category st_end)) as (I & _).
    rewrite (ident_number _ _ I).
    destruct (close_category_grows st_end) as (_ & K). rewrite K.
    apply Forall_map.
    eapply (run_formed _ _ _ R); [|constructor].
    intros n Hn. discriminate Hn. }
  rewrite Forall_map in F. rewrite Forall_forall in *.
  intros c Hc. split; [apply (N c Hc) | apply (F c Hc)].
Qed.

(** X18. The number of a component an extraction returns is a run of
    digits or a run of ASCII letters.  [int] rejects it when it is a run of
    letters: letters and roman numerals are never filed in a bucket of ten.
    [int] reads it when it is a run of at most 4300 digits, the default
    limit of the interpreter, beyond which [int] raises and the component
    is left out of the buckets as well. *)
Theorem X18_component_numbers (s : Comp.ComponentExtractor) (text : string) :
  exists comps,
    fst (Comp.extract_components_from_text s text) = Ok comps
    /\ Forall (fun c =>
                 digits_or_letters (Comp.number c) = true
                 /\ (all_chars Py.isdigit (Comp.number c) = false ->
                     Py.int (Comp.number c) = None)
                 /\ (all_chars Py.isdigit (Comp.number c) = true ->
                     String.length (Comp.number c) <= int_max_str_digits ->
                     Comp.is_some (Py.int (Comp.number c)) = true)) comps.
Proof.
  destruct (extracted_numbers s text) as (comps & H & F).
  exists comps. split; [exact H|]. revert F. apply Forall_impl.
  intros c (T & D). split; [exact D|].
  pose proof (int_reads_digits _ T D) as R. split.
  - intros N. rewrite N in R.
    destruct (Py.int (Comp.number c)); [discriminate R | reflexivity].
  - intros N _. rewrite N in R. exact R.
Qed.

(** *** Where a component comes from *)

Lemma fallback_raw (line : string) (c : Comp.Component) :
  Comp.fallback line = Some c -> Comp.raw_text c = line.
Proof.
  unfold Comp.fallback.
  destruct (Re.re_match Comp.more_flexible_pattern _) as [m|].
  - destruct (Re.group m "1"); [|discriminate].
    destruct (Re.group m "2"); [|discriminate].
    intros H. inversion H. reflexivity.
  - destruct (Re.re_match Comp.numbered_pattern _) as [m|]; [|discriminate].
    destruct (Re.group m "1"); [|discriminate].
    destruct (Re.group m "2"); [|discriminate].
    destruct (Py.truthy _); [|discriminate].
    intros H. inversion H. reflexivity.
Qed.

Lemma comp_try_patterns_raw (ps : list Re.regex) (line : string)
      (c : Comp.Component) :
  Comp.try_patterns ps line = Ok (Some c) -> Comp.raw_text c = line.
Proof.
  induction ps as [|r ps IH]; cbn [Comp.try_patterns].
  - intros H. inversion H as [K]. eapply fallback_raw, K.
  - destruct (Re.re_match r line) as [m|]; [|exact IH].
    destruct (get_strip r m "title") as [t|x]; cbn [bind]; [|discriminate].
    destruct (Comp.description_of_match r m) as [d|x]; cbn [bind]; [|discriminate].
    destruct (Comp.number_of_match r m); [|exact IH].
    destruct (Py.truthy t); [|exact IH].
    intros H. inversion H. reflexivity.
Qed.

Lemma classify_sourced (lines : list string) (l : string)
      (st st' : Comp.loop_state) :
  In l lines ->
  Comp.classify (Py.rstrip l) st = Ok st' ->
  Forall (sourced lines) (Comp.components (Comp.self st)) ->
  Forall (sourced lines) (Comp.components (Comp.self st')).
Proof.
  intros Hin. unfold Comp.classify.
  destruct (Comp._match_category _) as [cat|e]; cbn [bind]; [|discriminate].
  destruct (Comp.is_category cat).
  - intros H F. inversion H; subst. cbn [Comp.self].
    destruct (close_category_grows st) as (_ & K). rewrite K. exact F.
  - destruct (Re.re_match Comp.standalone_number _) as [m|].
    + intros H F. inversion H; subst. exact F.
    + destruct (Comp._parse_component_line _) as [[c|]|e] eqn:P; cbn [bind];
        intros H F; inversion H; subst; [|exact F].
      cbn. apply Forall_app. split; [exact F|]. constructor; [|constructor].
      left. rewrite (comp_try_patterns_raw _ _ _ P). apply in_map, Hin.
Qed.

Lemma step_sourced (lines : list string) (l : string)
      (st st' : Comp.loop_state) :
  In l lines ->
  Comp.step st l = Ok st' ->
  Forall (sourced lines) (Comp.components (Comp.self st)) ->
  Forall (sourced lines) (Comp.components (Comp.self st')).
Proof.
  intros Hin. unfold Comp.step. destruct (negb (Py.truthy _)).
  - intros H F. inversion H; subst. exact F.
  - destruct (Comp.pending_number st) as [pn|];
      [destruct (Py.truthy pn)|]; try apply (classify_sourced lines l _ _ Hin).
    destruct (Comp._match_category (Py.rstrip l)) as [cat|e]; cbn [bind];
      [|discriminate].
    destruct (negb (Comp.is_category cat) && _).
    + intros H F. inversion H; subst. cbn.
      apply Forall_app. split; [exact F|]. constructor; [|constructor].
      right. exists l. split; [exact Hin | reflexivity].
    + apply (classify_sourced lines l (Comp.drop_pending st) _ Hin).
Qed.

Lemma run_sourced (lines rest : list string) :
  incl rest lines ->
  forall st st',
    Comp.run rest st = (Ok tt, st') ->
    Forall (sourced lines) (Comp.components (Comp.self st)) ->
    Forall (sourced lines) (Comp.components (Comp.self st')).
Proof.
  induction rest as [|l rest IH]; intros I st st' H F; cbn [Comp.run] in H.
  - inversion H; subst. exact F.
  - destruct (Comp.step st l) as [st1|e] eqn:E; [|discriminate H].
    apply (IH (fun x Hx => I x (or_intror Hx)) st1 st' H).
    apply (step_sourced lines l st st1 (I l (or_introl eq_refl)) E F).
Qed.

Lemma map_ident_sourced (lines : list string) (l : list Comp.Component) :
  forall l', map ident l' = map ident l ->
             Forall (sourced lines) l -> Forall (sourced lines) l'.
Proof.
  induction l as [|c l IH]; intros l' E F.
  - destruct l'; [constructor | discriminate E].
  - destruct l' as [|c' l']; [constructor|].
    cbn [map] in E. inversion F as [|? ? Hc Fl]; subst.
    pose proof (f_equal (hd (ident c)) E) as E1.
    pose proof (f_equal (@tl _) E) as E2. cbn [hd tl] in E1, E2.
    constructor; [|apply IH; assumption].
    unfold ident in E1. inversion E1 as [[En Er]].
    unfold sourced. rewrite En, Er. exact Hc.
Qed.

(** X23. The raw text of every component an extraction returns is a line
    of the text, trailing white space apart, or, for a number read on a
    line of its own, that number, a dot, a space and the stripped line it
    was merged with. *)
Theorem X23_components_come_from_lines (s : Comp.ComponentExtractor)
        (text : string) :
  exists comps,
    fst (Comp.extract_components_from_text s text) = Ok comps
    /\ Forall (sourced (Comp.lines_of text)) comps.
Proof.
  destruct (extract_components_total s text) as (comps & H).
  exists comps. split; [exact H|].
  unfold Comp.extract_components_from_text in H.
  destruct (Comp.extract_components_from_lines s (Comp.lines_of text))
    as [r self'] eqn:E. cbn [fst] in H. subst r.
  apply extract_lines_ok in E as (st_end & R & -> & ->).
  destruct (post_process_ident (Comp.close_category st_end)) as (I & _).
  apply (map_ident_sourced _ _ _ I).
  destruct (close_category_grows st_end) as (_ & K). rewrite K.
  eapply (run_sourced _ _ (incl_refl _)); [exact R | constructor].
Qed.

(** *** Predefined titles *)

Lemma known_titles_predefined (n t : string) :
  Dict.get String.eqb n Comp.known_titles = Some t -> predefined t.
Proof.
  unfold Comp.known_titles, predefined. cbn [Dict.get map snd].
  repeat match goal with
         | |- context [if ?b then _ else _] => destruct b
         end;
    intros H; inversion H; cbn; auto 10.
Qed.

(** The second pass rewrites at most the title it is looking at. *)
Lemma repair_step_components (st : Comp.repair_state) (j : nat) :
  Comp.r_components (Comp.repair_step st j) = Comp.r_components st
  \/ exists t, Comp.r_components (Comp.repair_step st j)
               = update_nth j (Comp.set_title t) (Comp.r_components st).
Proof.
  unfold Comp.repair_step.
  destruct (nth_error _ j) as [component|]; [|left; reflexivity].
  repeat match goal with
         | |- context [if ?b then _ else _] => destruct b
         | |- context [match ?o with Some _ => _ | None => _ end] => destruct o
         end;
    cbn [Comp.r_components Comp.retitle];
    first [left; reflexivity | right; eexists; reflexivity].
Qed.

Lemma update_nth_other {A} (f : A -> A) (l : list A) :
  forall i j, i <> j -> nth_error (update_nth j f l) i = nth_error l i.
Proof.
  induction l as [|x l IH]; intros i j N; [destruct j; reflexivity|].
  destruct j as [|j]; destruct i as [|i]; cbn; try reflexivity; try lia.
  apply IH. lia.
Qed.

(** A predefined title is left alone by the second pass. *)
Lemma repair_step_predefined (st : Comp.repair_state) (i : nat)
      (x : Comp.Component) :
  nth_error (Comp.r_components st) i = Some x -> predefined (Comp.title x) ->
  Comp.r_components (Comp.repair_step st i) = Comp.r_components st.
Proof.
  intros H P. unfold Comp.repair_step. rewrite H. cbv zeta.
  unfold predefined in P. cbn [map snd Comp.known_titles In] in P.
  destruct P as [<- | [<- | [<- | [<- | [<- | []]]]]];
    destruct i as [|i]; vm_compute; reflexivity.
Qed.

Lemma repair_step_keeps (st : Comp.repair_state) (i j : nat)
      (x : Comp.Component) :
  nth_error (Comp.r_components st) i = Some x -> predefined (Comp.title x) ->
  nth_error (Comp.r_components (Comp.repair_step st j)) i = Some x.
Proof.
  intros H P. destruct (Nat.eq_dec i j) as [<- | N].
  - rewrite (repair_step_predefined st i x H P). exact H.
  - destruct (repair_step_components st j) as [-> | (t & ->)]; [exact H|].
    rewrite update_nth_other by exact N. exact H.
Qed.

Lemma repair_fold_keeps (positions : list nat) (i : nat) (x : Comp.Component) :
  predefined (Comp.title x) ->
  forall st,
    nth_error (Comp.r_components st) i = Some x ->
    nth_error (Comp.r_components (fold_left Comp.repair_step positions st)) i
    = Some x.
Proof.
  intros P. induction positions as [|j rest IH]; intros st H; cbn [fold_left];
    [exact H|].
  apply IH, repair_step_keeps; assumption.
Qed.

Lemma cleanup_predefined (x : Comp.Component) :
  predefined (Comp.title x) -> Comp.cleanup x = x.
Proof.
  intros P. destruct x as [num t d cat raw ch]. unfold Comp.cleanup, Comp.set_title.
  cbn [Comp.number Comp.title Comp.description Comp.category Comp.raw_text
       Comp.children] in *.
  unfold predefined in P. cbn [map snd Comp.known_titles In] in P.
  destruct P as [<- | [<- | [<- | [<- | [<- | []]]]]]; vm_compute; reflexivity.
Qed.

(** X24. The predefined title wins: a component numbered 1 to 5 whose title
    the first pass takes for incomplete (it starts with a parenthesis,
    mentions teaching, or has fewer than 15 characters) leaves
    [_post_process_components] with the predefined title of its number,
    whatever the text said, and with its other fields as they were. *)
Theorem X24_predefined_title_wins (s : Comp.ComponentExtractor) (i : nat)
        (c : Comp.Component) (known : string) :
  nth_error (Comp.components s) i = Some c ->
  Dict.get String.eqb (Comp.number c) Comp.known_titles = Some known ->
  incomplete_title (Comp.title c) = true ->
  nth_error (Comp.components (Comp._post_process_components s)) i
  = Some (Comp.set_title known c).
Proof.
  intros H K I. pose proof (known_titles_predefined _ _ K) as P.
  unfold Comp._post_process_components. cbn [Comp.components].
  assert (F : nth_error (map Comp.fix_known (Comp.components s)) i
              = Some (Comp.set_title known c)).
  { rewrite nth_error_map, H. cbn [option_map]. unfold Comp.fix_known.
    rewrite K. unfold incomplete_title in I. rewrite I. reflexivity. }
  rewrite nth_error_map.
  rewrite (repair_fold_keeps _ i (Comp.set_title known c) P
             (Comp.mkRepair (map Comp.fix_known (Comp.components s)) "" "") F).
  cbn [option_map]. rewrite cleanup_predefined by exact P. reflexivity.
Qed.

Lemma X24_predefined_title_wins_witness :
  nth_error
    (Comp.components
       (Comp._post_process_components
          (Comp.mkExtractor
             [ Comp.new_Component "3" "Syllabus" None "3. Syllabus" ] [])))
    0
  = Some (Comp.set_title "Course handout and closure report"
            (Comp.new_Component "3" "Syllabus" None "3. Syllabus")).
Proof.
  apply (X24_predefined_title_wins
           (Comp.mkExtractor
              [ Comp.new_Component "3" "Syllabus" None "3. Syllabus" ] [])
           0 (Comp.new_Component "3" "Syllabus" None "3. Syllabus")
           "Course handout and closure report"); reflexivity.
Defined.

(* ================================================================== *)
(** * Further properties of pdf_interaction.py *)

(** *** [detect_pdf_type] *)

Lemma detect_by_content_toc (room : Z) (toc : Toc.TOCExtractor)
      (comp : Comp.ComponentExtractor) (all_text : string) :
  (existsb toc_line (Toc.lines_of all_text) = true
   /\ fst (Interaction.detect_by_content room toc comp all_text) = Raise ValueError)
  \/ (existsb toc_line (Toc.lines_of all_text) = false
      /\ exists i c,
           fst (Interaction.detect_by_content room toc comp all_text)
           = Ok (false, i, c)).
Proof.
  unfold Interaction.detect_by_content.
  destruct (extract_toc_decided room toc all_text) as [(E & H) | (E & H)];
    [left | right]; (split; [exact E|]).
  - destruct (Toc.extract_toc_from_text room toc all_text false) as [[r|x] toc1];
      cbn [fst] in H; [discriminate H | inversion H; reflexivity].
  - rewrite H. cbv zeta.
    change (5 <? Interaction.extracted_len (Toc.TocEntries [])) with false.
    cbn [negb andb].
    set (toc1 := Toc.mkExtractor [] [] (Toc.index_entries toc)).
    destruct (extract_index_total room toc1 all_text) as (entries & Hi).
    destruct (Toc.extract_toc_from_text room toc1 all_text true) as [[r|x] toc2];
      cbn [fst] in Hi; [|discriminate Hi].
    destruct (5 <? Interaction.extracted_len r); cbn [negb].
    + eexists _, _. reflexivity.
    + destruct (extract_components_total comp all_text) as (comps & Hc).
      destruct (Comp.extract_components_from_text comp all_text) as [[cs|x] comp1];
        cbn [fst] in Hc; [|discriminate Hc].
      eexists _, _. reflexivity.
Qed.

(** X20. [detect_pdf_type] reports a table of contents only on the strength
    of a marker in the first 500 characters: the detection by content never
    does, since the TOC extraction it relies on returns no entry or
    raises. *)
Theorem X20_toc_detected_by_marker_only (room : Z) (self : Interaction.PDFInteraction)
        (all_text : string) (t i c : bool) :
  fst (Interaction.detect_pdf_type room self all_text) = Interaction.Detected t i c ->
  t = Interaction.any_marker Interaction.toc_markers
        (Py.lower (String.substring 0 500 all_text)).
Proof.
  unfold Interaction.detect_pdf_type.
  destruct (negb (Interaction.processed self)); [discriminate|]. cbv zeta.
  set (first := Py.lower _).
  destruct (Interaction.any_marker Interaction.toc_markers first) eqn:M;
    cbn [negb andb].
  - intros H. inversion H. reflexivity.
  - destruct (negb (Interaction.any_marker Interaction.index_markers first)
              && negb (Interaction.any_marker Interaction.component_markers first));
      [|intros H; inversion H; reflexivity].
    destruct (detect_by_content_toc room (Interaction.toc_extractor self)
                (Interaction.component_extractor self) all_text)
      as [(_ & H) | (_ & i' & c' & H)];
      destruct (Interaction.detect_by_content room _ _ _) as [[[[t0 i0] c0]|x] [toc comp]];
      cbn [fst] in H; try discriminate H; inversion H; subst;
      intros K; inversion K; reflexivity.
Qed.

Lemma X20_toc_detected_by_marker_only_witness :
  false = Interaction.any_marker Interaction.toc_markers
            (Py.lower (String.substring 0 500 "1. Vision and Mission")).
Proof.
  apply (X20_toc_detected_by_marker_only 1000%Z
           (Interaction.mkInteraction Toc.new_TOCExtractor
              Comp.new_ComponentExtractor true false false false false)
           "1. Vision and Mission" false false false).
  vm_compute. reflexivity.
Defined.

(** X21. When no marker is found and some line of the text is taken as a
    TOC entry, [detect_pdf_type] fails with the [ValueError] of the TOC
    extraction, whatever the document is: an index line such as
    "Algorithms, 10, 15-17, 23" is such a line. *)
Theorem X21_detection_fails_on_toc_line (room : Z) (self : Interaction.PDFInteraction)
        (all_text : string) :
  Interaction.processed self = true ->
  unmarked all_text = true ->
  existsb toc_line (Toc.lines_of all_text) = true ->
  fst (Interaction.detect_pdf_type room self all_text)
  = Interaction.DetectionError ValueError.
Proof.
  intros P U T. unfold Interaction.detect_pdf_type. rewrite P. cbn [negb].
  unfold unmarked in U. cbv zeta in *. rewrite U.
  destruct (detect_by_content_toc room (Interaction.toc_extractor self)
              (Interaction.component_extractor self) all_text)
    as [(_ & H) | (E & _)]; [|congruence].
  destruct (Interaction.detect_by_content room _ _ _) as [[flags|x] [toc comp]];
    cbn [fst] in H; [discriminate H|]. inversion H. reflexivity.
Qed.

Lemma X21_detection_fails_on_toc_line_witness :
  fst (Interaction.detect_pdf_type 1000%Z
         (Interaction.mkInteraction Toc.new_TOCExtractor
            Comp.new_ComponentExtractor true false false false false)
         c5_line)
  = Interaction.DetectionError ValueError.
Proof.
  apply X21_detection_fails_on_toc_line; vm_compute; reflexivity.
Defined.

(** *** Substitution *)

Lemma all_chars_substring (p : ascii -> bool) (s : string) :
  all_chars p s = true ->
  forall n m, all_chars p (String.substring n m s) = true.
Proof.
  induction s as [|c s IH]; intros A n m; [destruct n, m; reflexivity|].
  cbn [all_chars] in A. apply andb_true_iff in A as (Hc & Hs).
  destruct n as [|n]; destruct m as [|m]; cbn [String.substring all_chars];
    try reflexivity.
  - rewrite Hc. apply IH, Hs.
  - apply IH, Hs.
  - apply IH, Hs.
Qed.

(** Substitution brings in the characters of the replacement only. *)
Lemma sub_from_keeps (p : ascii -> bool) (r : Re.regex) (repl : string) :
  all_chars p repl = true ->
  forall fuel pos s, all_chars p s = true ->
                     all_chars p (Re.sub_from r repl fuel pos s) = true.
Proof.
  intros Hr fuel.
  assert (G : forall bound fuel pos s,
             fuel <= bound -> all_chars p s = true ->
             all_chars p (Re.sub_from r repl fuel pos s) = true).
  { induction bound as [|b IH]; intros f pos s L A.
    - destruct f; [exact A | lia].
    - destruct f as [|f]; [exact A|].
      cbn [Re.sub_from]. destruct s as [|c s]; [reflexivity|].
      pose proof A as A'. cbn [all_chars] in A'.
      apply andb_true_iff in A' as (Hc & Hs).
      assert (K : all_chars p (String c (Re.sub_from r repl f (S pos) s)) = true)
        by (cbn [all_chars]; rewrite Hc; apply IH; [lia | exact Hs]).
      destruct (Re.match_at r pos (String c s)) as [m|]; [|exact K].
      cbv zeta. destruct (_ =? 0); [exact K|].
      rewrite all_chars_app, Hr. cbn [andb].
      apply IH; [lia | apply all_chars_substring, A]. }
  intros pos s. apply (G fuel fuel). lia.
Qed.

Lemma substring_suffix (w s : string) :
  String.substring (String.length w) (String.length (w ++ s) - String.length w)
                   (w ++ s) = s.
Proof.
  rewrite length_append.
  replace (String.length w + String.length s - String.length w)
    with (String.length s) by lia.
  induction w as [|c w IH]; cbn [append String.length String.substring].
  - rewrite <- (append_nil_r s) at 2. apply substring_prefix.
  - exact IH.
Qed.

Lemma match_at_sound (r : Re.regex) (pos : nat) (s : string) (m : Re.rmatch_obj) :
  Re.match_at r pos s = Some m ->
  exists s', matches r pos s [] (Re.m_end m) s' (Re.m_caps m).
Proof.
  unfold Re.match_at. intros H.
  apply rmatch_sound in H as (p' & s' & cs' & M & K). inversion K; subst.
  exists s'. exact M.
Qed.

Lemma match_at_complete (r : Re.regex) (pos : nat) (s : string)
      (p' : nat) (s' : string) (cs' : Re.caps) :
  matches r pos s [] p' s' cs' -> exists m, Re.match_at r pos s = Some m.
Proof.
  intros M. unfold Re.match_at. eapply rmatch_complete; [exact M | reflexivity].
Qed.

(** Substituting the runs of a class leaves none of its characters. *)
Lemma sub_from_removes (cl : Re.cset) (r : Re.regex) (repl : string) :
  matches_runs_of cl r ->
  all_chars (fun c => negb (Re.in_cset cl c)) repl = true ->
  forall bound fuel pos s,
    String.length s <= bound -> String.length s <= fuel ->
    all_chars (fun c => negb (Re.in_cset cl c))
              (Re.sub_from r repl fuel pos s) = true.
Proof.
  intros (Shape & Accepts) Hr.
  induction bound as [|b IH]; intros fuel pos s Lb Lf.
  - destruct s; [|cbn in Lb; lia]. destruct fuel; reflexivity.
  - destruct s as [|c s]; [destruct fuel; reflexivity|].
    destruct fuel as [|f]; [cbn in Lf; lia|].
    cbn [String.length] in Lb, Lf. cbn [Re.sub_from].
    destruct (Re.match_at r pos (String c s)) as [m|] eqn:E.
    + apply match_at_sound in E as (s' & M).
      pose proof (matches_consumes _ _ _ _ _ _ _ M) as (w' & E' & P').
      destruct (Shape _ _ _ _ _ _ M) as (w & Ew & Tw & Aw).
      assert (w' = w) by (rewrite Ew in E'; apply append_cancel_r in E'; auto).
      subst w'. cbv zeta.
      destruct w as [|cw w]; [discriminate Tw|].
      assert (N : Re.m_end m - pos = S (String.length w))
        by (cbn [String.length] in P'; lia).
      rewrite N. cbn [Nat.eqb].
      rewrite all_chars_app, Hr. cbn [andb].
      assert (R : String.substring (S (String.length w))
                    (String.length (String c s) - S (String.length w))
                    (String c s) = s').
      { rewrite Ew. apply (substring_suffix (String cw w) s'). }
      rewrite R.
      apply (f_equal String.length) in Ew.
      cbn [String.length append] in Ew. rewrite length_append in Ew.
      apply IH; lia.
    + assert (Hc : Re.in_cset cl c = false).
      { destruct (Re.in_cset cl c) eqn:Q; [|reflexivity].
        destruct (Accepts pos c s Q) as (p' & s' & cs' & M).
        apply match_at_complete in M as (m & M). congruence. }
      cbn [all_chars]. rewrite Hc. cbn [negb andb]. apply IH; lia.
Qed.

Lemma re_sub_removes (cl : Re.cset) (r : Re.regex) (repl s : string) :
  matches_runs_of cl r ->
  all_chars (fun c => negb (Re.in_cset cl c)) repl = true ->
  all_chars (fun c => negb (Re.in_cset cl c)) (Re.re_sub r repl s) = true.
Proof.
  intros H Hr. apply (sub_from_removes cl r repl H Hr (String.length s)); lia.
Qed.

Lemma chr_runs (cl : Re.cset) : matches_runs_of cl (Re.Chr cl).
Proof.
  split.
  - cbn [matches]. intros pos s cs p' s' cs' (c & -> & Hc & _).
    exists (String c ""). cbn. rewrite Hc. auto.
  - intros pos c t Hc. exists (S pos), t, []. exists c. auto.
Qed.

Lemma plus_runs (cl : Re.cset) : matches_runs_of cl (Re.plus (Re.Chr cl)).
Proof.
  unfold Re.plus. split.
  - intros pos s cs p' s' cs' M.
    apply matches_run_inv in M as (w & -> & A & L & _).
    exists w. split; [reflexivity|]. split; [|exact A].
    destruct w; [cbn in L; lia | reflexivity].
  - intros pos c t Hc. exists (pos + 1), t, [].
    apply (matches_run true 1 cl (String c "") pos t []); [|cbn; lia].
    cbn. rewrite Hc. reflexivity.
Qed.

(** *** Folder names *)

Lemma folder_name_safe (title : string) :
  all_chars safe_char (Folders.folder_name title) = true.
Proof.
  unfold Folders.folder_name.
  set (inner := Re.re_sub (Re.Chr Folders.forbidden) "_" title).
  assert (A : all_chars (fun c => negb (Re.in_cset Folders.forbidden c)) inner = true)
    by (apply re_sub_removes; [apply chr_runs | reflexivity]).
  assert (B : all_chars (fun c => negb (Re.in_cset Folders.forbidden c))
                        (Re.re_sub (Re.plus (Re.Chr Re.Space)) "_" inner) = true)
    by (apply sub_from_keeps; [reflexivity | exact A]).
  assert (C : all_chars (fun c => negb (Re.in_cset Re.Space c))
                        (Re.re_sub (Re.plus (Re.Chr Re.Space)) "_" inner) = true)
    by (apply re_sub_removes; [apply plus_runs | reflexivity]).
  revert B C. generalize (Re.re_sub (Re.plus (Re.Chr Re.Space)) "_" inner).
  intros s. induction s as [|c s IH]; [reflexivity|].
  cbn [all_chars]. intros B C.
  apply andb_true_iff in B as (B1 & B2). apply andb_true_iff in C as (C1 & C2).
  unfold safe_char at 1. rewrite B1. cbn [Re.in_cset] in C1. rewrite C1.
  apply IH; assumption.
Qed.

Lemma digit_or_letter_safe (c : ascii) :
  Py.isdigit c || is_letter c = true -> safe_char c = true.
Proof.
  destruct c as [[] [] [] [] [] [] [] []]; vm_compute;
    try (intros H; discriminate H); reflexivity.
Qed.

Lemma number_safe (n : string) :
  digits_or_letters n = true -> all_chars safe_char n = true.
Proof.
  unfold digits_or_letters. intros H. apply orb_true_iff in H as [H | H];
    (eapply all_chars_imp; [|exact H]); intros c Hc;
    apply digit_or_letter_safe; rewrite Hc; [reflexivity | apply orb_true_r].
Qed.

(** X22. The folder [create_component_folders] makes for a component an
    extraction returned has a name without white space and without any of
    the characters of the class above: the number brings in digits or
    letters only, and the two substitutions clean the title. In particular
    the name holds no path separator. *)
Theorem X22_component_folders_are_safe (s : Comp.ComponentExtractor)
        (text : string) :
  exists comps,
    fst (Comp.extract_components_from_text s text) = Ok comps
    /\ Forall (fun c => all_chars safe_char (Folders.component_folder c) = true
                        /\ Py.truthy (Folders.component_folder c) = true) comps.
Proof.
  destruct (extracted_numbers s text) as (comps & H & F).
  exists comps. split; [exact H|]. revert F. apply Forall_impl.
  intros c (T & D). unfold Folders.component_folder. split.
  - rewrite !all_chars_app, (number_safe _ D), folder_name_safe. reflexivity.
  - apply truthy_app_l, T.
Qed.

(* ================================================================== *)
(** * Properties of app.py *)

(** *** The extension of an uploaded file *)

Lemma rsplit1_no_sep (sep : ascii) (s : string) :
  Py.count_char sep s = 0 -> App.rsplit1 sep s = [s].
Proof.
  induction s as [|c s IH]; intros H; [reflexivity|].
  cbn [Py.count_char] in H. cbn [App.rsplit1].
  destruct (Ascii.eqb c sep); [discriminate H|].
  rewrite IH by exact H. reflexivity.
Qed.

Lemma rsplit1_last (sep : ascii) (base ext : string) :
  Py.count_char sep ext = 0 ->
  App.rsplit1 sep (base ++ String sep ext) = [base; ext].
Proof.
  intros H. induction base as [|c base IH].
  - cbn [append App.rsplit1]. rewrite (rsplit1_no_sep _ _ H).
    rewrite Ascii.eqb_refl. reflexivity.
  - cbn [append App.rsplit1]. rewrite IH. reflexivity.
Qed.

Lemma rsplit1_shape (sep : ascii) (s : string) :
  (Py.count_char sep s = 0 /\ App.rsplit1 sep s = [s])
  \/ (exists base ext,
         s = base ++ String sep ext /\ Py.count_char sep ext = 0
         /\ App.rsplit1 sep s = [base; ext]).
Proof.
  induction s as [|c s IH]; [left; split; reflexivity|].
  cbn [Py.count_char App.rsplit1].
  destruct IH as [(Z & E)|(base & ext & E & Z & R)].
  - rewrite E. destruct (Ascii.eqb c sep) eqn:C.
    + apply Ascii.eqb_eq in C. subst c. right. exists EmptyString, s.
      repeat split; [exact Z].
    + left. split; [exact Z|reflexivity].
  - right. exists (String c base), ext. rewrite R.
    split; [cbn [append]; rewrite <- E; reflexivity|].
    split; [exact Z|reflexivity].
Qed.

Lemma contains_dot (s : string) :
  Py.contains "." s = negb (Py.count_char "." s =? 0).
Proof.
  induction s as [|c s IH]; [reflexivity|].
  cbn [Py.contains Py.count_char String.prefix]. rewrite IH.
  destruct (ascii_dec "." c) as [<-|N].
  - cbn [Ascii.eqb Bool.eqb]. destruct s; reflexivity.
  - destruct (Ascii.eqb c ".") eqn:C;
      [apply Ascii.eqb_eq in C; congruence|reflexivity].
Qed.

Lemma lower_char_not_dot (c : ascii) :
  Py.lower_char c <> "."%char -> c <> "."%char.
Proof. intros H ->. apply H. reflexivity. Qed.

Lemma lower_pdf_no_dot (ext : string) :
  Py.lower ext = "pdf" -> Py.count_char "." ext = 0.
Proof.
  destruct ext as [|a [|b [|c [|d ext]]]]; cbn [Py.lower]; try discriminate.
  intros H. injection H as Ha Hb Hc.
  assert (Na : a <> "."%char) by (apply lower_char_not_dot; rewrite Ha; discriminate).
  assert (Nb : b <> "."%char) by (apply lower_char_not_dot; rewrite Hb; discriminate).
  assert (Nc : c <> "."%char) by (apply lower_char_not_dot; rewrite Hc; discriminate).
  cbn [Py.count_char].
  apply Ascii.eqb_neq in Na, Nb, Nc. rewrite Na, Nb, Nc. reflexivity.
Qed.

(** X25.  [allowed_file] never fails on its subscript, and it accepts a file
    name exactly when the text after its last dot is [pdf] in any mix of
    upper and lower case: the name is some text, a dot, and a spelling of
    [pdf].  Whatever stands before that dot, other dots and the empty text
    included, plays no part; a name without a dot is refused. *)
Theorem X25_allowed_file_by_last_extension (filename : string) :
  exists accepted,
    App.allowed_file filename = Some accepted
    /\ (accepted = true <->
        exists base ext,
          filename = base ++ "." ++ ext /\ Py.lower ext = "pdf").
Proof.
  unfold App.allowed_file. rewrite contains_dot.
  destruct (rsplit1_shape "." filename) as [(Z & E)|(base & ext & E & Z & R)].
  - rewrite Z. cbn [Nat.eqb negb]. exists false. split; [reflexivity|].
    split; [discriminate|]. intros (base & ext & E' & L). exfalso.
    pose proof (lower_pdf_no_dot _ L) as Z'.
    pose proof (rsplit1_last "." base ext Z') as R.
    change (base ++ "." ++ ext) with (base ++ String "." ext) in E'.
    rewrite <- E', E in R. discriminate R.
  - assert (D : (Py.count_char "." filename =? 0) = false).
    { apply Nat.eqb_neq. intros Z0.
      rewrite (rsplit1_no_sep _ _ Z0) in R. discriminate R. }
    rewrite D, R. cbn [negb nth_error App.ALLOWED_EXTENSIONS existsb].
    rewrite orb_false_r. eexists. split; [reflexivity|]. split.
    + intros L. apply String.eqb_eq in L. exists base, ext.
      split; [exact E|exact L].
    + intros (base' & ext' & E' & L).
      pose proof (lower_pdf_no_dot _ L) as Z'.
      pose proof (rsplit1_last "." base' ext' Z') as R'.
      change (base' ++ "." ++ ext') with (base' ++ String "." ext') in E'.
      rewrite <- E', R in R'. injection R' as _ <-.
      apply String.eqb_eq, L.
Qed.

(* ================================================================== *)
(** * Properties of pdf_analyzer.py *)

(** *** Lists *)

Lemma in_split_first {A} (dec : forall x y : A, {x = y} + {x <> y})
      (a : A) (l : list A) :
  In a l -> exists pre post, l = (pre ++ a :: post)%list /\ ~ In a pre.
Proof.
  induction l as [|x l IH]; [intros []|]. intros H.
  destruct (dec x a) as [->|N].
  - exists [], l. split; [reflexivity|intros []].
  - destruct H as [H|H]; [congruence|].
    destruct (IH H) as (pre & post & -> & Hn).
    exists (x :: pre), post. split; [reflexivity|].
    intros [E|E]; [congruence|exact (Hn E)].
Qed.

Lemma filter_eq_app_cons {A} (q : A -> bool) (l l1 l2 : list A) (x : A) :
  filter q l = (l1 ++ x :: l2)%list ->
  exists l1' l2', l = (l1' ++ x :: l2')%list /\ filter q l1' = l1
                  /\ filter q l2' = l2.
Proof.
  revert l1. induction l as [|y l IH]; intros l1 E; cbn [filter] in E.
  - destruct l1; discriminate E.
  - destruct (q y) eqn:Q.
    + destruct l1 as [|z l1]; cbn [app] in E.
      * injection E as -> E. exists [], l. repeat split. exact E.
      * injection E as -> E. destruct (IH _ E) as (l1' & l2' & -> & F1 & F2).
        exists (z :: l1'), l2'. cbn [app filter]. rewrite Q, F1.
        repeat split. exact F2.
    + destruct (IH _ E) as (l1' & l2' & -> & F1 & F2).
      exists (y :: l1'), l2'. cbn [app filter]. rewrite Q.
      repeat split; assumption.
Qed.

Lemma in_firstn {A} (n : nat) (l : list A) (x : A) :
  In x (firstn n l) -> In x l.
Proof.
  intros H. rewrite <- (firstn_skipn n l). apply in_or_app. left. exact H.
Qed.

Lemma stands_before_firstn {A} (n : nat) (l : list A) (a b : A) :
  stands_before (firstn n l) a b -> stands_before l a b.
Proof.
  intros (l1 & l2 & E & H). exists l1, (l2 ++ skipn n l)%list. split.
  - rewrite <- (firstn_skipn n l) at 1. rewrite E, <- app_assoc. reflexivity.
  - apply in_or_app. left. exact H.
Qed.

Lemma stands_before_map {A B} (f : A -> B) (l : list A) (x y : A) :
  stands_before l x y -> stands_before (map f l) (f x) (f y).
Proof.
  intros (l1 & l2 & -> & H). exists (map f l1), (map f l2).
  rewrite map_app. split; [reflexivity|]. apply in_map, H.
Qed.

Lemma stands_before_of_map {A B} (f : A -> B) (l : list A) (a b : B) :
  stands_before (map f l) a b ->
  exists x y, f x = a /\ f y = b /\ stands_before l x y.
Proof.
  intros (l1 & l2 & E & H).
  apply map_eq_app in E as (m1 & m2 & -> & <- & E).
  apply map_eq_cons in E as (x & m3 & -> & <- & <-).
  apply in_map_iff in H as (y & <- & H).
  exists x, y. repeat split. exists m1, m3. split; [reflexivity|exact H].
Qed.

Lemma stands_before_filter {A} (q : A -> bool) (l : list A) (x y : A) :
  q x = true -> q y = true ->
  stands_before l x y -> stands_before (filter q l) x y.
Proof.
  intros Qx Qy (l1 & l2 & -> & H). exists (filter q l1), (filter q l2).
  rewrite filter_app. cbn [filter]. rewrite Qx. split; [reflexivity|].
  apply filter_In. split; assumption.
Qed.

Lemma stands_before_of_filter {A} (q : A -> bool) (l : list A) (x y : A) :
  stands_before (filter q l) x y -> stands_before l x y.
Proof.
  intros (l1 & l2 & E & H).
  apply filter_eq_app_cons in E as (l1' & l2' & -> & _ & <-).
  exists l1', l2'. split; [reflexivity|]. apply filter_In in H. apply H.
Qed.

Lemma stands_before_snoc {A} (l : list A) (w a b : A) :
  stands_before (l ++ [w])%list a b ->
  stands_before l a b \/ (b = w /\ In a l).
Proof.
  intros (l1 & l2 & E & H).
  destruct (exists_last (l := l2)) as (l2' & z & ->);
    [intros ->; destruct H|].
  change (l1 ++ a :: l2' ++ [z])%list with (l1 ++ (a :: l2') ++ [z])%list in E.
  rewrite app_assoc in E. apply app_inj_tail in E as (-> & ->).
  apply in_app_or in H as [H|[->|[]]].
  - left. exists l1, l2'. split; [reflexivity|exact H].
  - right. split; [reflexivity|]. apply in_or_app. right. left. reflexivity.
Qed.

Lemma sorted_stands_before {A} (R : A -> A -> Prop) (l : list A) (a b : A) :
  StronglySorted R l -> stands_before l a b -> R a b.
Proof.
  intros S (l1 & l2 & -> & H). induction l1 as [|x l1 IH]; cbn [app] in S.
  - inversion S as [|? ? _ F]; subst.
    rewrite Forall_forall in F. apply F, H.
  - inversion S; subst. apply IH. assumption.
Qed.

Lemma sorted_app_le {A} (R : A -> A -> Prop) (l1 l2 : list A) (a b : A) :
  StronglySorted R (l1 ++ l2)%list -> In a l1 -> In b l2 -> R a b.
Proof.
  intros S Ha Hb. apply (sorted_stands_before R (l1 ++ l2)%list); [exact S|].
  apply in_split in Ha as (m1 & m2 & ->).
  exists m1, (m2 ++ l2)%list. split.
  - rewrite <- app_assoc. reflexivity.
  - apply in_or_app. right. exact Hb.
Qed.

Lemma count_occ_filter (q : string -> bool) (l : list string) (k : string) :
  q k = true -> count_occ string_dec (filter q l) k = count_occ string_dec l k.
Proof.
  intros Q. induction l as [|x l IH]; [reflexivity|].
  cbn [filter count_occ]. destruct (string_dec x k) as [->|N].
  - rewrite Q. cbn [count_occ]. destruct (string_dec k k); congruence.
  - destruct (q x); [cbn [count_occ]; destruct (string_dec x k); congruence|
                     exact IH].
Qed.

Lemma first_before_of_filter (q : string -> bool) (l : list string)
      (a b : string) :
  q a = true -> q b = true ->
  first_before (filter q l) a b -> first_before l a b.
Proof.
  intros Qa Qb (pre & post & E & Na & Nb).
  apply filter_eq_app_cons in E as (pre' & post' & -> & <- & _).
  exists pre', post'. split; [reflexivity|].
  split; intros H; [apply Na|apply Nb]; apply filter_In; split; assumption.
Qed.

(** *** Counting *)

Lemma dict_get_pair {V} (k : string) (v : V) (d : list (string * V)) :
  Dict.get String.eqb k d = Some v -> In (k, v) d.
Proof.
  induction d as [|[k' v'] d IH]; cbn; [discriminate|].
  destruct (String.eqb k' k) eqn:E.
  - apply String.eqb_eq in E. intros H. left. congruence.
  - intros H. right. apply IH, H.
Qed.

Lemma dict_get_set_other {V} (k k' : string) (v : V) (d : list (string * V)) :
  k <> k' ->
  Dict.get String.eqb k' (Dict.set String.eqb k v d)
  = Dict.get String.eqb k' d.
Proof.
  intros N. induction d as [|[x y] d IH]; cbn.
  - destruct (String.eqb k k') eqn:E;
      [apply String.eqb_eq in E; congruence|reflexivity].
  - destruct (String.eqb x k) eqn:E; cbn.
    + apply String.eqb_eq in E. subst x.
      destruct (String.eqb k k') eqn:E';
        [apply String.eqb_eq in E'; congruence|reflexivity].
    + rewrite IH. reflexivity.
Qed.

Lemma dict_set_keys_shape {V} (k : string) (v : V) (d : list (string * V)) :
  (In k (map fst d)
   /\ map fst (Dict.set String.eqb k v d) = map fst d)
  \/ (~ In k (map fst d)
      /\ map fst (Dict.set String.eqb k v d) = (map fst d ++ [k])%list).
Proof.
  induction d as [|[x y] d IH]; cbn.
  - right. split; [intros []|reflexivity].
  - destruct (String.eqb x k) eqn:E; cbn.
    + apply String.eqb_eq in E. left. split; [left; exact E|reflexivity].
    + apply String.eqb_neq in E. destruct IH as [(I & K)|(I & K)].
      * left. split; [right; exact I|rewrite K; reflexivity].
      * right. split; [intros [H|H]; [exact (E H)|exact (I H)]|].
        rewrite K. reflexivity.
Qed.

Lemma Counter_snoc (words : list string) (w : string) :
  Analyzer.Counter (words ++ [w])%list
  = Analyzer.count_element (Analyzer.Counter words) w.
Proof. unfold Analyzer.Counter. rewrite fold_left_app. reflexivity. Qed.

(** The counter holds the words of the list, each once and with the number
    of its occurrences. *)
Lemma Counter_counts (words : list string) :
  NoDup (map fst (Analyzer.Counter words))
  /\ (forall k, In k words ->
        Dict.get String.eqb k (Analyzer.Counter words)
        = Some (count_occ string_dec words k))
  /\ (forall k, In k (map fst (Analyzer.Counter words)) -> In k words).
Proof.
  induction words as [|w words (N & G & K)] using rev_ind.
  - split; [constructor|]. split; intros k [].
  - rewrite Counter_snoc. unfold Analyzer.count_element.
    split; [apply dict_set_nodup, N|]. split.
    + intros k Hk. rewrite count_occ_app. cbn [count_occ].
      destruct (string_dec w k) as [->|Nk].
      * rewrite dict_get_set. f_equal.
        destruct (in_dec string_dec k words) as [I|I].
        -- rewrite (G _ I). reflexivity.
        -- destruct (Dict.get String.eqb k (Analyzer.Counter words)) eqn:Gk.
           ++ exfalso. apply I, K. apply dict_get_pair in Gk.
              apply (in_map fst) in Gk. exact Gk.
           ++ rewrite (proj1 (count_occ_not_In string_dec words k) I).
              reflexivity.
      * rewrite dict_get_set_other by exact Nk. rewrite Nat.add_0_r.
        apply G. apply in_app_or in Hk as [Hk|[Hk|[]]]; [exact Hk|congruence].
    + intros k Hk. apply dict_set_keys in Hk as [->|Hk].
      * apply in_or_app. right. left. reflexivity.
      * apply in_or_app. left. apply K, Hk.
Qed.

Lemma Counter_in (words : list string) (k : string) (c : nat) :
  In (k, c) (Analyzer.Counter words) ->
  In k words /\ c = count_occ string_dec words k.
Proof.
  destruct (Counter_counts words) as (N & G & K). intros H.
  assert (I : In k words) by (apply K; apply (in_map fst) in H; exact H).
  split; [exact I|].
  apply (dict_get_of_in _ _ _ N) in H. rewrite (G _ I) in H. congruence.
Qed.

Lemma Counter_has (words : list string) (k : string) :
  In k words -> In (k, count_occ string_dec words k) (Analyzer.Counter words).
Proof.
  destruct (Counter_counts words) as (N & G & K). intros I.
  apply dict_get_pair, G, I.
Qed.

(** The keys of the counter stand in the order of first occurrence. *)
Lemma Counter_order (words : list string) (a b : string) :
  stands_before (map fst (Analyzer.Counter words)) a b ->
  first_before words a b.
Proof.
  induction words as [|w words IH] using rev_ind.
  - intros (l1 & l2 & E & _). destruct l1; discriminate E.
  - rewrite Counter_snoc. unfold Analyzer.count_element.
    destruct (Counter_counts words) as (N & G & K).
    match goal with |- context [Dict.set _ _ ?v _] => generalize v end.
    intros v.
    destruct (dict_set_keys_shape w v (Analyzer.Counter words))
      as [(I & ->)|(I & ->)].
    + intros H. destruct (IH H) as (pre & post & -> & Na & Nb).
      exists pre, (post ++ [w])%list. rewrite <- app_assoc. repeat split; assumption.
    + intros H. apply stands_before_snoc in H as [H|(-> & Ha)].
      * destruct (IH H) as (pre & post & -> & Na & Nb).
        exists pre, (post ++ [w])%list. rewrite <- app_assoc.
        repeat split; assumption.
      * apply K in Ha.
        destruct (in_split_first string_dec a words Ha)
          as (pre & post & -> & Na).
        exists pre, (post ++ [w])%list. rewrite <- app_assoc.
        split; [reflexivity|]. split; [exact Na|].
        intros Hw. apply I.
        destruct (Counter_counts (pre ++ a :: post)%list) as (_ & G' & _).
        assert (Iw : In w (pre ++ a :: post)%list)
          by (apply in_or_app; left; exact Hw).
        apply G' in Iw. apply dict_get_pair in Iw.
        apply (in_map fst) in Iw. exact Iw.
Qed.

(** *** Sorting *)

Lemma insert_by_count_perm (x : string * nat) (l : list (string * nat)) :
  Permutation (Analyzer.insert_by_count x l) (x :: l).
Proof.
  induction l as [|y l IH]; cbn [Analyzer.insert_by_count]; [reflexivity|].
  destruct (snd x <? snd y); [|reflexivity].
  rewrite IH. apply perm_swap.
Qed.

Lemma sorted_by_count_perm (d : list (string * nat)) :
  Permutation (Analyzer.sorted_by_count d) d.
Proof.
  induction d as [|x d IH]; cbn [Analyzer.sorted_by_count]; [reflexivity|].
  rewrite insert_by_count_perm, IH. reflexivity.
Qed.

Lemma insert_by_count_sorted (x : string * nat) (l : list (string * nat)) :
  StronglySorted (fun a b => snd b <= snd a) l ->
  StronglySorted (fun a b => snd b <= snd a) (Analyzer.insert_by_count x l).
Proof.
  induction l as [|y l IH]; cbn [Analyzer.insert_by_count]; intros S.
  - constructor; constructor.
  - inversion S as [|? ? Sl F]; subst.
    destruct (snd x <? snd y) eqn:L.
    + apply Nat.ltb_lt in L. constructor; [apply IH, Sl|].
      rewrite Forall_forall. intros z Hz.
      apply (Permutation_in _ (insert_by_count_perm x l)) in Hz.
      destruct Hz as [<-|Hz]; [lia|].
      rewrite Forall_forall in F. apply F, Hz.
    + apply Nat.ltb_ge in L. constructor; [exact S|].
      constructor; [exact L|].
      rewrite Forall_forall in F |- *. intros z Hz. specialize (F z Hz). lia.
Qed.

Lemma sorted_by_count_sorted (d : list (string * nat)) :
  StronglySorted (fun a b => snd b <= snd a) (Analyzer.sorted_by_count d).
Proof.
  induction d as [|x d IH]; cbn [Analyzer.sorted_by_count]; [constructor|].
  apply insert_by_count_sorted, IH.
Qed.

(** The sort is stable: the items of one count keep their order. *)
Lemma insert_by_count_stable (c : nat) (x : string * nat)
      (l : list (string * nat)) :
  filter (fun e => snd e =? c) (Analyzer.insert_by_count x l)
  = filter (fun e => snd e =? c) (x :: l).
Proof.
  induction l as [|y l IH]; cbn [Analyzer.insert_by_count]; [reflexivity|].
  destruct (snd x <? snd y) eqn:L; [|reflexivity].
  apply Nat.ltb_lt in L.
  cbn [filter] in IH |- *. rewrite IH.
  destruct (snd x =? c) eqn:X; [|reflexivity].
  apply Nat.eqb_eq in X.
  destruct (snd y =? c) eqn:Y; [|reflexivity].
  apply Nat.eqb_eq in Y. lia.
Qed.

Lemma sorted_by_count_stable (c : nat) (d : list (string * nat)) :
  filter (fun e => snd e =? c) (Analyzer.sorted_by_count d)
  = filter (fun e => snd e =? c) d.
Proof.
  induction d as [|x d IH]; cbn [Analyzer.sorted_by_count]; [reflexivity|].
  rewrite insert_by_count_stable. cbn [filter]. rewrite IH. reflexivity.
Qed.

(** *** The most frequent words *)

Lemma most_common_most_frequent (P : string -> Prop) (p : string -> bool)
      (words : list string) (n : nat) :
  (forall w, p w = true <-> P w) ->
  most_frequent P words n
    (map fst (Analyzer.most_common n (Analyzer.Counter (filter p words)))).
Proof.
  intros HP. unfold Analyzer.most_common.
  set (fw := filter p words).
  set (d := Analyzer.Counter fw).
  set (s := Analyzer.sorted_by_count d).
  pose proof (sorted_by_count_perm d) as Perm. fold s in Perm.
  pose proof (sorted_by_count_sorted d) as Srt. fold s in Srt.
  destruct (Counter_counts fw) as (N & _ & _). fold d in N.
  assert (Occ : forall k c, In (k, c) s ->
                  In k words /\ P k /\ c = occurrences words k).
  { intros k c H. apply (Permutation_in _ Perm) in H.
    apply Counter_in in H as (I & ->). apply filter_In in I as (I & Q).
    repeat split; [exact I|apply HP, Q|]. apply count_occ_filter, Q. }
  assert (Ns : NoDup (map fst s)).
  { apply (Permutation_NoDup (l := map fst d)); [|exact N].
    apply Permutation_map. symmetry. exact Perm. }
  assert (Split : s = (firstn n s ++ skipn n s)%list)
    by (symmetry; apply firstn_skipn).
  split.
  { rewrite Split, map_app in Ns. apply NoDup_app_remove_r in Ns. exact Ns. }
  split.
  { rewrite length_map. apply firstn_le_length. }
  split.
  { intros k Hk. apply in_map_iff in Hk as ([k' c] & <- & Hk).
    apply in_firstn in Hk. destruct (Occ _ _ Hk) as (I & Pk & _).
    split; assumption. }
  split.
  { intros w Iw Pw Nw.
    assert (Hs : In (w, occurrences words w) s).
    { apply (Permutation_in _ (Permutation_sym Perm)).
      assert (Q : p w = true) by (apply HP, Pw).
      unfold occurrences. rewrite <- (count_occ_filter p words w Q).
      apply Counter_has. apply filter_In. split; assumption. }
    rewrite Split in Hs. apply in_app_or in Hs as [Hs|Hs].
    { exfalso. apply Nw. apply (in_map fst) in Hs. exact Hs. }
    split.
    - rewrite length_map, length_firstn.
      destruct (Nat.le_gt_cases (length s) n) as [L|L]; [|lia].
      rewrite skipn_all2 in Hs by exact L. destruct Hs.
    - intros k Hk. apply in_map_iff in Hk as ([k' c] & <- & Hk).
      cbn [fst].
      assert (Hc : c = occurrences words k')
        by (apply in_firstn in Hk; apply (Occ _ _ Hk)).
      rewrite Split in Srt.
      pose proof (sorted_app_le _ _ _ _ _ Srt Hk Hs) as L.
      cbn [snd] in L. lia. }
  intros a b H.
  apply stands_before_of_map in H as ([a' ca] & [b' cb] & <- & <- & H).
  cbn [fst]. apply stands_before_firstn in H.
  assert (Ha : In (a', ca) s)
    by (destruct H as (l1 & l2 & E & _); rewrite E; apply in_or_app;
        right; left; reflexivity).
  assert (Hb : In (b', cb) s)
    by (destruct H as (l1 & l2 & E & I); rewrite E; apply in_or_app;
        right; right; exact I).
  destruct (Occ _ _ Ha) as (_ & Pa & Ea).
  destruct (Occ _ _ Hb) as (_ & Pb & Eb).
  pose proof (sorted_stands_before _ _ _ _ Srt H) as L. cbn [snd] in L.
  split; [lia|]. intros E.
  apply (stands_before_filter (fun e => snd e =? ca)) in H;
    [|apply Nat.eqb_eq; reflexivity|apply Nat.eqb_eq; cbn [snd]; lia].
  unfold s in H. rewrite sorted_by_count_stable in H.
  apply stands_before_of_filter in H.
  apply (stands_before_map fst) in H. cbn [fst] in H.
  apply Counter_order in H.
  apply (first_before_of_filter p); [apply HP, Pa|apply HP, Pb|exact H].
Qed.

Lemma basic_keywords_most_frequent (self : Analyzer.PDFAnalyzer)
      (text : string) (top_n : nat) :
  Analyzer.keywords (snd (Analyzer.basic_keywords self text top_n))
  = fst (Analyzer.basic_keywords self text top_n)
  /\ most_frequent (fun w => 3 < String.length w)
                   (Py.split_ws (Py.lower text)) top_n
                   (fst (Analyzer.basic_keywords self text top_n)).
Proof.
  split; [reflexivity|]. cbn [Analyzer.basic_keywords fst Analyzer.set_keywords
                              Analyzer.keywords].
  apply most_common_most_frequent. intros w. apply Nat.ltb_lt.
Qed.

Lemma stop_word_test (stop_words : list string) (w : string) :
  (Analyzer.isalnum w && negb (existsb (String.eqb w) stop_words)) = true
  <-> Analyzer.isalnum w = true /\ ~ In w stop_words.
Proof.
  rewrite andb_true_iff, negb_true_iff. split; intros (A & B); split;
    try exact A.
  - intros I. assert (T : existsb (String.eqb w) stop_words = true)
      by (apply existsb_exists; exists w; split;
          [exact I|apply String.eqb_refl]).
    congruence.
  - destruct (existsb (String.eqb w) stop_words) eqn:T; [|reflexivity].
    apply existsb_exists in T as (x & I & E). apply String.eqb_eq in E.
    subst x. contradiction.
Qed.

Lemma truthy_nonempty (s : string) : s <> "" -> Py.truthy s = true.
Proof. destruct s; [congruence|reflexivity]. Qed.

(** X26.  When the simple method of [extract_keywords] runs, because [nltk]
    is not available or because one of its calls raises, the keywords of a
    text that is not empty are the [top_n] most frequent of its words of
    more than three characters, the words being the pieces of the
    lower-cased text between white space: no keyword twice, at most
    [top_n], a word left out only when [top_n] are taken and none of them
    is less frequent, the more frequent keyword first and, of two that are
    as frequent, the one that occurs first in the text.  The list is also
    stored in [keywords]. *)
Theorem X26_basic_keywords_are_most_frequent
        (stopwords_words : outcome (list string))
        (word_tokenize : string -> outcome (list string))
        (self : Analyzer.PDFAnalyzer) (text : string) (top_n : nat) :
  Analyzer.text_content self = Some text -> text <> "" ->
  falls_back stopwords_words word_tokenize self text ->
  Analyzer.keywords
    (snd (Analyzer.extract_keywords stopwords_words word_tokenize self top_n))
  = fst (Analyzer.extract_keywords stopwords_words word_tokenize self top_n)
  /\ most_frequent
       (fun w => 3 < String.length w) (Py.split_ws (Py.lower text)) top_n
       (fst (Analyzer.extract_keywords stopwords_words word_tokenize self
                                       top_n)).
Proof.
  intros T N F. unfold Analyzer.extract_keywords.
  rewrite T, (truthy_nonempty _ N). cbn [negb].
  destruct F as [->|[(e & ->)|(w & e & -> & ->)]];
    [|destruct (Analyzer.nltk_available self)..]; cbn [negb];
    apply basic_keywords_most_frequent.
Qed.

Lemma X26_basic_keywords_are_most_frequent_witness :
  let self :=
    Analyzer.mkAnalyzer (Some "Data flows; more DATA and more data flows")
                        [] [] "" [] [] false false in
  fst (Analyzer.extract_keywords (Raise KeyError) (fun _ => Raise KeyError)
                                 self 2)
  = [ "data"; "more" ]
  /\ most_frequent
       (fun w => 3 < String.length w)
       (Py.split_ws (Py.lower "Data flows; more DATA and more data flows")) 2
       [ "data"; "more" ].
Proof.
  intros self. split; [reflexivity|].
  apply (X26_basic_keywords_are_most_frequent
           (Raise KeyError) (fun _ => Raise KeyError) self
           "Data flows; more DATA and more data flows" 2).
  - reflexivity.
  - discriminate.
  - left. reflexivity.
Defined.

(** X27.  When [nltk] is available and its two calls return, the keywords of
    a text that is not empty are the [top_n] most frequent of the tokens of
    the lower-cased text that are alphanumeric and no stop word, in the
    same sense: no keyword twice, at most [top_n], a token left out only
    when [top_n] are taken and none of them is less frequent, ordered by
    frequency and then by first occurrence among the tokens. *)
Theorem X27_nltk_keywords_are_most_frequent
        (stopwords_words : outcome (list string))
        (word_tokenize : string -> outcome (list string))
        (self : Analyzer.PDFAnalyzer) (text : string) (top_n : nat)
        (stop_words tokens : list string) :
  Analyzer.text_content self = Some text -> text <> "" ->
  Analyzer.nltk_available self = true ->
  stopwords_words = Ok stop_words ->
  word_tokenize (Py.lower text) = Ok tokens ->
  Analyzer.keywords
    (snd (Analyzer.extract_keywords stopwords_words word_tokenize self top_n))
  = fst (Analyzer.extract_keywords stopwords_words word_tokenize self top_n)
  /\ most_frequent
       (fun w => Analyzer.isalnum w = true /\ ~ In w stop_words) tokens top_n
       (fst (Analyzer.extract_keywords stopwords_words word_tokenize self
                                       top_n)).
Proof.
  intros T N A S W. unfold Analyzer.extract_keywords.
  rewrite T, (truthy_nonempty _ N), A, S, W. cbn [negb].
  split; [reflexivity|].
  cbn [fst Analyzer.set_keywords Analyzer.keywords].
  apply most_common_most_frequent. intros w. apply stop_word_test.
Qed.

Lemma X27_nltk_keywords_are_most_frequent_witness :
  let self :=
    Analyzer.mkAnalyzer (Some "The cat and the dog and the cat")
                        [] [] "" [] [] false true in
  let word_tokenize := fun s => Ok (Py.split_ws s) in
  fst (Analyzer.extract_keywords (Ok [ "the"; "and" ]) word_tokenize self 5)
  = [ "cat"; "dog" ]
  /\ most_frequent
       (fun w => Analyzer.isalnum w = true /\ ~ In w [ "the"; "and" ])
       (Py.split_ws (Py.lower "The cat and the dog and the cat")) 5
       [ "cat"; "dog" ].
Proof.
  intros self word_tokenize. split; [reflexivity|].
  apply (X27_nltk_keywords_are_most_frequent
           (Ok [ "the"; "and" ]) word_tokenize self
           "The cat and the dog and the cat" 5 [ "the"; "and" ]
           (Py.split_ws (Py.lower "The cat and the dog and the cat"))).
  - reflexivity.
  - discriminate.
  - reflexivity.
  - reflexivity.
  - reflexivity.
Defined.


(** X28.  Whatever [nltk] does, [extract_keywords] gives no keyword twice
    and at most [top_n] keywords.  Without a text, or with the empty text,
    it gives no keyword and leaves the analyzer as it is; with a text it
    stores the list it returns in [keywords] and changes no other
    attribute. *)
Theorem X28_keywords_distinct_and_bounded
        (stopwords_words : outcome (list string))
        (word_tokenize : string -> outcome (list string))
        (self : Analyzer.PDFAnalyzer) (top_n : nat) :
  let r := Analyzer.extract_keywords stopwords_words word_tokenize self top_n in
  NoDup (fst r) /\ length (fst r) <= top_n
  /\ snd r = match Analyzer.text_content self with
             | Some (String _ _) => Analyzer.set_keywords self (fst r)
             | _ => self
             end
  /\ match Analyzer.text_content self with
     | Some (String _ _) => True
     | _ => fst r = []
     end.
Proof.
  assert (B : forall text,
             let r := Analyzer.basic_keywords self text top_n in
             NoDup (fst r) /\ length (fst r) <= top_n
             /\ snd r = Analyzer.set_keywords self (fst r)).
  { intros text.
    destruct (basic_keywords_most_frequent self text top_n)
      as (_ & N & L & _).
    repeat split; assumption. }
  unfold Analyzer.extract_keywords.
  destruct (Analyzer.text_content self) as [[|c text]|]; cbn [Py.truthy negb];
    try (cbn [fst snd length]; repeat split; [constructor|lia]).
  destruct (Analyzer.nltk_available self); cbn [negb];
    [|destruct (B (String c text)) as (N & L & E); repeat split; assumption].
  destruct stopwords_words as [stop_words|e];
    [|destruct (B (String c text)) as (N & L & E); repeat split; assumption].
  destruct (word_tokenize (Py.lower (String c text))) as [words|e];
    [|destruct (B (String c text)) as (N & L & E); repeat split; assumption].
  cbn [fst snd Analyzer.set_keywords Analyzer.keywords].
  match goal with
  | |- context [Analyzer.Counter (filter ?p words)] =>
      destruct (most_common_most_frequent (fun w => p w = true) p words top_n)
        as (N & L & _); [intros w; reflexivity|]
  end.
  repeat split; assumption.
Qed.
